(* ===== verification/_CoqProject ===== *)
-Q . S2P
Prelude.v
GoFmt.v
Utf8.v
Json.v
JsonRead.v
Layout.v
Kernel.v
TcpInfo.v
JsonAny.v
Other.v
LinuxInit.v
LinuxRaw.v
Linux.v
LinuxThms.v
LinuxUnpack.v
Darwin.v
Windows.v
PlatformThms.v
OsVersion.v
OsInfo.v
Wrap.v
WrapConc.v
WrapInv.v
WrapThms.v
WrapTimes.v
WrapInfo.v
WrapPlatforms.v
Heap.v
JsonExport.v
JsonReport.v
HttpReport.v
Flags.v
HttpStat.v
HttpDial.v
Commands.v
