(* ===== verification/Prelude.v ===== *)
(** * Conniver: a verification of the connection wrapper and its TCP diagnostics

    The program (a Go module, sources under src/) wraps a network connection so
    that its life is recorded: when it was opened and closed, the bytes and errors of
    each direction, and the TCP information the operating system keeps for the
    socket, read once when the connection is wrapped and once when it is closed.
    A callback given by the user receives a snapshot of the record.

    ** Parts of the program and where they are modelled

    - [wrap.go] (package conniver). The type [Conn], its options, [WrapConn],
      [Read], [Write], [Close], deadlines, addresses, warnings and the exported map.
      - [Wrap.v]: the state of [Conn] as the record [Conn] (counters, times, errors,
        the two TCP informations, [closeStarted], [closeErr], [inFlight], the wrapped
        connection as an option), and every method as a function on it. A method that
        releases the mutex in its middle is the composition of its critical sections
        ([beginIO], [Read_stats], [finishIO]; [Close_enter], [Close_mustWait],
        [Close_detach], [Close_finish], [Close_done]).
      - [WrapConc.v]: the same critical sections run by any number of goroutines. A
        state holds the [Conn], a program counter per goroutine and the trace of
        events; [exec] is the executable step of one goroutine, [step] the relation
        over all choices of what the environment returns. The condition variable
        [ioDrained] and the channel [closeDone] are the waiting program counters.
      - [WrapInv.v]: the invariant of reachable states, kept by every step.
      - [WrapThms.v]: the theorems on all interleavings.
      - [WrapTimes.v]: the times of a connection and of its reports, and what stays
        as it was when the connection was wrapped.
      - [WrapInfo.v]: properties of the TCP informations that a connection, its
        goroutines and its reports hold, kept by every step.
      - [WrapPlatforms.v]: the wrapper with the Linux implementation of tcpinfo.
      - [Heap.v]: the copies of [Info.Clone], [SysInfo.Clone] and [snapshotLocked] on a
        store of structs and arrays, where sharing is visible.
    - [pkg/tcpinfo] (TCP information of a socket).
      - [TcpInfo.v]: [tcpinfo.go], the portable [Info] and [Option]; the class
        [Platform] of what a platform offers the wrapper ([ToInfo], [Clone], [ToMap],
        [Warnings], [GetTCPInfo], [Supported]) and the class [PlatformLaws] of what
        the wrapper's theorems need of it.
      - [LinuxInit.v]: [init_linux.go], the table of struct sizes, the version flags
        and [adaptToKernelVersion]. [LinuxRaw.v]: [RawTCPInfo] and the getsockopt
        call ([tcpinfo_linux_others.go], [tcpinfo_linux_386.go]). [Linux.v]:
        [tcpinfo_linux.go]. [LinuxThms.v] and [LinuxUnpack.v]: theorems.
      - [Darwin.v], [Windows.v], [Other.v]: the other platforms; [PlatformThms.v]:
        theorems on macOS and Windows.
      - [Layout.v]: how Go lays a struct out in memory, used to say which fields a
        system call that stores only some bytes sets.
    - [pkg/kernel]: [Kernel.v] (versions, printing, parsing, comparing; Unix and
      Windows detection).
    - [pkg/osversion]: [OsVersion.v] (Windows version word, compatibility of
      container images).
    - [pkg/os]: [OsInfo.v] (os-release, container detection, Windows release names).
    - JSON. [Utf8.v] and [Json.v]: what encoding/json writes for strings, numbers,
      lists and objects, compact or indented, [strconv.Quote], and a reader of such
      texts; [JsonRead.v]: the reader inverts the writer. [JsonAny.v]: the JSON of a
      [map[string]any] and [Option.MarshalJSON]. [JsonExport.v]: [SysInfo.MarshalJSON]
      of each platform, and the structs [Info] and [Conn] by their field tags; the
      class [JsonLaws] of what a platform's information promises to the encoder, with
      an instance per platform. [JsonReport.v]: the JSON of the wrapper's reports.
    - [cmd/httpstat]: [Flags.v] (the command line: declarations of the flags, the
      parser of package flag, the usage), [HttpReport.v] (the times taken by the
      httptrace callbacks, the table of durations, header order, the lines on the
      connection), [HttpStat.v] (requests, transport, redirects, output file, client
      certificate, the text printed, [main]) and [HttpDial.v] (the dialer that wraps
      each connection and keeps the one that was reported closed).
    - [cmd/get] and [pkg/tcpinfo/examples/tcpdial]: the modules [Get] and [TcpDial] of
      [Commands.v].
    - [GoFmt.v]: the parts of strconv, fmt and strings that the above use:
      decimal and hexadecimal printing, [fmt.Sscanf] for integers and words,
      [strings.Join]. This file: machine integers, strings, errors, record updates.

    Integers of the source are [Z] with the wrap-around of their width written out
    ([wrapU], [wrapS]); strings are byte strings; maps with string keys are
    [gmap string]; errors are records with a message and, for a [net.Error], the
    result of [Timeout]. A Go slice that may be nil is the type [slice].

    ** What is a parameter

    System calls, files, the registry, the clock, [net/http], [net/url], [mime],
    [encoding/pem], [crypto/tls] (the class [World] of httpstat), the tables of
    printable runes above ASCII (the class [Unicode]) and the color package (the class
    [Colors]) are arguments of the definitions or variables of sections, and of [step]
    the values chosen by the environment. The theorems hold for all their values, with
    these hypotheses where named: copies of a platform's [SysInfo] keep its warnings
    and contents ([PlatformLaws], proved for each platform); the kernel stores its own
    struct up to the length asked for ([stored_in]); the clock never reads zero
    ([stats_ledger]) and does not go back ([times_ordered], [timing_table]); the options
    of the probed informations are texts that JSON can quote ([probe_ok], [act_ok] in
    [report_json], [dial_reports_closed] and [get_prints_once]; [Linux_GetTCPInfo_ok]
    proves it of what [GetTCPInfo] returns on Linux); the fields of a kernel struct are
    in the ranges of their types; [pem.Decode] returns a shorter rest
    ([main_terminates]); an error can be encoded ([get_prints_once]). Each has a witness
    with a concrete instance.

    ** What the theorems show

    - Wrapper, all interleavings ([WrapThms.v], C1 to C7, C9, C10): the closing
      snapshot counts every operation that ran, the wrapped connection is closed and
      reported once, the report comes after all transfers and before any [Close]
      returns, calls finish (a bound on the remaining steps, and no stuck state), the
      counter [inFlight] is exact and the last operation wakes the closer, the
      statistics are those of the ledger of events, and calls after a [Close] are
      refused. A method that runs alone (C9, C10) ends in a state that is written out
      field by field, in the model of goroutines and in the functions of [Wrap.v].
    - Snapshots, opening and times (C8, C11, C12, C14, C20): a snapshot shares no memory
      with the connection and says what the connection says; the order of the times;
      options, the last of which decides; what is recorded on opening.
    - Exports (C13, C24 to C26): a report is encoded as JSON that reads back as a table
      of members, and the map of Linux's [SysInfo] is a table of kernel fields with
      their units, both written out; the two forms of [Info] agree; which options can
      be encoded.
    - Linux (C15 to C19, C21 to C23): fetching the version's size gives all the fields
      reported as valid, except on 4.9 and 6.2 to 6.6 kernels where it does not; flags
      and fields follow the kernel version; every path of [GetTCPInfo] with its error;
      layout of the raw struct; units and options. The three totals of retransmission
      timeouts, which the comments of [RawTCPInfo] date to 6.7 and the code to 6.2, are
      left out of C18 and C24; C16 shows what becomes of them.
    - httpstat (C27 to C33): the connection kept for the report and the text printed
      about it, which command lines are accepted and what each flag sets, what is sent
      after redirects, bounded redirects, names of output files, header order, the
      table of durations adds up.
    - get and tcpdial (C34, C35): one report per closed connection, with its text, and
      what tcpdial prints on every path.
    - Kernel versions (C36), macOS and Windows (C37, C38), compatibility of containers
      (C39), os-release (C40).

    Theorems without a number state further facts of the same parts: the order of
    kernel versions, the bit fields of the raw struct, round trips of printed options,
    releases and command lines, container detection, client certificates.

    ** Fuel

    [visit] of httpstat takes one unit per call: 11 are enough because the counter of
    redirects is at most [maxRedirects] = 10 ([main_terminates], which also shows that
    more fuel changes nothing). Fuel is not what makes the command return: a request
    that is never answered and a body that never ends give the outcome [Blocked]. The loop of [flag.Parse] takes one unit per flag and is
    given the number of arguments plus one ([Parse_spec]). The loop over PEM blocks
    takes one unit per block and is given the length of the file plus one. The reader
    of JSON takes one unit per nested value or member and is given the length of the
    text plus one ([parse_text]); strings are escaped with one unit per byte. A
    numeral is printed with one unit per bit of the number, and text is scanned with
    one unit per byte ([read_fmt_N] and [ParseRelease_String] show that nothing is cut
    off). Everything else is structural.

    ** What is not modelled

    A wrapped connection's methods and the user's callback are taken to return; the Go
    memory model is used only through mutual exclusion of the critical sections. The
    counter [inFlight] is an integer without bound: it counts goroutines
    ([in_flight_exact]), of which there are never as many as a Go [int] can count. The
    HTTP client is the parameter [Do] of httpstat, which like the copy of a body may not
    return, and a run of goroutines on the connection in [HttpDial.v] and
    [Commands.v]; other calls of the library return. The reader of JSON is a specification,
    not code of the program. Unused variables ([EAGAIN] and others on Windows) are left
    out.

    ** Plan

    The order of the dialer's callbacks when several addresses of a host are tried, and
    the composition of httpstat's client with the wrapped connections it dials in one
    run. *)

From stdpp Require Import base list strings gmap.
From Stdlib Require Import ZArith NArith Ascii Lia.

Declare Scope go_scope.
Delimit Scope go_scope with go.

(** * Machine integers *)

(** Conversion of an integer to an unsigned Go integer of [w] bits. *)
Definition wrapU (w z : Z) : Z := (z mod 2 ^ w)%Z.

(** Conversion of an integer to a signed Go integer of [w] bits. *)
Definition wrapS (w z : Z) : Z := ((z + 2 ^ (w - 1)) mod 2 ^ w - 2 ^ (w - 1))%Z.

Definition inU (w z : Z) : Prop := (0 <= z < 2 ^ w)%Z.
Definition inS (w z : Z) : Prop := (- 2 ^ (w - 1) <= z < 2 ^ (w - 1))%Z.

Notation "x +i64 y" := (wrapS 64 (x + y)) (at level 50, left associativity) : go_scope.
Notation "x *i64 y" := (wrapS 64 (x * y)) (at level 40, left associativity) : go_scope.
Abbreviation uint8 := (wrapU 8) (only parsing).
Abbreviation uint16 := (wrapU 16) (only parsing).
Abbreviation uint32 := (wrapU 32) (only parsing).
Abbreviation uint64 := (wrapU 64) (only parsing).
Abbreviation int64 := (wrapS 64) (only parsing).

(** Automation: [go_arith] holds the facts about widths, [go] the rest. *)
Create HintDb go_arith discriminated.
Create HintDb go discriminated.

Lemma wrapU_id w z : inU w z -> wrapU w z = z.
Proof. unfold inU, wrapU. intros. by apply Z.mod_small. Qed.

Lemma wrapU_bound w z : (0 <= w)%Z -> inU w (wrapU w z).
Proof. intros. apply Z.mod_pos_bound. by apply Z.pow_pos_nonneg. Qed.

Lemma pow2_half w : (0 < w)%Z -> (2 ^ w = 2 * 2 ^ (w - 1))%Z.
Proof. intros. rewrite <- Z.pow_succ_r by lia. f_equal. lia. Qed.

Lemma wrapS_id w z : (0 < w)%Z -> inS w z -> wrapS w z = z.
Proof.
  unfold inS, wrapS. intros Hw Hz. rewrite (pow2_half w Hw) in *.
  rewrite Z.mod_small; lia.
Qed.

Lemma wrapS_bound w z : (0 < w)%Z -> inS w (wrapS w z).
Proof.
  intros Hw. unfold inS, wrapS.
  pose proof (Z.pow_pos_nonneg 2 (w - 1)) as Hp.
  pose proof (Z.mod_pos_bound (z + 2 ^ (w - 1)) (2 ^ w)) as Hm.
  rewrite (pow2_half w Hw) in *. lia.
Qed.

(** Adding after wrapping is adding before wrapping. *)
Lemma wrapS_add_l w x y : wrapS w (wrapS w x + y) = wrapS w (x + y).
Proof.
  unfold wrapS.
  replace ((x + 2 ^ (w - 1)) mod 2 ^ w - 2 ^ (w - 1) + y + 2 ^ (w - 1))%Z
    with ((x + 2 ^ (w - 1)) mod 2 ^ w + y)%Z by lia.
  rewrite Zplus_mod_idemp_l. do 2 f_equal. lia.
Qed.

#[export] Hint Resolve wrapU_bound wrapS_bound : go_arith.

(** A number below [2^n] fills the low bits of a multiple of [2^n]. *)
Lemma lor_low x y n : (0 <= n -> 0 <= x < 2 ^ n -> Z.lor x (y * 2 ^ n) = y * 2 ^ n + x)%Z.
Proof.
  intros Hn Hx. rewrite <- Z.lxor_lor, <- Z.add_nocarry_lxor; [lia|..];
    apply Z.bits_inj'; intros k Hk; rewrite Z.land_spec, Z.bits_0, <- Z.shiftl_mul_pow2 by done;
    (destruct (decide (k < n)%Z); [rewrite Z.shiftl_spec_low by done; apply andb_false_r|]);
    rewrite <- (Z.mod_small x (2 ^ n)%Z) by done; by rewrite Z.mod_pow2_bits_high by lia.
Qed.

(** * Lists *)

Fixpoint sumZ {A} (f : A -> Z) (l : list A) : Z :=
  match l with
  | [] => 0
  | x :: l => f x + sumZ f l
  end%Z.

Lemma sumZ_app {A} (f : A -> Z) l1 l2 : sumZ f (l1 ++ l2) = (sumZ f l1 + sumZ f l2)%Z.
Proof. induction l1 as [|x l1 IH]; simpl; lia. Qed.

(** Replacing entry [i] of a list changes a sum by the difference. *)
Lemma sumZ_insert {A} (f : A -> Z) (l : list A) i x y :
  l !! i = Some x -> sumZ f (<[i:=y]> l) = (sumZ f l - f x + f y)%Z.
Proof.
  revert i. induction l as [|a l IH]; intros [|i] Hi; simplify_eq/=; [lia|].
  rewrite (IH _ Hi). lia.
Qed.

Lemma sumZ_nonneg {A} (f : A -> Z) (l : list A) :
  (forall x, 0 <= f x)%Z -> (0 <= sumZ f l)%Z.
Proof. intros Hf. induction l as [|a l IH]; simpl; [lia|]. specialize (Hf a). lia. Qed.

Lemma sumZ_lookup_le {A} (f : A -> Z) (l : list A) i x :
  (forall y, 0 <= f y)%Z -> l !! i = Some x -> (f x <= sumZ f l)%Z.
Proof.
  intros Hf. revert i. induction l as [|a l IH]; intros [|i] Hi; simplify_eq/=.
  - pose proof (sumZ_nonneg f l Hf). lia.
  - specialize (IH _ Hi). specialize (Hf a). lia.
Qed.

Lemma sumZ_lookup_two {A} (f : A -> Z) (l : list A) i j x y :
  (forall z, 0 <= f z)%Z -> i <> j -> l !! i = Some x -> l !! j = Some y ->
  (f x + f y <= sumZ f l)%Z.
Proof.
  intros Hf. revert i j. induction l as [|a l IH]; intros [|i] [|j] Hij Hi Hj; simplify_eq/=.
  - pose proof (sumZ_lookup_le f l j y Hf Hj). lia.
  - pose proof (sumZ_lookup_le f l i x Hf Hi). lia.
  - pose proof (IH i j ltac:(congruence) Hi Hj). specialize (Hf a). lia.
Qed.

Lemma sumZ_zero_lookup {A} (f : A -> Z) (l : list A) i x :
  (forall y, 0 <= f y)%Z -> sumZ f l = 0%Z -> l !! i = Some x -> f x = 0%Z.
Proof. intros Hf H Hi. pose proof (sumZ_lookup_le f l i x Hf Hi). specialize (Hf x). lia. Qed.

Lemma sumZ_zero {A} (f : A -> Z) (l : list A) :
  (forall i x, l !! i = Some x -> f x = 0%Z) -> sumZ f l = 0%Z.
Proof.
  induction l as [|a l IH]; intros H; simpl; [done|].
  rewrite (H 0 a) by done. rewrite IH; [done|]. intros i x Hi. by apply (H (S i) x).
Qed.

Lemma sumZ_replicate {A} (f : A -> Z) n x : f x = 0%Z -> sumZ f (replicate n x) = 0%Z.
Proof. intros H. apply sumZ_zero. intros i y [-> _]%lookup_replicate. done. Qed.

Lemma sumZ_fmap {A B} (f : B -> Z) (g : A -> B) (l : list A) :
  sumZ f (g <$> l) = sumZ (fun x => f (g x)) l.
Proof. induction l as [|a l IH]; csimpl; [done|]. by rewrite IH. Qed.

Lemma sumZ_ext {A} (f g : A -> Z) (l : list A) :
  (forall x, f x = g x) -> sumZ f l = sumZ g l.
Proof. intros H. induction l as [|a l IH]; simpl; [done|]. by rewrite H, IH. Qed.

(** A positive sum of non-negative terms has a positive term. *)
Lemma sumZ_pos_exists {A} (f : A -> Z) (l : list A) :
  (0 < sumZ f l)%Z -> exists i x, l !! i = Some x /\ (0 < f x)%Z.
Proof.
  induction l as [|a l IH]; simpl; intros H; [lia|].
  destruct (decide (0 < f a)%Z); [by exists 0, a|].
  destruct IH as (i & x & ? & ?); [lia|]. by exists (S i), x.
Qed.

(** Case analysis on every [match] of the goal and of the hypotheses. *)
Ltac go_cases := repeat case_match; simplify_eq/=; try done.

(** * Strings *)

Lemma string_app_cons c (s t : string) : (String c s +:+ t = String c (s +:+ t))%string.
Proof. reflexivity. Qed.

Lemma string_app_nil_l (s : string) : ("" +:+ s = s)%string.
Proof. reflexivity. Qed.

Lemma string_app_nil_r (s : string) : (s +:+ "" = s)%string.
Proof. induction s as [|c s IH]; [done|]. by rewrite string_app_cons, IH. Qed.

Lemma string_app_assoc (s t u : string) : ((s +:+ t) +:+ u = s +:+ t +:+ u)%string.
Proof. induction s as [|c s IH]; [done|]. by rewrite !string_app_cons, IH. Qed.

Lemma length_string_app (s t : string) :
  String.length (s +:+ t)%string = (String.length s + String.length t)%nat.
Proof. induction s as [|c s IH]; [done|]. rewrite string_app_cons. simpl. by rewrite IH. Qed.

(** The byte order of strings. *)
Lemma ascii_compare_N a b : Ascii.compare a b = N.compare (N_of_ascii a) (N_of_ascii b).
Proof. done. Qed.

Lemma string_compare_trans a b c :
  String.compare a b = Lt -> String.compare b c = Lt -> String.compare a c = Lt.
Proof.
  revert b c. induction a as [|x a IH]; intros [|y b] [|z c]; simpl; try done.
  rewrite !ascii_compare_N.
  destruct (N.compare_spec (N_of_ascii x) (N_of_ascii y)) as [E1|E1|E1],
    (N.compare_spec (N_of_ascii y) (N_of_ascii z)) as [E2|E2|E2],
    (N.compare_spec (N_of_ascii x) (N_of_ascii z)) as [E3|E3|E3]; try done; try lia.
  apply IH.
Qed.

Lemma ltb_lt a b : String.ltb a b = true <-> String.compare a b = Lt.
Proof. unfold String.ltb. by destruct (String.compare a b). Qed.

Lemma ltb_trans a b c : String.ltb a b = true -> String.ltb b c = true -> String.ltb a c = true.
Proof. rewrite !ltb_lt. apply string_compare_trans. Qed.

(** Of two different names exactly one is less. *)
Lemma ltb_total a b : a <> b -> String.ltb a b = negb (String.ltb b a).
Proof.
  intros Hne. unfold String.ltb. rewrite (String.compare_antisym b a).
  destruct (String.compare a b) eqn:E; try done. by apply String.compare_eq_iff in E.
Qed.

(** * Errors *)

(** A non-nil Go [error]: its message, and what its [Timeout] method returns
    when the value implements the interface [net.Error]. *)
Record error := mkError { err_msg : string; err_timeout : option bool }.

#[export] Instance error_eq_dec : EqDecision error.
Proof. solve_decision. Defined.

(** [errors.New(msg)] *)
Definition errors_New (msg : string) : error := mkError msg None.

(** [net.ErrClosed]; its type implements [net.Error] and never times out. *)
Definition ErrClosed : error := mkError "use of closed network connection" (Some false).

(** * Field update *)

(** [Setter p] is the update function of the record field [p]. *)
Class Setter {R T : Type} (p : R -> T) := set_field : (T -> T) -> R -> R.
Arguments set_field {R T} p {_} _ _ /.

Notation "r <| p := v |>" := (set_field p (fun _ => v) r)
  (at level 1, left associativity, p at level 200, v at level 200, only parsing) : go_scope.

(** Builds the update function of field [p] from [eta], the function that
    rebuilds a record from its fields. *)
Ltac setter eta p :=
  let u := fresh "u" in let r := fresh "r" in intros u r;
  let e := eval cbv beta delta [eta] in (eta r) in
  match eval pattern (p r) in e with
  | ?F _ => let t := eval cbv beta in (F (u (p r))) in exact t
  end.
