(* ===== verification/GoFmt.v ===== *)
(** The parts of Go's [strconv], [fmt], [strings] and [unicode/utf8] packages
    the program calls: integer formatting ([strconv.FormatInt],
    [strconv.FormatUint], the verbs [%d] and [%.2x]), the scanner behind
    [fmt.Sscanf] for the verbs [%d] and [%s] and literal characters, and a few
    functions on strings.  Go strings are byte strings: [string] here; the
    scanner decodes them rune by rune as the [utf8] package does. *)

From stdpp Require Import base list strings.
From Stdlib Require Import ZArith NArith Ascii Lia Zify ZifyBool ZifyN.
From S2P Require Import Prelude.

Local Open Scope string_scope.

(** * Digits *)

Definition digit_char (d : N) : ascii :=
  ascii_of_N (if (d <? 10)%N then 48 + d else 87 + d)%N.

Definition digit_val (b : N) (c : ascii) : option N :=
  let n := N_of_ascii c in
  let v := if ((48 <=? n) && (n <=? 57))%N%bool then Some (n - 48)%N
           else if ((97 <=? n) && (n <=? 102))%N%bool then Some (n - 87)%N
           else None in
  match v with
  | Some d => if (d <? b)%N then Some d else None
  | None => None
  end.

Fixpoint fmt_digits (b : N) (fuel : nat) (n : N) (acc : string) : string :=
  match fuel with
  | O => acc
  | S fuel =>
      let acc := String (digit_char (n mod b)) acc in
      if (n <? b)%N then acc else fmt_digits b fuel (n / b) acc
  end.

(** The base-[b] numeral of [n]; one digit per bit of [n] is enough fuel. *)
Definition fmt_N (b n : N) : string := fmt_digits b (S (N.size_nat n)) n "".

(** [strconv.FormatUint(z, 10)] *)
Definition FormatUint (z : Z) : string := fmt_N 10 (Z.to_N z).

(** [strconv.FormatInt(z, 10)], also [strconv.Itoa] and the verb [%d] *)
Definition FormatInt (z : Z) : string :=
  if (z <? 0)%Z then "-" +:+ fmt_N 10 (Z.to_N (- z)) else fmt_N 10 (Z.to_N z).

(** [strings.Join(l, sep)] *)
Fixpoint strings_Join (l : list string) (sep : string) : string :=
  match l with
  | [] => ""
  | [s] => s
  | s :: l => s +:+ sep +:+ strings_Join l sep
  end.

(** The verb [%.2x] on an unsigned integer: at least two hexadecimal digits. *)
Definition FormatHex2 (z : Z) : string :=
  let s := fmt_N 16 (Z.to_N z) in
  if (String.length s <? 2)%nat then "0" +:+ s else s.

Fixpoint read_digits (b : N) (s : string) (acc : N) : N * string :=
  match s with
  | String c s' =>
      match digit_val b c with
      | Some d => read_digits b s' (acc * b + d)%N
      | None => (acc, s)
      end
  | EmptyString => (acc, s)
  end.

(** * Runes *)

Definition byte_of (c : ascii) : Z := Z.of_N (N_of_ascii c).
Definition RuneError : Z := 65533.
Definition in_range (lo hi z : Z) : bool := ((lo <=? z) && (z <=? hi))%Z.
Definition cont (c : ascii) : bool := in_range 128 191 (byte_of c).
Definition low6 (c : ascii) : Z := Z.land (byte_of c) 63.

(** [utf8.DecodeRuneInString]: the first rune and the rest of the string; an
    invalid byte decodes to [RuneError] and is consumed alone. *)
Definition decode_rune (s : string) : option (Z * string) :=
  match s with
  | EmptyString => None
  | String c0 s1 =>
      let b0 := byte_of c0 in
      let bad := Some (RuneError, s1) in
      if (b0 <? 128)%Z then Some (b0, s1)
      else if in_range 194 223 b0 then
        match s1 with
        | String c1 s2 =>
            if cont c1 then Some (Z.lor (Z.shiftl (Z.land b0 31) 6) (low6 c1), s2) else bad
        | _ => bad
        end
      else if in_range 224 239 b0 then
        match s1 with
        | String c1 (String c2 s3) =>
            if in_range (if (b0 =? 224)%Z then 160 else 128)
                        (if (b0 =? 237)%Z then 159 else 191) (byte_of c1) && cont c2
            then Some (Z.lor (Z.shiftl (Z.land b0 15) 12)
                             (Z.lor (Z.shiftl (low6 c1) 6) (low6 c2)), s3)
            else bad
        | _ => bad
        end
      else if in_range 240 244 b0 then
        match s1 with
        | String c1 (String c2 (String c3 s4)) =>
            if in_range (if (b0 =? 240)%Z then 144 else 128)
                        (if (b0 =? 244)%Z then 143 else 191) (byte_of c1)
               && cont c2 && cont c3
            then Some (Z.lor (Z.shiftl (Z.land b0 7) 18)
                        (Z.lor (Z.shiftl (low6 c1) 12)
                          (Z.lor (Z.shiftl (low6 c2) 6) (low6 c3))), s4)
            else bad
        | _ => bad
        end
      else bad
  end.

Definition char_of (z : Z) : ascii := ascii_of_N (Z.to_N z).
Definition cont_char (z : Z) : ascii := char_of (Z.lor 128 (Z.land z 63)).

(** [utf8.AppendRune], for the runes [decode_rune] returns *)
Definition encode_rune (r : Z) : string :=
  if (r <? 128)%Z then String (char_of r) ""
  else if (r <? 2048)%Z then
    String (char_of (Z.lor 192 (Z.shiftr r 6))) (String (cont_char r) "")
  else if (r <? 65536)%Z then
    String (char_of (Z.lor 224 (Z.shiftr r 12)))
      (String (cont_char (Z.shiftr r 6)) (String (cont_char r) ""))
  else
    String (char_of (Z.lor 240 (Z.shiftr r 18)))
      (String (cont_char (Z.shiftr r 12))
        (String (cont_char (Z.shiftr r 6)) (String (cont_char r) ""))).

(** The white space of package [fmt]'s scanner. *)
Definition isSpace (r : Z) : bool :=
  in_range 9 13 r || (r =? 32)%Z || (r =? 133)%Z || (r =? 160)%Z || (r =? 5760)%Z
  || in_range 8192 8202 r || in_range 8232 8233 r || (r =? 8239)%Z || (r =? 8287)%Z
  || (r =? 12288)%Z.

(** * [fmt.Sscanf] *)

Definition starts_nl (s : string) : bool :=
  match s with String c _ => (byte_of c =? 10)%Z | _ => false end.

(** [ss.SkipSpace] with [nlIsSpace] false: a newline is an error ([None]). *)
Fixpoint skip_space (fuel : nat) (s : string) : option string :=
  match fuel with
  | O => Some s
  | S fuel =>
      match decode_rune s with
      | None => Some s
      | Some (r, s') =>
          if ((r =? 13)%Z && starts_nl s')%bool then skip_space fuel s'
          else if (r =? 10)%Z then None
          else if isSpace r then skip_space fuel s'
          else Some s
      end
  end.

Definition SkipSpace (s : string) : option string := skip_space (String.length s) s.

(** The token loop of [%s]: runes up to the next white space or the end. *)
Fixpoint token (fuel : nat) (s : string) : string * string :=
  match fuel with
  | O => ("", s)
  | S fuel =>
      match decode_rune s with
      | None => ("", s)
      | Some (r, s') =>
          if isSpace r then ("", s)
          else let '(t, rest) := token fuel s' in (encode_rune r +:+ t, rest)
      end
  end.

Inductive scanval := SInt (z : Z) | SStr (s : string).
Inductive fmtitem := FLit (c : ascii) | FInt | FStr.

(** A format made of [%d], [%s] and literal characters that are not spaces. *)
Fixpoint parse_format (f : string) : list fmtitem :=
  match f with
  | String "%" (String "d" f') => FInt :: parse_format f'
  | String "%" (String "s" f') => FStr :: parse_format f'
  | String c f' => FLit c :: parse_format f'
  | EmptyString => []
  end.

(** Decimal digits, [strconv.ParseInt] to 64 bits, then the overflow check for
    an [int] of [w] bits; [None] on an error. *)
Definition scan_digits (w : Z) (neg : bool) (s : string) : option (Z * string) :=
  let '(n, rest) := read_digits 10 s 0 in
  let z := if neg then (- Z.of_N n)%Z else Z.of_N n in
  if (in_range (- 2 ^ 63) (2 ^ 63 - 1) z
      && in_range (- 2 ^ (w - 1)) (2 ^ (w - 1) - 1) z)%bool
  then Some (z, rest) else None.

(** [ss.scanInt] for [%d] into an [int] of [w] bits: optional sign, decimal
    digits; [None] on an error. *)
Definition scan_int (w : Z) (s : string) : option (Z * string) :=
  s1 ← SkipSpace s;
  let '(neg, s2) :=
    match s1 with
    | String "-" s' => (true, s')
    | String "+" s' => (false, s')
    | _ => (false, s1)
    end in
  match s2 with
  | String c _ =>
      if digit_val 10 c is Some _ then scan_digits w neg s2 else None
  | EmptyString => None
  end.

(** [ss.convertString] for [%s]. *)
Definition scan_str (s : string) : option (string * string) :=
  s1 ← SkipSpace s;
  match s1 with
  | EmptyString => None
  | String _ _ => Some (token (String.length s1) s1)
  end.

(** [ss.doScanf]: the values stored before the first error; Go reports
    their number. *)
Fixpoint doScanf (w : Z) (items : list fmtitem) (s : string) : list scanval :=
  match items with
  | [] => []
  | FLit c :: items =>
      match s with
      | String c' s' => if Ascii.eqb c c' then doScanf w items s' else []
      | EmptyString => []
      end
  | FInt :: items =>
      match scan_int w s with
      | Some (z, s') => SInt z :: doScanf w items s'
      | None => []
      end
  | FStr :: items =>
      match scan_str s with
      | Some (t, s') => SStr t :: doScanf w items s'
      | None => []
      end
  end.

(** [fmt.Sscanf(s, format, ...)] on a platform whose [int] has [w] bits. *)
Definition Sscanf (w : Z) (s format : string) : list scanval :=
  doScanf w (parse_format format) s.

Example sscanf_ex :
  Sscanf 64 "3.12.25-gentoo x" "%d.%d%s" = [SInt 3; SInt 12; SStr ".25-gentoo"].
Proof. reflexivity. Qed.
Example sscanf_nl : Sscanf 64 "3.
12" "%d.%d%s" = [SInt 3].
Proof. reflexivity. Qed.
Example formatint_ex : FormatInt (-1200) = "-1200" /\ FormatHex2 10 = "0a" /\ FormatHex2 300 = "12c".
Proof. by vm_compute. Qed.

(** * Facts about numerals and the scanner *)

Lemma digit_val_char b d : (b <= 16)%N -> (d < b)%N -> digit_val b (digit_char d) = Some d.
Proof.
  intros Hb Hd. unfold digit_char.
  destruct (N.ltb_spec d 10); unfold digit_val; rewrite N_ascii_embedding by lia.
  - rewrite (proj2 (N.leb_le 48 _)), (proj2 (N.leb_le _ 57)) by lia. simpl.
    rewrite (proj2 (N.ltb_lt _ b)) by lia. f_equal; lia.
  - rewrite (proj2 (N.leb_gt (87 + d) 57)) by lia. rewrite andb_false_r.
    rewrite (proj2 (N.leb_le 97 _)), (proj2 (N.leb_le _ 102)) by lia. simpl.
    rewrite (proj2 (N.ltb_lt _ b)) by lia. f_equal; lia.
Qed.

(** Reading back a numeral leaves the reader where the numeral ends. *)
Lemma read_fmt_digits b fuel n s :
  (2 <= b <= 16)%N -> (n < b ^ N.of_nat fuel)%N ->
  read_digits b (fmt_digits b fuel n s) 0 = read_digits b s n.
Proof.
  intros Hb. revert n s. induction fuel as [|fuel IH]; intros n s Hn.
  { simpl in *. rewrite N.pow_0_r in Hn. by replace n with 0%N by lia. }
  simpl fmt_digits. destruct (N.ltb_spec n b) as [Hlt|Hge].
  - rewrite N.mod_small by lia. simpl. rewrite digit_val_char by lia. f_equal; lia.
  - rewrite IH.
    + simpl. rewrite digit_val_char by (try apply N.mod_lt; lia).
      f_equal. pose proof (N.div_mod n b). lia.
    + apply N.Div0.div_lt_upper_bound.
      by rewrite Nat2N.inj_succ, N.pow_succ_r' in Hn.
Qed.

Lemma fmt_digits_app b fuel n s t : fmt_digits b fuel n s +:+ t = fmt_digits b fuel n (s +:+ t).
Proof.
  revert n s. induction fuel as [|fuel IH]; intros n s; simpl; [done|].
  by destruct (n <? b)%N; [|rewrite IH].
Qed.

Lemma pos_size_nat_bound p : (N.pos p < 2 ^ N.of_nat (Pos.size_nat p))%N.
Proof.
  induction p as [p IH|p IH|]; simpl Pos.size_nat; rewrite ?Nat2N.inj_succ, ?N.pow_succ_r';
    simpl; lia.
Qed.

Lemma size_nat_bound b n : (2 <= b)%N -> (n < b ^ N.of_nat (S (N.size_nat n)))%N.
Proof.
  intros Hb. apply (N.lt_le_trans _ (2 ^ N.of_nat (S (N.size_nat n)))).
  - rewrite Nat2N.inj_succ, N.pow_succ_r'.
    destruct n as [|p]; [simpl; lia|]. pose proof (pos_size_nat_bound p). simpl N.size_nat. lia.
  - apply N.pow_le_mono_l. lia.
Qed.

Lemma read_fmt_N b n s :
  (2 <= b <= 16)%N -> read_digits b (fmt_N b n +:+ s) 0 = read_digits b s n.
Proof.
  intros Hb. unfold fmt_N. rewrite fmt_digits_app. apply read_fmt_digits; [done|].
  apply size_nat_bound. lia.
Qed.

(** A numeral is not empty and starts with a digit. *)
Lemma fmt_digits_head b fuel n s :
  (2 <= b <= 16)%N ->
  exists c s', fmt_digits b (S fuel) n s = String c s' /\ is_Some (digit_val b c).
Proof.
  intros Hb. revert n s. induction fuel as [|fuel IH]; intros n s.
  - simpl. eexists _, _. split; [by destruct (n <? b)%N|].
    rewrite digit_val_char; [done|lia|apply N.mod_lt; lia].
  - change (fmt_digits b (S (S fuel)) n s) with
      (let acc := String (digit_char (n mod b)) s in
       if (n <? b)%N then acc else fmt_digits b (S fuel) (n / b) acc). simpl.
    destruct (n <? b)%N; [|apply IH].
    eexists _, _. split; [done|]. rewrite digit_val_char; [done|lia|apply N.mod_lt; lia].
Qed.

Definition no_digit_head (s : string) : Prop :=
  match s with String c _ => digit_val 10 c = None | EmptyString => True end.

Lemma read_digits_stop n s : no_digit_head s -> read_digits 10 s n = (n, s).
Proof. destruct s as [|c s]; simpl; [done|]. by intros ->. Qed.

(** The decimal digits are ASCII, not spaces and not signs. *)
Lemma digit_char_range c : is_Some (digit_val 10 c) -> (48 <= byte_of c <= 57)%Z.
Proof.
  unfold digit_val, byte_of. intros [d Hd].
  repeat case_match; simplify_eq; try done; lia.
Qed.

Lemma decode_rune_ascii c s : (byte_of c < 128)%Z -> decode_rune (String c s) = Some (byte_of c, s).
Proof. intros H. simpl. by rewrite (proj2 (Z.ltb_lt _ _) H). Qed.

Lemma encode_rune_ascii c : (byte_of c < 128)%Z -> encode_rune (byte_of c) = String c "".
Proof.
  intros H. unfold encode_rune. rewrite (proj2 (Z.ltb_lt _ _) H).
  unfold char_of, byte_of. by rewrite N2Z.id, ascii_N_embedding.
Qed.

(** A character that is printed and scanned as itself: ASCII, not a space. *)
Definition plain (c : ascii) : bool := ((byte_of c <? 128)%Z && negb (isSpace (byte_of c)))%bool.

Fixpoint plain_string (s : string) : bool :=
  match s with String c s => plain c && plain_string s | EmptyString => true end.

Lemma plain_spec c : plain c = true -> (byte_of c < 128)%Z /\ isSpace (byte_of c) = false.
Proof. unfold plain. intros [H1 H2]%andb_true_iff. split; [lia|]. by apply negb_true_iff. Qed.

Lemma isSpace_false_nl r : isSpace r = false -> (r =? 13)%Z = false /\ (r =? 10)%Z = false.
Proof.
  intros H. split; apply Z.eqb_neq; intros ->; by vm_compute in H.
Qed.

Lemma SkipSpace_plain c s : plain c = true -> SkipSpace (String c s) = Some (String c s).
Proof.
  intros [Hc Hs]%plain_spec. unfold SkipSpace. cbn [String.length skip_space].
  rewrite (decode_rune_ascii c s Hc). destruct (isSpace_false_nl _ Hs) as [-> ->]. simpl.
  by rewrite Hs.
Qed.

Lemma token_plain s : plain_string s = true -> token (String.length s) s = (s, "").
Proof.
  induction s as [|c s IH]; [done|]. simpl plain_string.
  intros [[Hc Hsp]%plain_spec Hs]%andb_true_iff. cbn [String.length token].
  rewrite (decode_rune_ascii c s Hc), Hsp, (IH Hs). by rewrite encode_rune_ascii.
Qed.

Lemma scan_str_plain c s :
  plain_string (String c s) = true -> scan_str (String c s) = Some (String c s, "").
Proof.
  intros H. unfold scan_str. pose proof H as [Hc _]%andb_true_iff.
  rewrite (SkipSpace_plain c s Hc). cbn [mbind option_bind]. by rewrite token_plain.
Qed.

Lemma digit_plain c : is_Some (digit_val 10 c) -> plain c = true.
Proof.
  intros H%digit_char_range. unfold plain. set (z := byte_of c) in *.
  assert (z = 48 \/ z = 49 \/ z = 50 \/ z = 51 \/ z = 52 \/ z = 53 \/ z = 54 \/ z = 55
          \/ z = 56 \/ z = 57)%Z as Hz by lia.
  clearbody z. by destruct_or!; subst.
Qed.

Lemma not_sign c : is_Some (digit_val 10 c) -> c <> "-"%char /\ c <> "+"%char.
Proof.
  intros H%digit_char_range. split; intros ->;
    [change (byte_of "-") with 45%Z in H | change (byte_of "+") with 43%Z in H]; lia.
Qed.

Lemma scan_digits_fmt w (neg : bool) n rest :
  let z := if neg then (- Z.of_N n)%Z else Z.of_N n in
  inS 64 z -> inS w z -> no_digit_head rest ->
  scan_digits w neg (fmt_N 10 n +:+ rest) = Some (z, rest).
Proof.
  intros z H64 Hw Hrest. unfold inS in *. change (64 - 1)%Z with 63%Z in H64.
  unfold scan_digits. rewrite read_fmt_N, read_digits_stop by done. fold z.
  unfold in_range. rewrite !(proj2 (Z.leb_le _ _)) by lia. done.
Qed.

Lemma scan_int_pos w c s :
  is_Some (digit_val 10 c) -> scan_int w (String c s) = scan_digits w false (String c s).
Proof.
  intros Hd. unfold scan_int. rewrite SkipSpace_plain by by apply digit_plain.
  cbn [mbind option_bind]. destruct (not_sign c Hd) as [Hm Hp]. destruct Hd as [d Hd].
  destruct c as [[] [] [] [] [] [] [] []]; try done; by rewrite Hd.
Qed.

Lemma scan_int_neg w c s :
  is_Some (digit_val 10 c) ->
  scan_int w (String "-" (String c s)) = scan_digits w true (String c s).
Proof.
  intros [d Hd]. unfold scan_int. rewrite SkipSpace_plain by done.
  cbn [mbind option_bind]. by rewrite Hd.
Qed.

Lemma fmt_N_head n :
  exists c s, fmt_N 10 n = String c s /\ is_Some (digit_val 10 c).
Proof. apply fmt_digits_head. lia. Qed.

(** Scanning the numeral of an [int] returns it and stops behind it. *)
Lemma scan_int_FormatInt w z rest :
  inS 64 z -> inS w z -> no_digit_head rest -> scan_int w (FormatInt z +:+ rest) = Some (z, rest).
Proof.
  intros H64 Hw Hrest. unfold FormatInt. destruct (Z.ltb_spec z 0) as [Hneg|Hpos].
  - destruct (fmt_N_head (Z.to_N (- z))) as (c & s & E & Hd).
    pose proof (scan_digits_fmt w true (Z.to_N (- z)) rest) as H. cbv zeta in H.
    replace (- Z.of_N (Z.to_N (- z)))%Z with z in H by lia. rewrite <- H by done.
    rewrite E. by apply scan_int_neg.
  - destruct (fmt_N_head (Z.to_N z)) as (c & s & E & Hd).
    pose proof (scan_digits_fmt w false (Z.to_N z) rest) as H. cbv zeta in H.
    replace (Z.of_N (Z.to_N z)) with z in H by lia. rewrite <- H by done.
    rewrite E. by apply scan_int_pos.
Qed.
