(* ===== verification/Utf8.v ===== *)
(** UTF-8: a string as a sequence of runes, as [range] over a string and
    [utf8.DecodeRuneInString] see it; decoding and encoding are inverse. *)

From stdpp Require Import base list strings.
From Stdlib Require Import ZArith NArith Ascii Lia.
From S2P Require Import Prelude GoFmt.

Local Open Scope Z_scope.

(** ** Bytes *)

Lemma byte_of_range c : 0 <= byte_of c < 256.
Proof. unfold byte_of. pose proof (N_ascii_bounded c). lia. Qed.

Lemma char_of_byte c : char_of (byte_of c) = c.
Proof. unfold char_of, byte_of. by rewrite N2Z.id, ascii_N_embedding. Qed.

Lemma in_range_spec lo hi z : in_range lo hi z = true <-> lo <= z <= hi.
Proof. unfold in_range. lia. Qed.

(** The bit operations of the encoding as arithmetic. *)
Lemma land_low x n : 0 <= n -> Z.land x (2 ^ n - 1) = x mod 2 ^ n.
Proof. intros Hn. rewrite <- Z.land_ones by done. by rewrite Z.ones_equiv. Qed.

Lemma lor_shift x y n : 0 <= n -> 0 <= y < 2 ^ n -> Z.lor (Z.shiftl x n) y = x * 2 ^ n + y.
Proof. intros Hn Hy. rewrite Z.lor_comm, Z.shiftl_mul_pow2 by done. by apply lor_low. Qed.

Lemma low6_spec c : low6 c = byte_of c mod 64.
Proof. unfold low6. change 63 with (2 ^ 6 - 1). by rewrite land_low. Qed.

Lemma cont_char_spec z : cont_char z = char_of (128 + z mod 64).
Proof.
  unfold cont_char. f_equal. change 63 with (2 ^ 6 - 1). rewrite land_low by done.
  change 128 with (Z.shiftl 2 6) at 1. apply lor_shift; [done|]. apply Z.mod_pos_bound. done.
Qed.

Lemma cont_spec c : cont c = true -> 128 <= byte_of c < 192.
Proof. intros H. apply in_range_spec in H. lia. Qed.

(** ** Decoding and encoding *)

(** The first byte of [s] starts no rune: [DecodeRuneInString] returns the error
    rune with width 1. *)
Definition invalid_head (s : string) : bool :=
  match s, decode_rune s with
  | String _ s', Some (r, rest) => (r =? RuneError) && (String.length rest =? String.length s')%nat
  | _, _ => false
  end.

(** All bytes of a string are outside ASCII. *)
Fixpoint high (s : string) : bool :=
  match s with EmptyString => true | String c s => (128 <=? byte_of c) && high s end.

Lemma char_of_lead k n b x :
  0 <= n -> 0 <= x < 2 ^ n -> byte_of b = k * 2 ^ n + x -> char_of (Z.lor (k * 2 ^ n) x) = b.
Proof. intros Hn Hx Hb. rewrite Z.lor_comm, lor_low by done. rewrite <- Hb. apply char_of_byte. Qed.

Lemma char_of_cont c z : 128 <= byte_of c < 192 -> z mod 64 = byte_of c mod 64 -> cont_char z = c.
Proof.
  intros Hc Hz. rewrite cont_char_spec, Hz. etrans; [|apply char_of_byte]. f_equal.
  Z.to_euclidean_division_equations. lia.
Qed.

(** The runes of two, three and four bytes. *)
Lemma encode2 c0 c1 :
  194 <= byte_of c0 <= 223 -> cont c1 = true ->
  let r := Z.lor (Z.shiftl (Z.land (byte_of c0) 31) 6) (low6 c1) in
  128 <= r < 2048 /\ encode_rune r = String c0 (String c1 "").
Proof.
  intros H0 H1%cont_spec. change 31 with (2 ^ 5 - 1). rewrite land_low, low6_spec by done.
  change (2 ^ 5) with 32. cbv zeta. rewrite lor_shift by (Z.to_euclidean_division_equations; lia).
  change (2 ^ 6) with 64.
  assert (Hr : 128 <= byte_of c0 mod 32 * 64 + byte_of c1 mod 64 < 2048)
    by (Z.to_euclidean_division_equations; lia).
  split; [done|]. unfold encode_rune. rewrite (proj2 (Z.ltb_ge _ 128)), (proj2 (Z.ltb_lt _ 2048)) by lia.
  rewrite Z.shiftr_div_pow2 by done. f_equal; [|f_equal].
  - apply (char_of_lead 6 5); Z.to_euclidean_division_equations; lia.
  - apply char_of_cont; [done|]. Z.to_euclidean_division_equations; lia.
Qed.

Lemma encode3 c0 c1 c2 :
  224 <= byte_of c0 <= 239 ->
  (if byte_of c0 =? 224 then 160 else 128) <= byte_of c1 <= (if byte_of c0 =? 237 then 159 else 191) ->
  cont c2 = true ->
  let r := Z.lor (Z.shiftl (Z.land (byte_of c0) 15) 12) (Z.lor (Z.shiftl (low6 c1) 6) (low6 c2)) in
  2048 <= r < 65536 /\ encode_rune r = String c0 (String c1 (String c2 "")).
Proof.
  intros H0 H1 H2%cont_spec. assert (H1' : 128 <= byte_of c1 < 192) by (repeat case_match; lia).
  change 15 with (2 ^ 4 - 1). rewrite land_low, !low6_spec by done.
  change (2 ^ 4) with 16. cbv zeta.
  rewrite (lor_shift (byte_of c1 mod 64)) by (Z.to_euclidean_division_equations; lia).
  change (2 ^ 6) with 64.
  rewrite lor_shift by (Z.to_euclidean_division_equations; lia). change (2 ^ 12) with 4096.
  assert (Hr : 2048 <= byte_of c0 mod 16 * 4096 + (byte_of c1 mod 64 * 64 + byte_of c2 mod 64) < 65536).
  { destruct (Z.eqb_spec (byte_of c0) 224); Z.to_euclidean_division_equations; lia. }
  split; [done|]. unfold encode_rune.
  rewrite (proj2 (Z.ltb_ge _ 128)), (proj2 (Z.ltb_ge _ 2048)), (proj2 (Z.ltb_lt _ 65536)) by lia.
  rewrite !Z.shiftr_div_pow2 by done. clear H1. f_equal; [|f_equal; [|f_equal]].
  - apply (char_of_lead 14 4); Z.to_euclidean_division_equations; lia.
  - apply char_of_cont; [done|]. change (2 ^ 6) with 64. Z.to_euclidean_division_equations; lia.
  - apply char_of_cont; [done|]. Z.to_euclidean_division_equations; lia.
Qed.

Lemma encode4 c0 c1 c2 c3 :
  240 <= byte_of c0 <= 244 ->
  (if byte_of c0 =? 240 then 144 else 128) <= byte_of c1 <= (if byte_of c0 =? 244 then 143 else 191) ->
  cont c2 = true -> cont c3 = true ->
  let r := Z.lor (Z.shiftl (Z.land (byte_of c0) 7) 18)
             (Z.lor (Z.shiftl (low6 c1) 12) (Z.lor (Z.shiftl (low6 c2) 6) (low6 c3))) in
  65536 <= r /\ encode_rune r = String c0 (String c1 (String c2 (String c3 ""))).
Proof.
  intros H0 H1 H2%cont_spec H3%cont_spec.
  assert (H1' : 128 <= byte_of c1 < 192) by (repeat case_match; lia).
  change 7 with (2 ^ 3 - 1). rewrite land_low, !low6_spec by done. change (2 ^ 3) with 8. cbv zeta.
  rewrite (lor_shift (byte_of c2 mod 64)) by (Z.to_euclidean_division_equations; lia).
  change (2 ^ 6) with 64.
  rewrite (lor_shift (byte_of c1 mod 64)) by (Z.to_euclidean_division_equations; lia).
  change (2 ^ 12) with 4096.
  rewrite lor_shift by (Z.to_euclidean_division_equations; lia). change (2 ^ 18) with 262144.
  assert (Hr : 65536 <= byte_of c0 mod 8 * 262144
                 + (byte_of c1 mod 64 * 4096 + (byte_of c2 mod 64 * 64 + byte_of c3 mod 64))).
  { destruct (Z.eqb_spec (byte_of c0) 240); Z.to_euclidean_division_equations; lia. }
  split; [done|]. unfold encode_rune.
  rewrite (proj2 (Z.ltb_ge _ 128)), (proj2 (Z.ltb_ge _ 2048)), (proj2 (Z.ltb_ge _ 65536)) by lia.
  rewrite !Z.shiftr_div_pow2 by done. clear H1. change (2 ^ 6) with 64. change (2 ^ 12) with 4096.
  change (2 ^ 18) with 262144. f_equal; [|f_equal; [|f_equal; [|f_equal]]].
  - apply (char_of_lead 30 3); Z.to_euclidean_division_equations; lia.
  - apply char_of_cont; [done|]. Z.to_euclidean_division_equations; lia.
  - apply char_of_cont; [done|]. Z.to_euclidean_division_equations; lia.
  - apply char_of_cont; [done|]. Z.to_euclidean_division_equations; lia.
Qed.

(** What decoding returns: an ASCII byte, the bytes of a longer rune, or the error
    rune for one invalid byte. *)
Inductive decoded : string -> Z -> string -> Prop :=
| decoded_ascii c rest : byte_of c < 128 -> decoded (String c rest) (byte_of c) rest
| decoded_rune r rest :
    128 <= r -> high (encode_rune r) = true -> decoded (encode_rune r +:+ rest) r rest
| decoded_invalid c rest : 128 <= byte_of c -> decoded (String c rest) RuneError rest.

Ltac solve_high :=
  cbn [high]; repeat match goal with H : cont _ = true |- _ => apply cont_spec in H end;
  repeat case_match; lia.

Lemma decode_rune_spec s r rest : decode_rune s = Some (r, rest) -> decoded s r rest.
Proof.
  unfold decode_rune. destruct s as [|c0 s1]; [done|].
  destruct (Z.ltb_spec (byte_of c0) 128) as [|H0]; [by intros [= <- <-]; constructor|].
  destruct (in_range 194 223 (byte_of c0)) eqn:E2.
  { apply in_range_spec in E2. destruct s1 as [|c1 s2]; [by intros [= <- <-]; constructor|].
    destruct (cont c1) eqn:E; intros [= <- <-]; [|by constructor].
    destruct (encode2 c0 c1 E2 E) as [Hr He].
    change (String c0 (String c1 s2)) with (String c0 (String c1 "") +:+ s2). rewrite <- He.
    constructor; [lia|]. rewrite He. solve_high. }
  destruct (in_range 224 239 (byte_of c0)) eqn:E3.
  { apply in_range_spec in E3. destruct s1 as [|c1 [|c2 s3]]; [by intros [= <- <-]; constructor..|].
    destruct (_ && cont c2) eqn:E; intros [= <- <-]; [|by constructor].
    apply andb_true_iff in E as [E1%in_range_spec E].
    destruct (encode3 c0 c1 c2 E3 E1 E) as [Hr He].
    change (String c0 (String c1 (String c2 s3))) with (String c0 (String c1 (String c2 "")) +:+ s3).
    rewrite <- He. constructor; [lia|]. rewrite He. solve_high. }
  destruct (in_range 240 244 (byte_of c0)) eqn:E4; [|by intros [= <- <-]; constructor].
  apply in_range_spec in E4. destruct s1 as [|c1 [|c2 [|c3 s4]]]; [by intros [= <- <-]; constructor..|].
  destruct (_ && cont c3) eqn:E; intros [= <- <-]; [|by constructor].
  apply andb_true_iff in E as [[E1%in_range_spec E']%andb_true_iff E].
  destruct (encode4 c0 c1 c2 c3 E4 E1 E' E) as [Hr He].
  change (String c0 (String c1 (String c2 (String c3 s4))))
    with (String c0 (String c1 (String c2 (String c3 ""))) +:+ s4).
  rewrite <- He. constructor; [lia|]. rewrite He. solve_high.
Qed.

Lemma decode_rune_some c s : exists r rest, decode_rune (String c s) = Some (r, rest).
Proof. simpl. repeat case_match; eauto. Qed.

Lemma encode_rune_length r : 128 <= r -> (2 <= String.length (encode_rune r))%nat.
Proof. intros H. unfold encode_rune. rewrite (proj2 (Z.ltb_ge r 128)) by done. repeat case_match; simpl; lia. Qed.

Lemma substring_app (s t : string) : String.substring 0 (String.length s) (s +:+ t) = s.
Proof. induction s as [|c s IH]; [by destruct t|]. rewrite string_app_cons. simpl. by rewrite IH. Qed.

(** The error rune is an invalid byte exactly when it has width 1. *)
Lemma invalid_head_rune r rest :
  128 <= r -> decode_rune (encode_rune r +:+ rest) = Some (r, rest) ->
  invalid_head (encode_rune r +:+ rest) = false.
Proof.
  intros Hr. pose proof (encode_rune_length r Hr) as Hl.
  destruct (encode_rune r) as [|c0 s0]; [simpl in Hl; lia|]. rewrite string_app_cons. intros E.
  unfold invalid_head. rewrite E, length_string_app. simpl in Hl.
  rewrite (proj2 (Nat.eqb_neq _ _)) by lia. apply andb_false_r.
Qed.
