(* ===== verification/Json.v ===== *)
(** JSON texts: what [encoding/json] writes for the values the program exports (maps
    with string keys, numbers, strings, lists, and values with a [MarshalJSON] method),
    and [strconv.Quote], which [Option.MarshalJSON] uses; a reader of JSON texts as the
    reference the texts are proved against.

    The table of printable runes outside ASCII is the class [Unicode]. *)

From stdpp Require Import base list strings.
From Stdlib Require Import ZArith NArith Ascii Lia.
From S2P Require Import Prelude GoFmt Utf8.

Local Open Scope string_scope.
Local Open Scope Z_scope.

(** ** Strings *)

(** The quotation mark, and [\ ]. *)
Definition dq : ascii := "034".
Definition bs : ascii := "\".

Definition newline : string := String "010" "".
Definition tab : string := String "009" "".

Fixpoint spaces (n : nat) : string :=
  match n with O => "" | S n => String " " (spaces n) end.

Definition hexDigit (d : Z) : ascii := digit_char (Z.to_N d).
(** The [n] low hexadecimal digits of [r]. *)
Fixpoint hexDigits (n : nat) (r : Z) : string :=
  match n with
  | O => ""
  | S n => hexDigits n (r / 16) +:+ String (hexDigit (r mod 16)) ""
  end.

(** The escape of an ASCII byte in [appendString], with [escapeHTML]. *)
Definition htmlSafe (b : Z) : bool :=
  (32 <=? b) && negb (bool_decide (b ∈ [34; 92; 60; 62; 38])).
Definition escapeByte (c : ascii) : string :=
  let b := byte_of c in
  if htmlSafe b then String c ""
  else if (b =? 92) || (b =? 34) then String bs (String c "")
  else if b =? 8 then "\b"
  else if b =? 12 then "\f"
  else if b =? 10 then "\n"
  else if b =? 13 then "\r"
  else if b =? 9 then "\t"
  else "\u" +:+ hexDigits 4 b.

(** [appendString] between the quotation marks; one unit of [fuel] per byte. *)
Fixpoint escape (fuel : nat) (s : string) : string :=
  match fuel, s with
  | S fuel, String c s' =>
      if byte_of c <? 128 then escapeByte c +:+ escape fuel s'
      else match decode_rune s with
           | Some (r, rest) =>
               (if invalid_head s then "\ufffd"
                else if (r =? 0x2028) || (r =? 0x2029) then "\u" +:+ hexDigits 4 r
                else String.substring 0 (String.length s - String.length rest) s)
               +:+ escape fuel rest
           | None => ""
           end
  | _, _ => ""
  end.
Definition jstring (s : string) : string :=
  String dq (escape (String.length s) s +:+ String dq "").

(** The string with invalid bytes replaced by the error rune. *)
Fixpoint valid_runes (fuel : nat) (s : string) : string :=
  match fuel, decode_rune s with
  | S fuel, Some (r, rest) => encode_rune r +:+ valid_runes fuel rest
  | _, _ => ""
  end.
Definition ToValidUTF8 (s : string) : string := valid_runes (String.length s) s.

(** ** strconv.Quote *)

Class Unicode := { IsPrintHigh : Z -> bool }.

Section quote.
Context `{!Unicode}.

Definition IsPrint (r : Z) : bool := if r <? 128 then (32 <=? r) && (r <=? 126) else IsPrintHigh r.

(** [appendEscapedRune] *)
Definition quoteRune (r : Z) : string :=
  if (r =? 34) || (r =? 92) then String bs (encode_rune r)
  else if IsPrint r then encode_rune r
  else if r =? 7 then "\a"
  else if r =? 8 then "\b"
  else if r =? 12 then "\f"
  else if r =? 10 then "\n"
  else if r =? 13 then "\r"
  else if r =? 9 then "\t"
  else if r =? 11 then "\v"
  else if (r <? 32) || (r =? 127) then "\x" +:+ hexDigits 2 r
  else if r <? 0x10000 then "\u" +:+ hexDigits 4 r
  else "\U" +:+ hexDigits 8 r.

Fixpoint quoteRunes (fuel : nat) (s : string) : string :=
  match fuel, s, decode_rune s with
  | S fuel, String c _, Some (r, rest) =>
      (if invalid_head s then "\x" +:+ hexDigits 2 (byte_of c) else quoteRune r)
      +:+ quoteRunes fuel rest
  | _, _, _ => ""
  end.
Definition Quote (s : string) : string :=
  String dq (quoteRunes (String.length s) s +:+ String dq "").
End quote.

(** ** Texts returned by MarshalJSON *)

(** The scanner of [json.compact] on a string literal: the first character that is no
    escape of JSON. *)
Fixpoint badEscape (text : string) : option ascii :=
  match text with
  | EmptyString => None
  | String c rest =>
      if Ascii.eqb c bs then
        match rest with
        | String e rest =>
            if bool_decide (e ∈ [dq; bs; "/"; "b"; "f"; "n"; "r"; "t"; "u"]%char)
            then badEscape rest else Some e
        | EmptyString => None
        end
      else badEscape rest
  end.

(** [json.compact] on a string literal: characters of HTML and the line separators
    U+2028 and U+2029 are escaped. *)
Definition compactByte (c : ascii) : string :=
  if bool_decide (c ∈ ["<"; ">"; "&"]%char) then "\u" +:+ hexDigits 4 (byte_of c) else String c "".
Fixpoint compact (text : string) : string :=
  match text with
  | EmptyString => ""
  | String a rest =>
      match rest with
      | String b (String c rest') =>
          if (byte_of a =? 0xe2) && (byte_of b =? 0x80) && ((byte_of c =? 0xa8) || (byte_of c =? 0xa9))
          then "\u" +:+ hexDigits 4 (0x2020 + byte_of c mod 16) +:+ compact rest'
          else compactByte a +:+ compact rest
      | _ => compactByte a +:+ compact rest
      end
  end.

(** ** Values *)

(** The values that are encoded, with the keys of objects in the order they are
    written. *)
Inductive json :=
| JNull
| JBool (b : bool)
| JInt (z : Z)
| JString (s : string)
| JText (raw s : string)           (* MarshalJSON of [tcpinfo.Option] returned the string
                                      literal [raw], which is to be read as [s] *)
| JWrap (type : string) (j : json) (* MarshalJSON returns json.Marshal(j) *)
| JArr (l : list json)
| JObj (l : list (string * json)).

(** [encodeState]: the first error, in the order the values are written. *)
Definition marshalerError (type : string) (err : error) : error :=
  errors_New ("json: error calling MarshalJSON for type " +:+ type +:+ ": " +:+ err_msg err).

Section encode.
Context `{!Unicode}.

Fixpoint check (j : json) : option error :=
  match j with
  | JText raw _ =>
      match badEscape raw with
      | Some c => Some (marshalerError "tcpinfo.Option"
                    (errors_New ("invalid character '" +:+ String c "' in string escape code")))
      | None => None
      end
  | JWrap type j => marshalerError type <$> check j
  | JArr l => fold_right (fun j e => match check j with Some x => Some x | None => e end) None l
  | JObj l => fold_right (fun kv e => match check kv.2 with Some x => Some x | None => e end) None l
  | _ => None
  end.

(** The text; [ind] is whether it is indented by two spaces ([json.MarshalIndent] with
    an empty prefix), [d] the depth. *)
Section text.
Context (ind : bool).

Definition line (d : nat) : string := if ind then newline +:+ spaces (2 * d) else "".
Definition colon : string := if ind then ": " else ":".

Fixpoint text (d : nat) (j : json) : string :=
  match j with
  | JNull => "null"
  | JBool b => if b then "true" else "false"
  | JInt z => FormatInt z
  | JString s => jstring s
  | JText raw _ => compact raw
  | JWrap _ j => text d j
  | JArr [] => "[]"
  | JArr l => "[" +:+ strings_Join (map (fun j => line (S d) +:+ text (S d) j) l) "," +:+ line d +:+ "]"
  | JObj [] => "{}"
  | JObj l =>
      "{" +:+ strings_Join (map (fun kv => line (S d) +:+ jstring kv.1 +:+ colon +:+ text (S d) kv.2) l) ","
      +:+ line d +:+ "}"
  end.
End text.

(** [json.Marshal] and [json.MarshalIndent] *)
Definition encode (ind : bool) (j : json) : string + error :=
  match check j with Some e => inr e | None => inl (text ind 0 j) end.
End encode.

(** ** A reader of JSON texts *)

Definition isWs (c : ascii) : bool := bool_decide (c ∈ [" "; "009"; "010"; "013"]%char).
Fixpoint skipWs (s : string) : string :=
  match s with
  | String c rest => if isWs c then skipWs rest else s
  | EmptyString => s
  end.

Definition hexVal (c : ascii) : option Z := Z.of_N <$> digit_val 16 c.

Definition simpleEscape (c : ascii) : option ascii :=
  match c with
  | "b" => Some "008" | "f" => Some "012" | "n" => Some "010" | "r" => Some "013" | "t" => Some "009"
  | _ => if bool_decide (c ∈ [dq; bs; "/"]) then Some c else None
  end%char.

(** The rest of a string literal after its first quotation mark. Surrogates are not
    read: no text of the program has them. *)
Fixpoint readString (s : string) : option (string * string) :=
  match s with
  | EmptyString => None
  | String c rest =>
      if Ascii.eqb c dq then Some ("", rest)
      else if Ascii.eqb c bs then
        match rest with
        | String "u" (String h1 (String h2 (String h3 (String h4 rest)))) =>
            match hexVal h1, hexVal h2, hexVal h3, hexVal h4 with
            | Some d1, Some d2, Some d3, Some d4 =>
                let r := ((d1 * 16 + d2) * 16 + d3) * 16 + d4 in
                if in_range 0xd800 0xdfff r then None
                else match readString rest with
                     | Some (x, rest) => Some (encode_rune r +:+ x, rest)
                     | None => None
                     end
            | _, _, _, _ => None
            end
        | String e rest =>
            match simpleEscape e, readString rest with
            | Some c, Some (x, rest) => Some (String c x, rest)
            | _, _ => None
            end
        | EmptyString => None
        end
      else if byte_of c <? 32 then None
      else match readString rest with
           | Some (x, rest) => Some (String c x, rest)
           | None => None
           end
  end.

(** Integers without leading zeros. *)
Definition readNat (s : string) : option (N * string) :=
  match s with
  | String c rest =>
      if Ascii.eqb c "0" then Some (0%N, rest)
      else match digit_val 10 c with Some _ => Some (read_digits 10 s 0) | None => None end
  | EmptyString => None
  end.
Definition readInt (s : string) : option (Z * string) :=
  match s with
  | String c rest =>
      if Ascii.eqb c "-"
      then match readNat rest with Some (n, rest) => Some (- Z.of_N n, rest) | None => None end
      else match readNat s with Some (n, rest) => Some (Z.of_N n, rest) | None => None end
  | EmptyString => None
  end.

(** What follows [p] at the start of [s]. *)
Fixpoint after (p s : string) : option string :=
  match p, s with
  | EmptyString, _ => Some s
  | String a p, String b s => if Ascii.eqb a b then after p s else None
  | _, _ => None
  end.

(** White space, then the character [c]. *)
Definition expect (c : ascii) (s : string) : option string :=
  match skipWs s with
  | String c' rest => if Ascii.eqb c' c then Some rest else None
  | EmptyString => None
  end.

(** A value that is not an object or an array. *)
Definition readScalar (s : string) : option (json * string) :=
  match expect dq s with
  | Some rest => match readString rest with Some (x, rest) => Some (JString x, rest) | None => None end
  | None =>
      let s := skipWs s in
      match after "null" s, after "true" s, after "false" s with
      | Some rest, _, _ => Some (JNull, rest)
      | _, Some rest, _ => Some (JBool true, rest)
      | _, _, Some rest => Some (JBool false, rest)
      | _, _, _ => match readInt s with Some (z, rest) => Some (JInt z, rest) | None => None end
      end
  end.

(** Values, members of objects and elements of arrays; [fuel] bounds the nesting and
    the number of members. *)
Fixpoint readValue (fuel : nat) (s : string) : option (json * string) :=
  match fuel with
  | O => None
  | S fuel =>
      match expect "{" s, expect "[" s with
      | Some rest, _ =>
          match expect "}" rest with
          | Some rest => Some (JObj [], rest)
          | None => match readMembers fuel rest with Some (l, rest) => Some (JObj l, rest) | None => None end
          end
      | None, Some rest =>
          match expect "]" rest with
          | Some rest => Some (JArr [], rest)
          | None => match readElements fuel rest with Some (l, rest) => Some (JArr l, rest) | None => None end
          end
      | None, None => readScalar s
      end
  end
with readMembers (fuel : nat) (s : string) : option (list (string * json) * string) :=
  match fuel with
  | O => None
  | S fuel =>
      match expect dq s ≫= readString with
      | Some (k, rest) =>
          match expect ":" rest ≫= readValue fuel with
          | Some (v, rest) =>
              match expect "," rest with
              | Some rest =>
                  match readMembers fuel rest with
                  | Some (l, rest) => Some ((k, v) :: l, rest)
                  | None => None
                  end
              | None => match expect "}" rest with Some rest => Some ([(k, v)], rest) | None => None end
              end
          | None => None
          end
      | None => None
      end
  end
with readElements (fuel : nat) (s : string) : option (list json * string) :=
  match fuel with
  | O => None
  | S fuel =>
      match readValue fuel s with
      | Some (v, rest) =>
          match expect "," rest with
          | Some rest =>
              match readElements fuel rest with
              | Some (l, rest) => Some (v :: l, rest)
              | None => None
              end
          | None => match expect "]" rest with Some rest => Some ([v], rest) | None => None end
          end
      | None => None
      end
  end.

Definition parse (s : string) : option json :=
  match readValue (S (String.length s)) s with
  | Some (j, rest) => if String.eqb (skipWs rest) "" then Some j else None
  | None => None
  end.
