(* ===== verification/JsonRead.v ===== *)
(** The texts of Json are JSON: reading them back gives the value, whether they are
    indented or not. *)

From stdpp Require Import base list strings sets.
From Stdlib Require Import ZArith NArith Ascii Lia.
From S2P Require Import Prelude GoFmt Utf8 Json.

Local Open Scope string_scope.
Local Open Scope Z_scope.

(** ** String literals *)

(** The text [p] inside a literal stands for [x]. *)
Definition piece (p x : string) : Prop :=
  forall k, readString (p +:+ k)
    = match readString k with Some (y, rest) => Some (x +:+ y, rest) | None => None end.

Lemma piece_nil : piece "" "".
Proof. intros k. rewrite string_app_nil_l. by destruct (readString k) as [[]|]. Qed.

Lemma piece_app p q x y : piece p x -> piece q y -> piece (p +:+ q) (x +:+ y).
Proof.
  intros Hp Hq k. rewrite string_app_assoc, Hp, Hq.
  destruct (readString k) as [[z rest]|]; [|done]. by rewrite string_app_assoc.
Qed.

(** A literal made of such a text is read back. *)
Lemma read_literal p x k : piece p x -> readString (p +:+ String dq k) = Some (x, k).
Proof. intros H. rewrite H. simpl. by rewrite string_app_nil_r. Qed.

Lemma escapeByte_piece c : byte_of c < 128 -> piece (escapeByte c) (String c "").
Proof.
  destruct c as [[] [] [] [] [] [] [] []]; intros H; try (vm_compute in H; discriminate H);
    intros k; reflexivity.
Qed.

(** Bytes outside ASCII stand for themselves. *)
Lemma high_piece p : high p = true -> piece p p.
Proof.
  induction p as [|c p IH]; [intros; apply piece_nil|]. simpl. intros [Hc Hp]%andb_true_iff k.
  rewrite !string_app_cons. simpl. apply Z.leb_le in Hc.
  destruct (Ascii.eqb_spec c dq) as [->|]; [done|]. destruct (Ascii.eqb_spec c bs) as [->|]; [done|].
  rewrite (proj2 (Z.ltb_ge _ 32)) by lia. rewrite (IH Hp). by destruct (readString k) as [[]|].
Qed.

Lemma escape_piece fuel s :
  (String.length s <= fuel)%nat -> piece (escape fuel s) (valid_runes fuel s).
Proof.
  revert s. induction fuel as [|fuel IH]; intros [|c s] Hl; try apply piece_nil.
  simpl in Hl. destruct (decode_rune_some c s) as (r & rest & E).
  pose proof (decode_rune_spec _ _ _ E) as Hd.
  assert (Hlen : (String.length rest <= String.length s)%nat).
  { inversion Hd as [|? ? Hr _ Heq|]; subst; [lia| |lia].
    pose proof (encode_rune_length r Hr). apply (f_equal String.length) in Heq.
    rewrite length_string_app in Heq. simpl in Heq. lia. }
  cbn [escape valid_runes]. rewrite E.
  destruct (Z.ltb_spec (byte_of c) 128) as [Hc|Hc].
  - rewrite decode_rune_ascii in E by done. injection E as <- <-. rewrite encode_rune_ascii by done.
    apply piece_app; [by apply escapeByte_piece|]. apply IH. lia.
  - apply piece_app; [|apply IH; lia].
    inversion Hd as [|? ? Hr Hh Heq|]; subst; [lia| |].
    + rewrite <- Heq in E. rewrite invalid_head_rune by done.
      destruct ((r =? 0x2028) || (r =? 0x2029)) eqn:E2.
      * assert (r = 0x2028 \/ r = 0x2029) as [-> | ->] by lia; intros k; reflexivity.
      * replace (String.length _ - String.length rest)%nat with (String.length (encode_rune r))
          by (rewrite length_string_app; lia).
        rewrite substring_app. by apply high_piece.
    + assert (Hi : invalid_head (String c rest) = true).
      { unfold invalid_head. rewrite E. by rewrite Nat.eqb_refl. }
      rewrite Hi. intros k; reflexivity.
Qed.

Lemma jstring_read s k : readString (escape (String.length s) s +:+ String dq k) = Some (ToValidUTF8 s, k).
Proof. apply read_literal. by apply escape_piece. Qed.

Lemma jstring_app s k : jstring s +:+ k = String dq (escape (String.length s) s +:+ String dq k).
Proof. unfold jstring. by rewrite string_app_cons, string_app_assoc. Qed.

(** ** Quoted strings *)

(** The ASCII characters whose escape by [strconv.Quote] is one of JSON: the printable
    ones and [\b \t \n \f \r]. *)
Definition quotableChar (c : ascii) : bool :=
  ((32 <=? byte_of c) && (byte_of c <=? 126)) || bool_decide (byte_of c ∈ [8; 9; 10; 12; 13]).
Fixpoint quotable (s : string) : bool :=
  match s with EmptyString => true | String c s => quotableChar c && quotable s end.
Fixpoint ascii_only (s : string) : bool :=
  match s with EmptyString => true | String c s => (byte_of c <? 128) && ascii_only s end.

Section quote.
Context `{!Unicode}.

(** What [compact] does to the quotation of one character. *)
Definition charText (c : ascii) : string :=
  if bool_decide (c ∈ ["<"; ">"; "&"]%char) then "\u" +:+ hexDigits 4 (byte_of c)
  else quoteRune (byte_of c).

Lemma compact_char c t :
  quotableChar c = true -> compact (quoteRune (byte_of c) +:+ t) = charText c +:+ compact t.
Proof.
  destruct c as [[] [] [] [] [] [] [] []]; intros Hc; try (vm_compute in Hc; discriminate Hc);
    destruct t as [|? [|? ?]]; reflexivity.
Qed.

Lemma charText_piece c : quotableChar c = true -> piece (charText c) (String c "").
Proof.
  destruct c as [[] [] [] [] [] [] [] []]; intros Hc; try (vm_compute in Hc; discriminate Hc);
    intros k; reflexivity.
Qed.

Lemma badEscape_char c t :
  byte_of c < 128 ->
  if quotableChar c then badEscape (quoteRune (byte_of c) +:+ t) = badEscape t
  else is_Some (badEscape (quoteRune (byte_of c) +:+ t)).
Proof.
  destruct c as [[] [] [] [] [] [] [] []]; intros Hc; try (vm_compute in Hc; discriminate Hc);
    (reflexivity || (eexists; reflexivity)).
Qed.

Lemma quoteRunes_cons fuel c s :
  byte_of c < 128 -> quoteRunes (S fuel) (String c s) = quoteRune (byte_of c) +:+ quoteRunes fuel s.
Proof.
  intros Hc. cbn [quoteRunes]. unfold invalid_head. rewrite decode_rune_ascii by done.
  by rewrite (proj2 (Z.eqb_neq (byte_of c) RuneError)) by (unfold RuneError; lia).
Qed.

Lemma quotable_ascii c : quotableChar c = true -> byte_of c < 128.
Proof. unfold quotableChar. rewrite orb_true_iff, bool_decide_eq_true. set_unfold. lia. Qed.

Lemma quotable_ascii_only s : quotable s = true -> ascii_only s = true.
Proof.
  induction s as [|c s IH]; [done|]. cbn [quotable ascii_only]. intros [Hc Hs]%andb_true_iff.
  rewrite IH by done. apply quotable_ascii in Hc. lia.
Qed.

Lemma ascii_only_app s t : ascii_only (s +:+ t) = ascii_only s && ascii_only t.
Proof. induction s as [|c s IH]; [done|]. rewrite string_app_cons. simpl. by rewrite IH, andb_assoc. Qed.

Lemma quote_body s :
  quotable s = true ->
  exists p, piece p s
    /\ forall t, compact (quoteRunes (String.length s) s +:+ t) = p +:+ compact t.
Proof.
  induction s as [|c s IH]; cbn [quotable].
  { exists "". split; [apply piece_nil|done]. }
  intros [Hc Hs]%andb_true_iff. destruct (IH Hs) as (p & Hp & E). exists (charText c +:+ p). split.
  - apply (piece_app _ _ (String c "") s); [by apply charText_piece|done].
  - intros t. cbn [String.length]. rewrite quoteRunes_cons by by apply quotable_ascii.
    by rewrite !string_app_assoc, compact_char, E.
Qed.

(** The literal [compact] makes of a quotation. *)
Lemma quote_text s k :
  quotable s = true ->
  exists p, compact (Quote s) +:+ k = String dq (p +:+ String dq k) /\ piece p s.
Proof.
  intros Hs. destruct (quote_body s Hs) as (p & Hp & E). exists p. split; [|done]. unfold Quote.
  assert (Hd : forall t, compact (String dq t) = String dq (compact t)) by (intros [|? [|? ?]]; reflexivity).
  rewrite Hd, E, string_app_cons, string_app_assoc. done.
Qed.

(** On ASCII text the quotation is a literal of JSON exactly if the text is
    quotable. *)
Lemma badEscape_body s t :
  ascii_only s = true ->
  if quotable s then badEscape (quoteRunes (String.length s) s +:+ t) = badEscape t
  else is_Some (badEscape (quoteRunes (String.length s) s +:+ t)).
Proof.
  induction s as [|c s IH]; [done|]. cbn [ascii_only quotable String.length].
  intros [Hc%Z.ltb_lt Hs]%andb_true_iff. rewrite quoteRunes_cons, string_app_assoc by done.
  pose proof (badEscape_char c (quoteRunes (String.length s) s +:+ t) Hc) as Hb.
  destruct (quotableChar c); simpl; [|done]. rewrite Hb. by apply IH.
Qed.

Lemma badEscape_Quote s :
  ascii_only s = true -> (badEscape (Quote s) = None <-> quotable s = true).
Proof.
  intros Hs. pose proof (badEscape_body s (String dq "") Hs) as Hb.
  change (badEscape (Quote s)) with (badEscape (quoteRunes (String.length s) s +:+ String dq "")).
  destruct (quotable s); [by rewrite Hb|]. destruct Hb as [? ->]. done.
Qed.
End quote.

(** ** Numbers *)

Lemma fmt_digits_head_pos b fuel n s :
  (2 <= b <= 16)%N -> (0 < n < b ^ N.of_nat fuel)%N ->
  exists c s', fmt_digits b fuel n s = String c s' /\ is_Some (digit_val b c) /\ c <> "0"%char.
Proof.
  intros Hb. revert n s. induction fuel as [|fuel IH]; intros n s [Hn Hf].
  { simpl in Hf. rewrite N.pow_0_r in Hf. lia. }
  rewrite Nat2N.inj_succ, N.pow_succ_r' in Hf. simpl. destruct (N.ltb_spec n b).
  - eexists _, _. split; [done|]. rewrite N.mod_small by done. rewrite digit_val_char by lia.
    split; [done|]. change "0"%char with (digit_char 0). intros E. apply (f_equal (digit_val b)) in E.
    rewrite !digit_val_char in E by lia. injection E. lia.
  - apply IH. split; [apply N.div_str_pos; lia|]. by apply N.Div0.div_lt_upper_bound.
Qed.

(** The first character of a numeral. *)
Lemma fmt_N_read n k :
  no_digit_head k ->
  exists c s, fmt_N 10 n = String c s /\ is_Some (digit_val 10 c) /\ readNat (fmt_N 10 n +:+ k) = Some (n, k).
Proof.
  intros Hk. destruct (decide (n = 0%N)) as [->|Hn].
  { exists "0"%char, "". split_and!; [done|by eexists|]. done. }
  destruct (fmt_digits_head_pos 10 (S (N.size_nat n)) n "") as (c & s & E & Hc & H0); [lia| |].
  { split; [lia|]. apply size_nat_bound. lia. }
  exists c, s. split_and!; [done..|].
  pose proof (read_fmt_N 10 n k ltac:(lia)) as Hr. rewrite (read_digits_stop n k Hk) in Hr.
  change (fmt_N 10 n) with (fmt_digits 10 (S (N.size_nat n)) n "") in *.
  rewrite E, string_app_cons in *. unfold readNat. rewrite (proj2 (Ascii.eqb_neq c "0") H0).
  destruct Hc as [d ->]. by rewrite Hr.
Qed.

Lemma FormatInt_read z k :
  no_digit_head k ->
  exists c s, FormatInt z +:+ k = String c s /\ (c = "-"%char \/ is_Some (digit_val 10 c))
    /\ readInt (String c s) = Some (z, k).
Proof.
  intros Hk. unfold FormatInt. destruct (Z.ltb_spec z 0).
  - destruct (fmt_N_read (Z.to_N (- z)) k Hk) as (c & s & E & _ & Hr).
    exists "-"%char, (fmt_N 10 (Z.to_N (- z)) +:+ k). split_and!; [done|by left|].
    simpl. rewrite Hr. do 2 f_equal. lia.
  - destruct (fmt_N_read (Z.to_N z) k Hk) as (c & s & E & Hc & Hr). rewrite E in *.
    exists c, (s +:+ k). split_and!; [done|by right|]. rewrite string_app_cons in Hr.
    assert (Hm : c <> "-"%char) by by apply not_sign. unfold readInt. rewrite Hr.
    by rewrite (proj2 (Ascii.eqb_neq c "-") Hm), Z2N.id.
Qed.

(** ** Values *)

Lemma json_ind2 (P : json -> Prop) :
  P JNull -> (forall b, P (JBool b)) -> (forall z, P (JInt z)) -> (forall s, P (JString s)) ->
  (forall raw s, P (JText raw s)) -> (forall type j, P j -> P (JWrap type j)) ->
  (forall l, Forall P l -> P (JArr l)) -> (forall l, Forall (fun kv => P kv.2) l -> P (JObj l)) ->
  forall j, P j.
Proof.
  intros H1 H2 H3 H4 H5 H6 H7 H8. fix IH 1.
  intros [| | | | |type j|l|l]; [exact H1|apply H2|apply H3|apply H4|apply H5|apply H6, IH| |].
  - apply H7. induction l as [|j l IHl]; constructor; [apply IH|exact IHl].
  - apply H8. induction l as [|[k v] l IHl]; constructor; [apply IH|exact IHl].
Qed.

(** The value a text stands for: strings are valid UTF-8, a value with a
    [MarshalJSON] is what its text says. *)
Fixpoint norm (j : json) : json :=
  match j with
  | JString s => JString (ToValidUTF8 s)
  | JText _ s => JString s
  | JWrap _ j => norm j
  | JArr l => JArr (map norm l)
  | JObj l => JObj (map (fun kv => (ToValidUTF8 kv.1, norm kv.2)) l)
  | _ => j
  end.

(** The texts of [MarshalJSON] are quoted strings that JSON can read. *)
Fixpoint json_ok `{!Unicode} (j : json) : bool :=
  match j with
  | JText raw s => quotable s && String.eqb raw (Quote s)
  | JWrap _ j => json_ok j
  | JArr l => forallb json_ok l
  | JObj l => forallb (fun kv => json_ok kv.2) l
  | _ => true
  end.

Lemma json_ok_text `{!Unicode} raw s :
  json_ok (JText raw s) = true -> quotable s = true /\ raw = Quote s.
Proof. cbn [json_ok]. by intros [? ?%String.eqb_eq]%andb_true_iff. Qed.

(** The fuel a value needs. *)
Fixpoint jsize (j : json) : nat :=
  match j with
  | JWrap _ j => jsize j
  | JArr l => S (sum_list_with (fun j => S (jsize j)) l)
  | JObj l => S (sum_list_with (fun kv => S (jsize kv.2)) l)
  | _ => 1
  end.

(** *** White space *)

Lemma skipWs_char c s : isWs c = false -> skipWs (String c s) = String c s.
Proof. intros H. simpl. by rewrite H. Qed.

Lemma skipWs_line ind d k : skipWs (line ind d +:+ k) = skipWs k.
Proof.
  unfold line. destruct ind; [|done].
  change (skipWs ((newline +:+ spaces (2 * d)) +:+ k)) with (skipWs (spaces (2 * d) +:+ k)).
  induction (2 * d)%nat as [|n IH]; [done|exact IH].
Qed.

Lemma expect_line ind d c k : expect c (line ind d +:+ k) = expect c k.
Proof. unfold expect. by rewrite skipWs_line. Qed.

Lemma expect_char c s : isWs c = false -> expect c (String c s) = Some s.
Proof. intros H. unfold expect. by rewrite skipWs_char, Ascii.eqb_refl. Qed.

Lemma expect_other c c' s : isWs c' = false -> c' <> c -> expect c (String c' s) = None.
Proof. intros H Hc. unfold expect. by rewrite skipWs_char, (proj2 (Ascii.eqb_neq c' c) Hc). Qed.

Lemma readScalar_line ind d k : readScalar (line ind d +:+ k) = readScalar k.
Proof. unfold readScalar. by rewrite expect_line, skipWs_line. Qed.

Lemma readValue_line fuel ind d k : readValue fuel (line ind d +:+ k) = readValue fuel k.
Proof. destruct fuel as [|fuel]; [done|]. cbn [readValue]. by rewrite !expect_line, readScalar_line. Qed.

Lemma no_digit_line ind d c k : digit_val 10 c = None -> no_digit_head (line ind d +:+ String c k).
Proof. unfold line. destruct ind; [done|]. simpl. done. Qed.

(** *** Scalars *)

Section values.
Context `{!Unicode} (ind : bool).

Lemma read_dq fuel p x k :
  piece p x -> readValue (S fuel) (String dq (p +:+ String dq k)) = Some (JString x, k).
Proof.
  intros Hp. cbn [readValue]. rewrite !expect_other by done. unfold readScalar.
  rewrite expect_char by done. by rewrite read_literal with (x := x).
Qed.

Lemma read_null fuel k : readValue (S fuel) ("null" +:+ k) = Some (JNull, k).
Proof. reflexivity. Qed.

Lemma read_bool fuel (b : bool) k :
  readValue (S fuel) ((if b then "true" else "false") +:+ k) = Some (JBool b, k).
Proof. by destruct b. Qed.

Lemma number_head c : c = "-"%char \/ is_Some (digit_val 10 c) ->
  isWs c = false /\ Forall (fun x => c <> x) ["{"; "["; dq; "]"; "}"; "n"; "t"; "f"]%char.
Proof.
  intros [->|[d Hd]]; [split; [done|]; repeat constructor; done|].
  destruct c as [[] [] [] [] [] [] [] []]; try (vm_compute in Hd; discriminate Hd);
    (split; [done|]; repeat constructor; done).
Qed.

Lemma read_number fuel z k :
  no_digit_head k -> readValue (S fuel) (FormatInt z +:+ k) = Some (JInt z, k).
Proof.
  intros Hk. destruct (FormatInt_read z k Hk) as (c & s & -> & Hc & Hr).
  destruct (number_head c Hc) as [Hw Hf]. rewrite !Forall_cons in Hf.
  destruct Hf as (H1 & H2 & H3 & _ & _ & H4 & H5 & H6 & _).
  cbn [readValue]. rewrite !expect_other by done. unfold readScalar.
  rewrite expect_other, skipWs_char by done. cbv zeta.
  assert (Ha : forall p x, c <> x -> after (String x p) (String c s) = None).
  { intros p x Hx. simpl. by rewrite (proj2 (Ascii.eqb_neq x c)). }
  rewrite !Ha by done. by rewrite Hr.
Qed.

(** The first character of a text. *)
Lemma text_head d j k :
  json_ok j = true ->
  exists c s, text ind d j +:+ k = String c s /\ isWs c = false /\ c <> "]"%char.
Proof.
  induction j as [|[]|z|s|raw s|type j IH|l _|l _] using json_ind2; intros Hok;
    try (by eexists _, _; split; [reflexivity|]).
  - unfold text, FormatInt. destruct (z <? 0); [by eexists _, _; split; [reflexivity|]|].
    destruct (fmt_N_head (Z.to_N z)) as (c & s & -> & Hc).
    destruct (number_head c (or_intror Hc)) as [Hw Hf]. rewrite !Forall_cons in Hf.
    exists c, (s +:+ k). split_and!; [done..|]. apply Hf.
  - apply json_ok_text in Hok as [Hok ->]. destruct (quote_text s k Hok) as (p & E & _). exists dq, (p +:+ String dq k). done.
  - by apply IH.
  - destruct l; by eexists _, _; split; [reflexivity|].
  - destruct l; by eexists _, _; split; [reflexivity|].
Qed.

(** *** Arrays and objects *)

(** A value is read back from its text, whatever follows. *)
Definition reads (j : json) : Prop :=
  json_ok j = true -> forall fuel d k, (jsize j <= fuel)%nat -> no_digit_head k ->
    readValue fuel (text ind d j +:+ k) = Some (norm j, k).

Definition elements (d : nat) (l : list json) : string :=
  strings_Join (map (fun j => line ind d +:+ text ind d j) l) ",".
Definition members (d : nat) (l : list (string * json)) : string :=
  strings_Join (map (fun kv => line ind d +:+ jstring kv.1 +:+ colon ind +:+ text ind d kv.2) l) ",".

Lemma read_elements d d' l j fuel k :
  Forall reads (j :: l) -> forallb json_ok (j :: l) = true ->
  (sum_list_with (fun j => S (jsize j)) (j :: l) <= fuel)%nat ->
  readElements fuel (elements d (j :: l) +:+ line ind d' +:+ String "]" k) = Some (map norm (j :: l), k).
Proof.
  revert j fuel. induction l as [|j' l IH]; intros j [|fuel] Hl Hok Hf; try (simpl in Hf; lia);
    rewrite Forall_cons in Hl; destruct Hl as [Hj Hl];
    cbn [forallb] in Hok; apply andb_true_iff in Hok as [Hokj Hok]; cbn [sum_list_with] in Hf.
  - unfold elements. cbn [map strings_Join readElements].
    rewrite string_app_assoc, readValue_line, Hj by (done || lia || by apply no_digit_line).
    by rewrite !expect_line, expect_other, expect_char.
  - change (elements d (j :: j' :: l)) with
      ((line ind d +:+ text ind d j) +:+ "," +:+ elements d (j' :: l)).
    cbn [readElements]. rewrite !string_app_assoc, readValue_line, Hj by (done || lia).
    change ("," +:+ ?s) with (String "," s). rewrite expect_char by done.
    rewrite IH by (done || simpl; lia). done.
Qed.

Lemma read_members d d' l kv fuel k :
  Forall (fun kv => reads kv.2) (kv :: l) -> forallb (fun kv => json_ok kv.2) (kv :: l) = true ->
  (sum_list_with (fun kv => S (jsize kv.2)) (kv :: l) <= fuel)%nat ->
  readMembers fuel (members d (kv :: l) +:+ line ind d' +:+ String "}" k)
  = Some (map (fun kv => (ToValidUTF8 kv.1, norm kv.2)) (kv :: l), k).
Proof.
  assert (Hc : forall s, expect ":" (colon ind +:+ s) = Some (if ind then String " " s else s))
    by (intros s; unfold colon; destruct ind; reflexivity).
  assert (Hv : forall n s, readValue n (if ind then String " " s else s) = readValue n s)
    by (intros [|n] s; destruct ind; reflexivity).
  revert kv fuel. induction l as [|kv' l IH]; intros [key v] [|fuel] Hl Hok Hf; try (simpl in Hf; lia);
    rewrite Forall_cons in Hl; destruct Hl as [Hj Hl];
    cbn [forallb] in Hok; apply andb_true_iff in Hok as [Hokj Hok]; cbn [sum_list_with snd] in Hf;
    unfold reads in Hj; cbn [snd] in Hj, Hokj.
  - unfold members. cbn [map strings_Join readMembers fst snd].
    rewrite !string_app_assoc, expect_line, jstring_app, expect_char by done. cbn [mbind option_bind].
    rewrite jstring_read, Hc. cbn [mbind option_bind].
    rewrite Hv, Hj by (done || lia || by apply no_digit_line).
    by rewrite !expect_line, expect_other, expect_char.
  - change (members d ((key, v) :: kv' :: l)) with
      ((line ind d +:+ jstring key +:+ colon ind +:+ text ind d v) +:+ "," +:+ members d (kv' :: l)).
    cbn [readMembers]. rewrite !string_app_assoc, expect_line, jstring_app, expect_char by done.
    cbn [mbind option_bind]. rewrite jstring_read, Hc. cbn [mbind option_bind].
    rewrite Hv, Hj by (done || lia). change ("," +:+ ?s) with (String "," s). rewrite expect_char by done.
    rewrite IH by (done || simpl; lia). done.
Qed.

Lemma read_text j : reads j.
Proof.
  induction j as [|b|z|s|raw s|type j IH|l IH|l IH] using json_ind2; intros Hok fuel d k Hf Hk;
    try (destruct fuel as [|fuel]; [simpl in Hf; lia|]).
  - apply read_null.
  - apply read_bool.
  - by apply read_number.
  - cbn [text]. rewrite jstring_app. apply read_dq. by apply escape_piece.
  - apply json_ok_text in Hok as [Hok ->]. destruct (quote_text s k Hok) as (p & E & Hp). cbn [text]. rewrite E. by apply read_dq.
  - by apply IH.
  - destruct l as [|j l]; [reflexivity|].
    change (text ind d (JArr (j :: l))) with ("[" +:+ elements (S d) (j :: l) +:+ line ind d +:+ "]").
    rewrite !string_app_assoc. change ("[" +:+ ?s) with (String "[" s). cbn [readValue].
    rewrite expect_other, expect_char by done.
    assert (Hn : forall s, expect "]" (elements (S d) (j :: l) +:+ s) = None).
    { intros s. cbn [json_ok forallb] in Hok. apply andb_true_iff in Hok as [Hokj _].
      unfold elements. destruct l as [|j' l]; cbn [map strings_Join]; rewrite !string_app_assoc, expect_line;
        (edestruct (text_head (S d) j) as (c & t & -> & Hw & Hc); [done|by apply expect_other]). }
    rewrite Hn, (read_elements _ _ _ _ _ k) by (done || simpl in Hf |- *; lia). done.
  - destruct l as [|kv l]; [reflexivity|].
    change (text ind d (JObj (kv :: l))) with ("{" +:+ members (S d) (kv :: l) +:+ line ind d +:+ "}").
    rewrite !string_app_assoc. change ("{" +:+ ?s) with (String "{" s). cbn [readValue].
    rewrite expect_char by done.
    assert (Hn : forall s, expect "}" (members (S d) (kv :: l) +:+ s) = None).
    { intros s. unfold members. destruct l; cbn [map strings_Join];
        rewrite !string_app_assoc, expect_line, jstring_app; by apply expect_other. }
    rewrite Hn, (read_members _ _ _ _ _ k) by (done || simpl in Hf |- *; lia). done.
Qed.
End values.

(** ** Whole texts *)

Lemma length_Join l :
  (sum_list_with (fun s => S (String.length s)) l <= S (String.length (strings_Join l ",")))%nat.
Proof.
  induction l as [|s [|t l] IH]; simpl; [lia..|]. rewrite !length_string_app. simpl in IH |- *. lia.
Qed.

Lemma sum_list_with_le {A B} (f : A -> nat) (g : B -> nat) (h : A -> B) l :
  Forall (fun x => f x <= g (h x))%nat l -> (sum_list_with f l <= sum_list_with g (map h l))%nat.
Proof. induction 1; simpl; lia. Qed.

Lemma forallb_Forall {A} (f : A -> bool) (P : A -> Prop) l :
  Forall (fun x => f x = true -> P x) l -> forallb f l = true -> Forall P l.
Proof. induction 1 as [|x l Hx _ IH]; simpl; [done|]. intros [? ?]%andb_true_iff. auto. Qed.

Section whole.
Context `{!Unicode}.

Lemma jsize_text ind j d : json_ok j = true -> (jsize j <= String.length (text ind d j))%nat.
Proof.
  revert d. induction j as [|[]|z|s|raw s|type j IH|l IH|l IH] using json_ind2; intros d Hok;
    try (simpl; lia).
  - destruct (FormatInt_read z "" I) as (c & s & E & _). rewrite string_app_nil_r in E.
    cbn [text]. rewrite E. simpl. lia.
  - apply json_ok_text in Hok as [Hok ->]. destruct (quote_text s "" Hok) as (p & E & _). rewrite string_app_nil_r in E.
    cbn [text]. rewrite E. simpl. lia.
  - by apply IH.
  - destruct l as [|j l]; [simpl; lia|].
    change (text ind d (JArr (j :: l))) with ("[" +:+ elements ind (S d) (j :: l) +:+ line ind d +:+ "]").
    pose proof (length_Join (map (fun j => line ind (S d) +:+ text ind (S d) j) (j :: l))) as Hj.
    assert (Hs := sum_list_with_le (fun j => S (jsize j)) (fun s => S (String.length s))
      (fun j => line ind (S d) +:+ text ind (S d) j) (j :: l)).
    rewrite !length_string_app. unfold elements. cbn [jsize String.length].
    unshelve epose proof (Hs _) as Hs'; [|lia]. eapply forallb_Forall; [|exact Hok].
    eapply Forall_impl; [exact IH|]. intros x Hx Hokx. specialize (Hx (S d) Hokx).
    rewrite length_string_app. lia.
  - destruct l as [|kv l]; [simpl; lia|].
    change (text ind d (JObj (kv :: l))) with ("{" +:+ members ind (S d) (kv :: l) +:+ line ind d +:+ "}").
    pose proof (length_Join (map (fun kv : string * json =>
      line ind (S d) +:+ jstring kv.1 +:+ colon ind +:+ text ind (S d) kv.2) (kv :: l))) as Hj.
    assert (Hs := sum_list_with_le (fun kv => S (jsize kv.2)) (fun s => S (String.length s))
      (fun kv : string * json => line ind (S d) +:+ jstring kv.1 +:+ colon ind +:+ text ind (S d) kv.2)
      (kv :: l)).
    rewrite !length_string_app. unfold members. cbn [jsize String.length].
    unshelve epose proof (Hs _) as Hs'; [|lia]. eapply forallb_Forall; [|exact Hok].
    eapply Forall_impl; [exact IH|]. intros x Hx Hokx. specialize (Hx (S d) Hokx).
    rewrite !length_string_app. lia.
Qed.

Lemma parse_text ind j : json_ok j = true -> parse (text ind 0 j) = Some (norm j).
Proof.
  intros Hok. unfold parse. pose proof (read_text ind j Hok (S (String.length (text ind 0 j))) 0%nat "") as Hr.
  rewrite string_app_nil_r in Hr. rewrite Hr; [done|..|done].
  pose proof (jsize_text ind j 0%nat Hok). lia.
Qed.

Lemma check_ok j : json_ok j = true -> check j = None.
Proof.
  induction j as [|b|z|s|raw s|type j IH|l IH|l IH] using json_ind2; intros Hok; try done; cbn [check].
  - apply json_ok_text in Hok as [Hok ->]. pose proof (quotable_ascii_only s Hok) as Ha.
    by rewrite (proj2 (badEscape_Quote s Ha)).
  - by rewrite IH.
  - eapply forallb_Forall in IH; [|exact Hok]. clear Hok.
    induction IH as [|x l Hx _ IHl]; simpl; [done|by rewrite Hx].
  - eapply forallb_Forall in IH; [|exact Hok]. clear Hok.
    induction IH as [|x l Hx _ IHl]; simpl; [done|by rewrite Hx].
Qed.
End whole.

(** Values without options that JSON cannot quote are encoded, and the text reads back. *)
Theorem json_roundtrip `{!Unicode} ind j :
  json_ok j = true -> exists t, encode ind j = inl t /\ parse t = Some (norm j).
Proof.
  intros Hok. exists (text ind 0 j). unfold encode. rewrite (check_ok j Hok).
  split; [done|by apply parse_text].
Qed.

(** Only printable ASCII is known of. *)
#[export] Instance ascii_tables : Unicode := {| IsPrintHigh _ := false |}.

Definition sample : json :=
  JObj [("n", JInt (-5)); ("o", JArr [JText (Quote "SACK") "SACK"; JText (Quote "a<b") "a<b"]); ("s", JString (String "200" "&")); ("w", JNull)].

Lemma json_roundtrip_witness :
  encode false sample = inl (text false 0 sample)
  /\ parse (text false 0 sample)
     = Some (JObj [("n", JInt (-5)); ("o", JArr [JString "SACK"; JString "a<b"]);
                   ("s", JString (encode_rune RuneError +:+ "&")); ("w", JNull)]).
Proof.
  destruct (json_roundtrip false sample) as (t & E & Hp); [vm_compute; reflexivity|].
  assert (Et : t = text false 0 sample) by (symmetry; injection E; auto).
  subst t. split; [exact E|]. rewrite Hp. vm_compute. reflexivity.
Defined.
