(* ===== verification/Layout.v ===== *)
(** How Go lays out a struct of unsigned integers in memory and how its fields
    are read from the bytes a system call stored there: shared by the platforms
    of pkg/tcpinfo, which pass the address of a struct to the kernel. *)

From stdpp Require Import base list strings.
From Stdlib Require Import ZArith Lia.
From S2P Require Import Prelude.

Local Open Scope Z_scope.

(** ** Memory *)

(** The value of a sequence of bytes, least significant first. *)
Fixpoint le_value (bs : list Z) : Z :=
  match bs with
  | [] => 0
  | b :: bs => b + 256 * le_value bs
  end.

Fixpoint le_bytes (n : nat) (v : Z) : list Z :=
  match n with
  | O => []
  | Datatypes.S n => v mod 256 :: le_bytes n (v / 256)
  end.

(** The unsigned integer stored in the given bytes; [be] on a big-endian
    machine. *)
Definition load (be : bool) (bs : list Z) : Z := le_value (if be then reverse bs else bs).
Definition store (be : bool) (n : nat) (v : Z) : list Z :=
  if be then reverse (le_bytes n v) else le_bytes n v.

(** Go's layout of a struct whose fields are unsigned integers of the given sizes
    in bytes: a field is aligned to its size, but to at most [maxAlign] (8 on
    64-bit platforms, 4 on 386). *)
Definition align (maxAlign : nat) (off size : nat) : nat :=
  let a := Nat.min size maxAlign in ((off + a - 1) / a * a)%nat.

Fixpoint offsets_from (maxAlign off : nat) (sizes : list nat) : list nat :=
  match sizes with
  | [] => []
  | n :: sizes => let o := align maxAlign off n in o :: offsets_from maxAlign (o + n) sizes
  end.

(** [unsafe.Sizeof] of the struct. *)
Definition structSize (maxAlign : nat) (sizes : list nat) : nat :=
  let last := match List.last (combine (offsets_from maxAlign 0 sizes) sizes) (0, 0)%nat with
              | (o, n) => (o + n)%nat end in
  align maxAlign last (foldr Nat.max 1%nat (Nat.min maxAlign <$> sizes)).

(** The value of field [i] of the struct stored at [mem]. *)
Definition field_at (maxAlign : nat) (be : bool) (sizes : list nat) (mem : list Z) (i : nat) : Z :=
  load be (take (sizes !!! i) (drop (offsets_from maxAlign 0 sizes !!! i) mem)).

(** The bytes of a struct with the given values, zeros in the padding. *)
Fixpoint encode_from (maxAlign : nat) (be : bool) (off : nat) (sizes : list nat) (vs : list Z)
    : list Z :=
  match sizes, vs with
  | n :: sizes, v :: vs =>
      let o := align maxAlign off n in
      replicate (o - off) 0 ++ store be n v ++ encode_from maxAlign be (o + n) sizes vs
  | _, _ => []
  end.

(** The memory of a struct after a system call stored [bs] at its address. *)
Definition stored_in (size : nat) (bs : list Z) : list Z :=
  bs ++ drop (length bs) (replicate size 0).

(** The alignments of the platforms Go supports. *)
Definition goAlign (maxAlign : nat) : Prop := (maxAlign = 4 \/ maxAlign = 8)%nat.

(** ** Bytes *)

Lemma length_le_bytes n v : length (le_bytes n v) = n.
Proof. revert v. induction n as [|n IH]; intros v; simpl; [done|]. by rewrite IH. Qed.

Lemma le_value_bytes n v : 0 <= v < 256 ^ Z.of_nat n -> le_value (le_bytes n v) = v.
Proof.
  revert v. induction n as [|n IH]; intros v Hv; [simpl in *; lia|]. cbn [le_bytes le_value].
  rewrite Nat2Z.inj_succ, Z.pow_succ_r in Hv by lia.
  rewrite IH; [|split; [apply Z.div_pos; lia|apply Z.div_lt_upper_bound; lia]].
  pose proof (Z.div_mod v 256). lia.
Qed.

Lemma length_store be n v : length (store be n v) = n.
Proof. unfold store. destruct be; rewrite ?length_reverse; apply length_le_bytes. Qed.

Lemma load_store be n v : inU (8 * Z.of_nat n) v -> load be (store be n v) = v.
Proof.
  unfold inU. rewrite Z.pow_mul_r by lia. change (2 ^ 8) with 256. intros Hv.
  unfold load, store. destruct be; rewrite ?reverse_involutive; by apply le_value_bytes.
Qed.

Lemma load_zeros be bs : Forall (eq 0) bs -> load be bs = 0.
Proof.
  assert (H : forall l, Forall (eq 0) l -> le_value l = 0).
  { induction 1 as [|b l <- _ IH]; simpl; lia. }
  intros Hb. unfold load. destruct be; apply H; [by apply Forall_reverse|done].
Qed.

(** ** Layout *)

Lemma align_le ma off n : (0 < ma)%nat -> (0 < n)%nat -> (off <= align ma off n)%nat.
Proof.
  intros Hma Hn. unfold align. set (a := Nat.min n ma). assert (a <> 0)%nat by lia.
  pose proof (Nat.div_mod (off + a - 1) a ltac:(done)) as E.
  pose proof (Nat.mod_upper_bound (off + a - 1) a ltac:(done)). nia.
Qed.

Lemma slice_encode ma be ns vs i n v o off :
  (0 < ma)%nat -> Forall (fun n => 0 < n)%nat ns ->
  ns !! i = Some n -> vs !! i = Some v -> offsets_from ma off ns !! i = Some o ->
  (off <= o)%nat
  /\ (o - off + n <= length (encode_from ma be off ns vs))%nat
  /\ take n (drop (o - off) (encode_from ma be off ns vs)) = store be n v.
Proof.
  intros Hma Hns. revert vs i off. induction Hns as [|m ns Hm Hns IH]; intros [|u vs] [|i] off Hn Hv Ho;
    simplify_eq/=; rewrite ?length_app, ?length_store, ?length_replicate.
  - pose proof (align_le ma off n Hma Hm) as Hal. split_and!; [lia..|]. rewrite drop_app_ge by by rewrite length_replicate.
    rewrite length_replicate, Nat.sub_diag, drop_0. apply take_app_length'. by rewrite length_store.
  - pose proof (align_le ma off m Hma Hm) as Hal.
    destruct (IH _ _ _ Hn Hv Ho) as (Hle & Hlen & E). split_and!; [lia..|].
    rewrite drop_app_ge by (rewrite length_replicate; lia).
    rewrite drop_app_ge by (rewrite length_replicate, length_store; lia).
    rewrite length_store, length_replicate.
    by replace (o - off - (align ma off m - off) - m)%nat with (o - (align ma off m + m))%nat by lia.
Qed.

(** A slice of a buffer of which the first [m] bytes were filled. *)
Lemma slice_prefix {A} (l z : list A) m o n :
  (o + n <= m)%nat -> (o + n <= length l)%nat ->
  take n (drop o (take m l ++ z)) = take n (drop o l).
Proof.
  intros Hm Hl. rewrite drop_app_le by (rewrite length_take; lia).
  rewrite take_app_le by (rewrite length_drop, length_take; lia).
  rewrite !take_drop_commute, take_take. by rewrite Nat.min_l by lia.
Qed.

Section fields.
Context (ma : nat) (be : bool) (sizes : list nat).
Hypothesis Hma : (0 < ma)%nat.
Hypothesis Hsizes : Forall (fun n => 0 < n)%nat sizes.

(** A field within the bytes that were copied has the value it was stored with. *)
Lemma field_at_copied vs m z i o n v :
  offsets_from ma 0 sizes !! i = Some o -> sizes !! i = Some n -> vs !! i = Some v ->
  inU (8 * Z.of_nat n) v -> (o + n <= m)%nat ->
  field_at ma be sizes (take m (encode_from ma be 0 sizes vs) ++ z) i = v.
Proof.
  intros Ho Hn Hv Hin Hm. unfold field_at.
  rewrite (list_lookup_total_correct _ _ _ Ho), (list_lookup_total_correct _ _ _ Hn).
  destruct (slice_encode ma be _ _ _ _ _ _ _ Hma Hsizes Hn Hv Ho) as (_ & Hlen & E).
  rewrite Nat.sub_0_r in *. rewrite slice_prefix, E by done. by apply load_store.
Qed.

(** A field after the bytes that were copied is zero. *)
Lemma field_at_zero size bs i o :
  offsets_from ma 0 sizes !! i = Some o -> (length bs <= o)%nat ->
  field_at ma be sizes (stored_in size bs) i = 0.
Proof.
  intros Ho Hm. unfold field_at. rewrite (list_lookup_total_correct _ _ _ Ho).
  apply load_zeros. unfold stored_in.
  apply Forall_take. rewrite drop_app_ge by done. apply Forall_drop, Forall_drop.
  by apply Forall_replicate.
Qed.
End fields.

(** A struct that was stored whole is read back whole. *)
Lemma field_at_whole ma be sizes vs size i :
  (0 < ma)%nat -> Forall (fun n => 0 < n)%nat sizes ->
  Forall2 (fun n v => inU (8 * Z.of_nat n) v) sizes vs -> (i < length sizes)%nat ->
  field_at ma be sizes (stored_in size (encode_from ma be 0 sizes vs)) i = vs !!! i.
Proof.
  intros Hma Hs Hr Hi. destruct (lookup_lt_is_Some_2 sizes i Hi) as [n Hn].
  destruct (Forall2_lookup_l _ _ _ _ _ Hr Hn) as (v & Hv & Hin).
  assert (Hl : forall off, length (offsets_from ma off sizes) = length sizes).
  { clear. induction sizes as [|m l IH]; intros off; simpl; [done|]. by rewrite IH. }
  destruct (lookup_lt_is_Some_2 (offsets_from ma 0 sizes) i) as [o Ho]; [by rewrite Hl|].
  destruct (slice_encode ma be _ _ _ _ _ _ _ Hma Hs Hn Hv Ho) as (_ & Hlen & _).
  rewrite Nat.sub_0_r in Hlen. rewrite (list_lookup_total_correct _ _ _ Hv). unfold stored_in.
  rewrite <- (firstn_all (encode_from ma be 0 sizes vs)) at 1.
  by apply field_at_copied with o n.
Qed.
