(* ===== verification/Kernel.v ===== *)
(** Package [kernel] (pkg/kernel): kernel versions, their parser, printer and
    order, and the functions that read the running kernel's version.  The
    system call and [unix.ByteSliceToString] come from golang.org/x/sys and are
    variables of the section that uses them. *)

From stdpp Require Import base list strings.
From Stdlib Require Import ZArith Ascii Lia.
From S2P Require Import Prelude GoFmt.

Local Open Scope Z_scope.

(** ** kernel.go: versions of Unix kernels *)

Record VersionInfo := mkVersion {
  Kernel : Z;
  Major : Z;
  Minor : Z;
  Flavor : string
}.

#[export] Instance VersionInfo_eq_dec : EqDecision VersionInfo.
Proof. solve_decision. Defined.

(** [VersionInfo.String]: the format "%d.%d.%d%s". *)
Definition VersionInfo_String (k : VersionInfo) : string :=
  FormatInt (Kernel k) +:+ "." +:+ FormatInt (Major k) +:+ "."
    +:+ FormatInt (Minor k) +:+ Flavor k.

Definition CompareKernelVersion (a b : VersionInfo) : Z :=
  if Kernel a <? Kernel b then -1
  else if Kernel a >? Kernel b then 1
  else if Major a <? Major b then -1
  else if Major a >? Major b then 1
  else if Minor a <? Minor b then -1
  else if Minor a >? Minor b then 1
  else 0.

(** [ParseRelease] on a platform whose [int] has [w] bits.  The scans leave the
    variables they do not reach at their zero values. *)
Definition ParseRelease (w : Z) (release : string) : VersionInfo + error :=
  let scanned := Sscanf w release "%d.%d%s" in
  let fail := inr (errors_New ("Can't parse kernel version " +:+ release)) in
  match scanned with
  | SInt kernel :: SInt major :: rest =>
      let partial := match rest with SStr p :: _ => p | _ => EmptyString end in
      let '(minor, flavor) :=
        match Sscanf w partial ".%d%s" with
        | [SInt minor] => (minor, EmptyString)
        | SInt minor :: SStr flavor :: _ => (minor, flavor)
        | _ => (0, partial)
        end in
      inl (mkVersion kernel major minor flavor)
  | _ => fail
  end.

(** ** kernel_unix.go and uname_unix.go *)

Section unix.
Context {Utsname : Type} (w : Z).
(** [unix.Uname], the [Release] field, [unix.ByteSliceToString] *)
Variable Uname : Utsname + error.
Variable Release : Utsname -> list ascii.
Variable ByteSliceToString : list ascii -> string.

Definition uname : Utsname + error := Uname.

Definition GetKernelVersion : VersionInfo + error :=
  match uname with
  | inr err => inr err
  | inl uts => ParseRelease w (ByteSliceToString (Release uts))
  end.

Definition CheckKernelVersion (k major minor : Z) : bool + error :=
  match GetKernelVersion with
  | inr err => inr err
  | inl v =>
      if CompareKernelVersion v (mkVersion k major minor "") <? 0
      then inl false else inl true
  end.
End unix.

(** uname_unsupported.go: the platforms without uname(2). *)
Definition uname_unsupported {Utsname : Type} : Utsname + error :=
  inr (errors_New "kernel version detection is not available on this platform").

(** ** kernel_windows.go *)

Module Windows.
Record VersionInfo := mkVersion { kvi : string; major : Z; minor : Z; build : Z }.

Definition VersionInfo_String (k : VersionInfo) : string :=
  FormatInt (major k) +:+ "." +:+ FormatInt (minor k) +:+ " " +:+ FormatInt (build k)
    +:+ " (" +:+ kvi k +:+ ")".

(** [GetKernelVersion]: the registry key, its string value and
    [windows.GetVersion] are read in this order; each can fail. *)
Definition GetKernelVersion (OpenKey : option error) (BuildLabEx : string + error)
    (GetVersion : Z + error) : VersionInfo * option error :=
  let KVI := mkVersion "Unknown" 0 0 0 in
  match OpenKey with
  | Some err => (KVI, Some err)
  | None =>
      match BuildLabEx with
      | inr err => (KVI, Some err)
      | inl blex =>
          match GetVersion with
          | inr err => (mkVersion blex 0 0 0, Some err)
          | inl dwVersion =>
              (mkVersion blex
                 (Z.land dwVersion 0xFF)
                 (Z.shiftr (Z.land dwVersion 0xFF00) 8)
                 (Z.shiftr (Z.land dwVersion 0xFFFF0000) 16), None)
          end
      end
  end.
End Windows.

(** ** Examples: the cases of kernel_unix_test.go *)

Example parse_ex1 :
  ParseRelease 64 "3.10.0-862.2.3.el7.x86_64" = inl (mkVersion 3 10 0 "-862.2.3.el7.x86_64").
Proof. reflexivity. Qed.
Example parse_ex2 : ParseRelease 64 "3.12-1-amd64" = inl (mkVersion 3 12 0 "-1-amd64").
Proof. reflexivity. Qed.
Example parse_ex3 : ParseRelease 64 "3.12.8tag" = inl (mkVersion 3 12 8 "tag").
Proof. reflexivity. Qed.
Example parse_ex4 : ParseRelease 64 "a.a.a-a" = inr (errors_New "Can't parse kernel version a.a.a-a").
Proof. reflexivity. Qed.
Example parse_ex5 : ParseRelease 64 "3" = inr (errors_New "Can't parse kernel version 3").
Proof. reflexivity. Qed.

(** ** Lemmas *)

Lemma no_digit_head_dot s : no_digit_head ("." +:+ s).
Proof. done. Qed.

(** The order of versions is the lexicographic order of the three numbers. *)
Definition version_lt (a b : VersionInfo) : Prop :=
  Kernel a < Kernel b
  \/ (Kernel a = Kernel b /\ (Major a < Major b \/ (Major a = Major b /\ Minor a < Minor b))).

Definition version_eq (a b : VersionInfo) : Prop :=
  Kernel a = Kernel b /\ Major a = Major b /\ Minor a = Minor b.

Lemma compare_cases a b :
  (CompareKernelVersion a b = -1 /\ version_lt a b)
  \/ (CompareKernelVersion a b = 0 /\ version_eq a b)
  \/ (CompareKernelVersion a b = 1 /\ version_lt b a).
Proof.
  unfold CompareKernelVersion, version_lt, version_eq.
  repeat case_match; try (left; split; [done|lia]);
    try (right; right; split; [done|lia]); right; left; split; [done|lia].
Qed.

(** [a >= b] as the callers test it. *)
Lemma compare_ge a b : 0 <= CompareKernelVersion a b <-> ~ version_lt a b.
Proof.
  destruct (compare_cases a b) as [[-> H]|[[-> H]|[-> H]]];
    unfold version_lt, version_eq in *; lia.
Qed.

#[export] Instance version_eq_equiv : Equivalence version_eq.
Proof. unfold version_eq. split; repeat intro; intuition congruence. Qed.

(** The flavor does not take part in the comparison. *)
#[export] Instance compare_proper :
  Proper (version_eq ==> version_eq ==> eq) CompareKernelVersion.
Proof.
  intros a a' (E1 & E2 & E3) b b' (F1 & F2 & F3). unfold CompareKernelVersion.
  by rewrite E1, E2, E3, F1, F2, F3.
Qed.

(** ** Parsing what [String] prints *)

(** A flavor [ParseRelease] can give back: ASCII without spaces, and not
    starting with a digit (a digit would be read as part of the minor number). *)
Definition flavor_ok (f : string) : Prop := plain_string f = true /\ no_digit_head f.

Definition version_in_range (w : Z) (v : VersionInfo) : Prop :=
  inS w (Kernel v) /\ inS w (Major v) /\ inS w (Minor v).

Lemma plain_string_app s t : plain_string (s +:+ t) = plain_string s && plain_string t.
Proof. induction s as [|c s IH]; simpl; [done|]. rewrite IH. by destruct (plain c). Qed.

Lemma plain_string_read s n : plain_string s = true -> plain_string (snd (read_digits 10 s n)) = true.
Proof.
  revert n. induction s as [|c s IH]; intros n H; simpl; [done|].
  pose proof H as [_ Hs]%andb_true_iff. destruct (digit_val 10 c); [by apply IH|done].
Qed.

Lemma plain_fmt_digits fuel n s :
  plain_string s = true -> plain_string (fmt_digits 10 fuel n s) = true.
Proof.
  revert n s. induction fuel as [|fuel IH]; intros n s Hs; simpl; [done|].
  assert (plain_string (String (digit_char (n mod 10)) s) = true).
  { simpl. rewrite Hs, digit_plain; [done|]. rewrite digit_val_char; [done|lia|].
    apply N.mod_lt. lia. }
  destruct (n <? 10)%N; [done|]. by apply IH.
Qed.

Lemma plain_FormatInt z : plain_string (FormatInt z) = true.
Proof.
  unfold FormatInt, fmt_N.
  destruct (z <? 0); [rewrite plain_string_app|]; by rewrite ?plain_fmt_digits.
Qed.

Lemma inS_mono w v z : (0 < w <= v)%Z -> inS w z -> inS v z.
Proof.
  unfold inS. intros Hw Hz.
  assert (2 ^ (w - 1) <= 2 ^ (v - 1)) by (apply Z.pow_le_mono_r; lia). lia.
Qed.

Lemma scan_minor w m f :
  0 < w <= 64 -> inS w m -> flavor_ok f ->
  Sscanf w ("." +:+ FormatInt m +:+ f) ".%d%s"
    = match f with EmptyString => [SInt m] | _ => [SInt m; SStr f] end.
Proof.
  intros Hw Hm [Hp Hd]. unfold Sscanf. simpl parse_format. cbn [doScanf].
  change ("." +:+ FormatInt m +:+ f) with (String "." (FormatInt m +:+ f)).
  cbn [Ascii.eqb Bool.eqb]. rewrite scan_int_FormatInt by eauto using inS_mono.
  cbn [doScanf]. destruct f as [|c f]; [done|]. by rewrite scan_str_plain.
Qed.

Lemma scan_release w v :
  0 < w <= 64 -> version_in_range w v -> flavor_ok (Flavor v) ->
  Sscanf w (VersionInfo_String v) "%d.%d%s"
    = [SInt (Kernel v); SInt (Major v); SStr ("." +:+ FormatInt (Minor v) +:+ Flavor v)].
Proof.
  intros Hw (H1 & H2 & H3) [Hp Hd]. unfold Sscanf, VersionInfo_String.
  simpl parse_format. cbn [doScanf].
  rewrite scan_int_FormatInt; [|by eapply inS_mono|done|done].
  set (m := FormatInt (Minor v) +:+ Flavor v).
  change ("." +:+ FormatInt (Major v) +:+ "." +:+ m)
    with (String "." (FormatInt (Major v) +:+ "." +:+ m)).
  cbn [Ascii.eqb Bool.eqb]. rewrite scan_int_FormatInt; [|by eapply inS_mono|done|done].
  change ("." +:+ m) with (String "." m). rewrite scan_str_plain; [done|].
  change (plain_string m = true). unfold m. by rewrite plain_string_app, plain_FormatInt.
Qed.

Lemma ParseRelease_print w v :
  0 < w <= 64 -> version_in_range w v -> flavor_ok (Flavor v) ->
  ParseRelease w (VersionInfo_String v) = inl v.
Proof.
  intros Hw Hv Hf. unfold ParseRelease. rewrite scan_release by done.
  destruct Hv as (_ & _ & Hm). rewrite scan_minor by done.
  destruct v as [k j m [|c f]]; done.
Qed.

(** C36: Parsing the printed form of a kernel version whose numbers fit the platform's
    int and whose flavor is plain ASCII without spaces and does not start with a digit
    gives the version back. *)
Theorem ParseRelease_String w v :
  0 < w <= 64 -> version_in_range w v -> flavor_ok (Flavor v) ->
  ParseRelease w (VersionInfo_String v) = inl v.
Proof. apply ParseRelease_print. Qed.

Lemma ParseRelease_String_witness :
  ParseRelease 64 (VersionInfo_String (mkVersion 5 4 17 "-2136.el8")) = inl (mkVersion 5 4 17 "-2136.el8").
Proof. apply (ParseRelease_String 64); [lia| |]; repeat split; vm_compute; congruence. Defined.

(** CompareKernelVersion is the lexicographic order of the three numbers: -1, 0 or
    1 as less, equal or greater, antisymmetric in sign and transitive. *)
Theorem CompareKernelVersion_order a b c :
  (CompareKernelVersion a b = -1 <-> version_lt a b)
  /\ (CompareKernelVersion a b = 0 <-> version_eq a b)
  /\ (CompareKernelVersion a b = 1 <-> version_lt b a)
  /\ CompareKernelVersion b a = - CompareKernelVersion a b
  /\ (CompareKernelVersion a b <= 0 /\ CompareKernelVersion b c <= 0 ->
      CompareKernelVersion a c <= 0).
Proof.
  unfold version_lt, version_eq, CompareKernelVersion.
  repeat case_match; repeat split; intros; lia.
Qed.

(** When uname reports the printed form of a version, CheckKernelVersion returns
    without error whether that version is at least the one asked for. *)
Theorem CheckKernelVersion_spec {U} w (uts : U) Release toString v k major minor :
  0 < w <= 64 -> version_in_range w v -> flavor_ok (Flavor v) ->
  toString (Release uts) = VersionInfo_String v ->
  exists b, CheckKernelVersion w (inl uts) Release toString k major minor = inl b
            /\ (b = true <-> ~ version_lt v (mkVersion k major minor "")).
Proof.
  intros Hw Hv Hf Hr. unfold CheckKernelVersion, GetKernelVersion, uname.
  rewrite Hr, ParseRelease_print by done.
  pose proof (compare_ge v (mkVersion k major minor "")) as Hge.
  destruct (Z.ltb_spec (CompareKernelVersion v (mkVersion k major minor "")) 0);
    eexists; (split; [done|]); rewrite <- Hge; split; try done; lia.
Qed.

Lemma CheckKernelVersion_spec_witness :
  exists b, CheckKernelVersion 64 (inl tt) (fun _ => []) (fun _ => "4.19.0-6-amd64"%string) 4 9 0 = inl b
            /\ (b = true <-> ~ version_lt (mkVersion 4 19 0 "-6-amd64") (mkVersion 4 9 0 "")).
Proof.
  apply (CheckKernelVersion_spec 64 tt); [lia| | |reflexivity]; repeat split; vm_compute; congruence.
Defined.

Lemma land_shiftr_byte x i n :
  0 <= i -> 0 <= n ->
  Z.shiftr (Z.land x (Z.shiftl (Z.ones n) i)) i = Z.shiftr x i mod 2 ^ n.
Proof.
  intros Hi Hn. rewrite Z.shiftr_land, Z.shiftr_shiftl_l, Z.sub_diag, Z.shiftl_0_r by lia.
  by rewrite Z.land_ones.
Qed.

(** On Windows the major, minor and build numbers are the bytes and the upper half
    of the 32-bit version word, which they determine. *)
Theorem Windows_GetKernelVersion_lossless lab dw :
  inU 32 dw ->
  exists v, Windows.GetKernelVersion None (inl lab) (inl dw) = (v, None)
    /\ Windows.kvi v = lab
    /\ inU 8 (Windows.major v) /\ inU 8 (Windows.minor v) /\ inU 16 (Windows.build v)
    /\ dw = Windows.major v + 2 ^ 8 * Windows.minor v + 2 ^ 16 * Windows.build v.
Proof.
  intros Hdw. eexists. split; [done|]. cbn [Windows.kvi Windows.major Windows.minor Windows.build].
  change 0xFF with (Z.ones 8). change 0xFF00 with (Z.shiftl (Z.ones 8) 8).
  change 0xFFFF0000 with (Z.shiftl (Z.ones 16) 16).
  rewrite Z.land_ones, !land_shiftr_byte, !Z.shiftr_div_pow2 by lia.
  unfold inU in *. repeat split; try (apply Z.mod_pos_bound; lia).
  change (2 ^ 16) with 65536 in *. change (2 ^ 8) with 256. change (2 ^ 32) with 4294967296 in Hdw.
  Z.to_euclidean_division_equations. lia.
Qed.

Lemma Windows_GetKernelVersion_lossless_witness :
  exists v, Windows.GetKernelVersion None (inl "7601.win7sp1"%string) (inl 0x1DB10106) = (v, None)
    /\ Windows.kvi v = "7601.win7sp1"%string
    /\ inU 8 (Windows.major v) /\ inU 8 (Windows.minor v) /\ inU 16 (Windows.build v)
    /\ 0x1DB10106 = Windows.major v + 2 ^ 8 * Windows.minor v + 2 ^ 16 * Windows.build v.
Proof. apply Windows_GetKernelVersion_lossless. unfold inU. lia. Defined.
