(* ===== verification/TcpInfo.v ===== *)
(** pkg/tcpinfo/tcpinfo.go: the platform-independent record [Info], TCP options,
    their copies and their dynamic representation [map[string]any]; the class
    [Platform] is what the connection wrapper needs of a platform's [SysInfo]. *)

From stdpp Require Import base list strings gmap.
From Stdlib Require Import ZArith NArith Ascii Lia.
From S2P Require Import Prelude GoFmt.

Local Open Scope Z_scope.

(** ** Slices *)

(** A Go slice as a value: [None] is the nil slice, which differs from an empty
    slice when it is encoded. *)
Definition slice (A : Type) : Type := option (list A).
Definition elems {A} (s : slice A) : list A := default [] s.

(** [append(s, x...)]: appending nothing to a nil slice leaves it nil. *)
Definition append {A} (s : slice A) (x : list A) : slice A :=
  match s, x with
  | None, [] => None
  | _, _ => Some (elems s ++ x)
  end.

(** ** Options *)

Record Option := mkOption { Kind : string; Value : Z }.

#[export] Instance Option_eq_dec : EqDecision Option.
Proof. solve_decision. Defined.

Definition Option_String (o : Option) : string :=
  if Value o =? 0 then Kind o
  else Kind o +:+ ":" +:+ FormatHex2 (Value o).

Definition cloneOptions (options : slice Option) : slice Option :=
  match options with
  | None => None
  | Some l => append None l
  end.

(** The warning a positive counter contributes: [name=value]. *)
Definition warn (name : string) (v : Z) : list string :=
  if v >? 0 then [(name +:+ "=" +:+ FormatUint v)%string] else [].

(** ** Dynamic values *)

(** The values stored in a [map[string]any], tagged with their Go type. *)
#[warnings="-register-all"]
Inductive any :=
| AInt (z : Z) | AInt64 (z : Z)
| AUint8 (z : Z) | AUint16 (z : Z) | AUint32 (z : Z) | AUint64 (z : Z)
| ADuration (z : Z) | ABool (b : bool) | AString (s : string)
| AStrings (l : slice string) | AOptions (l : slice Option)
| AMap (m : gmap string any).

(** ** Info *)

Record Info {S : Type} := mkInfo {
  State : string;
  TxOptions : slice Option;
  RxOptions : slice Option;
  TxMSS : Z;
  RxMSS : Z;
  RTT : Z;
  RTTVar : Z;
  RTO : Z;
  ATO : Z;
  LastTxAt : Z;
  LastRxAt : Z;
  LastTxAckAt : Z;
  LastRxAckAt : Z;
  RxWindow : Z;
  TxSSThreshold : Z;
  RxSSThreshold : Z;
  TxWindowBytes : Z;
  TxWindowSegs : Z;
  Retransmits : Z;
  Sys : option S
}.
Arguments Info : clear implicits.

(** What a platform provides: the methods of its [SysInfo] and [Supported]. *)
Class Platform (S : Type) := {
  sys_Clone : S -> S;
  sys_ToInfo : S -> Info S;
  sys_Warnings : S -> list string;
  sys_ToMap : S -> gmap string any;
  Supported : bool
}.

Section info.
Context {S : Type} `{!Platform S}.

Definition Info_Clone (i : Info S) : Info S :=
  mkInfo S (State i) (cloneOptions (TxOptions i)) (cloneOptions (RxOptions i))
    (TxMSS i) (RxMSS i) (RTT i) (RTTVar i) (RTO i) (ATO i)
    (LastTxAt i) (LastRxAt i) (LastTxAckAt i) (LastRxAckAt i)
    (RxWindow i) (TxSSThreshold i) (RxSSThreshold i) (TxWindowBytes i) (TxWindowSegs i)
    (Retransmits i) (sys_Clone <$> Sys i).

Definition Info_ToMap (i : Info S) : gmap string any :=
  let m : gmap string any := list_to_map [
    ("state", AString (State i));
    ("txOptions", AOptions (TxOptions i));
    ("rxOptions", AOptions (RxOptions i));
    ("txMSS", AUint64 (TxMSS i));
    ("rxMSS", AUint64 (RxMSS i));
    ("rtt", ADuration (RTT i));
    ("rttVar", ADuration (RTTVar i));
    ("rto", ADuration (RTO i));
    ("ato", ADuration (ATO i));
    ("lastTxAt", ADuration (LastTxAt i));
    ("lastRxAt", ADuration (LastRxAt i));
    ("lastTxAckAt", ADuration (LastTxAckAt i));
    ("lastRxAckAt", ADuration (LastRxAckAt i));
    ("rxWindow", AUint64 (RxWindow i));
    ("txSSThreshold", AUint64 (TxSSThreshold i));
    ("rxSSThreshold", AUint64 (RxSSThreshold i));
    ("txCWindowBytes", AUint64 (TxWindowBytes i));
    ("txCWindowSegs", AUint64 (TxWindowSegs i));
    ("retransmits", AUint64 (Retransmits i)) ]%string in
  match Sys i with
  | Some s => <["sysInfo" := AMap (sys_ToMap s)]> m
  | None => m
  end.
End info.

(** ** Equality of dynamic values up to nil slices *)

(** [cloneOptions] turns an empty slice that is not nil into nil; the two hold
    the same elements. [any_eqv] relates values that differ only in this. *)
#[warnings="-register-all"]
Inductive any_eqv : any -> any -> Prop :=
| eqv_refl a : any_eqv a a
| eqv_options l l' : elems l = elems l' -> any_eqv (AOptions l) (AOptions l')
| eqv_map m m' :
    (forall k, option_Forall2 any_eqv (m !! k) (m' !! k)) -> any_eqv (AMap m) (AMap m').

Definition map_eqv (m m' : gmap string any) : Prop :=
  forall k, option_Forall2 any_eqv (m !! k) (m' !! k).

(** What the wrapper relies on: a copy of a [SysInfo] has the same warnings and
    the same contents. *)
Class PlatformLaws (S : Type) `{!Platform S} := {
  clone_warnings s : sys_Warnings (sys_Clone s) = sys_Warnings s;
  clone_map s : map_eqv (sys_ToMap (sys_Clone s)) (sys_ToMap s)
}.

#[export] Hint Constructors any_eqv : go.

Lemma elems_append {A} (s : slice A) x : elems (append s x) = elems s ++ x.
Proof. destruct s, x; simpl; by rewrite ?app_nil_r. Qed.

Lemma elems_cloneOptions s : elems (cloneOptions s) = elems s.
Proof. destruct s as [l|]; [|done]. by destruct l. Qed.

Lemma map_eqv_refl m : map_eqv m m.
Proof. intros k. destruct (m !! k); constructor. auto with go. Qed.

Lemma map_eqv_insert k v v' m m' :
  any_eqv v v' -> map_eqv m m' -> map_eqv (<[k:=v]> m) (<[k:=v']> m').
Proof. intros Hv Hm j. rewrite !lookup_insert. case_decide; [by constructor|apply Hm]. Qed.

(** Map literals with the same keys and related values are related. *)
Lemma map_eqv_literal (l l' : list (string * any)) :
  Forall2 (fun p q => p.1 = q.1 /\ any_eqv p.2 q.2) l l' ->
  map_eqv (list_to_map l) (list_to_map l').
Proof.
  induction 1 as [|[k v] [k' v'] l l' [Hk Hv] _ IH]; [apply map_eqv_refl|].
  simpl in *. subst k'. by apply map_eqv_insert.
Qed.

#[export] Hint Resolve map_eqv_refl map_eqv_insert elems_cloneOptions : go.

(** Proves a [map_eqv] between two map literals with the same keys. *)
Ltac solve_map_eqv :=
  apply map_eqv_literal; repeat (apply Forall2_cons; split);
  [..|apply Forall2_nil_2]; (split; [done|]); simpl; auto with go.

Section info_laws.
Context {S : Type} `{!Platform S, !PlatformLaws S}.

Lemma Info_Clone_map (i : Info S) : map_eqv (Info_ToMap (Info_Clone i)) (Info_ToMap i).
Proof.
  unfold Info_ToMap. destruct i as [? ? ? ? ? ? ? ? ? ? ? ? ? ? ? ? ? ? ? sys].
  cbn [Info_Clone Sys State TxOptions RxOptions TxMSS RxMSS RTT RTTVar RTO ATO LastTxAt
    LastRxAt LastTxAckAt LastRxAckAt RxWindow TxSSThreshold RxSSThreshold TxWindowBytes
    TxWindowSegs Retransmits].
  destruct sys as [s|]; cbn [fmap option_fmap option_map].
  - apply map_eqv_insert; [apply eqv_map, clone_map|]. solve_map_eqv.
  - solve_map_eqv.
Qed.
End info_laws.

(** ** Loops over bit flags *)

Lemma land_bit x i : 0 <= i -> (Z.land x (2 ^ i) =? 0) = negb (Z.testbit x i).
Proof.
  intros Hi. destruct (Z.testbit x i) eqn:E; simpl.
  - apply Z.eqb_neq. intros H. apply (f_equal (fun z => Z.testbit z i)) in H.
    rewrite Z.land_spec, E, Z.pow2_bits_true, Z.bits_0 in H by done. done.
  - apply Z.eqb_eq. apply Z.bits_inj'. intros n Hn. rewrite Z.land_spec, Z.bits_0.
    destruct (decide (n = i)) as [->|]; [by rewrite E|].
    by rewrite Z.pow2_bits_false, andb_false_r.
Qed.

Lemma append_app {A} (s : slice A) x y : append (append s x) y = append s (x ++ y).
Proof. destruct s, x, y; simpl; rewrite ?app_nil_r; try done. by rewrite <- app_assoc. Qed.

Lemma append_nil {A} (s : slice A) : append s [] = s.
Proof. destruct s; simpl; by rewrite ?app_nil_r. Qed.

(** A loop whose iterations append to two slices. *)
Lemma fold_append {A B} (f : slice A * slice A -> B -> slice A * slice A) (g : nat -> B) x y l acc :
  (forall i acc, i ∈ l -> f acc (g i) = (append acc.1 (x i), append acc.2 (y i))) ->
  fold_left f (g <$> l) acc
  = (append acc.1 (concat (x <$> l)), append acc.2 (concat (y <$> l))).
Proof.
  revert acc. induction l as [|i l IH]; intros acc H; csimpl.
  - rewrite !append_nil. by destruct acc.
  - rewrite H by left. rewrite IH by (intros; apply H; by right). cbn [fst snd].
    by rewrite !append_app.
Qed.

(** ** Printed options *)

Fixpoint no_colon (s : string) : bool :=
  match s with String c s => negb (Ascii.eqb c ":") && no_colon s | EmptyString => true end.

Lemma colon_split k1 k2 t1 t2 :
  no_colon k1 = true -> no_colon k2 = true ->
  (k1 +:+ ":" +:+ t1 = k2 +:+ ":" +:+ t2)%string -> k1 = k2 /\ t1 = t2.
Proof.
  revert k2. induction k1 as [|c k1 IH]; intros [|c2 k2] H1 H2 E; simpl in *; simplify_eq/=;
    try done.
  apply andb_true_iff in H1 as [_ H1]. apply andb_true_iff in H2 as [_ H2].
  destruct (IH k2) as [-> ->]; done.
Qed.

Lemma colon_absent k1 k2 t : no_colon k1 = true -> k1 <> (k2 +:+ ":" +:+ t)%string.
Proof.
  intros H ->. induction k2 as [|c k2 IH]; simpl in *; [done|].
  apply andb_true_iff in H as [_ H]. by apply IH.
Qed.

Lemma read_FormatHex2 z : read_digits 16 (FormatHex2 z) 0 = (Z.to_N z, EmptyString).
Proof.
  assert (read_digits 16 (fmt_N 16 (Z.to_N z)) 0 = (Z.to_N z, EmptyString)) as H.
  { rewrite <- (string_app_nil_r (fmt_N 16 (Z.to_N z))). by rewrite read_fmt_N. }
  unfold FormatHex2. destruct (_ <? 2)%nat; [|done]. exact H.
Qed.

(** Two TCP options whose kinds have no colon print differently unless they are
    equal. *)
Theorem Option_String_inj o1 o2 :
  no_colon (Kind o1) = true -> no_colon (Kind o2) = true ->
  0 <= Value o1 -> 0 <= Value o2 ->
  Option_String o1 = Option_String o2 -> o1 = o2.
Proof.
  destruct o1 as [k1 v1], o2 as [k2 v2]. unfold Option_String. simpl.
  intros H1 H2 P1 P2. destruct (Z.eqb_spec v1 0) as [->|N1], (Z.eqb_spec v2 0) as [->|N2]; intros E.
  - by subst.
  - by apply colon_absent in E.
  - symmetry in E. by apply colon_absent in E.
  - apply colon_split in E as [-> E]; [|done..].
    apply (f_equal (fun s => (read_digits 16 s 0).1)) in E.
    rewrite !read_FormatHex2 in E. simpl in E. f_equal. lia.
Qed.

Lemma Option_String_inj_witness :
  Option_String (mkOption "WindowScale" 8) = "WindowScale:08"%string
  /\ mkOption "WindowScale" 8 = mkOption "WindowScale" 8.
Proof.
  split; [reflexivity|].
  apply Option_String_inj; vm_compute; congruence.
Defined.
