(* ===== verification/JsonAny.v ===== *)
(** The JSON of the values in a [map[string]any]: encoding/json writes the entries of a
    map in the order of their keys, a duration as its nanoseconds, a nil slice as null,
    and an option with its method [MarshalJSON] (pkg/tcpinfo/tcpinfo.go). *)

From stdpp Require Import base list strings sets gmap sorting.
From Stdlib Require Import ZArith NArith Ascii Lia.
From S2P Require Import Prelude GoFmt Utf8 Json JsonRead TcpInfo.

Local Open Scope Z_scope.

(** ** Encoding *)

(** [Option.MarshalJSON] returns [strconv.Quote(o.String())]. *)
Definition Option_MarshalJSON `{!Unicode} (o : Option) : string := Quote (Option_String o).
Definition option_json `{!Unicode} (o : Option) : json := JText (Option_MarshalJSON o) (Option_String o).

(** A new entry of an object among those with smaller and greater keys. *)
Fixpoint insert_member (k : string) (v : json) (l : list (string * json)) : list (string * json) :=
  match l with
  | [] => [(k, v)]
  | kv :: l' => if String.ltb k kv.1 then (k, v) :: l else kv :: insert_member k v l'
  end.

Definition slice_json {A} (f : A -> json) (l : slice A) : json :=
  match l with None => JNull | Some l => JArr (map f l) end.

Fixpoint any_json `{!Unicode} (a : any) : json :=
  match a with
  | AInt z | AInt64 z | AUint8 z | AUint16 z | AUint32 z | AUint64 z | ADuration z => JInt z
  | ABool b => JBool b
  | AString s => JString s
  | AStrings l => slice_json JString l
  | AOptions l => slice_json option_json l
  | AMap m => JObj (map_fold (fun k a l => insert_member k (any_json a) l) [] m)
  end.

Definition members_of `{!Unicode} (m : gmap string any) : list (string * json) :=
  map_fold (fun k a l => insert_member k (any_json a) l) [] m.

(** [json.Marshal(m)] and [json.MarshalIndent] *)
Definition Marshal `{!Unicode} (ind : bool) (m : gmap string any) : string + error :=
  encode ind (any_json (AMap m)).

Example marshal_ex :
  any_json (AMap {[ "b" := AInt 1; "a" := AOptions (Some [mkOption "SACK" 0; mkOption "W" 7]) ]}%string)
  = JObj [("a", JArr [JText (Quote "SACK") "SACK"; JText (Quote "W:07") "W:07"]); ("b", JInt 1)]%string.
Proof. vm_compute. reflexivity. Qed.

(** ** The entries of an object *)

Definition key_lt (x y : string * json) : Prop := String.ltb x.1 y.1 = true.

Lemma insert_member_perm k v l : insert_member k v l ≡ₚ (k, v) :: l.
Proof.
  induction l as [|kv l IH]; [done|]. simpl. destruct (String.ltb k kv.1); [done|].
  rewrite IH. constructor.
Qed.

Lemma insert_member_sorted k v l :
  k ∉ l.*1 -> StronglySorted key_lt l -> StronglySorted key_lt (insert_member k v l).
Proof.
  induction l as [|[k' v'] l IH]; intros Hk Hs; simpl; [repeat constructor|].
  rewrite fmap_cons, not_elem_of_cons in Hk. destruct Hk as [Hne Hk].
  inversion_clear Hs as [|? ? Hs' Hf]. destruct (String.ltb k k') eqn:E.
  - constructor; [by constructor|]. constructor; [done|].
    eapply Forall_impl; [exact Hf|]. intros x Hx. by eapply ltb_trans.
  - constructor; [by apply IH|]. rewrite insert_member_perm. constructor; [|done].
    unfold key_lt. simpl. by rewrite ltb_total, E.
Qed.

(** The entries of an object are those of the map, in ascending order. *)
Section any.
Context {Uni : Unicode}.

Lemma members_of_spec m :
  StronglySorted key_lt (members_of m) /\ NoDup (members_of m).*1
  /\ list_to_map (members_of m) = any_json <$> m.
Proof.
  unfold members_of.
  apply (map_fold_weak_ind (fun l (m : gmap string any) =>
    StronglySorted key_lt l /\ NoDup l.*1 /\ (list_to_map l : gmap string json) = any_json <$> m)).
  { split_and!; [constructor|constructor|]. by rewrite fmap_empty. }
  intros k a m' l Hk (Hs & Hd & E).
  assert (Hn : k ∉ l.*1).
  { apply not_elem_of_list_to_map. by rewrite E, lookup_fmap, Hk. }
  assert (Hd' : NoDup (insert_member k (any_json a) l).*1).
  { rewrite insert_member_perm. by constructor. }
  split_and!; [by apply insert_member_sorted|done|].
  rewrite (list_to_map_proper _ _ Hd' (insert_member_perm k (any_json a) l)).
  simpl. by rewrite E, fmap_insert.
Qed.

Lemma members_of_elem m k j :
  (k, j) ∈ members_of m <-> exists a, m !! k = Some a /\ j = any_json a.
Proof.
  destruct (members_of_spec m) as (_ & Hd & E).
  rewrite (elem_of_list_to_map _ _ _ Hd), E, lookup_fmap, fmap_Some. naive_solver.
Qed.

(** ** Maps that can be encoded *)

(** The options of the value have quotable texts. *)
Definition any_ok (a : any) : Prop := json_ok (any_json a) = true.

Lemma any_ok_map m : any_ok (AMap m) <-> map_Forall (fun _ => any_ok) m.
Proof.
  unfold any_ok. change (any_json (AMap m)) with (JObj (members_of m)). cbn [json_ok].
  rewrite forallb_forall. setoid_rewrite <- list_elem_of_In. split.
  - intros H k a Ha. apply (H (k, any_json a)). apply members_of_elem. by exists a.
  - intros H [k j] (a & Ha & ->)%members_of_elem. by apply (H k).
Qed.

Lemma any_ok_insert k a (m : gmap string any) :
  any_ok a -> map_Forall (fun _ => any_ok) m -> map_Forall (fun _ => any_ok) (<[k:=a]> m).
Proof. intros Ha Hm. by apply (map_Forall_insert_2 (fun _ => any_ok)). Qed.

Lemma any_ok_literal (l : list (string * any)) :
  Forall (fun kv => any_ok kv.2) l -> map_Forall (fun _ => any_ok) (list_to_map l : gmap string any).
Proof. induction 1 as [|[k a] l Ha _ IH]; [apply map_Forall_empty|]. by apply any_ok_insert. Qed.

(** Values other than options and maps can always be encoded. *)
Definition plain_any (a : any) : bool :=
  match a with AOptions _ | AMap _ => false | _ => true end.

Lemma any_ok_plain a : plain_any a = true -> any_ok a.
Proof.
  destruct a as [| | | | | | | | |[l|]| |]; try done. intros _. unfold any_ok. simpl.
  induction l; [done|exact IHl].
Qed.

Definition options_ok (l : slice Option) : Prop := Forall (fun o => quotable (Option_String o) = true) (elems l).

Lemma option_json_ok o : quotable (Option_String o) = true -> json_ok (option_json o) = true.
Proof. intros Ho. simpl. by rewrite Ho, (proj2 (String.eqb_eq _ _) eq_refl). Qed.

Lemma any_ok_options l : options_ok l -> any_ok (AOptions l).
Proof.
  destruct l as [l|]; [|done]. unfold options_ok, any_ok. simpl. intros H.
  induction H as [|o l Ho _ IH]; [done|]. cbn [map forallb].
  by rewrite (option_json_ok _ Ho), IH.
Qed.

End any.
#[export] Hint Resolve any_ok_plain any_ok_options any_ok_insert any_ok_literal : go.

(** ** Reading a map back *)

Lemma ToValidUTF8_ascii s : ascii_only s = true -> ToValidUTF8 s = s.
Proof.
  unfold ToValidUTF8. induction s as [|c s IH]; [done|]. cbn [ascii_only String.length valid_runes].
  intros [Hc%Z.ltb_lt Hs]%andb_true_iff. rewrite decode_rune_ascii, encode_rune_ascii by done.
  by rewrite IH.
Qed.

(** The keys of the map are ASCII. *)
Definition keys_ok (m : gmap string any) : Prop := map_Forall (fun k _ => ascii_only k = true) m.

Lemma norm_members `{!Unicode} m :
  keys_ok m ->
  map (fun kv => (ToValidUTF8 kv.1, norm kv.2)) (members_of m)
  = map (fun kv => (kv.1, norm kv.2)) (members_of m).
Proof.
  intros Hk. apply map_ext_in. intros [k j] Hin%list_elem_of_In.
  apply members_of_elem in Hin as (a & Ha & _). by rewrite ToValidUTF8_ascii by by apply (Hk k a).
Qed.

Lemma map_norm_spec l :
  StronglySorted key_lt l ->
  StronglySorted key_lt (map (fun kv => (kv.1, norm kv.2)) l)
  /\ (list_to_map (map (fun kv => (kv.1, norm kv.2)) l) : gmap string json) = norm <$> list_to_map l.
Proof.
  induction 1 as [|[k j] l Hs [IH1 IH2] Hf]; simpl; [by rewrite fmap_empty; split; [constructor|]|].
  split; [constructor; [done|]|by rewrite IH2, fmap_insert]. by apply Forall_map.
Qed.

Lemma Marshal_reads `{!Unicode} ind m :
  any_ok (AMap m) -> keys_ok m ->
  exists t l, Marshal ind m = inl t /\ parse t = Some (JObj l)
    /\ StronglySorted key_lt l /\ (list_to_map l : gmap string json) = norm ∘ any_json <$> m.
Proof.
  intros Hok Hk. exists (text ind 0 (any_json (AMap m))), (map (fun kv => (kv.1, norm kv.2)) (members_of m)).
  destruct (members_of_spec m) as (Hs & _ & E). destruct (map_norm_spec _ Hs) as [H1 H2].
  split_and!; [| |done|].
  - unfold Marshal, encode. by rewrite check_ok.
  - rewrite parse_text by done. change (any_json (AMap m)) with (JObj (members_of m)).
    cbn [norm]. by rewrite norm_members.
  - by rewrite H2, E, map_fmap_compose.
Qed.
