(* ===== verification/Other.v ===== *)
(** pkg/tcpinfo/tcpinfo_other.go: platforms without TCP information.  [SysInfo]
    is empty, and [Supported] is false. *)

From stdpp Require Import base list strings gmap.
From Stdlib Require Import ZArith.
From S2P Require Import Prelude GoFmt TcpInfo.

Module Other.
Record SysInfo := mkSysInfo {}.

Definition Clone (s : SysInfo) : SysInfo := s.

(** [&Info{}] *)
Definition ToInfo (s : SysInfo) : Info SysInfo :=
  mkInfo SysInfo "" None None 0 0 0 0 0 0 0 0 0 0 0 0 0 0 0 0 None.

Definition Warnings (s : SysInfo) : list string := [].

Definition ToMap (s : SysInfo) : gmap string any := ∅.

(** [goos] is [runtime.GOOS]. *)
Definition GetTCPInfo (goos : string) (fd : Z) : option SysInfo * option error :=
  (None, Some (errors_New (goos +:+ " is unsupported"))).

Definition Supported : bool := false.
End Other.

#[export] Instance Other_Platform : Platform Other.SysInfo := {|
  sys_Clone := Other.Clone;
  sys_ToInfo := Other.ToInfo;
  sys_Warnings := Other.Warnings;
  sys_ToMap := Other.ToMap;
  Supported := Other.Supported
|}.

#[export] Instance Other_Laws : PlatformLaws Other.SysInfo.
Proof. split; intros s; [done|apply map_eqv_refl]. Qed.
