(* ===== verification/LinuxInit.v ===== *)
(** pkg/tcpinfo/init_linux.go: the versions of the Linux kernel that extended
    [struct tcp_info], and the package variables that record which of them the
    running kernel has. *)

From stdpp Require Import base list strings functions.
From Stdlib Require Import ZArith Lia.
From S2P Require Import Prelude Kernel.

Local Open Scope Z_scope.
Local Open Scope go_scope.

(** The variables [kernelVersionIsAtLeast_x_y], to which the table holds
    pointers. *)
Inductive kflag :=
| at_2_6_2 | at_3_15 | at_4_1 | at_4_2 | at_4_6 | at_4_9 | at_4_10 | at_4_18 | at_4_19
| at_5_4 | at_5_5 | at_6_2 | at_6_7.

#[export] Instance kflag_eq_dec : EqDecision kflag.
Proof. solve_decision. Defined.

Record VersionedStructSize := mkVSS { Version : VersionInfo; Size : Z; Flag : kflag }.

Definition tcpInfoSizes : list VersionedStructSize := [
  mkVSS (mkVersion 2 6 2 "") 104 at_2_6_2;
  mkVSS (mkVersion 3 15 0 "") 120 at_3_15;
  mkVSS (mkVersion 4 1 0 "") 136 at_4_1;
  mkVSS (mkVersion 4 2 0 "") 144 at_4_2;
  mkVSS (mkVersion 4 6 0 "") 160 at_4_6;
  mkVSS (mkVersion 4 9 0 "") 148 at_4_9;
  mkVSS (mkVersion 4 10 0 "") 192 at_4_10;
  mkVSS (mkVersion 4 18 0 "") 200 at_4_18;
  mkVSS (mkVersion 4 19 0 "") 224 at_4_19;
  mkVSS (mkVersion 5 4 0 "") 232 at_5_4;
  mkVSS (mkVersion 5 5 0 "") 232 at_5_5;
  mkVSS (mkVersion 6 2 0 "") 240 at_6_2;
  mkVSS (mkVersion 6 7 0 "") 248 at_6_7 ]%string.

(** The package's variables. *)
Record globals := mkGlobals {
  linuxKernelVersion : option VersionInfo;
  sizeOfRawTCPInfo : Z;
  flags : kflag -> bool
}.

Definition globals_eta (g : globals) : globals :=
  mkGlobals (linuxKernelVersion g) (sizeOfRawTCPInfo g) (flags g).
#[export] Instance set_version : Setter linuxKernelVersion :=
  ltac:(setter globals_eta linuxKernelVersion).
#[export] Instance set_size : Setter sizeOfRawTCPInfo :=
  ltac:(setter globals_eta sizeOfRawTCPInfo).
#[export] Instance set_flags : Setter flags := ltac:(setter globals_eta flags).

(** Their values when the program starts. *)
Definition globals0 : globals := mkGlobals None 0 (fun _ => false).

(** [for j := i; j >= 0; j--] with [i = n - 1] *)
Fixpoint raise_flags (n : nat) (g : globals) : globals :=
  match n with
  | O => g
  | Datatypes.S j =>
      match tcpInfoSizes !! j with
      | Some e => raise_flags j (g <| flags := <[Flag e := true]> (flags g) |>)
      | None => g
      end
  end.

(** [for i := len(tcpInfoSizes) - 1; i >= 0; i--], entered with [i = n - 1] *)
Fixpoint adapt_loop (v : VersionInfo) (n : nat) (g : globals) : globals :=
  match n with
  | O => g
  | Datatypes.S i =>
      match tcpInfoSizes !! i with
      | Some e =>
          if CompareKernelVersion v (Version e) >=? 0
          then raise_flags (Datatypes.S i) (g <| sizeOfRawTCPInfo := Size e |>)
          else adapt_loop v i (g <| flags := <[Flag e := false]> (flags g) |>)
      | None => g
      end
  end.

(** The version used when [kernel.GetKernelVersion] fails. *)
Definition fallbackVersion : VersionInfo := mkVersion 2 6 2 "".

(** [kv] is the result of [kernel.GetKernelVersion()]. *)
Definition adaptToKernelVersion (kv : VersionInfo + error) (g : globals) : globals :=
  let v := match linuxKernelVersion g with
           | Some v => v
           | None => match kv with inl v => v | inr _ => fallbackVersion end
           end in
  adapt_loop v (length tcpInfoSizes) (g <| linuxKernelVersion := Some v |>).

(** [init] of the package. *)
Definition init (kv : VersionInfo + error) (g : globals) : globals := adaptToKernelVersion kv g.

(** ** Specification *)

Definition flagEntry (f : kflag) : VersionedStructSize :=
  default (mkVSS fallbackVersion 0 at_2_6_2) (List.find (fun e => bool_decide (Flag e = f)) tcpInfoSizes).

(** The version a flag stands for. *)
Definition flagVersion (f : kflag) : VersionInfo := Version (flagEntry f).

(** The version is at least [flagVersion f]. *)
Definition has (v : VersionInfo) (f : kflag) : bool :=
  CompareKernelVersion v (flagVersion f) >=? 0.

(** The size of the last entry that the version reaches. *)
Definition sizeFor (v : VersionInfo) (old : Z) : Z :=
  fold_left (fun sz e => if has v (Flag e) then Size e else sz) tcpInfoSizes old.

(** The version the package works with after initialisation. *)
Definition effective (kv : VersionInfo + error) (g : globals) : VersionInfo :=
  match linuxKernelVersion g with
  | Some v => v
  | None => match kv with inl v => v | inr _ => fallbackVersion end
  end.

(** ** Proofs *)

Lemma compare_trans_ge a b c :
  CompareKernelVersion a b >= 0 -> CompareKernelVersion b c >= 0 -> CompareKernelVersion a c >= 0.
Proof. unfold CompareKernelVersion. repeat case_match; lia. Qed.

(** The table is sorted: a version that has an entry has the earlier ones. *)
Lemma table_sorted i j e1 e2 :
  (i <= j)%nat -> tcpInfoSizes !! i = Some e1 -> tcpInfoSizes !! j = Some e2 ->
  CompareKernelVersion (Version e2) (Version e1) >= 0.
Proof.
  assert (H : forallb (fun j => forallb (fun i =>
      match tcpInfoSizes !! i, tcpInfoSizes !! j with
      | Some e1, Some e2 => negb (i <=? j)%nat || (CompareKernelVersion (Version e2) (Version e1) >=? 0)
      | _, _ => true end) (seq 0 13)) (seq 0 13) = true) by (vm_compute; reflexivity).
  intros Hij Hi Hj. apply lookup_lt_Some in Hi as Li. apply lookup_lt_Some in Hj as Lj.
  change (length tcpInfoSizes) with 13%nat in Li, Lj.
  rewrite List.forallb_forall in H. specialize (H j (proj2 (List.in_seq 13 0 j) ltac:(lia))).
  rewrite List.forallb_forall in H. specialize (H i (proj2 (List.in_seq 13 0 i) ltac:(lia))).
  rewrite Hi, Hj in H. destruct (Nat.leb_spec i j); simpl in H; lia.
Qed.

Lemma table_flag i e : tcpInfoSizes !! i = Some e -> flagEntry (Flag e) = e.
Proof. do 13 (destruct i as [|i]; [intros [= <-]; done|]). done. Qed.

Lemma flag_index f : exists i e, (i < 13)%nat /\ tcpInfoSizes !! i = Some e /\ Flag e = f.
Proof.
  destruct f; [exists 0%nat|exists 1%nat|exists 2%nat|exists 3%nat|exists 4%nat|exists 5%nat
  |exists 6%nat|exists 7%nat|exists 8%nat|exists 9%nat|exists 10%nat|exists 11%nat|exists 12%nat];
  eexists; (split; [lia|split; reflexivity]).
Qed.

Lemma flag_inj i j e1 e2 :
  tcpInfoSizes !! i = Some e1 -> tcpInfoSizes !! j = Some e2 -> Flag e1 = Flag e2 -> i = j.
Proof.
  intros H1 H2 E. apply table_flag in H1 as F1. apply table_flag in H2 as F2.
  assert (e1 = e2) as <- by congruence.
  eapply (NoDup_lookup (Version <$> tcpInfoSizes)); [apply (bool_decide_unpack _); by vm_compute|..];
    rewrite list_lookup_fmap; [by rewrite H1|by rewrite H2].
Qed.

Lemma raise_flags_spec n g i e :
  (n <= 13)%nat -> tcpInfoSizes !! i = Some e ->
  flags (raise_flags n g) (Flag e) = (if decide (i < n)%nat then true else flags g (Flag e))
  /\ linuxKernelVersion (raise_flags n g) = linuxKernelVersion g
  /\ sizeOfRawTCPInfo (raise_flags n g) = sizeOfRawTCPInfo g.
Proof.
  revert g. induction n as [|n IH]; intros g Hn Hi; [done|]. cbn [raise_flags].
  destruct (tcpInfoSizes !! n) as [e'|] eqn:E; [|by apply lookup_ge_None in E; simpl in E; lia].
  destruct (IH (g <| flags := <[Flag e' := true]> (flags g) |>)) as (-> & -> & ->); [lia|done|].
  split_and!; try done. cbn [set_field set_flags flags].
  destruct (decide (i = n)) as [->|Hne].
  - assert (e' = e) as -> by congruence. rewrite fn_lookup_insert.
    rewrite (decide_True (P:=(n < Datatypes.S n)%nat)) by lia. by case_match.
  - rewrite fn_lookup_insert_ne; [|intros Ef; by rewrite (flag_inj _ _ _ _ E Hi Ef) in Hne].
    destruct (decide (i < n)%nat), (decide (i < Datatypes.S n)%nat); done || lia.
Qed.

(** The loop entered at [n] leaves the flags from [n] on alone. *)
Lemma adapt_loop_above v n g i e :
  (n <= 13)%nat -> tcpInfoSizes !! i = Some e -> (n <= i)%nat ->
  flags (adapt_loop v n g) (Flag e) = flags g (Flag e).
Proof.
  intros Hn Hi. revert g. induction n as [|n IH]; intros g Hle; [done|]. cbn [adapt_loop].
  destruct (tcpInfoSizes !! n) as [e'|] eqn:E; [|done]. case_match.
  - rewrite (proj1 (raise_flags_spec _ _ _ _ Hn Hi)). by rewrite decide_False by lia.
  - rewrite IH by lia. simpl. rewrite fn_lookup_insert_ne; [done|].
    intros Ef. pose proof (flag_inj _ _ _ _ E Hi Ef). lia.
Qed.

(** The loop entered at [n] decides the flags below [n]; the ones above are the
    caller's to have cleared. *)
Lemma adapt_loop_spec v n g i e :
  (n <= 13)%nat -> tcpInfoSizes !! i = Some e -> (i < n)%nat ->
  flags (adapt_loop v n g) (Flag e) = has v (Flag e).
Proof.
  intros Hn Hi. revert g. induction n as [|n IH]; intros g Hlt; [lia|]. cbn [adapt_loop].
  destruct (tcpInfoSizes !! n) as [e'|] eqn:E; [|by apply lookup_ge_None in E; simpl in E; lia].
  assert (Hh : has v (Flag e) = (CompareKernelVersion v (Version e) >=? 0)).
  { unfold has, flagVersion. by rewrite (table_flag _ _ Hi). }
  destruct (Z.geb_spec (CompareKernelVersion v (Version e')) 0) as [Hge|Hl].
  - rewrite (proj1 (raise_flags_spec _ _ _ _ Hn Hi)). rewrite decide_True by done.
    rewrite Hh. symmetry. apply Z.geb_le. apply Z.ge_le.
    eapply compare_trans_ge; [by apply Z.le_ge|]. eapply (table_sorted i n); [lia|done..].
  - destruct (decide (i = n)) as [->|].
    + assert (e' = e) as -> by congruence. rewrite Hh.
      rewrite adapt_loop_above with (i:=n); [|lia|done|lia].
      simpl. rewrite fn_lookup_insert. lia.
    + apply IH; lia.
Qed.

Lemma adapt_loop_frame v n g :
  (n <= 13)%nat ->
  linuxKernelVersion (adapt_loop v n g) = linuxKernelVersion g
  /\ sizeOfRawTCPInfo (adapt_loop v n g)
     = fold_left (fun sz e => if has v (Flag e) then Size e else sz) (take n tcpInfoSizes)
         (sizeOfRawTCPInfo g).
Proof.
  revert g. induction n as [|n IH]; intros g Hn; [done|]. cbn [adapt_loop].
  destruct (tcpInfoSizes !! n) as [e|] eqn:E; [|by apply lookup_ge_None in E; simpl in E; lia].
  rewrite (take_S_r _ _ _ E), List.fold_left_app. cbn [fold_left].
  unfold has at 1, flagVersion. rewrite (table_flag _ _ E).
  destruct (CompareKernelVersion v (Version e) >=? 0).
  - by destruct (raise_flags_spec (Datatypes.S n) (g <| sizeOfRawTCPInfo := Size e |>) n e)
      as (_ & -> & ->).
  - destruct (IH (g <| flags := <[Flag e := false]> (flags g) |>)) as [-> ->]; [lia|done].
Qed.

Lemma adapt_flags kv g f : flags (adaptToKernelVersion kv g) f = has (effective kv g) f.
Proof.
  destruct (flag_index f) as (i & e & Hi & He & <-).
  unfold adaptToKernelVersion. fold (effective kv g). by rewrite (adapt_loop_spec _ _ _ i e).
Qed.

Lemma adapt_frame kv g :
  linuxKernelVersion (adaptToKernelVersion kv g) = Some (effective kv g)
  /\ sizeOfRawTCPInfo (adaptToKernelVersion kv g)
     = sizeFor (effective kv g) (sizeOfRawTCPInfo g).
Proof.
  unfold adaptToKernelVersion. fold (effective kv g).
  destruct (adapt_loop_frame (effective kv g) (length tcpInfoSizes)
              (g <| linuxKernelVersion := Some (effective kv g) |>)) as [-> ->]; [done|].
  by rewrite firstn_all.
Qed.

(** A kernel that has an entry has every earlier entry. *)
Lemma has_mono v i j e1 e2 :
  (i <= j)%nat -> tcpInfoSizes !! i = Some e1 -> tcpInfoSizes !! j = Some e2 ->
  has v (Flag e2) = true -> has v (Flag e1) = true.
Proof.
  intros Hij Hi Hj. unfold has, flagVersion. rewrite (table_flag _ _ Hi), (table_flag _ _ Hj).
  rewrite !Z.geb_le. intros H. apply Z.ge_le. eapply compare_trans_ge; [by apply Z.le_ge|].
  by eapply table_sorted.
Qed.

Lemma has_version v f : has v f = true <-> ~ version_lt v (flagVersion f).
Proof. unfold has. rewrite Z.geb_le, <- compare_ge. lia. Qed.

(** The size never exceeds the largest of the table, the size of the struct. *)
Lemma sizeFor_cases v old : sizeFor v old = old \/ sizeFor v old ∈ Size <$> tcpInfoSizes.
Proof.
  unfold sizeFor. generalize tcpInfoSizes as l. intros l. revert old.
  induction l as [|e l IH]; intros old; [by left|]. csimpl.
  destruct (IH (if has v (Flag e) then Size e else old)) as [E|E].
  - rewrite E. case_match; [right; left|by left].
  - right. by right.
Qed.

Lemma fold_sizes_none v l old :
  (forall e, e ∈ l -> has v (Flag e) = false) ->
  fold_left (fun sz e => if has v (Flag e) then Size e else sz) l old = old.
Proof.
  revert old. induction l as [|e l IH]; intros old H; [done|]. cbn [fold_left].
  rewrite (H e) by left. apply IH. intros e' ?. apply H. by right.
Qed.

Lemma sizeFor_last v i e old :
  tcpInfoSizes !! i = Some e -> has v (Flag e) = true ->
  (forall e', tcpInfoSizes !! Datatypes.S i = Some e' -> has v (Flag e') = false) ->
  sizeFor v old = Size e.
Proof.
  intros Hi He Hn. unfold sizeFor. rewrite <- (take_drop_middle _ _ _ Hi) at 1.
  rewrite List.fold_left_app. cbn [fold_left]. rewrite He. apply fold_sizes_none.
  intros e' [k Hk]%list_elem_of_lookup. rewrite lookup_drop in Hk.
  destruct (tcpInfoSizes !! Datatypes.S i) as [e2|] eqn:E2.
  - destruct (has v (Flag e')) eqn:Eh; [|done].
    rewrite <- (Hn e2 eq_refl). symmetry.
    by eapply (has_mono v (Datatypes.S i) (Datatypes.S i + k)); [lia|..].
  - apply lookup_ge_None in E2. apply lookup_lt_Some in Hk. lia.
Qed.

Lemma sizeFor_none v old : has v at_2_6_2 = false -> sizeFor v old = old.
Proof.
  intros H. apply fold_sizes_none. intros e [k Hk]%list_elem_of_lookup.
  destruct (has v (Flag e)) eqn:Eh; [|done].
  rewrite <- H. symmetry. 
  by apply (has_mono v 0 k (mkVSS fallbackVersion 104 at_2_6_2) e); [lia|..].
Qed.

(** C17: adaptToKernelVersion, from any previous state of the flags: the version used
    is the cached one, else the running kernel's, else 2.6.2; afterwards a flag is set
    iff that version is at least the flag's; the size is that of the last entry
    reached, unchanged on an older kernel; running it again changes no flag. *)
Theorem adapt_spec kv g kv' :
  let g' := adaptToKernelVersion kv g in
  let v := match linuxKernelVersion g with
           | Some v => v
           | None => match kv with inl v => v | inr _ => fallbackVersion end
           end in
  linuxKernelVersion g' = Some v
  /\ (forall f, flags g' f = true <-> ~ version_lt v (flagVersion f))
  /\ (forall i e, tcpInfoSizes !! i = Some e -> flags g' (Flag e) = true ->
        (forall e', tcpInfoSizes !! Datatypes.S i = Some e' -> flags g' (Flag e') = false) ->
        sizeOfRawTCPInfo g' = Size e)
  /\ (flags g' at_2_6_2 = false -> sizeOfRawTCPInfo g' = sizeOfRawTCPInfo g)
  /\ (forall f, flags (adaptToKernelVersion kv' g') f = flags g' f).
Proof.
  intros g' v. change v with (effective kv g). destruct (adapt_frame kv g) as [Hv Hs].
  fold g' in Hv, Hs.
  assert (Hf : forall f, flags g' f = has (effective kv g) f) by apply adapt_flags.
  split_and!; [done|..].
  - intros f. rewrite Hf. apply has_version.
  - intros i e Hi. rewrite Hf, Hs. intros He Hn. apply sizeFor_last with i; [done..|].
    intros e' He'. rewrite <- Hf. by apply Hn.
  - rewrite Hf, Hs. apply sizeFor_none.
  - intros f. rewrite adapt_flags, Hf. unfold effective at 1. by rewrite Hv.
Qed.
