(* ===== verification/LinuxRaw.v ===== *)
(** [RawTCPInfo] of pkg/tcpinfo/tcpinfo_linux.go, the copy of the kernel's
    [struct tcp_info]: its fields, how Go lays them out in memory, and how the
    bytes written by getsockopt(2) are read back as fields
    (tcpinfo_linux_386.go, tcpinfo_linux_others.go). *)

From stdpp Require Import base list strings.
From Stdlib Require Import ZArith Lia.
From S2P Require Import Prelude Layout Kernel LinuxInit.

Local Open Scope Z_scope.

(** ** The struct *)

Module Raw.
Record RawTCPInfo := mkRaw {
  state : Z; ca_state : Z; retransmits : Z; probes : Z; backoff : Z; options : Z;
  bitfield0 : Z; bitfield1 : Z; rto : Z; ato : Z; snd_mss : Z; rcv_mss : Z; unacked : Z;
  sacked : Z; lost : Z; retrans : Z; fackets : Z; last_data_sent : Z; last_ack_sent : Z;
  last_data_recv : Z; last_ack_recv : Z; pmtu : Z; rcv_ssthresh : Z; rtt : Z; rttvar : Z;
  snd_ssthresh : Z; snd_cwnd : Z; advmss : Z; reordering : Z; rcv_rtt : Z; rcv_space : Z;
  total_retrans : Z; pacing_rate : Z; max_pacing_rate : Z; bytes_acked : Z;
  bytes_received : Z; segs_out : Z; segs_in : Z; notsent_bytes : Z; min_rtt : Z;
  data_segs_in : Z; data_segs_out : Z; delivery_rate : Z; busy_time : Z; rwnd_limited : Z;
  sndbuf_limited : Z; delivered : Z; delivered_ce : Z; bytes_sent : Z; bytes_retrans : Z;
  dsack_dups : Z; reord_seen : Z; rcv_ooopack : Z; snd_wnd : Z; rcv_wnd : Z; rehash : Z;
  total_rto : Z; total_rto_recoveries : Z; total_rto_time : Z
}.

(** The sizes of the fields, in order. *)
Definition sizes : list nat := [
  1; 1; 1; 1; 1; 1; 1; 1; 4; 4; 4; 4; 4; 4; 4; 4; 4; 4; 4; 4; 4; 4; 4; 4; 4; 4; 4; 4; 4; 4;
  4; 4; 8; 8; 8; 8; 4; 4; 4; 4; 4; 4; 8; 8; 8; 8; 4; 4; 8; 8; 4; 4; 4; 4; 4; 4; 2; 2; 4]%nat.

(** The offset just after each field, as the comments of the struct give it. *)
Definition documentedEnds : list nat := [
  1; 2; 3; 4; 5; 6; 7; 8; 12; 16; 20; 24; 28; 32; 36; 40; 44; 48; 52; 56; 60; 64; 68; 72; 76;
  80; 84; 88; 92; 96; 100; 104; 112; 120; 128; 136; 140; 144; 148; 152; 156; 160; 168; 176;
  184; 192; 196; 200; 208; 216; 220; 224; 228; 232; 236; 240; 242; 244; 248]%nat.

Definition fields (r : RawTCPInfo) : list Z := [
  state r; ca_state r; retransmits r; probes r; backoff r; options r; bitfield0 r;
  bitfield1 r; rto r; ato r; snd_mss r; rcv_mss r; unacked r; sacked r; lost r; retrans r;
  fackets r; last_data_sent r; last_ack_sent r; last_data_recv r; last_ack_recv r; pmtu r;
  rcv_ssthresh r; rtt r; rttvar r; snd_ssthresh r; snd_cwnd r; advmss r; reordering r;
  rcv_rtt r; rcv_space r; total_retrans r; pacing_rate r; max_pacing_rate r; bytes_acked r;
  bytes_received r; segs_out r; segs_in r; notsent_bytes r; min_rtt r; data_segs_in r;
  data_segs_out r; delivery_rate r; busy_time r; rwnd_limited r; sndbuf_limited r;
  delivered r; delivered_ce r; bytes_sent r; bytes_retrans r; dsack_dups r; reord_seen r;
  rcv_ooopack r; snd_wnd r; rcv_wnd r; rehash r; total_rto r; total_rto_recoveries r;
  total_rto_time r].

Definition of_fields (f : nat -> Z) : RawTCPInfo :=
  mkRaw
    (f 0%nat) (f 1%nat) (f 2%nat) (f 3%nat) (f 4%nat) (f 5%nat) (f 6%nat) (f 7%nat) (f 8%nat)
    (f 9%nat) (f 10%nat) (f 11%nat) (f 12%nat) (f 13%nat) (f 14%nat) (f 15%nat) (f 16%nat)
    (f 17%nat) (f 18%nat) (f 19%nat) (f 20%nat) (f 21%nat) (f 22%nat) (f 23%nat) (f 24%nat)
    (f 25%nat) (f 26%nat) (f 27%nat) (f 28%nat) (f 29%nat) (f 30%nat) (f 31%nat) (f 32%nat)
    (f 33%nat) (f 34%nat) (f 35%nat) (f 36%nat) (f 37%nat) (f 38%nat) (f 39%nat) (f 40%nat)
    (f 41%nat) (f 42%nat) (f 43%nat) (f 44%nat) (f 45%nat) (f 46%nat) (f 47%nat) (f 48%nat)
    (f 49%nat) (f 50%nat) (f 51%nat) (f 52%nat) (f 53%nat) (f 54%nat) (f 55%nat) (f 56%nat)
    (f 57%nat) (f 58%nat).

Definition offsets (maxAlign : nat) : list nat := offsets_from maxAlign 0 sizes.

(** The fields of the struct stored at [mem]. *)
Definition decode (maxAlign : nat) (be : bool) (mem : list Z) : RawTCPInfo :=
  of_fields (field_at maxAlign be sizes mem).

(** The bytes of the kernel's struct; it has no padding, whatever the
    alignment. *)
Definition encode (be : bool) (r : RawTCPInfo) : list Z :=
  encode_from 8 be 0 sizes (fields r).

Definition in_range (r : RawTCPInfo) : Prop :=
  Forall2 (fun n v => inU (8 * Z.of_nat n) v) sizes (fields r).

#[export] Instance in_range_dec r : Decision (in_range r).
Proof. apply Forall2_dec. intros n v. unfold inU. apply _. Defined.

(** ** GetRawTCPInfo *)

Section get.
(** [getsockopt fd level opt len]: the system call on a buffer of [len]
    bytes; the errno, or the bytes it stored at the start of the buffer.
    [Errno] is the conversion of a [syscall.Errno] to [error]. *)
Context (maxAlign : nat) (be : bool).
Context (getsockopt : Z -> Z -> Z -> Z -> list Z + Z) (Errno : Z -> error).

Definition SOL_TCP : Z := 6.
Definition TCP_INFO : Z := 11.

(** tcpinfo_linux.go: the package's own names of three errors. *)
Definition EAGAIN : error := Errno 11.
Definition EINVAL : error := Errno 22.
Definition ENOENT : error := Errno 2.

(** The [switch] on the errno. *)
Definition errnoError (errNo : Z) : error :=
  if errNo =? 11 then EAGAIN
  else if errNo =? 22 then EINVAL
  else if errNo =? 2 then ENOENT
  else Errno errNo.

(** [var value RawTCPInfo]: zeroed memory, and what the call left there. *)
Definition stored (bs : list Z) : list Z := stored_in (structSize maxAlign sizes) bs.

(** tcpinfo_linux_others.go *)
Definition GetRawTCPInfo (g : globals) (fd : Z) : RawTCPInfo + error :=
  let length_ := wrapU 32 (sizeOfRawTCPInfo g) in
  match getsockopt fd SOL_TCP TCP_INFO length_ with
  | inr errNo => inr (errnoError errNo)
  | inl bs => inl (decode maxAlign be (stored bs))
  end.

(** tcpinfo_linux_386.go: the call goes through socketcall(2), whose arguments
    are in an array; the two pointers of the array stand for the buffer. *)
Context (socketcall : Z -> list Z -> Z -> list Z + Z).
Definition netGetSockOpt : Z := 15.

Definition GetRawTCPInfo_386 (g : globals) (fd : Z) : RawTCPInfo + error :=
  let length_ := wrapU 32 (sizeOfRawTCPInfo g) in
  let args := [fd; SOL_TCP; TCP_INFO] in
  match socketcall netGetSockOpt args length_ with
  | inr errNo => inr (errnoError errNo)
  | inl bs => inl (decode maxAlign be (stored bs))
  end.
End get.
End Raw.

(** ** The layout of the struct *)

Lemma offsets_align ma : goAlign ma -> Raw.offsets ma = Raw.offsets 8.
Proof. intros [-> | ->]; vm_compute; reflexivity. Qed.

Lemma encode_align ma be r : goAlign ma -> encode_from ma be 0 Raw.sizes (Raw.fields r) = Raw.encode be r.
Proof. by intros [-> | ->]. Qed.

Lemma sizes_pos : Forall (fun n => 0 < n)%nat Raw.sizes.
Proof. apply (bool_decide_unpack _). by vm_compute. Qed.

Lemma ends_offsets : zip_with Nat.add (Raw.offsets 8) Raw.sizes = Raw.documentedEnds.
Proof. vm_compute. reflexivity. Qed.

(** The start, the size and the end of field [i]. *)
Lemma field_extent i : (i < 59)%nat -> exists o n,
  Raw.offsets 8 !! i = Some o /\ Raw.sizes !! i = Some n
  /\ Raw.documentedEnds !! i = Some (o + n)%nat.
Proof.
  intros Hi.
  destruct (lookup_lt_is_Some_2 (Raw.offsets 8) i) as [o Ho]; [by vm_compute|].
  destruct (lookup_lt_is_Some_2 Raw.sizes i) as [n Hn]; [by vm_compute|].
  exists o, n. split_and!; [done..|]. by rewrite <- ends_offsets, lookup_zip_with, Ho, Hn.
Qed.

Lemma ends_bounded i e : Raw.documentedEnds !! i = Some e -> (e <= 248)%nat.
Proof.
  intros H. assert (Hf : Forall (fun e => e <= 248)%nat Raw.documentedEnds).
  { apply (bool_decide_unpack _). by vm_compute. }
  by eapply Forall_lookup_1 in Hf.
Qed.

Lemma length_fields r : length (Raw.fields r) = 59%nat.
Proof. done. Qed.

Lemma fields_of_fields f i : (i < 59)%nat -> Raw.fields (Raw.of_fields f) !! i = Some (f i).
Proof. intros Hi. do 59 (destruct i as [|i]; [done|]). lia. Qed.

Lemma fields_inj r r' : Raw.fields r = Raw.fields r' -> r = r'.
Proof. destruct r, r'. unfold Raw.fields. cbn. intros E. injection E as E. by subst. Qed.

Section decode.
Context (ma : nat) (be : bool) (Hma : goAlign ma).

(** A field within the bytes that were copied has the kernel's value. *)
Lemma decode_copied r m z i e :
  Raw.in_range r -> Raw.documentedEnds !! i = Some e -> (e <= m)%nat ->
  Raw.fields (Raw.decode ma be (take m (Raw.encode be r) ++ z)) !! i = Raw.fields r !! i.
Proof.
  intros Hr He Hm. apply lookup_lt_Some in He as Hi. change (i < 59)%nat in Hi.
  destruct (field_extent i Hi) as (o & n & Ho & Hn & He'). simplify_eq.
  destruct (Forall2_lookup_l _ _ _ _ _ Hr Hn) as (v & Hv & Hin).
  unfold Raw.decode. rewrite fields_of_fields, Hv by done. f_equal.
  rewrite <- (encode_align ma) by done. apply field_at_copied with o n; try done.
  - by destruct Hma as [-> | ->]; lia.
  - apply sizes_pos.
  - by rewrite <- Ho, <- (offsets_align ma).
Qed.

(** A field after the bytes that were copied is zero. *)
Lemma decode_zero bs i o :
  Raw.offsets 8 !! i = Some o -> (length bs <= o)%nat ->
  Raw.fields (Raw.decode ma be (Raw.stored ma bs)) !! i = Some 0.
Proof.
  intros Ho Hm. apply lookup_lt_Some in Ho as Hi. change (i < 59)%nat in Hi.
  unfold Raw.decode. rewrite fields_of_fields by done. f_equal.
  apply field_at_zero with o; [|done]. by rewrite <- Ho, <- (offsets_align ma).
Qed.

Lemma length_encode r : length (Raw.encode be r) = 248%nat.
Proof.
  unfold Raw.encode. destruct r. cbn -[store align replicate].
  rewrite !length_app, !length_store, !length_replicate. done.
Qed.
End decode.

(** C21: With 4- and 8-byte alignment the fields of RawTCPInfo end at the offsets its
    comments give and the struct has 248 bytes; decoding the encoded struct gives it
    back in either byte order. *)
Theorem Raw_layout ma be r :
  goAlign ma -> Raw.in_range r ->
  zip_with Nat.add (Raw.offsets ma) Raw.sizes = Raw.documentedEnds
  /\ structSize ma Raw.sizes = 248%nat /\ length (Raw.encode be r) = 248%nat
  /\ Raw.decode ma be (Raw.encode be r) = r.
Proof.
  intros Hma Hr. split_and!.
  - rewrite offsets_align by done. apply ends_offsets.
  - by destruct Hma as [-> | ->].
  - by apply length_encode.
  - apply fields_inj. apply list_eq. intros i.
    destruct (decide (i < 59)%nat) as [Hi|Hi].
    + destruct (field_extent i Hi) as (o & n & _ & _ & He).
      rewrite <- (decode_copied ma be Hma r 248 [] i _ Hr He).
      * by rewrite app_nil_r, take_ge by by rewrite length_encode.
      * by apply ends_bounded in He.
    + rewrite !lookup_ge_None_2; [done|rewrite length_fields; lia..].
Qed.

Lemma Raw_layout_witness :
  Raw.decode 8 false (Raw.encode false (Raw.of_fields Z.of_nat)) = Raw.of_fields Z.of_nat.
Proof.
  refine (proj2 (proj2 (proj2 (Raw_layout 8 false _ _ _)))).
  - right. reflexivity.
  - apply (bool_decide_unpack _). vm_compute. exact I.
Defined.
