(* ===== verification/Linux.v ===== *)
(** pkg/tcpinfo/tcpinfo_linux.go: the TCP information of Linux, unpacked from the
    kernel's struct, with the congestion control data. *)

From stdpp Require Import base list strings gmap.
From Stdlib Require Import ZArith Lia.
From S2P Require Import Prelude GoFmt Layout Kernel TcpInfo LinuxInit LinuxRaw.

Local Open Scope Z_scope.
Local Open Scope go_scope.

(** The zero value of a Go type. *)
Class GoZero (A : Type) := goZero : A.
#[export] Instance zero_Z : GoZero Z := 0.
#[export] Instance zero_bool : GoZero bool := false.

(** [NullableBool], [NullableUint8] and the like. *)
Record Nullable (A : Type) := mkNullable { Valid : bool; NValue : A }.
Arguments mkNullable {A} _ _.
Arguments Valid {A} _.
Arguments NValue {A} _.

Definition null {A} `{!GoZero A} : Nullable A := mkNullable false goZero.
Definition valid {A} (n : Nullable A) : option A := if Valid n then Some (NValue n) else None.

(** [m[k] = v] for each pair, in order, where [None] is an [if] not taken. *)
Definition put_all (l : list (string * option any)) (m : gmap string any) : gmap string any :=
  fold_left (fun m kv => match kv.2 with Some v => <[kv.1 := v]> m | None => m end) l m.

Module Linux.
Record SysInfo := mkSysInfo {
  State : Z;
  StateName : string;
  CAState : Z;
  Retransmits : Z;
  Probes : Z;
  Backoff : Z;
  TxOptions : slice Option;
  RxOptions : slice Option;
  TxWindowScale : Z;
  RxWindowScale : Z;
  DeliveryRateAppLimited : Nullable bool;
  FastOpenClientFail : Nullable Z;
  RTO : Z;
  ATO : Z;
  TxMSS : Z;
  RxMSS : Z;
  UnAcked : Z;
  Sacked : Z;
  Lost : Z;
  Retrans : Z;
  Fackets : Z;
  LastTxAt : Z;
  LastTxAckAt : Z;
  LastRxAt : Z;
  LastRxAckAt : Z;
  PMTU : Z;
  RxSSThreshold : Z;
  RTT : Z;
  RTTVar : Z;
  TxSSThreshold : Z;
  TxCWindow : Z;
  AdvMSS : Z;
  Reordering : Z;
  RxRTT : Z;
  RxSpace : Z;
  TotalRetrans : Z;
  PacingRate : Nullable Z;
  MaxPacingRate : Nullable Z;
  BytesAcked : Nullable Z;
  BytesReceived : Nullable Z;
  SegsOut : Nullable Z;
  SegsIn : Nullable Z;
  NotSentBytes : Nullable Z;
  MinRTT : Nullable Z;
  DataSegsIn : Nullable Z;
  DataSegsOut : Nullable Z;
  DeliveryRate : Nullable Z;
  BusyTime : Nullable Z;
  RxWindowLimited : Nullable Z;
  TxBufferLimited : Nullable Z;
  Delivered : Nullable Z;
  DeliveredCE : Nullable Z;
  BytesSent : Nullable Z;
  BytesRetrans : Nullable Z;
  DSACKDups : Nullable Z;
  ReordSeen : Nullable Z;
  RxOutOfOrder : Nullable Z;
  TxWindow : Nullable Z;
  RxWindow : Nullable Z;
  Rehash : Nullable Z;
  TotalRTO : Nullable Z;
  TotalRTORecoveries : Nullable Z;
  TotalRTOTime : Nullable Z;
  CCAlgorithm : string;
  CCVegasEnabled : Nullable Z;
  CCVegasRTTCnt : Nullable Z;
  CCVegasRTT : Nullable Z;
  CCVegasRTTMin : Nullable Z;
  CCBBRBwLo : Nullable Z;
  CCBBRBwHi : Nullable Z;
  CCBBRMinRTT : Nullable Z;
  CCBBRPacingGain : Nullable Z;
  CCBBRCWindowGain : Nullable Z;
  CCDCTCPEnabled : Nullable bool;
  CCDCTCPCEState : Nullable Z;
  CCDCTCPAlpha : Nullable Z;
  CCDCTCPABECN : Nullable Z;
  CCDCTCPABTOT : Nullable Z
}.

Definition SysInfo_eta (s : SysInfo) : SysInfo :=
  mkSysInfo
    (State s) (StateName s) (CAState s) (Retransmits s) (Probes s) (Backoff s) (TxOptions s)
    (RxOptions s) (TxWindowScale s) (RxWindowScale s) (DeliveryRateAppLimited s)
    (FastOpenClientFail s) (RTO s) (ATO s) (TxMSS s) (RxMSS s) (UnAcked s) (Sacked s)
    (Lost s) (Retrans s) (Fackets s) (LastTxAt s) (LastTxAckAt s) (LastRxAt s)
    (LastRxAckAt s) (PMTU s) (RxSSThreshold s) (RTT s) (RTTVar s) (TxSSThreshold s)
    (TxCWindow s) (AdvMSS s) (Reordering s) (RxRTT s) (RxSpace s) (TotalRetrans s)
    (PacingRate s) (MaxPacingRate s) (BytesAcked s) (BytesReceived s) (SegsOut s) (SegsIn s)
    (NotSentBytes s) (MinRTT s) (DataSegsIn s) (DataSegsOut s) (DeliveryRate s) (BusyTime s)
    (RxWindowLimited s) (TxBufferLimited s) (Delivered s) (DeliveredCE s) (BytesSent s)
    (BytesRetrans s) (DSACKDups s) (ReordSeen s) (RxOutOfOrder s) (TxWindow s) (RxWindow s)
    (Rehash s) (TotalRTO s) (TotalRTORecoveries s) (TotalRTOTime s) (CCAlgorithm s)
    (CCVegasEnabled s) (CCVegasRTTCnt s) (CCVegasRTT s) (CCVegasRTTMin s) (CCBBRBwLo s)
    (CCBBRBwHi s) (CCBBRMinRTT s) (CCBBRPacingGain s) (CCBBRCWindowGain s) (CCDCTCPEnabled s)
    (CCDCTCPCEState s) (CCDCTCPAlpha s) (CCDCTCPABECN s) (CCDCTCPABTOT s).

#[global] Instance set_TxOptions : Setter TxOptions := ltac:(setter SysInfo_eta TxOptions).
#[global] Instance set_RxOptions : Setter RxOptions := ltac:(setter SysInfo_eta RxOptions).
#[global] Instance set_CCAlgorithm : Setter CCAlgorithm := ltac:(setter SysInfo_eta CCAlgorithm).
#[global] Instance set_CCVegasEnabled : Setter CCVegasEnabled := ltac:(setter SysInfo_eta CCVegasEnabled).
#[global] Instance set_CCVegasRTTCnt : Setter CCVegasRTTCnt := ltac:(setter SysInfo_eta CCVegasRTTCnt).
#[global] Instance set_CCVegasRTT : Setter CCVegasRTT := ltac:(setter SysInfo_eta CCVegasRTT).
#[global] Instance set_CCVegasRTTMin : Setter CCVegasRTTMin := ltac:(setter SysInfo_eta CCVegasRTTMin).
#[global] Instance set_CCBBRBwLo : Setter CCBBRBwLo := ltac:(setter SysInfo_eta CCBBRBwLo).
#[global] Instance set_CCBBRBwHi : Setter CCBBRBwHi := ltac:(setter SysInfo_eta CCBBRBwHi).
#[global] Instance set_CCBBRMinRTT : Setter CCBBRMinRTT := ltac:(setter SysInfo_eta CCBBRMinRTT).
#[global] Instance set_CCBBRPacingGain : Setter CCBBRPacingGain := ltac:(setter SysInfo_eta CCBBRPacingGain).
#[global] Instance set_CCBBRCWindowGain : Setter CCBBRCWindowGain := ltac:(setter SysInfo_eta CCBBRCWindowGain).
#[global] Instance set_CCDCTCPEnabled : Setter CCDCTCPEnabled := ltac:(setter SysInfo_eta CCDCTCPEnabled).
#[global] Instance set_CCDCTCPCEState : Setter CCDCTCPCEState := ltac:(setter SysInfo_eta CCDCTCPCEState).
#[global] Instance set_CCDCTCPAlpha : Setter CCDCTCPAlpha := ltac:(setter SysInfo_eta CCDCTCPAlpha).
#[global] Instance set_CCDCTCPABECN : Setter CCDCTCPABECN := ltac:(setter SysInfo_eta CCDCTCPABECN).
#[global] Instance set_CCDCTCPABTOT : Setter CCDCTCPABTOT := ltac:(setter SysInfo_eta CCDCTCPABTOT).

Definition Clone (s : SysInfo) : SysInfo :=
  s <| TxOptions := cloneOptions (TxOptions s) |> <| RxOptions := cloneOptions (RxOptions s) |>.

(** The entries of the map literal of [ToMap]. *)
Definition required (s : SysInfo) : list (string * any) := [
    ("state", AString (StateName s));
    ("caState", AUint8 (CAState s));
    ("retransmits", AUint8 (Retransmits s));
    ("probes", AUint8 (Probes s));
    ("backoff", AUint8 (Backoff s));
    ("txOptions", AOptions (TxOptions s));
    ("rxOptions", AOptions (RxOptions s));
    ("txWindowScale", AUint8 (TxWindowScale s));
    ("rxWindowScale", AUint8 (RxWindowScale s));
    ("rto", ADuration (RTO s));
    ("ato", ADuration (ATO s));
    ("txMSS", AUint32 (TxMSS s));
    ("rxMSS", AUint32 (RxMSS s));
    ("unAcked", AUint32 (UnAcked s));
    ("sacked", AUint32 (Sacked s));
    ("lost", AUint32 (Lost s));
    ("retrans", AUint32 (Retrans s));
    ("fackets", AUint32 (Fackets s));
    ("lastTxAt", ADuration (LastTxAt s));
    ("lastTxAckAt", ADuration (LastTxAckAt s));
    ("lastRxAt", ADuration (LastRxAt s));
    ("lastRxAckAt", ADuration (LastRxAckAt s));
    ("pmtu", AUint32 (PMTU s));
    ("rxSSThreshold", AUint32 (RxSSThreshold s));
    ("rtt", ADuration (RTT s));
    ("rttVar", ADuration (RTTVar s));
    ("txSSThreshold", AUint32 (TxSSThreshold s));
    ("txCWindow", AUint32 (TxCWindow s));
    ("advMSS", AUint32 (AdvMSS s));
    ("reordering", AUint32 (Reordering s));
    ("rxRTT", ADuration (RxRTT s));
    ("rxSpace", AUint32 (RxSpace s));
    ("totalRetrans", AUint32 (TotalRetrans s));
    ("ccAlgorithm", AString (CCAlgorithm s)) ]%string.

(** The entries [ToMap] adds when the field is valid. *)
Definition optional (s : SysInfo) : list (string * option any) := [
    ("deliveryRateAppLimited", ABool <$> valid (DeliveryRateAppLimited s));
    ("fastOpenClientFail", AUint8 <$> valid (FastOpenClientFail s));
    ("pacingRate", AUint64 <$> valid (PacingRate s));
    ("maxPacingRate", AUint64 <$> valid (MaxPacingRate s));
    ("bytesAcked", AUint64 <$> valid (BytesAcked s));
    ("bytesReceived", AUint64 <$> valid (BytesReceived s));
    ("segsOut", AUint32 <$> valid (SegsOut s));
    ("segsIn", AUint32 <$> valid (SegsIn s));
    ("notSentBytes", AUint32 <$> valid (NotSentBytes s));
    ("minRTT", ADuration <$> valid (MinRTT s));
    ("dataSegsIn", AUint32 <$> valid (DataSegsIn s));
    ("dataSegsOut", AUint32 <$> valid (DataSegsOut s));
    ("deliveryRate", AUint64 <$> valid (DeliveryRate s));
    ("busyTime", AUint64 <$> valid (BusyTime s));
    ("rxWindowLimited", AUint64 <$> valid (RxWindowLimited s));
    ("txBufferLimited", AUint64 <$> valid (TxBufferLimited s));
    ("delivered", AUint32 <$> valid (Delivered s));
    ("deliveredCE", AUint32 <$> valid (DeliveredCE s));
    ("bytesSent", AUint64 <$> valid (BytesSent s));
    ("bytesRetrans", AUint64 <$> valid (BytesRetrans s));
    ("dsackDups", AUint32 <$> valid (DSACKDups s));
    ("reordSeen", AUint32 <$> valid (ReordSeen s));
    ("rxOutOfOrder", AUint32 <$> valid (RxOutOfOrder s));
    ("txWindow", AUint32 <$> valid (TxWindow s));
    ("rxWindow", AUint32 <$> valid (RxWindow s));
    ("rehash", AUint32 <$> valid (Rehash s));
    ("totalRTO", AUint16 <$> valid (TotalRTO s));
    ("totalRTORecoveries", AUint16 <$> valid (TotalRTORecoveries s));
    ("totalRTOTime", AUint32 <$> valid (TotalRTOTime s));
    ("ccVegasEnabled", AUint32 <$> valid (CCVegasEnabled s));
    ("ccVegasRTTCnt", AUint32 <$> valid (CCVegasRTTCnt s));
    ("ccVegasRTT", ADuration <$> valid (CCVegasRTT s));
    ("ccVegasRTTMin", ADuration <$> valid (CCVegasRTTMin s));
    ("ccBBRBwLo", AUint32 <$> valid (CCBBRBwLo s));
    ("ccBBRBwHi", AUint32 <$> valid (CCBBRBwHi s));
    ("ccBBRMinRTT", ADuration <$> valid (CCBBRMinRTT s));
    ("ccBBRPacingGain", AUint32 <$> valid (CCBBRPacingGain s));
    ("ccBBRCWindowGain", AUint32 <$> valid (CCBBRCWindowGain s));
    ("ccDCTCPEnabled", ABool <$> valid (CCDCTCPEnabled s));
    ("ccDCTCPCEState", AUint16 <$> valid (CCDCTCPCEState s));
    ("ccDCTCPAlpha", AUint32 <$> valid (CCDCTCPAlpha s));
    ("ccDCTCPABECN", AUint32 <$> valid (CCDCTCPABECN s));
    ("ccDCTCPABTOT", AUint32 <$> valid (CCDCTCPABTOT s)) ]%string.

Definition ToMap (s : SysInfo) : gmap string any :=
  put_all (optional s) (list_to_map (required s)).

(** [time.Duration(x) * timeFieldMultiplier] *)
Definition timeFieldMultiplier : Z := 1000.
Definition micros (x : Z) : Z := x *i64 timeFieldMultiplier.

Definition TCP_ESTABLISHED : Z := 1.
Definition TCP_SYN_SENT : Z := 2.
Definition TCP_SYN_RECV : Z := 3.
Definition TCP_FIN_WAIT1 : Z := 4.
Definition TCP_FIN_WAIT2 : Z := 5.
Definition TCP_TIME_WAIT : Z := 6.
Definition TCP_CLOSE : Z := 7.
Definition TCP_CLOSE_WAIT : Z := 8.
Definition TCP_LAST_ACK : Z := 9.
Definition TCP_LISTEN : Z := 10.
Definition TCP_CLOSING : Z := 11.
Definition TCP_NEW_SYN_RECV : Z := 12.

Definition tcpStateMap : gmap Z string := list_to_map [
    (TCP_ESTABLISHED, "ESTABLISHED");
    (TCP_SYN_SENT, "SYN_SENT");
    (TCP_SYN_RECV, "SYN_RECV");
    (TCP_FIN_WAIT1, "FIN_WAIT1");
    (TCP_FIN_WAIT2, "FIN_WAIT2");
    (TCP_TIME_WAIT, "TIME_WAIT");
    (TCP_CLOSE, "CLOSE");
    (TCP_CLOSE_WAIT, "CLOSE_WAIT");
    (TCP_LAST_ACK, "LAST_ACK");
    (TCP_LISTEN, "LISTEN");
    (TCP_CLOSING, "CLOSING") ]%string.

Definition TCPI_OPT_TIMESTAMPS : Z := 1.
Definition TCPI_OPT_SACK : Z := 2.
Definition TCPI_OPT_WSCALE : Z := 4.
Definition TCPI_OPT_ECN : Z := 8.
Definition TCPI_OPT_ECN_SEEN : Z := 16.
Definition TCPI_OPT_SYN_DATA : Z := 32.
Definition TCPI_OPT_USEC_TS : Z := 64.
Definition TCPI_OPT_TFO_CHILD : Z := 128.

Definition tcpOptionsMap : gmap Z string := list_to_map [
    (TCPI_OPT_TIMESTAMPS, "Timestamps");
    (TCPI_OPT_SACK, "SACK");
    (TCPI_OPT_WSCALE, "WindowScale");
    (TCPI_OPT_ECN, "ECN");
    (TCPI_OPT_ECN_SEEN, "ECNSeen");
    (TCPI_OPT_SYN_DATA, "SYNData");
    (TCPI_OPT_USEC_TS, "UsecTS");
    (TCPI_OPT_TFO_CHILD, "TFOChild") ]%string.

Definition tcpOptions : list Z := [
    TCPI_OPT_TIMESTAMPS; TCPI_OPT_SACK; TCPI_OPT_WSCALE; TCPI_OPT_ECN; TCPI_OPT_ECN_SEEN;
    TCPI_OPT_SYN_DATA; TCPI_OPT_USEC_TS; TCPI_OPT_TFO_CHILD ].

Definition optionName (flag : Z) : string := default ""%string (tcpOptionsMap !! flag).

(** One iteration of the loop over [tcpOptions]; the state is [TxOptions] and
    [RxOptions]. *)
Definition unpackOption (packed : Raw.RawTCPInfo) (acc : slice Option * slice Option)
    (flag : Z) : slice Option * slice Option :=
  if Z.land (Raw.options packed) flag =? 0 then acc
  else if bool_decide (flag ∈ [TCPI_OPT_TIMESTAMPS; TCPI_OPT_SACK; TCPI_OPT_ECN;
                               TCPI_OPT_ECN_SEEN; TCPI_OPT_SYN_DATA; TCPI_OPT_USEC_TS;
                               TCPI_OPT_TFO_CHILD])
  then (append acc.1 [mkOption (optionName flag) 0], append acc.2 [mkOption (optionName flag) 0])
  else if flag =? TCPI_OPT_WSCALE
  then (append acc.1 [mkOption (optionName flag) (Z.land (Raw.bitfield0 packed) 0x0f)],
        append acc.2 [mkOption (optionName flag) (Z.shiftr (Raw.bitfield0 packed) 4)])
  else acc.

Definition unpackOptions (packed : Raw.RawTCPInfo) : slice Option * slice Option :=
  fold_left (unpackOption packed) tcpOptions (None, None).

(** [RawTCPInfo.Unpack]; [fl] are the package's version flags. *)
Section unpack.
Context (fl : kflag -> bool).

(** A field the kernel provides since the version of [f]. *)
Definition since {A} `{!GoZero A} (f : kflag) (x : A) : Nullable A :=
  if fl f then mkNullable true x else null.

Definition Unpack (packed : Raw.RawTCPInfo) : SysInfo := {|
  State := Raw.state packed;
  StateName := default ""%string (tcpStateMap !! Raw.state packed);
  CAState := Raw.ca_state packed;
  Retransmits := Raw.retransmits packed;
  Probes := Raw.probes packed;
  Backoff := Raw.backoff packed;
  TxOptions := (unpackOptions packed).1;
  RxOptions := (unpackOptions packed).2;
  TxWindowScale := Z.land (Raw.bitfield0 packed) 0x0f;
  RxWindowScale := Z.shiftr (Raw.bitfield0 packed) 4;
  DeliveryRateAppLimited := since at_4_9 (Z.land (Raw.bitfield1 packed) 1 =? 1);
  FastOpenClientFail := since at_5_5 (Z.land (Z.shiftr (Raw.bitfield1 packed) 1) 0x3);
  RTO := micros (Raw.rto packed);
  ATO := micros (Raw.ato packed);
  TxMSS := Raw.snd_mss packed;
  RxMSS := Raw.rcv_mss packed;
  UnAcked := Raw.unacked packed;
  Sacked := Raw.sacked packed;
  Lost := Raw.lost packed;
  Retrans := Raw.retrans packed;
  Fackets := Raw.fackets packed;
  LastTxAt := micros (Raw.last_data_sent packed);
  LastTxAckAt := micros (Raw.last_ack_sent packed);
  LastRxAt := micros (Raw.last_data_recv packed);
  LastRxAckAt := micros (Raw.last_ack_recv packed);
  PMTU := Raw.pmtu packed;
  RxSSThreshold := Raw.rcv_ssthresh packed;
  RTT := micros (Raw.rtt packed);
  RTTVar := micros (Raw.rttvar packed);
  TxSSThreshold := Raw.snd_ssthresh packed;
  TxCWindow := Raw.snd_cwnd packed;
  AdvMSS := Raw.advmss packed;
  Reordering := Raw.reordering packed;
  RxRTT := micros (Raw.rcv_rtt packed);
  RxSpace := Raw.rcv_space packed;
  TotalRetrans := Raw.total_retrans packed;
  PacingRate := since at_3_15 (Raw.pacing_rate packed);
  MaxPacingRate := since at_3_15 (Raw.max_pacing_rate packed);
  BytesAcked := since at_4_1 (Raw.bytes_acked packed);
  BytesReceived := since at_4_1 (Raw.bytes_received packed);
  SegsOut := since at_4_2 (Raw.segs_out packed);
  SegsIn := since at_4_2 (Raw.segs_in packed);
  NotSentBytes := since at_4_6 (Raw.notsent_bytes packed);
  MinRTT := since at_4_6 (micros (Raw.min_rtt packed));
  DataSegsIn := since at_4_6 (Raw.data_segs_in packed);
  DataSegsOut := since at_4_6 (Raw.data_segs_out packed);
  DeliveryRate := since at_4_9 (Raw.delivery_rate packed);
  BusyTime := since at_4_10 (Raw.busy_time packed);
  RxWindowLimited := since at_4_10 (Raw.rwnd_limited packed);
  TxBufferLimited := since at_4_10 (Raw.sndbuf_limited packed);
  Delivered := since at_4_18 (Raw.delivered packed);
  DeliveredCE := since at_4_18 (Raw.delivered_ce packed);
  BytesSent := since at_4_19 (Raw.bytes_sent packed);
  BytesRetrans := since at_4_19 (Raw.bytes_retrans packed);
  DSACKDups := since at_4_19 (Raw.dsack_dups packed);
  ReordSeen := since at_4_19 (Raw.reord_seen packed);
  RxOutOfOrder := since at_5_4 (Raw.rcv_ooopack packed);
  TxWindow := since at_5_4 (Raw.snd_wnd packed);
  RxWindow := since at_6_2 (Raw.rcv_wnd packed);
  Rehash := since at_6_2 (Raw.rehash packed);
  TotalRTO := since at_6_2 (Raw.total_rto packed);
  TotalRTORecoveries := since at_6_2 (Raw.total_rto_recoveries packed);
  TotalRTOTime := since at_6_2 (Raw.total_rto_time packed);
  CCAlgorithm := ""%string;
  CCVegasEnabled := null;
  CCVegasRTTCnt := null;
  CCVegasRTT := null;
  CCVegasRTTMin := null;
  CCBBRBwLo := null;
  CCBBRBwHi := null;
  CCBBRMinRTT := null;
  CCBBRPacingGain := null;
  CCBBRCWindowGain := null;
  CCDCTCPEnabled := null;
  CCDCTCPCEState := null;
  CCDCTCPAlpha := null;
  CCDCTCPABECN := null;
  CCDCTCPABTOT := null
|}.
End unpack.

Definition ToInfo (s : SysInfo) : Info SysInfo := {|
    TcpInfo.State := StateName s;
    TcpInfo.TxOptions := TxOptions s;
    TcpInfo.RxOptions := RxOptions s;
    TcpInfo.TxMSS := uint64 (TxMSS s);
    TcpInfo.RxMSS := uint64 (RxMSS s);
    TcpInfo.RTT := RTT s;
    TcpInfo.RTTVar := RTTVar s;
    TcpInfo.RTO := RTO s;
    TcpInfo.ATO := ATO s;
    TcpInfo.LastTxAt := LastTxAt s;
    TcpInfo.LastRxAt := LastRxAt s;
    TcpInfo.LastTxAckAt := LastTxAckAt s;
    TcpInfo.LastRxAckAt := LastRxAckAt s;
    TcpInfo.RxWindow := uint64 (RxSpace s);
    TcpInfo.TxSSThreshold := uint64 (TxSSThreshold s);
    TcpInfo.RxSSThreshold := uint64 (RxSSThreshold s);
    TcpInfo.TxWindowBytes := 0;
    TcpInfo.TxWindowSegs := uint64 (TxCWindow s);
    TcpInfo.Retransmits := uint64 (TotalRetrans s);
    TcpInfo.Sys := Some s
  |}.

Definition ErrKernelTooOld : error :=
  errors_New "tcp_info is not available on Linux prior to kernel 2.6.2".

Definition Warnings (s : SysInfo) : list string :=
  (if Valid (BytesRetrans s) then warn "retransBytes" (NValue (BytesRetrans s)) else [])
  ++ warn "retransTotal" (TotalRetrans s)
  ++ warn "backoff" (Backoff s)
  ++ (if Valid (RxOutOfOrder s) then warn "outOfOrderBytes" (NValue (RxOutOfOrder s)) else [])
  ++ (if Valid (TxBufferLimited s)
      then warn "txSendBufferLimited" (NValue (TxBufferLimited s)) else [])
  ++ (if Valid (RxWindowLimited s)
      then warn "rxWindowLimited" (NValue (RxWindowLimited s)) else []).

(** ** Congestion control *)

(** The structs of golang.org/x/sys/unix and the fields the package reads. *)
Class UnixCC (V B D : Type) := {
  Vegas_Enabled : V -> Z; Vegas_Rttcnt : V -> Z; Vegas_Rtt : V -> Z; Vegas_Minrtt : V -> Z;
  BBR_Bw_lo : B -> Z; BBR_Bw_hi : B -> Z; BBR_Min_rtt : B -> Z; BBR_Pacing_gain : B -> Z;
  BBR_Cwnd_gain : B -> Z;
  DCTCP_Enabled : D -> Z; DCTCP_Ce_state : D -> Z; DCTCP_Alpha : D -> Z;
  DCTCP_Ab_ecn : D -> Z; DCTCP_Ab_tot : D -> Z
}.

Section cc.
Context {V B D : Type} `{!UnixCC V B D}.

Record TCPInfoPlusCC := mkPlusCC {
  TCPInfo : Raw.RawTCPInfo;
  CCAlg : string;
  CCVegas : option V;
  CCBBR : option B;
  CCDCTP : option D
}.

Definition some {A} (x : A) : Nullable A := mkNullable true x.

Definition PlusCC_Unpack (fl : kflag -> bool) (t : TCPInfoPlusCC) : SysInfo :=
  let sysInfo := (Unpack fl (TCPInfo t)) <| CCAlgorithm := CCAlg t |> in
  match bool_decide (CCAlg t = "vegas"%string), CCVegas t with
  | true, Some v =>
      sysInfo <| CCVegasEnabled := some (Vegas_Enabled v) |>
              <| CCVegasRTTCnt := some (Vegas_Rttcnt v) |>
              <| CCVegasRTTMin := some (Vegas_Minrtt v *i64 1000) |>
              <| CCVegasRTT := some (Vegas_Rtt v *i64 1000) |>
  | _, _ =>
  match bool_decide (CCAlg t = "bbr"%string), CCBBR t with
  | true, Some b =>
      sysInfo <| CCBBRBwHi := some (BBR_Bw_hi b) |>
              <| CCBBRBwLo := some (BBR_Bw_lo b) |>
              <| CCBBRMinRTT := some (BBR_Min_rtt b *i64 1000) |>
              <| CCBBRPacingGain := some (BBR_Pacing_gain b) |>
              <| CCBBRCWindowGain := some (BBR_Cwnd_gain b) |>
  | _, _ =>
  match bool_decide (CCAlg t = "dctcp"%string), CCDCTP t with
  | true, Some d =>
      sysInfo <| CCDCTCPEnabled := some (negb (DCTCP_Enabled d =? 0)) |>
              <| CCDCTCPCEState := some (DCTCP_Ce_state d) |>
              <| CCDCTCPAlpha := some (DCTCP_Alpha d) |>
              <| CCDCTCPABECN := some (DCTCP_Ab_ecn d) |>
              <| CCDCTCPABTOT := some (DCTCP_Ab_tot d) |>
  | _, _ => sysInfo
  end end end.

(** The system calls of the socket: [raw] is [GetRawTCPInfo], the others the
    functions of golang.org/x/sys/unix. *)
Context (raw : globals -> Z -> Raw.RawTCPInfo + error).
Context (GetsockoptString : Z -> string + error).
Context (GetsockoptTCPCCVegasInfo : Z -> V + error).
Context (GetsockoptTCPCCBBRInfo : Z -> B + error).
Context (GetsockoptTCPCCDCTCPInfo : Z -> D + error).

Definition GetTCPCongestionAlgorithm (fds : Z) : string + error :=
  match GetsockoptString fds with
  | inr err => inr err
  | inl algo => inl algo
  end.

Definition GetTCPInfo (g : globals) (fds : Z) : option SysInfo * option error :=
  let unpack res := Some (PlusCC_Unpack (flags g) res) in
  if negb (flags g at_2_6_2) then (None, Some ErrKernelTooOld)
  else match raw g fds with
  | inr err => (None, Some err)
  | inl tcpInfo =>
      match GetTCPCongestionAlgorithm fds with
      | inr err => (unpack (mkPlusCC tcpInfo "" None None None), Some err)
      | inl alg =>
          let res := mkPlusCC tcpInfo alg None None None in
          if bool_decide (alg = "vegas"%string) then
            match GetsockoptTCPCCVegasInfo fds with
            | inr err => (unpack res, Some err)
            | inl v => (unpack (mkPlusCC tcpInfo alg (Some v) None None), None)
            end
          else if bool_decide (alg = "bbr"%string) then
            match GetsockoptTCPCCBBRInfo fds with
            | inr err => (unpack res, Some err)
            | inl v => (unpack (mkPlusCC tcpInfo alg None (Some v) None), None)
            end
          else if bool_decide (alg = "dctcp"%string) then
            match GetsockoptTCPCCDCTCPInfo fds with
            | inr err => (unpack res, Some err)
            | inl v => (unpack (mkPlusCC tcpInfo alg None None (Some v)), None)
            end
          else (unpack res, None)
      end
  end.
End cc.

Definition Supported (g : globals) : bool := flags g at_2_6_2.
End Linux.

(** The platform once the package is initialised. *)
Definition Linux_Platform (g : globals) : Platform Linux.SysInfo := {|
  sys_Clone := Linux.Clone;
  sys_ToInfo := Linux.ToInfo;
  sys_Warnings := Linux.Warnings;
  sys_ToMap := Linux.ToMap;
  TcpInfo.Supported := Linux.Supported g
|}.
