(* ===== verification/LinuxThms.v ===== *)
(** The TCP information of Linux: what a kernel version makes available, that the
    bytes fetched from the kernel hold every field reported as valid, and which
    fields are exported. *)

From stdpp Require Import base list strings gmap.
From Stdlib Require Import ZArith Lia.
From S2P Require Import Prelude GoFmt Layout Kernel TcpInfo LinuxInit LinuxRaw Linux.

Local Open Scope Z_scope.
Local Open Scope go_scope.

(** ** Kernel versions as a prefix of the table *)

Definition flagIndex (f : kflag) : nat :=
  match f with
  | at_2_6_2 => 0 | at_3_15 => 1 | at_4_1 => 2 | at_4_2 => 3 | at_4_6 => 4 | at_4_9 => 5
  | at_4_10 => 6 | at_4_18 => 7 | at_4_19 => 8 | at_5_4 => 9 | at_5_5 => 10 | at_6_2 => 11
  | at_6_7 => 12
  end.

Lemma flagIndex_entry f : tcpInfoSizes !! flagIndex f = Some (flagEntry f) /\ Flag (flagEntry f) = f.
Proof. by destruct f. Qed.

Lemma flag_of_index m : (m < 13)%nat -> exists f, flagIndex f = m.
Proof.
  intros Hm. destruct (lookup_lt_is_Some_2 tcpInfoSizes m) as [e He]; [done|].
  exists (Flag e). destruct (flagIndex_entry (Flag e)) as [H _].
  rewrite (table_flag _ _ He) in H. by eapply flag_inj.
Qed.

Lemma has_le v f f' : (flagIndex f <= flagIndex f')%nat -> has v f' = true -> has v f = true.
Proof.
  intros Hle. destruct (flagIndex_entry f) as [H E], (flagIndex_entry f') as [H' E'].
  pose proof (has_mono v _ _ _ _ Hle H H') as Hm. by rewrite E, E' in Hm.
Qed.

(** The flags a version sets are the first [n] of the table. *)
Lemma has_prefix v : exists n, (n <= 13)%nat /\ forall f, has v f = (flagIndex f <? n)%nat.
Proof.
  assert (H : forall m, (m <= 13)%nat -> exists n, (n <= m)%nat
    /\ forall f, (flagIndex f < m)%nat -> has v f = (flagIndex f <? n)%nat).
  { induction m as [|m IH]; intros Hm; [exists 0%nat; split; [done|]; intros; lia|].
    destruct IH as (n & Hn & IH); [lia|]. destruct (flag_of_index m) as [f0 Hf0]; [lia|].
    destruct (has v f0) eqn:E.
    - exists (Datatypes.S m). split; [done|]. intros f Hf.
      rewrite (has_le v f f0) by (done || lia). symmetry. by apply Nat.ltb_lt.
    - exists n. split; [lia|]. intros f Hf. destruct (decide (flagIndex f = m)) as [Em|].
      + assert (has v f = false) as ->.
        { destruct (has v f) eqn:E'; [|done]. rewrite <- E. symmetry.
          apply (has_le v f0 f); [lia|done]. }
        symmetry. apply Nat.ltb_ge. lia.
      + apply IH. lia. }
  destruct (H 13%nat) as (n & Hn & Hf); [done|]. exists n. split; [done|].
  intros f. apply Hf. by destruct f; vm_compute; lia.
Qed.

(** The size fetched by a kernel that has the first [n] entries. *)
Definition sizeAt (n : nat) (old : Z) : Z :=
  fold_left (fun sz e => if (flagIndex (Flag e) <? n)%nat then Size e else sz) tcpInfoSizes old.

Lemma sizeFor_at v n old :
  (forall f, has v f = (flagIndex f <? n)%nat) -> sizeFor v old = sizeAt n old.
Proof.
  intros H. unfold sizeFor, sizeAt. revert old. generalize tcpInfoSizes as l. intros l.
  induction l as [|e l IH]; intros old; [done|]. cbn [fold_left]. by rewrite IH, H.
Qed.

(** ** Which fields a version reports *)

(** The flag under which [Unpack] reads each field of the struct. *)
Definition rawGate : list kflag :=
  replicate 32 at_2_6_2 ++ [at_3_15; at_3_15; at_4_1; at_4_1; at_4_2; at_4_2; at_4_6; at_4_6;
    at_4_6; at_4_6; at_4_9; at_4_10; at_4_10; at_4_10; at_4_18; at_4_18; at_4_19; at_4_19;
    at_4_19; at_4_19; at_5_4; at_5_4; at_6_2; at_6_2; at_6_2; at_6_2; at_6_2].

Lemma since_ext {A} `{!GoZero A} (fl : kflag -> bool) f (x y : A) :
  (fl f = true -> x = y) -> Linux.since fl f x = Linux.since fl f y.
Proof. intros H. unfold Linux.since. destruct (fl f); [by rewrite H|done]. Qed.

Lemma unpackOptions_ext r r' :
  Raw.options r = Raw.options r' -> Raw.bitfield0 r = Raw.bitfield0 r' ->
  Linux.unpackOptions r = Linux.unpackOptions r'.
Proof. intros E1 E2. unfold Linux.unpackOptions, Linux.unpackOption. by rewrite E1, E2. Qed.

(** Adds [H i], the agreement on field [i], for each [i] below [n]. *)
Ltac gather H n :=
  lazymatch n with
  | O => idtac
  | Datatypes.S ?m =>
      let Hm := fresh "F" in pose proof (H m _ eq_refl) as Hm; cbn in Hm; gather H m
  end.

Lemma Unpack_ext fl r r' :
  fl at_2_6_2 = true ->
  (forall i f, rawGate !! i = Some f -> fl f = true -> Raw.fields r !! i = Raw.fields r' !! i) ->
  Linux.Unpack fl r = Linux.Unpack fl r'.
Proof.
  intros H0 H. gather H 59%nat. clear H.
  assert (E : forall a b : Z, (fl at_2_6_2 = true -> Some a = Some b) -> a = b).
  { intros a b Hab. specialize (Hab H0). congruence. }
  unfold Linux.Unpack. f_equal;
    try (apply since_ext; intros Hf);
    try (by rewrite (unpackOptions_ext r r') by (apply E; assumption));
    repeat first [by apply E | by apply (inj Some); auto | f_equal].
Qed.

(** ** The bytes fetched *)

(** The versions whose entry of [tcpInfoSizes] is too small for the fields that
    [Unpack] reports: 4.9 and 6.2 up to 6.6. *)
Definition size_gap (v : VersionInfo) : bool :=
  (has v at_4_9 && negb (has v at_4_10)) || (has v at_6_2 && negb (has v at_6_7)).

(** Every field reported by a kernel with the first [n] entries lies within the
    size it is asked for. *)
Definition covers (n : nat) : bool :=
  forallb (fun i =>
    match rawGate !! i, Raw.documentedEnds !! i with
    | Some f, Some e => negb (flagIndex f <? n)%nat || (Z.of_nat e <=? sizeAt n 0)
    | _, _ => false
    end) (seq 0 59).

Lemma covers_iff n :
  (1 <= n <= 13)%nat -> covers n = negb (bool_decide (n = 6%nat) || bool_decide (n = 12%nat)).
Proof.
  intros Hn. do 14 (destruct n as [|n]; [first [lia | vm_compute; reflexivity]|]). lia.
Qed.

Lemma sizeAt_indep n old : (1 <= n)%nat -> sizeAt n old = sizeAt n 0.
Proof. intros Hn. destruct n as [|n]; [lia|]. done. Qed.

Lemma covered v old i f :
  has v at_2_6_2 = true -> size_gap v = false -> rawGate !! i = Some f -> has v f = true ->
  exists e, Raw.documentedEnds !! i = Some e /\ Z.of_nat e <= sizeFor v old.
Proof.
  intros H0 Hg Hi Hf. destruct (has_prefix v) as (n & Hn & Hp).
  unfold size_gap in Hg. rewrite !Hp in Hg. rewrite Hp in H0, Hf. simpl in Hg, H0.
  apply Nat.ltb_lt in H0 as Hn1.
  assert (Hc : covers n = true).
  { rewrite covers_iff by lia. do 2 case_bool_decide; subst; simpl in *; done. }
  rewrite (sizeFor_at v n) by done. rewrite sizeAt_indep by done.
  apply lookup_lt_Some in Hi as Hl. change (length rawGate) with 59%nat in Hl.
  unfold covers in Hc. rewrite List.forallb_forall in Hc.
  specialize (Hc i (proj2 (List.in_seq 59 0 i) ltac:(lia))). rewrite Hi in Hc.
  destruct (Raw.documentedEnds !! i) as [e|]; [|done]. exists e. split; [done|].
  rewrite Hf in Hc. simpl in Hc. lia.
Qed.

Lemma sizeFor_bound v old : has v at_2_6_2 = true -> 104 <= sizeFor v old <= 248.
Proof.
  intros H0. destruct (has_prefix v) as (n & Hn & Hp). rewrite (sizeFor_at v n) by done.
  rewrite Hp in H0. simpl in H0. destruct n as [|n]; [done|].
  do 14 (destruct n as [|n]; [first [lia | vm_compute; split; congruence]|]). lia.
Qed.

Section fetch.
(** A kernel whose [struct tcp_info] has [klen] bytes and holds [r]: it copies
    as much of it as fits the buffer. *)
Context (ma : nat) (be : bool) (getsockopt : Z -> Z -> Z -> Z -> list Z + Z).
Context (Errno : Z -> error) (fd klen : Z) (r : Raw.RawTCPInfo).
Hypothesis Hma : goAlign ma.
Hypothesis Hr : Raw.in_range r.
Hypothesis Hk : forall len,
  getsockopt fd Raw.SOL_TCP Raw.TCP_INFO len
  = inl (take (Z.to_nat (Z.min len klen)) (Raw.encode be r)).

Lemma GetRaw_decode g :
  0 <= sizeOfRawTCPInfo g <= 248 -> sizeOfRawTCPInfo g <= klen ->
  Raw.GetRawTCPInfo ma be getsockopt Errno g fd
  = inl (Raw.decode ma be (Raw.stored ma
           (take (Z.to_nat (sizeOfRawTCPInfo g)) (Raw.encode be r)))).
Proof.
  intros Hs Hkl. unfold Raw.GetRawTCPInfo. rewrite wrapU_id by (unfold inU; lia).
  rewrite Hk. by rewrite Z.min_l by lia.
Qed.

Lemma fetched_fields m i e :
  Raw.documentedEnds !! i = Some e -> (e <= m)%nat ->
  Raw.fields (Raw.decode ma be (Raw.stored ma (take m (Raw.encode be r)))) !! i
  = Raw.fields r !! i.
Proof. intros He Hm. unfold Raw.stored. by apply decode_copied with e. Qed.

Lemma fetched_Unpack kv g :
  let g' := adaptToKernelVersion kv g in
  flags g' at_2_6_2 = true -> size_gap (effective kv g) = false ->
  Linux.Unpack (flags g') (Raw.decode ma be (Raw.stored ma
      (take (Z.to_nat (sizeOfRawTCPInfo g')) (Raw.encode be r))))
  = Linux.Unpack (flags g') r.
Proof.
  intros g' H0 Hg. assert (Hf : forall f, flags g' f = has (effective kv g) f) by apply adapt_flags.
  apply Unpack_ext; [done|]. intros i f Hi Hfl. rewrite Hf in H0, Hfl.
  destruct (covered _ (sizeOfRawTCPInfo g) _ _ H0 Hg Hi Hfl) as (e & He & Hle).
  apply fetched_fields with e; [done|]. unfold g'. rewrite (proj2 (adapt_frame kv g)). lia.
Qed.
End fetch.

Section complete.
Context {V B D : Type} `{!Linux.UnixCC V B D}.
Context (ma : nat) (be : bool) (getsockopt : Z -> Z -> Z -> Z -> list Z + Z) (Errno : Z -> error).
Context (alg : Z -> string + error) (vegas : Z -> V + error) (bbr : Z -> B + error)
        (dctcp : Z -> D + error).

Lemma PlusCC_ext fl r r' a (v : option V) (b : option B) (d : option D) :
  Linux.Unpack fl r = Linux.Unpack fl r' ->
  Linux.PlusCC_Unpack fl (Linux.mkPlusCC r a v b d)
  = Linux.PlusCC_Unpack fl (Linux.mkPlusCC r' a v b d).
Proof. intros E. unfold Linux.PlusCC_Unpack. cbn [Linux.TCPInfo]. by rewrite E. Qed.

Lemma GetTCPInfo_ext g fd raw1 raw2 r1 r2 :
  raw1 g fd = inl r1 -> raw2 g fd = inl r2 ->
  Linux.Unpack (flags g) r1 = Linux.Unpack (flags g) r2 ->
  Linux.GetTCPInfo raw1 alg vegas bbr dctcp g fd = Linux.GetTCPInfo raw2 alg vegas bbr dctcp g fd.
Proof.
  intros E1 E2 E. unfold Linux.GetTCPInfo. rewrite E1, E2.
  repeat case_match; rewrite ?(PlusCC_ext _ _ _ _ _ _ _ E); done.
Qed.

(** C15: On every supported kernel version outside 4.9 and 6.2 to 6.6, with 4- or
    8-byte alignment and either byte order, fetching only sizeOfRawTCPInfo bytes of the
    kernel's struct gives the same result as having the whole struct: every field
    reported as valid holds the kernel's value. *)
Theorem GetTCPInfo_complete kv g fd klen r :
  let g' := adaptToKernelVersion kv g in
  goAlign ma -> Raw.in_range r ->
  (forall len, getsockopt fd Raw.SOL_TCP Raw.TCP_INFO len
               = inl (take (Z.to_nat (Z.min len klen)) (Raw.encode be r))) ->
  sizeOfRawTCPInfo g' <= klen -> Linux.Supported g' = true -> size_gap (effective kv g) = false ->
  Linux.GetTCPInfo (Raw.GetRawTCPInfo ma be getsockopt Errno) alg vegas bbr dctcp g' fd
  = Linux.GetTCPInfo (fun _ _ => inl r) alg vegas bbr dctcp g' fd.
Proof.
  intros g' Hma Hr Hk Hkl Hs Hg. eapply GetTCPInfo_ext; [|reflexivity|].
  - eapply GetRaw_decode; [exact Hk| |done].
    unfold g'. rewrite (proj2 (adapt_frame kv g)).
    pose proof (sizeFor_bound (effective kv g) (sizeOfRawTCPInfo g)) as Hb.
    rewrite <- adapt_flags in Hb. specialize (Hb Hs). lia.
  - by apply fetched_Unpack.
Qed.
End complete.

(** A kernel with all the fields set to one. *)
Definition ones : Raw.RawTCPInfo := Raw.of_fields (fun _ => 1).

Lemma ones_in_range : Raw.in_range ones.
Proof. apply (bool_decide_unpack _). by vm_compute. Qed.

(** C16: On kernels 4.9 and 6.2 to 6.6 the size in the table ends before fields that
    Unpack marks valid: with all kernel fields one, MinRTT (4.9) or TotalRTO (6.2 to
    6.6) is reported as valid with value 0 instead of the kernel's value. *)
Theorem size_gap_loses_fields ma be kv g :
  let g' := adaptToKernelVersion kv g in
  let fetched := Raw.decode ma be (Raw.stored ma
                   (take (Z.to_nat (sizeOfRawTCPInfo g')) (Raw.encode be ones))) in
  goAlign ma -> size_gap (effective kv g) = true ->
  (valid (Linux.MinRTT (Linux.Unpack (flags g') ones)) = Some 1000
   /\ valid (Linux.MinRTT (Linux.Unpack (flags g') fetched)) = Some 0)
  \/ (valid (Linux.TotalRTO (Linux.Unpack (flags g') ones)) = Some 1
      /\ valid (Linux.TotalRTO (Linux.Unpack (flags g') fetched)) = Some 0).
Proof.
  intros g' fetched Hma Hg.
  assert (Hf : forall f, flags g' f = has (effective kv g) f) by apply adapt_flags.
  destruct (has_prefix (effective kv g)) as (n & Hn & Hp).
  assert (Hs : sizeOfRawTCPInfo g' = sizeAt n (sizeOfRawTCPInfo g)).
  { unfold g'. rewrite (proj2 (adapt_frame kv g)). by apply sizeFor_at. }
  unfold size_gap in Hg. rewrite !Hp in Hg. simpl in Hg.
  assert (n = 6 \/ n = 12)%nat as [-> | ->].
  { do 14 (destruct n as [|n]; [first [done | by left | by right]|]). lia. }
  - left. change (sizeAt 6 _) with 148 in Hs.
    assert (H : Raw.min_rtt fetched = 0).
    { apply (inj Some). unfold fetched. rewrite Hs.
      rewrite <- (decode_zero ma be Hma (take (Z.to_nat 148) (Raw.encode be ones)) 39 148);
        [done..|by destruct be; vm_compute]. }
    unfold valid, Linux.Unpack, Linux.since. cbn [Linux.MinRTT Linux.TotalRTO].
    rewrite Hf, Hp, H. done.
  - right. change (sizeAt 12 _) with 240 in Hs.
    assert (H : Raw.total_rto fetched = 0).
    { apply (inj Some). unfold fetched. rewrite Hs.
      rewrite <- (decode_zero ma be Hma (take (Z.to_nat 240) (Raw.encode be ones)) 56 240);
        [done..|by destruct be; vm_compute]. }
    unfold valid, Linux.Unpack, Linux.since. cbn [Linux.MinRTT Linux.TotalRTO].
    rewrite Hf, Hp, H. done.
Qed.

(** ** Examples of kernels *)

Module Demo_linux.
(** A socket without congestion control data. *)
#[export] Instance noCC : Linux.UnixCC unit unit unit :=
  {| Linux.Vegas_Enabled _ := 0; Linux.Vegas_Rttcnt _ := 0; Linux.Vegas_Rtt _ := 0;
     Linux.Vegas_Minrtt _ := 0; Linux.BBR_Bw_lo _ := 0; Linux.BBR_Bw_hi _ := 0;
     Linux.BBR_Min_rtt _ := 0; Linux.BBR_Pacing_gain _ := 0; Linux.BBR_Cwnd_gain _ := 0;
     Linux.DCTCP_Enabled _ := 0; Linux.DCTCP_Ce_state _ := 0; Linux.DCTCP_Alpha _ := 0;
     Linux.DCTCP_Ab_ecn _ := 0; Linux.DCTCP_Ab_tot _ := 0 |}.

Definition kernelOf (klen : Z) (r : Raw.RawTCPInfo) : Z -> Z -> Z -> Z -> list Z + Z :=
  fun _ _ _ len => inl (take (Z.to_nat (Z.min len klen)) (Raw.encode false r)).

Definition errno (e : Z) : error := mkError (FormatInt e) (Some (e =? 11)).

(** The package initialised on a kernel of the given version. *)
Definition on (k major minor : Z) : globals :=
  adaptToKernelVersion (inl (mkVersion k major minor "")) globals0.
End Demo_linux.
Import Demo_linux.

Lemma GetTCPInfo_complete_witness :
  Linux.GetTCPInfo (Raw.GetRawTCPInfo 8 false (kernelOf 232 ones) errno) (fun _ => inl "cubic"%string)
    (fun _ => inl tt) (fun _ => inl tt) (fun _ => inl tt) (on 5 15 0) 3
  = Linux.GetTCPInfo (fun _ _ => inl ones) (fun _ => inl "cubic"%string)
    (fun _ => inl tt) (fun _ => inl tt) (fun _ => inl tt) (on 5 15 0) 3.
Proof.
  refine (GetTCPInfo_complete 8 false (kernelOf 232 ones) errno _ _ _ _
            (inl (mkVersion 5 15 0 "")) globals0 3 232 ones _ _ _ _ _ _).
  - right. reflexivity.
  - apply ones_in_range.
  - intros len. reflexivity.
  - vm_compute. congruence.
  - vm_compute. reflexivity.
  - vm_compute. reflexivity.
Defined.

Lemma size_gap_loses_fields_witness :
  exists s, s = Linux.Unpack (flags (on 4 9 337)) (Raw.decode 8 false (Raw.stored 8
      (take (Z.to_nat (sizeOfRawTCPInfo (on 4 9 337))) (Raw.encode false ones))))
    /\ (valid (Linux.MinRTT s) = Some 0 \/ valid (Linux.TotalRTO s) = Some 0).
Proof.
  eexists. split; [reflexivity|].
  destruct (size_gap_loses_fields 8 false (inl (mkVersion 4 9 337 "")) globals0) as [[_ H]|[_ H]].
  - right. reflexivity.
  - vm_compute. reflexivity.
  - left. exact H.
  - right. exact H.
Defined.

(** ** Export as a map *)

Lemma lookup_put_all_ne l m k : k ∉ l.*1 -> put_all l m !! k = m !! k.
Proof.
  revert m. induction l as [|[k' ov] l IH]; intros m Hk; [done|]. csimpl in Hk.
  apply not_elem_of_cons in Hk as [Hne Hk]. unfold put_all in *. cbn [fold_left].
  rewrite IH by done. destruct ov; cbn [fst snd]; [by rewrite lookup_insert_ne|done].
Qed.

Lemma lookup_put_all l m k ov :
  NoDup l.*1 -> (k, ov) ∈ l ->
  put_all l m !! k = match ov with Some v => Some v | None => m !! k end.
Proof.
  revert m. induction l as [|[k' ov'] l IH]; intros m Hd Hin; [by apply not_elem_of_nil in Hin|].
  csimpl in Hd. apply NoDup_cons in Hd as [Hk Hd].
  apply elem_of_cons in Hin as [[= -> ->]|Hin].
  - change (put_all l (match ov' with Some v => <[k':=v]> m | None => m end) !! k'
            = match ov' with Some v => Some v | None => m !! k' end).
    rewrite lookup_put_all_ne by done. destruct ov'; [apply lookup_insert_eq|done].
  - assert (k <> k') by (intros ->; apply Hk; by apply (list_elem_of_fmap_2 fst _ _ Hin)).
    change (put_all l (match ov' with Some v => <[k':=v]> m | None => m end) !! k
            = match ov with Some v => Some v | None => m !! k end).
    rewrite IH by done. by destruct ov, ov'; rewrite ?lookup_insert_ne.
Qed.

Lemma put_all_eqv l m m' : map_eqv m m' -> map_eqv (put_all l m) (put_all l m').
Proof.
  revert m m'. induction l as [|[k ov] l IH]; intros m m' H; [done|]. unfold put_all in *.
  cbn [fold_left]. apply IH. destruct ov; [by apply map_eqv_insert; auto with go|done].
Qed.

(** The keys of the two groups. *)
Definition requiredKeys : list string := Eval vm_compute in (Linux.required (Linux.Unpack (fun _ => false) ones)).*1.
Definition optionalKeys : list string := Eval vm_compute in (Linux.optional (Linux.Unpack (fun _ => false) ones)).*1.

Lemma keys_NoDup : NoDup (requiredKeys ++ optionalKeys).
Proof. apply (bool_decide_unpack _). by vm_compute. Qed.

Lemma required_keys s : (Linux.required s).*1 = requiredKeys.
Proof. reflexivity. Qed.
Lemma optional_keys s : (Linux.optional s).*1 = optionalKeys.
Proof. reflexivity. Qed.

Lemma ToMap_optional s k ov : (k, ov) ∈ Linux.optional s -> Linux.ToMap s !! k = ov.
Proof.
  intros Hin. pose proof keys_NoDup as Hd. apply NoDup_app in Hd as (_ & Hx & Hd).
  unfold Linux.ToMap. rewrite (lookup_put_all _ _ k ov) by done.
  destruct ov; [done|]. apply not_elem_of_list_to_map_1. rewrite required_keys.
  intros Hk. apply (Hx k Hk). rewrite <- (optional_keys s). by apply (list_elem_of_fmap_2 fst _ _ Hin).
Qed.

Lemma ToMap_required s k v : (k, v) ∈ Linux.required s -> Linux.ToMap s !! k = Some v.
Proof.
  intros Hin. pose proof keys_NoDup as Hd. apply NoDup_app in Hd as (Hd & Hx & _).
  unfold Linux.ToMap. rewrite lookup_put_all_ne.
  - apply elem_of_list_to_map_1; [by rewrite required_keys|done].
  - rewrite optional_keys. apply Hx. rewrite <- (required_keys s).
    by apply (list_elem_of_fmap_2 fst _ _ Hin).
Qed.

(** The entries of the map, in the order they are set. *)
Definition entries (s : Linux.SysInfo) : list (string * option any) :=
  ((fun kv => (kv.1, Some kv.2)) <$> Linux.required s) ++ Linux.optional s.

(** No key is used twice, so no entry overwrites another. *)
Lemma ToMap_entries s k :
  Linux.ToMap s !! k = mjoin ((list_to_map (entries s) : gmap string (option any)) !! k).
Proof.
  assert (Hd : NoDup (entries s).*1).
  { unfold entries. rewrite fmap_app, <- list_fmap_compose, optional_keys. exact keys_NoDup. }
  destruct ((list_to_map (entries s) : gmap string (option any)) !! k) as [ov|] eqn:E; simpl.
  - apply elem_of_list_to_map in E; [|done].
    apply elem_of_app in E as [([k1 v] & [= -> ->] & Hin)%list_elem_of_fmap_1|Hin].
    + by apply ToMap_required.
    + by apply ToMap_optional.
  - apply not_elem_of_list_to_map in E. unfold entries in E.
    rewrite fmap_app, <- list_fmap_compose, not_elem_of_app in E. destruct E as [E1 E2].
    unfold Linux.ToMap. rewrite lookup_put_all_ne by done. by apply not_elem_of_list_to_map_1.
Qed.

Lemma Linux_Laws g : @PlatformLaws Linux.SysInfo (Linux_Platform g).
Proof.
  split; intros s; [done|]. simpl. unfold Linux.ToMap.
  change (Linux.optional (Linux.Clone s)) with (Linux.optional s).
  apply put_all_eqv. solve_map_eqv.
Qed.

(** The kernel version in which each exported field was added, as the comments of
    [RawTCPInfo] give it; the three totals of retransmission timeouts, which the code
    treats otherwise than these comments, are left out. *)
Definition keyVersion : list (string * (Z * Z)) := [
    ("deliveryRateAppLimited", (4, 9)); ("fastOpenClientFail", (5, 5));
    ("pacingRate", (3, 15)); ("maxPacingRate", (3, 15)); ("bytesAcked", (4, 1));
    ("bytesReceived", (4, 1)); ("segsOut", (4, 2)); ("segsIn", (4, 2));
    ("notSentBytes", (4, 6)); ("minRTT", (4, 6)); ("dataSegsIn", (4, 6));
    ("dataSegsOut", (4, 6)); ("deliveryRate", (4, 9)); ("busyTime", (4, 10));
    ("rxWindowLimited", (4, 10)); ("txBufferLimited", (4, 10)); ("delivered", (4, 18));
    ("deliveredCE", (4, 18)); ("bytesSent", (4, 19)); ("bytesRetrans", (4, 19));
    ("dsackDups", (4, 19)); ("reordSeen", (4, 19)); ("rxOutOfOrder", (5, 4));
    ("txWindow", (5, 4)); ("rxWindow", (6, 2)); ("rehash", (6, 2)) ]%string.

(** The flag that [Unpack] tests for each. *)
Definition keyFlag : list (string * kflag) := [
    ("deliveryRateAppLimited", at_4_9); ("fastOpenClientFail", at_5_5);
    ("pacingRate", at_3_15); ("maxPacingRate", at_3_15); ("bytesAcked", at_4_1);
    ("bytesReceived", at_4_1); ("segsOut", at_4_2); ("segsIn", at_4_2);
    ("notSentBytes", at_4_6); ("minRTT", at_4_6); ("dataSegsIn", at_4_6);
    ("dataSegsOut", at_4_6); ("deliveryRate", at_4_9); ("busyTime", at_4_10);
    ("rxWindowLimited", at_4_10); ("txBufferLimited", at_4_10); ("delivered", at_4_18);
    ("deliveredCE", at_4_18); ("bytesSent", at_4_19); ("bytesRetrans", at_4_19);
    ("dsackDups", at_4_19); ("reordSeen", at_4_19); ("rxOutOfOrder", at_5_4);
    ("txWindow", at_5_4); ("rxWindow", at_6_2); ("rehash", at_6_2) ]%string.

Lemma keyFlag_version :
  keyVersion = (fun kf => (kf.1, (Kernel (flagVersion kf.2), Major (flagVersion kf.2)))) <$> keyFlag
  /\ Forall (fun kf => Minor (flagVersion kf.2) = 0 /\ Flavor (flagVersion kf.2) = ""%string) keyFlag.
Proof. split; [reflexivity|]. by repeat constructor. Qed.

Lemma optional_versions fl r k f :
  (k, f) ∈ keyFlag ->
  exists ov, (k, ov) ∈ Linux.optional (Linux.Unpack fl r) /\ (is_Some ov <-> fl f = true).
Proof.
  assert (H : Forall (fun kf => exists ov, (kf.1, ov) ∈ Linux.optional (Linux.Unpack fl r)
                                  /\ (is_Some ov <-> fl kf.2 = true)) keyFlag).
  { unfold keyFlag, Linux.optional, Linux.Unpack, Linux.since.
    repeat (apply Forall_cons; split); [..|apply Forall_nil_2];
      (eexists; split; [repeat first [apply list_elem_of_here | apply list_elem_of_further]|]);
      cbn -[GoZero goZero null];
      match goal with |- context [fl ?f] => destruct (fl f) end; cbn; split; done || by eauto. }
  intros Hin. rewrite Forall_forall in H. by apply (H _ Hin).
Qed.

(** C18: 26 of the 29 optional kernel fields appear in the exported map iff the kernel
    version the package adapted to is at least the version in which the comments of
    RawTCPInfo say the field was added; the three totals of retransmission timeouts,
    which the code treats otherwise, are not covered. *)
Theorem kernel_fields_gated kv g r k major minor :
  (k, (major, minor)) ∈ keyVersion ->
  is_Some (Linux.ToMap (Linux.Unpack (flags (adaptToKernelVersion kv g)) r) !! k)
  <-> ~ version_lt (effective kv g) (mkVersion major minor 0 "").
Proof.
  destruct keyFlag_version as [-> Hz]. intros ([k' f] & [= -> -> ->] & Hin)%list_elem_of_fmap_1.
  rewrite Forall_forall in Hz. destruct (Hz _ Hin) as [Hm Hf]. simpl in Hm, Hf.
  destruct (optional_versions (flags (adaptToKernelVersion kv g)) r k' f Hin) as (ov & Ho & Hiff).
  rewrite (ToMap_optional _ _ _ Ho), Hiff, adapt_flags, has_version. cbn [fst snd].
  destruct (flagVersion f) as [a b c fl]. simpl in *. by subst.
Qed.

Lemma kernel_fields_gated_witness :
  ~ is_Some (Linux.ToMap (Linux.Unpack (flags (on 4 19 0)) ones) !! "txWindow"%string).
Proof.
  intros H.
  apply (kernel_fields_gated (inl (mkVersion 4 19 0 "")) globals0 ones "txWindow" 5 4) in H.
  - apply H. unfold version_lt. simpl. lia.
  - apply (bool_decide_unpack _). vm_compute. exact I.
Defined.
