(* ===== verification/LinuxUnpack.v ===== *)
(** How the fields of Linux's struct become those of [SysInfo]: options, bit
    fields and durations; what [GetTCPInfo] returns on every path; and the exported
    map as a table of kernel fields. *)

From stdpp Require Import base list strings gmap.
From Stdlib Require Import ZArith Lia.
From S2P Require Import Prelude GoFmt Layout Kernel TcpInfo LinuxInit LinuxRaw Linux LinuxThms.

Local Open Scope Z_scope.
Local Open Scope go_scope.

(** ** Options and bit fields *)

(** The options as their flags describe them: bit [i] contributes the entry [i]. *)
Definition optionNames : list string :=
  ["Timestamps"; "SACK"; "WindowScale"; "ECN"; "ECNSeen"; "SYNData"; "UsecTS"; "TFOChild"]%string.

Definition optionsOf (bits wscale : Z) : list Option :=
  concat (imap (fun i name =>
    if Z.testbit bits (Z.of_nat i)
    then [mkOption name (if decide (i = 2%nat) then wscale else 0)] else []) optionNames).

(** One iteration appends what the flag's bit contributes. *)
Lemma unpackOption_step r i name acc :
  optionNames !! i = Some name ->
  let x w := if Z.testbit (Raw.options r) (Z.of_nat i)
             then [mkOption name (if decide (i = 2%nat) then w else 0)] else [] in
  Linux.unpackOption r acc (2 ^ Z.of_nat i)
  = (append acc.1 (x (Z.land (Raw.bitfield0 r) 0x0f)), append acc.2 (x (Z.shiftr (Raw.bitfield0 r) 4))).
Proof.
  intros Hi x. unfold Linux.unpackOption. rewrite land_bit by lia. subst x. cbv beta.
  destruct acc as [l1 l2].
  do 8 (destruct i as [|i]; [injection Hi as <-;
    match goal with |- context [negb ?b] => destruct b end; simpl;
    [reflexivity | destruct l1, l2; simpl; rewrite ?app_nil_r; reflexivity]|]).
  done.
Qed.

Lemma unpackOptions_spec r :
  Linux.unpackOptions r
  = (append None (optionsOf (Raw.options r) (Z.land (Raw.bitfield0 r) 0x0f)),
     append None (optionsOf (Raw.options r) (Z.shiftr (Raw.bitfield0 r) 4))).
Proof.
  unfold Linux.unpackOptions.
  change Linux.tcpOptions with ((fun i => 2 ^ Z.of_nat i) <$> seq 0 8).
  set (x w i := if Z.testbit (Raw.options r) (Z.of_nat i)
                then [mkOption (optionNames !!! i) (if decide (i = 2%nat) then w else 0)] else []).
  rewrite (fold_append _ _ (x (Z.land (Raw.bitfield0 r) 0x0f)) (x (Z.shiftr (Raw.bitfield0 r) 4))).
  - done.
  - intros i acc Hi. destruct (lookup_lt_is_Some_2 optionNames i) as [name Hn].
    { apply elem_of_seq in Hi. simpl. lia. }
    rewrite (unpackOption_step _ _ _ _ Hn). unfold x.
    by rewrite (list_lookup_total_correct _ _ _ Hn).
Qed.

Lemma optionsOf_kinds bits w w' : Kind <$> optionsOf bits w = Kind <$> optionsOf bits w'.
Proof.
  unfold optionsOf. cbn [imap optionNames concat compose]. rewrite !fmap_app.
  do 8 (apply (f_equal2 (++)); [by destruct (Z.testbit _ _)|]). done.
Qed.

Lemma low_byte_bits x :
  wrapU 8 x = 0 <-> forall i, (i < 8)%nat -> Z.testbit x (Z.of_nat i) = false.
Proof.
  unfold wrapU. split.
  - intros H i Hi. rewrite <- (Z.mod_pow2_bits_low x 8) by lia. by rewrite H, Z.bits_0.
  - intros H. apply Z.bits_inj'. intros n Hn. rewrite Z.bits_0.
    destruct (decide (n < 8)).
    + rewrite Z.mod_pow2_bits_low by done. specialize (H (Z.to_nat n) ltac:(lia)).
      by rewrite Z2Nat.id in H.
    + apply Z.mod_pow2_bits_high. lia.
Qed.

Lemma optionsOf_nil bits w : optionsOf bits w = [] <-> wrapU 8 bits = 0.
Proof.
  rewrite low_byte_bits. unfold optionsOf. cbn [imap optionNames concat compose]. split.
  - intros H i Hi. repeat apply app_eq_nil in H as [? H].
    assert (A : forall (b : bool) (x : Option), (if b then [x] else []) = [] -> b = false) by by intros [].
    do 8 (destruct i as [|i]; [by eapply A|]). lia.
  - intros H. rewrite !H by lia. done.
Qed.

(** C23: The options listed by Unpack are those whose bit is set, in the order of the
    bits and with the names of the table, the window scale option carrying the sender's
    and the receiver's scale; both lists have the same kinds, and are nil iff no bit is
    set. *)
Theorem Unpack_options fl r :
  let s := Linux.Unpack fl r in
  elems (Linux.TxOptions s) = optionsOf (Raw.options r) (Linux.TxWindowScale s)
  /\ elems (Linux.RxOptions s) = optionsOf (Raw.options r) (Linux.RxWindowScale s)
  /\ (Kind <$> elems (Linux.TxOptions s)) = (Kind <$> elems (Linux.RxOptions s))
  /\ (Linux.TxOptions s = None <-> wrapU 8 (Raw.options r) = 0)
  /\ (Linux.RxOptions s = None <-> wrapU 8 (Raw.options r) = 0).
Proof.
  intros s. unfold s, Linux.Unpack.
  cbn [Linux.TxOptions Linux.RxOptions Linux.TxWindowScale Linux.RxWindowScale].
  rewrite unpackOptions_spec. cbn [fst snd]. rewrite !elems_append. split_and!; [done..| | |].
  - apply optionsOf_kinds.
  - rewrite <- (optionsOf_nil _ (Z.land (Raw.bitfield0 r) 0x0f)).
    by destruct (optionsOf _ _).
  - rewrite <- (optionsOf_nil _ (Z.shiftr (Raw.bitfield0 r) 4)).
    by destruct (optionsOf _ _).
Qed.

(** ** Widths and units *)

(** The bounds of every field of a struct in range. *)
Lemma in_range_fields r :
  Raw.in_range r ->
  (inU 8 (Raw.state r) /\ inU 8 (Raw.ca_state r) /\ inU 8 (Raw.retransmits r)
   /\ inU 8 (Raw.probes r) /\ inU 8 (Raw.backoff r) /\ inU 8 (Raw.options r)
   /\ inU 8 (Raw.bitfield0 r) /\ inU 8 (Raw.bitfield1 r))
  /\ Forall (inU 32) [Raw.rto r; Raw.ato r; Raw.snd_mss r; Raw.rcv_mss r; Raw.unacked r;
       Raw.sacked r; Raw.lost r; Raw.retrans r; Raw.fackets r; Raw.last_data_sent r;
       Raw.last_ack_sent r; Raw.last_data_recv r; Raw.last_ack_recv r; Raw.pmtu r;
       Raw.rcv_ssthresh r; Raw.rtt r; Raw.rttvar r; Raw.snd_ssthresh r; Raw.snd_cwnd r;
       Raw.advmss r; Raw.reordering r; Raw.rcv_rtt r; Raw.rcv_space r; Raw.total_retrans r;
       Raw.min_rtt r].
Proof.
  intros Hr. unfold Raw.in_range, Raw.sizes, Raw.fields in Hr.
  repeat match goal with H : Forall2 _ (_ :: _) _ |- _ => apply Forall2_cons in H as [? H] end.
  clear Hr. split; [by split_and!|]. repeat (apply Forall_cons; split); try done.
Qed.

(** Microseconds of 32 bits never overflow when they become nanoseconds. *)
Lemma micros_exact x : inU 32 x -> Linux.micros x = x * 1000.
Proof.
  intros [H1 H2]. unfold Linux.micros, Linux.timeFieldMultiplier. apply wrapS_id; [lia|].
  unfold inS. lia.
Qed.

Lemma widen_exact x : inU 32 x -> wrapU 64 x = x.
Proof. intros [H1 H2]. apply wrapU_id. unfold inU. lia. Qed.

(** The states with a name are those of the kernel that a socket can report. *)
Lemma state_name_known x : default ""%string (Linux.tcpStateMap !! x) <> ""%string <-> 1 <= x <= 11.
Proof.
  split.
  - intros H. destruct (Linux.tcpStateMap !! x) as [n|] eqn:E; [|done].
    apply elem_of_list_to_map_2 in E.
    repeat (apply elem_of_cons in E as [[= -> _]|E]; [vm_compute; split; congruence|]).
    by apply not_elem_of_nil in E.
  - intros H. assert (Hx : x ∈ seqZ 1 11) by (apply elem_of_seqZ; lia).
    change (seqZ 1 11) with [1; 2; 3; 4; 5; 6; 7; 8; 9; 10; 11] in Hx.
    repeat (apply elem_of_cons in Hx as [->|Hx]; [vm_compute; congruence|]).
    by apply not_elem_of_nil in Hx.
Qed.

(** The fields of [Info] in their units. *)
Lemma ToInfo_units fl r :
  Raw.in_range r ->
  let i := Linux.ToInfo (Linux.Unpack fl r) in
  RTT i = 1000 * Raw.rtt r /\ RTTVar i = 1000 * Raw.rttvar r
  /\ RTO i = 1000 * Raw.rto r /\ ATO i = 1000 * Raw.ato r
  /\ LastTxAt i = 1000 * Raw.last_data_sent r /\ LastRxAt i = 1000 * Raw.last_data_recv r
  /\ LastTxAckAt i = 1000 * Raw.last_ack_sent r /\ LastRxAckAt i = 1000 * Raw.last_ack_recv r
  /\ TxMSS i = Raw.snd_mss r /\ RxMSS i = Raw.rcv_mss r
  /\ RxWindow i = Raw.rcv_space r /\ TxWindowSegs i = Raw.snd_cwnd r
  /\ TxSSThreshold i = Raw.snd_ssthresh r /\ RxSSThreshold i = Raw.rcv_ssthresh r
  /\ Retransmits i = Raw.total_retrans r
  /\ (State i <> ""%string <-> 1 <= Raw.state r <= 11)
  /\ Sys i = Some (Linux.Unpack fl r).
Proof.
  intros Hr. destruct (in_range_fields r Hr) as [_ Hw].
  repeat (apply Forall_cons in Hw as [? Hw]).
  unfold Linux.ToInfo, Linux.Unpack.
  cbn [RTT RTTVar RTO ATO LastTxAt LastRxAt LastTxAckAt LastRxAckAt TxMSS RxMSS RxWindow
       TxWindowSegs TxSSThreshold RxSSThreshold Retransmits State Sys
       Linux.RTT Linux.RTTVar Linux.RTO Linux.ATO Linux.LastTxAt Linux.LastRxAt Linux.LastTxAckAt
       Linux.LastRxAckAt Linux.TxMSS Linux.RxMSS Linux.RxSpace Linux.TxCWindow
       Linux.TxSSThreshold Linux.RxSSThreshold Linux.TotalRetrans Linux.StateName].
  rewrite !micros_exact, !widen_exact by done. split_and!; try lia; [|done].
  apply state_name_known.
Qed.

(** C22: For kernel fields in their ranges no duration overflows: the times of Info are
    1000 times the kernel's counts, the sizes, windows, thresholds and retransmissions
    are unchanged, and the state has a name iff it is 1 to 11. *)
Theorem Linux_ToInfo_units fl r :
  Raw.in_range r ->
  let i := Linux.ToInfo (Linux.Unpack fl r) in
  RTT i = 1000 * Raw.rtt r /\ RTTVar i = 1000 * Raw.rttvar r
  /\ RTO i = 1000 * Raw.rto r /\ ATO i = 1000 * Raw.ato r
  /\ LastTxAt i = 1000 * Raw.last_data_sent r /\ LastRxAt i = 1000 * Raw.last_data_recv r
  /\ LastTxAckAt i = 1000 * Raw.last_ack_sent r /\ LastRxAckAt i = 1000 * Raw.last_ack_recv r
  /\ TxMSS i = Raw.snd_mss r /\ RxMSS i = Raw.rcv_mss r
  /\ RxWindow i = Raw.rcv_space r /\ TxWindowSegs i = Raw.snd_cwnd r
  /\ TxSSThreshold i = Raw.snd_ssthresh r /\ RxSSThreshold i = Raw.rcv_ssthresh r
  /\ Retransmits i = Raw.total_retrans r
  /\ (State i <> ""%string <-> 1 <= Raw.state r <= 11)
  /\ Sys i = Some (Linux.Unpack fl r).
Proof. apply ToInfo_units. Qed.

Lemma Linux_ToInfo_units_witness :
  RTT (Linux.ToInfo (Linux.Unpack (fun _ => false) (Raw.of_fields (fun _ => 255)))) = 255000.
Proof.
  refine (proj1 (Linux_ToInfo_units _ (Raw.of_fields (fun _ => 255)) _)).
  apply (bool_decide_unpack _). vm_compute. exact I.
Defined.

(** ** The exported map *)

(** The states of include/net/tcp_states.h, from 0. *)
Definition stateNames : list string :=
  [""; "ESTABLISHED"; "SYN_SENT"; "SYN_RECV"; "FIN_WAIT1"; "FIN_WAIT2"; "TIME_WAIT"; "CLOSE";
   "CLOSE_WAIT"; "LAST_ACK"; "LISTEN"; "CLOSING"]%string.

Definition optionSlice (l : list Option) : slice Option :=
  match l with [] => None | _ => Some l end.

Section exported.
Context {V B D : Type} `{!Linux.UnixCC V B D} (fl : kflag -> bool).
Implicit Type t : Linux.TCPInfoPlusCC (V:=V) (B:=B) (D:=D).

Let from (f : kflag) (a : any) : option any := if fl f then Some a else None.

(** The fields every kernel has, the ones added by later kernels, and those of the
    congestion control algorithm, each with its type, its source and its unit. *)
Definition exported_kernel t : list (string * option any) := let r := Linux.TCPInfo t in [
    ("state", Some (AString (nth (Z.to_nat (Raw.state r)) stateNames "")));
    ("caState", Some (AUint8 (Raw.ca_state r)));
    ("retransmits", Some (AUint8 (Raw.retransmits r)));
    ("probes", Some (AUint8 (Raw.probes r)));
    ("backoff", Some (AUint8 (Raw.backoff r)));
    ("txOptions", Some (AOptions (optionSlice (optionsOf (Raw.options r) (Z.land (Raw.bitfield0 r) 15)))));
    ("rxOptions", Some (AOptions (optionSlice (optionsOf (Raw.options r) (Z.shiftr (Raw.bitfield0 r) 4)))));
    ("txWindowScale", Some (AUint8 (Z.land (Raw.bitfield0 r) 15)));
    ("rxWindowScale", Some (AUint8 (Z.shiftr (Raw.bitfield0 r) 4)));
    ("rto", Some (ADuration (Raw.rto r * 1000)));
    ("ato", Some (ADuration (Raw.ato r * 1000)));
    ("txMSS", Some (AUint32 (Raw.snd_mss r)));
    ("rxMSS", Some (AUint32 (Raw.rcv_mss r)));
    ("unAcked", Some (AUint32 (Raw.unacked r)));
    ("sacked", Some (AUint32 (Raw.sacked r)));
    ("lost", Some (AUint32 (Raw.lost r)));
    ("retrans", Some (AUint32 (Raw.retrans r)));
    ("fackets", Some (AUint32 (Raw.fackets r)));
    ("lastTxAt", Some (ADuration (Raw.last_data_sent r * 1000)));
    ("lastTxAckAt", Some (ADuration (Raw.last_ack_sent r * 1000)));
    ("lastRxAt", Some (ADuration (Raw.last_data_recv r * 1000)));
    ("lastRxAckAt", Some (ADuration (Raw.last_ack_recv r * 1000)));
    ("pmtu", Some (AUint32 (Raw.pmtu r)));
    ("rxSSThreshold", Some (AUint32 (Raw.rcv_ssthresh r)));
    ("rtt", Some (ADuration (Raw.rtt r * 1000)));
    ("rttVar", Some (ADuration (Raw.rttvar r * 1000)));
    ("txSSThreshold", Some (AUint32 (Raw.snd_ssthresh r)));
    ("txCWindow", Some (AUint32 (Raw.snd_cwnd r)));
    ("advMSS", Some (AUint32 (Raw.advmss r)));
    ("reordering", Some (AUint32 (Raw.reordering r)));
    ("rxRTT", Some (ADuration (Raw.rcv_rtt r * 1000)));
    ("rxSpace", Some (AUint32 (Raw.rcv_space r)));
    ("totalRetrans", Some (AUint32 (Raw.total_retrans r)));
    ("ccAlgorithm", Some (AString (Linux.CCAlg t)));
    ("deliveryRateAppLimited", from at_4_9 (ABool (Z.testbit (Raw.bitfield1 r) 0)));
    ("fastOpenClientFail", from at_5_5 (AUint8 (Raw.bitfield1 r / 2 mod 4)));
    ("pacingRate", from at_3_15 (AUint64 (Raw.pacing_rate r)));
    ("maxPacingRate", from at_3_15 (AUint64 (Raw.max_pacing_rate r)));
    ("bytesAcked", from at_4_1 (AUint64 (Raw.bytes_acked r)));
    ("bytesReceived", from at_4_1 (AUint64 (Raw.bytes_received r)));
    ("segsOut", from at_4_2 (AUint32 (Raw.segs_out r)));
    ("segsIn", from at_4_2 (AUint32 (Raw.segs_in r)));
    ("notSentBytes", from at_4_6 (AUint32 (Raw.notsent_bytes r)));
    ("minRTT", from at_4_6 (ADuration (Raw.min_rtt r * 1000)));
    ("dataSegsIn", from at_4_6 (AUint32 (Raw.data_segs_in r)));
    ("dataSegsOut", from at_4_6 (AUint32 (Raw.data_segs_out r)));
    ("deliveryRate", from at_4_9 (AUint64 (Raw.delivery_rate r)));
    ("busyTime", from at_4_10 (AUint64 (Raw.busy_time r)));
    ("rxWindowLimited", from at_4_10 (AUint64 (Raw.rwnd_limited r)));
    ("txBufferLimited", from at_4_10 (AUint64 (Raw.sndbuf_limited r)));
    ("delivered", from at_4_18 (AUint32 (Raw.delivered r)));
    ("deliveredCE", from at_4_18 (AUint32 (Raw.delivered_ce r)));
    ("bytesSent", from at_4_19 (AUint64 (Raw.bytes_sent r)));
    ("bytesRetrans", from at_4_19 (AUint64 (Raw.bytes_retrans r)));
    ("dsackDups", from at_4_19 (AUint32 (Raw.dsack_dups r)));
    ("reordSeen", from at_4_19 (AUint32 (Raw.reord_seen r)));
    ("rxOutOfOrder", from at_5_4 (AUint32 (Raw.rcv_ooopack r)));
    ("txWindow", from at_5_4 (AUint32 (Raw.snd_wnd r)));
    ("rxWindow", from at_6_2 (AUint32 (Raw.rcv_wnd r)));
    ("rehash", from at_6_2 (AUint32 (Raw.rehash r))) ]%string.

Definition exported_cc t : list (string * option any) :=
  let vegas := if bool_decide (Linux.CCAlg t = "vegas") then Linux.CCVegas t else None in
  let bbr := if bool_decide (Linux.CCAlg t = "bbr") then Linux.CCBBR t else None in
  let dctcp := if bool_decide (Linux.CCAlg t = "dctcp") then Linux.CCDCTP t else None in [
    ("ccVegasEnabled", (fun x => AUint32 (Linux.Vegas_Enabled x)) <$> vegas);
    ("ccVegasRTTCnt", (fun x => AUint32 (Linux.Vegas_Rttcnt x)) <$> vegas);
    ("ccVegasRTT", (fun x => ADuration (wrapS 64 (Linux.Vegas_Rtt x * 1000))) <$> vegas);
    ("ccVegasRTTMin", (fun x => ADuration (wrapS 64 (Linux.Vegas_Minrtt x * 1000))) <$> vegas);
    ("ccBBRBwLo", (fun x => AUint32 (Linux.BBR_Bw_lo x)) <$> bbr);
    ("ccBBRBwHi", (fun x => AUint32 (Linux.BBR_Bw_hi x)) <$> bbr);
    ("ccBBRMinRTT", (fun x => ADuration (wrapS 64 (Linux.BBR_Min_rtt x * 1000))) <$> bbr);
    ("ccBBRPacingGain", (fun x => AUint32 (Linux.BBR_Pacing_gain x)) <$> bbr);
    ("ccBBRCWindowGain", (fun x => AUint32 (Linux.BBR_Cwnd_gain x)) <$> bbr);
    ("ccDCTCPEnabled", (fun x => ABool (negb (Linux.DCTCP_Enabled x =? 0)%Z)) <$> dctcp);
    ("ccDCTCPCEState", (fun x => AUint16 (Linux.DCTCP_Ce_state x)) <$> dctcp);
    ("ccDCTCPAlpha", (fun x => AUint32 (Linux.DCTCP_Alpha x)) <$> dctcp);
    ("ccDCTCPABECN", (fun x => AUint32 (Linux.DCTCP_Ab_ecn x)) <$> dctcp);
    ("ccDCTCPABTOT", (fun x => AUint32 (Linux.DCTCP_Ab_tot x)) <$> dctcp) ]%string.

(** The totals of retransmission timeouts. *)
Definition rtoKeys : list string := ["totalRTO"; "totalRTORecoveries"; "totalRTOTime"]%string.

Lemma state_name x : 0 <= x -> default ""%string (Linux.tcpStateMap !! x) = nth (Z.to_nat x) stateNames ""%string.
Proof.
  intros Hx. destruct (decide (x <= 11)) as [Hle|Hgt].
  - assert (Hin : x ∈ seqZ 0 12) by (apply elem_of_seqZ; lia).
    change (seqZ 0 12) with [0; 1; 2; 3; 4; 5; 6; 7; 8; 9; 10; 11] in Hin.
    repeat (apply elem_of_cons in Hin as [->|Hin]; [reflexivity|]). by apply not_elem_of_nil in Hin.
  - rewrite nth_overflow by (simpl; lia). pose proof (proj1 (state_name_known x)) as Hn.
    destruct (default _ _); [done|]. assert (1 <= x <= 11) by by apply Hn. lia.
Qed.

Lemma bitfield1_fields x :
  0 <= x -> (Z.land x 1 =? 1) = Z.testbit x 0 /\ Z.land (Z.shiftr x 1) 0x3 = x / 2 mod 4.
Proof.
  intros Hx. change 1 with (Z.ones 1) at 1. change 3 with (Z.ones 2).
  rewrite !Z.land_ones, Z.shiftr_div_pow2, Z.bit0_odd by lia.
  split; [|done]. change (2 ^ 1) with 2. rewrite Zmod_odd. by destruct (Z.odd x).
Qed.

Lemma cons_eq {A} (x y : A) l l' : x = y -> l = l' -> x :: l = y :: l'.
Proof. by intros -> ->. Qed.

(** The algorithm is one of the three, whose data are there or not, or another one. *)
Ltac cc_cases a v b d :=
  destruct (decide (a = "vegas"%string)) as [->|?];
    [destruct v|destruct (decide (a = "bbr"%string)) as [->|?];
      [destruct b|destruct (decide (a = "dctcp"%string)) as [->|?]; [destruct d|]]];
  repeat match goal with
  | |- context [bool_decide (?x = ?y :> string)] =>
      first [rewrite (bool_decide_eq_true_2 (x = y)) by done
            |rewrite (bool_decide_eq_false_2 (x = y)) by done]; cbv iota
  end.

Lemma entries_exported t :
  Raw.in_range (Linux.TCPInfo t) ->
  exists l, l.*1 = rtoKeys
    /\ entries (Linux.PlusCC_Unpack fl t) = exported_kernel t ++ l ++ exported_cc t.
Proof.
  intros Hr. destruct t as [r a v b d]. simpl in Hr. destruct (in_range_fields r Hr) as [Hb Hw].
  destruct Hb as ([Hst _] & _ & _ & _ & _ & _ & _ & [Hb1 _]).
  repeat (apply Forall_cons in Hw as [? Hw]).
  destruct (bitfield1_fields _ Hb1) as [Ha Hf].
  assert (Hs : forall {A} `{!GoZero A} (g : A -> any) f x,
    g <$> valid (Linux.since fl f x) = if fl f then Some (g x) else None).
  { intros A z g f x. unfold Linux.since. by destruct (fl f). }
  assert (Ho : Linux.unpackOptions r
    = (optionSlice (optionsOf (Raw.options r) (Z.land (Raw.bitfield0 r) 15)),
       optionSlice (optionsOf (Raw.options r) (Z.shiftr (Raw.bitfield0 r) 4)))).
  { rewrite unpackOptions_spec. by destruct (optionsOf _ _), (optionsOf _ _). }
  exists (drop 26 (take 29 (Linux.optional (Linux.Unpack fl r)))). split; [reflexivity|].
  unfold exported_kernel, exported_cc, from, entries.
  cbn [Linux.TCPInfo Linux.CCAlg Linux.CCVegas Linux.CCBBR Linux.CCDCTP].
  rewrite <- Ha, <- Hf, <- state_name, <- !micros_exact by done.
  unfold Linux.PlusCC_Unpack. cbn [Linux.TCPInfo Linux.CCAlg Linux.CCVegas Linux.CCBBR Linux.CCDCTP].
  cc_cases a v b d; unfold Linux.required, Linux.optional; cbn [fmap list_fmap app take drop];
    (repeat (apply cons_eq; [first [reflexivity | exact (f_equal (pair _) (Hs _ _ _ _ _))
       | exact (f_equal (fun o => (_, Some (AOptions o.1))) Ho)
       | exact (f_equal (fun o => (_, Some (AOptions o.2))) Ho)]|])); reflexivity.
Qed.

(** C24: For kernel fields in their ranges the exported map of SysInfo is a table
    written out field by field: 34 entries that are always there, 26 that are there iff
    the flag of their kernel version is set, and 14 of the congestion control algorithm
    that was read, each with its Go type, the kernel field it comes from and its unit
    (durations in nanoseconds); no other key is there, leaving aside the three totals
    of retransmission timeouts. *)
Theorem Linux_ToMap_entries t k :
  Raw.in_range (Linux.TCPInfo t) -> k ∉ rtoKeys ->
  Linux.ToMap (Linux.PlusCC_Unpack fl t) !! k
  = mjoin ((list_to_map (exported_kernel t ++ exported_cc t) : gmap string (option any)) !! k).
Proof.
  intros Hr Hk. destruct (entries_exported t Hr) as (l & Hl & E). rewrite ToMap_entries, E.
  rewrite !list_to_map_app. assert (Hn : (list_to_map l : gmap string (option any)) !! k = None).
  { apply not_elem_of_list_to_map_1. by rewrite Hl. }
  by rewrite !lookup_union, Hn, (left_id_L None (∪)).
Qed.
End exported.

Import Demo_linux.

(** Field number [i] of the struct holds [i]. *)
Definition numbered : Raw.RawTCPInfo := Raw.of_fields Z.of_nat.

Lemma Linux_ToMap_entries_witness :
  let t : Linux.TCPInfoPlusCC (V:=unit) (B:=unit) (D:=unit) :=
    Linux.mkPlusCC numbered "cubic" None None None in
  let m := Linux.ToMap (Linux.PlusCC_Unpack (flags (on 5 15 0)) t) in
  m !! "pacingRate"%string = Some (AUint64 32) /\ m !! "rxWindow"%string = None
  /\ m !! "rtt"%string = Some (ADuration 23000).
Proof.
  intros t m.
  assert (Hr : Raw.in_range numbered) by (apply (bool_decide_unpack _); vm_compute; exact I).
  unfold m. rewrite !(Linux_ToMap_entries (flags (on 5 15 0)) t _ Hr)
    by (apply (bool_decide_unpack _); vm_compute; exact I).
  vm_compute. repeat split; reflexivity.
Defined.

(** Window scales, the application-limited flag and the fast-open failure packed
    into the two bit-field bytes are read back exactly, the latter two iff the kernel
    has them. *)
Theorem Unpack_bitfields fl r tx rx fail (app : bool) :
  0 <= tx < 16 -> 0 <= rx < 16 -> 0 <= fail < 4 ->
  Raw.bitfield0 r = Z.lor (Z.shiftl rx 4) tx ->
  Raw.bitfield1 r = Z.lor (Z.shiftl fail 1) (if app then 1 else 0) ->
  let s := Linux.Unpack fl r in
  Linux.TxWindowScale s = tx /\ Linux.RxWindowScale s = rx
  /\ valid (Linux.DeliveryRateAppLimited s) = (if fl at_4_9 then Some app else None)
  /\ valid (Linux.FastOpenClientFail s) = (if fl at_5_5 then Some fail else None).
Proof.
  intros Htx Hrx Hf E0 E1 s. unfold s, Linux.Unpack, Linux.since.
  cbn [Linux.TxWindowScale Linux.RxWindowScale Linux.DeliveryRateAppLimited Linux.FastOpenClientFail].
  rewrite E0, E1. clear s E0 E1 r.
  assert (Hx : forall z n, 0 <= z < Z.of_nat n -> exists k, (k < n)%nat /\ z = Z.of_nat k).
  { intros z n ?. exists (Z.to_nat z). lia. }
  destruct (Hx tx 16%nat Htx) as (a & Ha & ->), (Hx rx 16%nat Hrx) as (b & Hb & ->),
    (Hx fail 4%nat Hf) as (c & Hc & ->). clear Htx Hrx Hf Hx.
  split_and!.
  - clear -Ha Hb. do 16 (destruct b as [|b]; [do 16 (destruct a as [|a]; [done|]); lia|]). lia.
  - clear -Ha Hb. do 16 (destruct b as [|b]; [do 16 (destruct a as [|a]; [done|]); lia|]). lia.
  - destruct (fl at_4_9); [|done]. do 4 (destruct c as [|c]; [by destruct app|]). lia.
  - destruct (fl at_5_5); [|done]. do 4 (destruct c as [|c]; [by destruct app|]). lia.
Qed.

Lemma Unpack_bitfields_witness :
  let s := Linux.Unpack (fun _ => true) (Raw.of_fields (fun i => if decide (i = 6%nat) then 117 else 5)) in
  Linux.TxWindowScale s = 5 /\ Linux.RxWindowScale s = 7.
Proof.
  split.
  - refine (proj1 (Unpack_bitfields _ _ 5 7 2 true _ _ _ _ _)); vm_compute; first [reflexivity | split; congruence].
  - refine (proj1 (proj2 (Unpack_bitfields _ _ 5 7 2 true _ _ _ _ _))); vm_compute; first [reflexivity | split; congruence].
Defined.

(** ** GetTCPInfo *)

(** The information without the fields that depend on the congestion control. *)
Definition clear_cc (s : Linux.SysInfo) : Linux.SysInfo :=
  s <| Linux.CCAlgorithm := ""%string |>
    <| Linux.CCVegasEnabled := null |> <| Linux.CCVegasRTTCnt := null |>
    <| Linux.CCVegasRTT := null |> <| Linux.CCVegasRTTMin := null |>
    <| Linux.CCBBRBwLo := null |> <| Linux.CCBBRBwHi := null |> <| Linux.CCBBRMinRTT := null |>
    <| Linux.CCBBRPacingGain := null |> <| Linux.CCBBRCWindowGain := null |>
    <| Linux.CCDCTCPEnabled := null |> <| Linux.CCDCTCPCEState := null |>
    <| Linux.CCDCTCPAlpha := null |> <| Linux.CCDCTCPABECN := null |>
    <| Linux.CCDCTCPABTOT := null |>.

(** Which of the three groups of fields are valid. *)
Definition cc_groups (s : Linux.SysInfo) : list (list bool) := [
    [Valid (Linux.CCVegasEnabled s); Valid (Linux.CCVegasRTTCnt s); Valid (Linux.CCVegasRTT s);
     Valid (Linux.CCVegasRTTMin s)];
    [Valid (Linux.CCBBRBwLo s); Valid (Linux.CCBBRBwHi s); Valid (Linux.CCBBRMinRTT s);
     Valid (Linux.CCBBRPacingGain s); Valid (Linux.CCBBRCWindowGain s)];
    [Valid (Linux.CCDCTCPEnabled s); Valid (Linux.CCDCTCPCEState s); Valid (Linux.CCDCTCPAlpha s);
     Valid (Linux.CCDCTCPABECN s); Valid (Linux.CCDCTCPABTOT s)]].

Section paths.
Context {V B D : Type} `{!Linux.UnixCC V B D}.
Context (raw : globals -> Z -> Raw.RawTCPInfo + error).
Context (alg : Z -> string + error) (vegas : Z -> V + error) (bbr : Z -> B + error)
        (dctcp : Z -> D + error).

(** The error of the calls made after the struct was fetched: reading the name of the
    algorithm, then the data of that algorithm if it is one of the three. *)
Definition cc_error (fd : Z) : option error :=
  match alg fd with
  | inr err => Some err
  | inl "vegas" => match vegas fd with inr err => Some err | inl _ => None end
  | inl "bbr" => match bbr fd with inr err => Some err | inl _ => None end
  | inl "dctcp" => match dctcp fd with inr err => Some err | inl _ => None end
  | inl _ => None
  end%string.

(** Whether the data of the algorithm [name] were read. *)
Definition cc_read (name : string) (fd : Z) : bool :=
  bool_decide (alg fd = inl name /\ cc_error fd = None).

(** The struct that was fetched is unpacked whatever the later calls return. *)
Lemma GetTCPInfo_info g fd r :
  Linux.Supported g = true -> raw g fd = inl r ->
  exists info e, Linux.GetTCPInfo raw alg vegas bbr dctcp g fd = (Some info, e)
    /\ clear_cc info = Linux.Unpack (flags g) r.
Proof.
  unfold Linux.Supported, Linux.GetTCPInfo. intros -> ->. cbn [negb].
  destruct (Linux.GetTCPCongestionAlgorithm _ _) as [a|err]; [|by eexists _, _].
  assert (Hcc : forall v b d, clear_cc (Linux.PlusCC_Unpack (flags g) (Linux.mkPlusCC r a v b d))
                            = Linux.Unpack (flags g) r).
  { intros v b d. unfold Linux.PlusCC_Unpack. by repeat case_match. }
  repeat case_match; eexists _, _; (split; [done|apply Hcc]).
Qed.

(** Every path of [GetTCPInfo]. *)
Lemma GetTCPInfo_cases g fd :
  match Linux.Supported g, raw g fd with
  | false, _ => Linux.GetTCPInfo raw alg vegas bbr dctcp g fd = (None, Some Linux.ErrKernelTooOld)
  | true, inr err => Linux.GetTCPInfo raw alg vegas bbr dctcp g fd = (None, Some err)
  | true, inl r => exists info,
      Linux.GetTCPInfo raw alg vegas bbr dctcp g fd = (Some info, cc_error fd)
      /\ clear_cc info = Linux.Unpack (flags g) r
      /\ Linux.CCAlgorithm info = match alg fd with inl a => a | inr _ => ""%string end
      /\ cc_groups info = [replicate 4 (cc_read "vegas" fd);
                           replicate 5 (cc_read "bbr" fd);
                           replicate 5 (cc_read "dctcp" fd)]
  end.
Proof.
  unfold Linux.Supported, Linux.GetTCPInfo, Linux.GetTCPCongestionAlgorithm, cc_read.
  destruct (flags g at_2_6_2); simpl; [|done]. destruct (raw g fd) as [r|err]; [|done].
  unfold cc_error. destruct (alg fd) as [a|err]; [|by eexists].
  destruct (decide (a = "vegas"%string)) as [->|H1].
  { destruct (vegas fd); by eexists. }
  destruct (decide (a = "bbr"%string)) as [->|H2].
  { simpl. destruct (bbr fd); by eexists. }
  destruct (decide (a = "dctcp"%string)) as [->|H3].
  { simpl. destruct (dctcp fd); by eexists. }
  assert (He : match (inl a : string + error) with
    | inr err => Some err
    | inl "vegas" => match vegas fd with inr err => Some err | inl _ => None end
    | inl "bbr" => match bbr fd with inr err => Some err | inl _ => None end
    | inl "dctcp" => match dctcp fd with inr err => Some err | inl _ => None end
    | inl _ => None
    end%string = None) by (repeat case_match; done).
  rewrite He, !(bool_decide_eq_false_2 (_ = _)) by done. eexists. split; [done|].
  unfold Linux.PlusCC_Unpack. cbn [Linux.CCAlg]. rewrite !(bool_decide_eq_false_2 (_ = _)) by done.
  rewrite !bool_decide_eq_false_2 by (intros [[= ->] _]; done). done.
Qed.

(** C19: GetTCPInfo on every path: ErrKernelTooOld on an unsupported kernel, the error
    of getsockopt alone when it fails, otherwise always the unpacked struct with the
    error of reading the algorithm's name, else the error of reading the data of that
    algorithm when it is vegas, bbr or dctcp, else none; the algorithm name is the one
    read; the fields of vegas, bbr or dctcp are valid, all together, iff that is the
    algorithm and reading its data succeeded. *)
Theorem GetTCPInfo_paths g fd :
  match Linux.Supported g, raw g fd with
  | false, _ => Linux.GetTCPInfo raw alg vegas bbr dctcp g fd = (None, Some Linux.ErrKernelTooOld)
  | true, inr err => Linux.GetTCPInfo raw alg vegas bbr dctcp g fd = (None, Some err)
  | true, inl r => exists info,
      Linux.GetTCPInfo raw alg vegas bbr dctcp g fd = (Some info, cc_error fd)
      /\ clear_cc info = Linux.Unpack (flags g) r
      /\ Linux.CCAlgorithm info = match alg fd with inl a => a | inr _ => ""%string end
      /\ cc_groups info = [replicate 4 (cc_read "vegas" fd);
                           replicate 5 (cc_read "bbr" fd);
                           replicate 5 (cc_read "dctcp" fd)]
  end.
Proof. apply GetTCPInfo_cases. Qed.
End paths.
