(* ===== verification/Darwin.v ===== *)
(** pkg/tcpinfo/tcpinfo_darwin.go: the TCP information of macOS, from the option
    TCP_CONNECTION_INFO. *)

From stdpp Require Import base list strings gmap.
From Stdlib Require Import ZArith Lia.
From S2P Require Import Prelude GoFmt Layout TcpInfo.

Local Open Scope Z_scope.
Local Open Scope go_scope.

Module DarwinRaw.
Record RawInfo := mkRaw {
  State : Z; SendWscale : Z; RecvWscale : Z; xpad1 : Z; Options : Z; Flags : Z; RTO : Z;
  MaxSeg : Z; SendSSThresh : Z; SendCwnd : Z; SendWnd : Z; SendSBBytes : Z; RecvWnd : Z;
  RTTCur : Z; SRTT : Z; RTTVar : Z; TFOFlags : Z; TxPackets : Z; TxBytes : Z;
  TxRetransmitBytes : Z; RxPackets : Z; RxBytes : Z; RxOutOfOrderBytes : Z;
  TxRetransmitPackets : Z
}.

Definition sizes : list nat := [
  1; 1; 1; 1; 4; 4; 4; 4; 4; 4; 4; 4; 4; 4; 4; 4; 4; 8; 8; 8; 8; 8; 8; 8]%nat.

Definition fields (r : RawInfo) : list Z := [
  State r; SendWscale r; RecvWscale r; xpad1 r; Options r; Flags r; RTO r; MaxSeg r;
  SendSSThresh r; SendCwnd r; SendWnd r; SendSBBytes r; RecvWnd r; RTTCur r; SRTT r;
  RTTVar r; TFOFlags r; TxPackets r; TxBytes r; TxRetransmitBytes r; RxPackets r; RxBytes r;
  RxOutOfOrderBytes r; TxRetransmitPackets r].

Definition of_fields (f : nat -> Z) : RawInfo :=
  mkRaw
    (f 0%nat) (f 1%nat) (f 2%nat) (f 3%nat) (f 4%nat) (f 5%nat) (f 6%nat) (f 7%nat) (f 8%nat)
    (f 9%nat) (f 10%nat) (f 11%nat) (f 12%nat) (f 13%nat) (f 14%nat) (f 15%nat) (f 16%nat)
    (f 17%nat) (f 18%nat) (f 19%nat) (f 20%nat) (f 21%nat) (f 22%nat) (f 23%nat).

(** The struct stored at [mem]. *)
Definition decode (maxAlign : nat) (be : bool) (mem : list Z) : RawInfo :=
  of_fields (field_at maxAlign be sizes mem).
End DarwinRaw.

Module Darwin.
Record SysInfo := mkSysInfo {
  State : Z;
  StateName : string;
  TxWindowScale : Z;
  RxWindowScale : Z;
  TxOptions : slice Option;
  RxOptions : slice Option;
  Flags : string;
  RTO : Z;
  MaxSeg : Z;
  TxSSThreshold : Z;
  TxCWindow : Z;
  TxWindow : Z;
  TxSendBufferBytes : Z;
  RxWindow : Z;
  RTTCur : Z;
  SRTT : Z;
  RTTVar : Z;
  TFOFlags : Z;
  TxPackets : Z;
  TxBytes : Z;
  TxRetransmitBytes : Z;
  RxPackets : Z;
  RxBytes : Z;
  RxOutOfOrderBytes : Z;
  TxRetransmitPackets : Z
}.

Definition SysInfo_eta (s : SysInfo) : SysInfo :=
  mkSysInfo
    (State s) (StateName s) (TxWindowScale s) (RxWindowScale s) (TxOptions s) (RxOptions s)
    (Flags s) (RTO s) (MaxSeg s) (TxSSThreshold s) (TxCWindow s) (TxWindow s)
    (TxSendBufferBytes s) (RxWindow s) (RTTCur s) (SRTT s) (RTTVar s) (TFOFlags s)
    (TxPackets s) (TxBytes s) (TxRetransmitBytes s) (RxPackets s) (RxBytes s)
    (RxOutOfOrderBytes s) (TxRetransmitPackets s).
#[global] Instance set_dTxOptions : Setter TxOptions := ltac:(setter SysInfo_eta TxOptions).
#[global] Instance set_dRxOptions : Setter RxOptions := ltac:(setter SysInfo_eta RxOptions).

Definition Clone (s : SysInfo) : SysInfo :=
  s <| TxOptions := cloneOptions (TxOptions s) |> <| RxOptions := cloneOptions (RxOptions s) |>.

Definition ToMap (s : SysInfo) : gmap string any := list_to_map [
    ("state", AString (StateName s));
    ("txWindowScale", AUint8 (TxWindowScale s));
    ("rxWindowScale", AUint8 (RxWindowScale s));
    ("txOptions", AOptions (TxOptions s));
    ("rxOptions", AOptions (RxOptions s));
    ("flags", AString (Flags s));
    ("rto", ADuration (RTO s));
    ("mss", AUint32 (MaxSeg s));
    ("txSSThreshold", AUint32 (TxSSThreshold s));
    ("txCWindowBytes", AUint32 (TxCWindow s));
    ("txWindow", AUint32 (TxWindow s));
    ("txSendBufferBytes", AUint32 (TxSendBufferBytes s));
    ("rxWindow", AUint32 (RxWindow s));
    ("rttCur", ADuration (RTTCur s));
    ("rttSmoothed", ADuration (SRTT s));
    ("rttVar", ADuration (RTTVar s));
    ("tfoFlags", AUint32 (TFOFlags s));
    ("txPackets", AUint64 (TxPackets s));
    ("txBytes", AUint64 (TxBytes s));
    ("txRetransmitBytes", AUint64 (TxRetransmitBytes s));
    ("rxPackets", AUint64 (RxPackets s));
    ("rxBytes", AUint64 (RxBytes s));
    ("rxOutOfOrderBytes", AUint64 (RxOutOfOrderBytes s));
    ("txRetransmitPackets", AUint64 (TxRetransmitPackets s)) ]%string.

(** [time.Millisecond] *)
Definition timeFieldMultiplier : Z := 1000000.

Definition TCPS_CLOSED : Z := 0.
Definition TCPS_LISTEN : Z := 1.
Definition TCPS_SYN_SENT : Z := 2.
Definition TCPS_SYN_RECEIVED : Z := 3.
Definition TCPS_ESTABLISHED : Z := 4.
Definition TCPS_CLOSE_WAIT : Z := 5.
Definition TCPS_FIN_WAIT_1 : Z := 6.
Definition TCPS_CLOSING : Z := 7.
Definition TCPS_LAST_ACK : Z := 8.
Definition TCPS_FIN_WAIT_2 : Z := 9.
Definition TCPS_TIME_WAIT : Z := 10.

Definition tcpStateMap : gmap Z string := list_to_map [
    (TCPS_ESTABLISHED, "ESTABLISHED");
    (TCPS_SYN_SENT, "SYN_SENT");
    (TCPS_SYN_RECEIVED, "SYN_RECV");
    (TCPS_FIN_WAIT_1, "FIN_WAIT1");
    (TCPS_FIN_WAIT_2, "FIN_WAIT2");
    (TCPS_TIME_WAIT, "TIME_WAIT");
    (TCPS_CLOSED, "CLOSE");
    (TCPS_CLOSE_WAIT, "CLOSE_WAIT");
    (TCPS_LAST_ACK, "LAST_ACK");
    (TCPS_LISTEN, "LISTEN");
    (TCPS_CLOSING, "CLOSING") ]%string.

Definition SysFlagLossRecovery : Z := 0x1.
Definition SysFlagReorderingDetected : Z := 0x2.

Definition tcpFlagsMap : gmap Z string := list_to_map [
    (SysFlagLossRecovery, "LOSS_RECOVERY");
    (SysFlagReorderingDetected, "REORDERING_DETECTED") ]%string.

Definition tcpFlags : list Z := [SysFlagLossRecovery; SysFlagReorderingDetected].

Definition tcpInfoTCPFlagsString (options : Z) : string :=
  let opts := fold_left (fun opts flag =>
      if Z.land options flag =? 0 then opts
      else append opts [default ""%string (tcpFlagsMap !! flag)]) tcpFlags None in
  strings_Join (elems opts) ",".

Definition TCPCI_OPT_TIMESTAMPS : Z := 0x1.
Definition TCPCI_OPT_SACK : Z := 0x2.
Definition TCPCI_OPT_WSCALE : Z := 0x4.
Definition TCPCI_OPT_ECN : Z := 0x8.

Definition tcpOptionsMap : gmap Z string := list_to_map [
    (TCPCI_OPT_TIMESTAMPS, "Timestamps");
    (TCPCI_OPT_SACK, "SACK");
    (TCPCI_OPT_WSCALE, "WindowScale");
    (TCPCI_OPT_ECN, "ECN") ]%string.

Definition tcpOptions : list Z :=
  [TCPCI_OPT_TIMESTAMPS; TCPCI_OPT_SACK; TCPCI_OPT_WSCALE; TCPCI_OPT_ECN].

Definition optionName (flag : Z) : string := default ""%string (tcpOptionsMap !! flag).

(** One iteration of the loop over [tcpOptions]; the state is [TxOptions] and
    [RxOptions]. *)
Definition unpackOption (packed : DarwinRaw.RawInfo) (acc : slice Option * slice Option)
    (flag : Z) : slice Option * slice Option :=
  if Z.land (DarwinRaw.Options packed) flag =? 0 then acc
  else if bool_decide (flag ∈ [TCPCI_OPT_SACK; TCPCI_OPT_ECN; TCPCI_OPT_TIMESTAMPS])
  then (append acc.1 [mkOption (optionName flag) 0], append acc.2 [mkOption (optionName flag) 0])
  else if flag =? TCPCI_OPT_WSCALE
  then (append acc.1 [mkOption (optionName flag) (uint64 (DarwinRaw.SendWscale packed))],
        append acc.2 [mkOption (optionName flag) (uint64 (DarwinRaw.RecvWscale packed))])
  else acc.

(** [TxOptions] starts as an empty slice, [RxOptions] as nil. *)
Definition unpackOptions (packed : DarwinRaw.RawInfo) : slice Option * slice Option :=
  fold_left (unpackOption packed) tcpOptions (Some [], None).

Definition Unpack (packed : DarwinRaw.RawInfo) : SysInfo := {|
    State := DarwinRaw.State packed;
    StateName := default ""%string (tcpStateMap !! DarwinRaw.State packed);
    TxWindowScale := DarwinRaw.SendWscale packed;
    RxWindowScale := DarwinRaw.RecvWscale packed;
    TxOptions := (unpackOptions packed).1;
    RxOptions := (unpackOptions packed).2;
    Flags := tcpInfoTCPFlagsString (DarwinRaw.Flags packed);
    RTO := int64 (DarwinRaw.RTO packed) *i64 timeFieldMultiplier;
    MaxSeg := DarwinRaw.MaxSeg packed;
    TxSSThreshold := DarwinRaw.SendSSThresh packed;
    TxCWindow := DarwinRaw.SendCwnd packed;
    TxWindow := DarwinRaw.SendWnd packed;
    TxSendBufferBytes := DarwinRaw.SendSBBytes packed;
    RxWindow := DarwinRaw.RecvWnd packed;
    RTTCur := int64 (DarwinRaw.RTTCur packed) *i64 timeFieldMultiplier;
    SRTT := int64 (DarwinRaw.SRTT packed) *i64 timeFieldMultiplier;
    RTTVar := int64 (DarwinRaw.RTTVar packed) *i64 timeFieldMultiplier;
    TFOFlags := DarwinRaw.TFOFlags packed;
    TxPackets := DarwinRaw.TxPackets packed;
    TxBytes := DarwinRaw.TxBytes packed;
    TxRetransmitBytes := DarwinRaw.TxRetransmitBytes packed;
    RxPackets := DarwinRaw.RxPackets packed;
    RxBytes := DarwinRaw.RxBytes packed;
    RxOutOfOrderBytes := DarwinRaw.RxOutOfOrderBytes packed;
    TxRetransmitPackets := DarwinRaw.TxRetransmitPackets packed
  |}.

Definition ToInfo (s : SysInfo) : Info SysInfo := {|
    TcpInfo.State := StateName s;
    TcpInfo.TxOptions := TxOptions s;
    TcpInfo.RxOptions := RxOptions s;
    TcpInfo.TxMSS := uint64 (MaxSeg s);
    TcpInfo.RxMSS := uint64 (MaxSeg s);
    TcpInfo.RTT := SRTT s;
    TcpInfo.RTTVar := RTTVar s;
    TcpInfo.RTO := RTO s;
    TcpInfo.ATO := 0;
    TcpInfo.LastTxAt := 0;
    TcpInfo.LastRxAt := 0;
    TcpInfo.LastTxAckAt := 0;
    TcpInfo.LastRxAckAt := 0;
    TcpInfo.RxWindow := uint64 (RxWindow s);
    TcpInfo.TxSSThreshold := uint64 (TxSSThreshold s);
    TcpInfo.RxSSThreshold := 0;
    TcpInfo.TxWindowBytes := uint64 (TxCWindow s);
    TcpInfo.TxWindowSegs := uint64 (TxWindow s);
    TcpInfo.Retransmits := TxRetransmitPackets s;
    TcpInfo.Sys := Some s
  |}.

Section get.
(** [getsockopt fd level opt len] as on Linux; [TCP_CONNECTION_INFO] is a
    constant of golang.org/x/sys/unix, [Errno] converts a [syscall.Errno]. *)
Context (maxAlign : nat) (be : bool).
Context (getsockopt : Z -> Z -> Z -> Z -> list Z + Z) (Errno : Z -> error).
Context (TCP_CONNECTION_INFO : Z).

Definition IPPROTO_TCP : Z := 6.

(** The errno values of macOS. *)
Definition EAGAIN : error := Errno 35.
Definition EINVAL : error := Errno 22.
Definition ENOENT : error := Errno 2.

Definition GetTCPInfo (fds : Z) : option SysInfo * option error :=
  let size := structSize maxAlign DarwinRaw.sizes in
  match getsockopt fds IPPROTO_TCP TCP_CONNECTION_INFO (uint32 (Z.of_nat size)) with
  | inr errno =>
      if errno =? 35 then (None, Some EAGAIN)
      else if errno =? 22 then (None, Some EINVAL)
      else if errno =? 2 then (None, Some ENOENT)
      else (None, Some (Errno errno))
  | inl bs => (Some (Unpack (DarwinRaw.decode maxAlign be (stored_in size bs))), None)
  end.
End get.

Definition Supported : bool := true.

Definition Warnings (s : SysInfo) : list string :=
  warn "retransmitBytes" (TxRetransmitBytes s)
  ++ warn "retransmitPackets" (TxRetransmitPackets s)
  ++ warn "outOfOrderBytes" (RxOutOfOrderBytes s).
End Darwin.

#[export] Instance Darwin_Platform : Platform Darwin.SysInfo := {|
  sys_Clone := Darwin.Clone;
  sys_ToInfo := Darwin.ToInfo;
  sys_Warnings := Darwin.Warnings;
  sys_ToMap := Darwin.ToMap;
  TcpInfo.Supported := Darwin.Supported
|}.

#[export] Instance Darwin_Laws : PlatformLaws Darwin.SysInfo.
Proof. split; intros s; [done|]. simpl. unfold Darwin.ToMap. solve_map_eqv. Qed.
