(* ===== verification/Windows.v ===== *)
(** pkg/tcpinfo/tcpinfo_windows.go: the TCP information of Windows, from the
    control code SIO_TCP_INFO in its two versions. *)

From stdpp Require Import base list strings gmap.
From Stdlib Require Import ZArith Lia.
From S2P Require Import Prelude GoFmt Layout TcpInfo.

Local Open Scope Z_scope.
Local Open Scope go_scope.

Module V0.
Record RawInfoV0 := mkV0 {
  State : Z; Mss : Z; ConnectionTimeMs : Z; TimestampsEnabled : bool; RttUs : Z;
  MinRttUs : Z; BytesInFlight : Z; Cwnd : Z; SndWnd : Z; RcvWnd : Z; RcvBuf : Z;
  BytesOut : Z; BytesIn : Z; BytesReordered : Z; BytesRetrans : Z; FastRetrans : Z;
  DupAcksIn : Z; TimeoutEpisodes : Z; SynRetrans : Z
}.

Definition sizes : list nat := [
  4; 4; 8; 1; 4; 4; 4; 4; 4; 4; 4; 8; 8; 4; 4; 4; 4; 4; 1]%nat.

Definition fields (r : RawInfoV0) : list Z := [
  State r; Mss r; ConnectionTimeMs r; if TimestampsEnabled r then 1 else 0; RttUs r;
  MinRttUs r; BytesInFlight r; Cwnd r; SndWnd r; RcvWnd r; RcvBuf r; BytesOut r; BytesIn r;
  BytesReordered r; BytesRetrans r; FastRetrans r; DupAcksIn r; TimeoutEpisodes r;
  SynRetrans r].

Definition of_fields (f : nat -> Z) : RawInfoV0 :=
  mkV0
    (f 0%nat) (f 1%nat) (f 2%nat) (negb (f 3%nat =? 0)) (f 4%nat) (f 5%nat) (f 6%nat)
    (f 7%nat) (f 8%nat) (f 9%nat) (f 10%nat) (f 11%nat) (f 12%nat) (f 13%nat) (f 14%nat)
    (f 15%nat) (f 16%nat) (f 17%nat) (f 18%nat).

(** The struct stored at [mem]. *)
Definition decode (maxAlign : nat) (be : bool) (mem : list Z) : RawInfoV0 :=
  of_fields (field_at maxAlign be sizes mem).
End V0.

Module V1.
Record RawInfoV1 := mkV1 {
  State : Z; Mss : Z; ConnectionTimeMs : Z; TimestampsEnabled : bool; RttUs : Z;
  MinRttUs : Z; BytesInFlight : Z; Cwnd : Z; SndWnd : Z; RcvWnd : Z; RcvBuf : Z;
  BytesOut : Z; BytesIn : Z; BytesReordered : Z; BytesRetrans : Z; FastRetrans : Z;
  DupAcksIn : Z; TimeoutEpisodes : Z; SynRetrans : Z; SndLimTransRwin : Z;
  SndLimTimeRwin : Z; SndLimBytesRwin : Z; SndLimTransCwnd : Z; SndLimTimeCwnd : Z;
  SndLimBytesCwnd : Z; SndLimTransSnd : Z; SndLimTimeSnd : Z; SndLimBytesSnd : Z
}.

Definition sizes : list nat := [
  4; 4; 8; 1; 4; 4; 4; 4; 4; 4; 4; 8; 8; 4; 4; 4; 4; 4; 1; 4; 4; 8; 4; 4; 8; 4; 4; 8]%nat.

Definition fields (r : RawInfoV1) : list Z := [
  State r; Mss r; ConnectionTimeMs r; if TimestampsEnabled r then 1 else 0; RttUs r;
  MinRttUs r; BytesInFlight r; Cwnd r; SndWnd r; RcvWnd r; RcvBuf r; BytesOut r; BytesIn r;
  BytesReordered r; BytesRetrans r; FastRetrans r; DupAcksIn r; TimeoutEpisodes r;
  SynRetrans r; SndLimTransRwin r; SndLimTimeRwin r; SndLimBytesRwin r; SndLimTransCwnd r;
  SndLimTimeCwnd r; SndLimBytesCwnd r; SndLimTransSnd r; SndLimTimeSnd r; SndLimBytesSnd r].

Definition of_fields (f : nat -> Z) : RawInfoV1 :=
  mkV1
    (f 0%nat) (f 1%nat) (f 2%nat) (negb (f 3%nat =? 0)) (f 4%nat) (f 5%nat) (f 6%nat)
    (f 7%nat) (f 8%nat) (f 9%nat) (f 10%nat) (f 11%nat) (f 12%nat) (f 13%nat) (f 14%nat)
    (f 15%nat) (f 16%nat) (f 17%nat) (f 18%nat) (f 19%nat) (f 20%nat) (f 21%nat) (f 22%nat)
    (f 23%nat) (f 24%nat) (f 25%nat) (f 26%nat) (f 27%nat).

(** The struct stored at [mem]. *)
Definition decode (maxAlign : nat) (be : bool) (mem : list Z) : RawInfoV1 :=
  of_fields (field_at maxAlign be sizes mem).
End V1.

Module Win.
Record SysInfo := mkSysInfo {
  State : Z;
  StateName : string;
  MSS : Z;
  ConnectedTimeNS : Z;
  RTT : Z;
  RTTMin : Z;
  BytesInFlight : Z;
  CongestionWindow : Z;
  TxWindow : Z;
  RxWindow : Z;
  RxBuffer : Z;
  TxBytes : Z;
  RxBytes : Z;
  RxOutOfOrderBytes : Z;
  TxRetransmitBytes : Z;
  FastRetrans : Z;
  DupAcksIn : Z;
  TimeoutEpisodes : Z;
  SynRetrans : Z;
  SndLimTransRwin : Z;
  SndLimTransTimeRwin : Z;
  SndLimBytesRwin : Z;
  SndLimTransCwnd : Z;
  SndLimTimeCwnd : Z;
  SndLimBytesCwnd : Z;
  SndLimTransSnd : Z;
  SndLimTimeSnd : Z;
  SndLimBytesSnd : Z
}.

Definition Clone (s : SysInfo) : SysInfo := s.

Definition ToMap (s : SysInfo) : gmap string any := list_to_map [
    ("state", AString (StateName s));
    ("mss", AUint32 (MSS s));
    ("connectedTimeNS", ADuration (ConnectedTimeNS s));
    ("rtt", ADuration (RTT s));
    ("rttMin", ADuration (RTTMin s));
    ("bytesInFlight", AUint32 (BytesInFlight s));
    ("congestionWindow", AUint32 (CongestionWindow s));
    ("txWindow", AUint32 (TxWindow s));
    ("rxWindow", AUint32 (RxWindow s));
    ("rxBuffer", AUint32 (RxBuffer s));
    ("txBytes", AUint64 (TxBytes s));
    ("rxBytes", AUint64 (RxBytes s));
    ("rxOutOfOrderBytes", AUint32 (RxOutOfOrderBytes s));
    ("txRetransmitBytes", AUint64 (TxRetransmitBytes s));
    ("fastRetransmissions", AUint32 (FastRetrans s));
    ("duplicateAcksIn", AUint32 (DupAcksIn s));
    ("timeoutEpisodes", AUint32 (TimeoutEpisodes s));
    ("synRetransmissions", AUint8 (SynRetrans s));
    ("sndLimTransRwin", AUint64 (SndLimTransRwin s));
    ("sndLimTimeRwin", ADuration (SndLimTransTimeRwin s));
    ("sndLimBytesRwin", AUint64 (SndLimBytesRwin s));
    ("sndLimTransCwnd", AUint64 (SndLimTransCwnd s));
    ("sndLimTimeCwnd", ADuration (SndLimTimeCwnd s));
    ("sndLimBytesCwnd", AUint64 (SndLimBytesCwnd s));
    ("sndLimTransSnd", AUint64 (SndLimTransSnd s));
    ("sndLimTimeSnd", ADuration (SndLimTimeSnd s));
    ("sndLimBytesSnd", AUint64 (SndLimBytesSnd s)) ]%string.

(** [time.Millisecond] and [time.Microsecond] *)
Definition Millisecond : Z := 1000000.
Definition Microsecond : Z := 1000.
Definition timeFieldMultiplier : Z := Millisecond.

Definition TCPS_CLOSED : Z := 0.
Definition TCPS_LISTEN : Z := 1.
Definition TCPS_SYN_SENT : Z := 2.
Definition TCPS_SYN_RECEIVED : Z := 3.
Definition TCPS_ESTABLISHED : Z := 4.
Definition TCPS_FIN_WAIT_1 : Z := 5.
Definition TCPS_FIN_WAIT_2 : Z := 6.
Definition TCPS_CLOSE_WAIT : Z := 7.
Definition TCPS_CLOSING : Z := 8.
Definition TCPS_LAST_ACK : Z := 9.
Definition TCPS_TIME_WAIT : Z := 10.

Definition tcpStateMap : gmap Z string := list_to_map [
    (TCPS_ESTABLISHED, "ESTABLISHED");
    (TCPS_SYN_SENT, "SYN_SENT");
    (TCPS_SYN_RECEIVED, "SYN_RECV");
    (TCPS_FIN_WAIT_1, "FIN_WAIT1");
    (TCPS_FIN_WAIT_2, "FIN_WAIT2");
    (TCPS_TIME_WAIT, "TIME_WAIT");
    (TCPS_CLOSED, "CLOSE");
    (TCPS_CLOSE_WAIT, "CLOSE_WAIT");
    (TCPS_LAST_ACK, "LAST_ACK");
    (TCPS_LISTEN, "LISTEN");
    (TCPS_CLOSING, "CLOSING") ]%string.

(** [fmt.Sprintf("UNKNOWN(%d)", state)] for a state not in the map *)
Definition tcpInfoTCPStateString (state : Z) : string :=
  match tcpStateMap !! state with
  | Some s => s
  | None => "UNKNOWN(" +:+ FormatInt state +:+ ")"
  end.

(** [RawInfoV0.Unpack]; the fields of version 1 keep their zero values. *)
Definition Unpack_V0 (packed : V0.RawInfoV0) : SysInfo := {|
    State := V0.State packed;
    StateName := default ""%string (tcpStateMap !! V0.State packed);
    MSS := V0.Mss packed;
    ConnectedTimeNS := int64 (V0.ConnectionTimeMs packed) *i64 Millisecond;
    RTT := int64 (V0.RttUs packed) *i64 Microsecond;
    RTTMin := int64 (V0.MinRttUs packed) *i64 Microsecond;
    BytesInFlight := V0.BytesInFlight packed;
    CongestionWindow := V0.Cwnd packed;
    TxWindow := V0.SndWnd packed;
    RxWindow := V0.RcvWnd packed;
    RxBuffer := V0.RcvBuf packed;
    TxBytes := V0.BytesOut packed;
    RxBytes := V0.BytesIn packed;
    RxOutOfOrderBytes := V0.BytesReordered packed;
    TxRetransmitBytes := uint64 (V0.BytesRetrans packed);
    FastRetrans := V0.FastRetrans packed;
    DupAcksIn := V0.DupAcksIn packed;
    TimeoutEpisodes := V0.TimeoutEpisodes packed;
    SynRetrans := V0.SynRetrans packed;
    SndLimTransRwin := 0;
    SndLimTransTimeRwin := 0;
    SndLimBytesRwin := 0;
    SndLimTransCwnd := 0;
    SndLimTimeCwnd := 0;
    SndLimBytesCwnd := 0;
    SndLimTransSnd := 0;
    SndLimTimeSnd := 0;
    SndLimBytesSnd := 0
  |}.

(** [RawInfoV1.Unpack] *)
Definition Unpack_V1 (packed : V1.RawInfoV1) : SysInfo := {|
    State := V1.State packed;
    StateName := default ""%string (tcpStateMap !! V1.State packed);
    MSS := V1.Mss packed;
    ConnectedTimeNS := int64 (V1.ConnectionTimeMs packed) *i64 timeFieldMultiplier;
    RTT := int64 (V1.RttUs packed) *i64 Microsecond;
    RTTMin := int64 (V1.MinRttUs packed) *i64 Microsecond;
    BytesInFlight := V1.BytesInFlight packed;
    CongestionWindow := V1.Cwnd packed;
    TxWindow := V1.SndWnd packed;
    RxWindow := V1.RcvWnd packed;
    RxBuffer := V1.RcvBuf packed;
    TxBytes := V1.BytesOut packed;
    RxBytes := V1.BytesIn packed;
    RxOutOfOrderBytes := V1.BytesReordered packed;
    TxRetransmitBytes := uint64 (V1.BytesRetrans packed);
    FastRetrans := V1.FastRetrans packed;
    DupAcksIn := V1.DupAcksIn packed;
    TimeoutEpisodes := V1.TimeoutEpisodes packed;
    SynRetrans := V1.SynRetrans packed;
    SndLimTransRwin := uint64 (V1.SndLimTransRwin packed);
    SndLimTransTimeRwin := int64 (V1.SndLimTimeRwin packed) *i64 Millisecond;
    SndLimBytesRwin := V1.SndLimBytesRwin packed;
    SndLimTransCwnd := uint64 (V1.SndLimTransCwnd packed);
    SndLimTimeCwnd := int64 (V1.SndLimTimeCwnd packed) *i64 Millisecond;
    SndLimBytesCwnd := V1.SndLimBytesCwnd packed;
    SndLimTransSnd := uint64 (V1.SndLimTransSnd packed);
    SndLimTimeSnd := int64 (V1.SndLimTimeSnd packed) *i64 Millisecond;
    SndLimBytesSnd := V1.SndLimBytesSnd packed
  |}.

Definition ToInfo (s : SysInfo) : Info SysInfo := {|
    TcpInfo.State := StateName s;
    TcpInfo.TxOptions := None;
    TcpInfo.RxOptions := None;
    TcpInfo.TxMSS := uint64 (MSS s);
    TcpInfo.RxMSS := 0;
    TcpInfo.RTT := RTTMin s;
    TcpInfo.RTTVar := 0;
    TcpInfo.RTO := 0;
    TcpInfo.ATO := 0;
    TcpInfo.LastTxAt := 0;
    TcpInfo.LastRxAt := 0;
    TcpInfo.LastTxAckAt := 0;
    TcpInfo.LastRxAckAt := 0;
    TcpInfo.RxWindow := uint64 (RxWindow s);
    TcpInfo.TxSSThreshold := 0;
    TcpInfo.RxSSThreshold := 0;
    TcpInfo.TxWindowBytes := 0;
    TcpInfo.TxWindowSegs := uint64 (TxWindow s);
    TcpInfo.Retransmits := uint64 (SynRetrans s);
    TcpInfo.Sys := Some s
  |}.

Section get.
(** [WSAIoctl fd code input outLen]: the call with a four-byte input buffer
    holding [input] and an output buffer of [outLen] bytes; the bytes stored
    there, or the error. *)
Context (maxAlign : nat).
Context (WSAIoctl : Z -> Z -> Z -> Z -> list Z + error).

(** [syscall.IOC_INOUT | syscall.IOC_VENDOR | 39] *)
Definition SIO_TCP_INFO : Z := Z.lor (Z.lor 0xC0000000 0x18000000) 39.

Definition GetTCPInfo (fds : Z) : option SysInfo * option error :=
  let size1 := structSize maxAlign V1.sizes in
  match WSAIoctl fds SIO_TCP_INFO 1 (uint32 (Z.of_nat size1)) with
  | inl bs => (Some (Unpack_V1 (V1.decode maxAlign false (stored_in size1 bs))), None)
  | inr _ =>
      let size0 := structSize maxAlign V0.sizes in
      match WSAIoctl fds SIO_TCP_INFO 0 (uint32 (Z.of_nat size0)) with
      | inr err => (None, Some (errors_New ("could not perform the WSAIoctl: " +:+ err_msg err)))
      | inl bs => (Some (Unpack_V0 (V0.decode maxAlign false (stored_in size0 bs))), None)
      end
  end.
End get.

Definition Supported : bool := true.

Definition Warnings (s : SysInfo) : list string :=
  warn "retransmitBytes" (TxRetransmitBytes s)
  ++ warn "retransmitSyn" (SynRetrans s)
  ++ warn "outOfOrderBytes" (RxOutOfOrderBytes s)
  ++ warn "timeoutEpisodes" (TimeoutEpisodes s)
  ++ warn "duplicateAcksIn" (DupAcksIn s)
  ++ warn "fastRetransmissions" (FastRetrans s).
End Win.

#[export] Instance Win_Platform : Platform Win.SysInfo := {|
  sys_Clone := Win.Clone;
  sys_ToInfo := Win.ToInfo;
  sys_Warnings := Win.Warnings;
  sys_ToMap := Win.ToMap;
  TcpInfo.Supported := Win.Supported
|}.

#[export] Instance Win_Laws : PlatformLaws Win.SysInfo.
Proof. split; intros s; [done|apply map_eqv_refl]. Qed.
