(* ===== verification/PlatformThms.v ===== *)
(** macOS and Windows: the structs filled by the system are read back whole, on
    32-bit and 64-bit machines, and become the fields of [Info] in its units. *)

From stdpp Require Import base list strings gmap.
From Stdlib Require Import ZArith Lia.
From S2P Require Import Prelude GoFmt Layout TcpInfo Darwin Windows.

Local Open Scope Z_scope.
Local Open Scope go_scope.

Lemma goAlign_pos ma : goAlign ma -> (0 < ma)%nat.
Proof. intros [-> | ->]; lia. Qed.

(** Multiplying a 32-bit count of milli- or microseconds does not overflow. *)
Lemma scale_exact x k : inU 32 x -> 0 <= k <= 1000000 -> (int64 x *i64 k) = x * k.
Proof.
  intros [H1 H2] Hk. rewrite (wrapS_id 64 x) by (unfold inS; lia).
  apply wrapS_id; [lia|]. unfold inS. nia.
Qed.

Lemma widen_small w x : w <= 64 -> inU w x -> wrapU 64 x = x.
Proof.
  intros Hw [H1 H2]. apply wrapU_id. split; [done|].
  eapply Z.lt_le_trans; [exact H2|]. apply Z.pow_le_mono_r; lia.
Qed.

(** ** macOS *)

Definition Darwin_in_range (r : DarwinRaw.RawInfo) : Prop :=
  Forall2 (fun n v => inU (8 * Z.of_nat n) v) DarwinRaw.sizes (DarwinRaw.fields r).

#[export] Instance Darwin_in_range_dec r : Decision (Darwin_in_range r).
Proof. apply Forall2_dec. intros n v. unfold inU. apply _. Defined.

(** The bytes of the kernel's struct. *)
Definition Darwin_encode (be : bool) (r : DarwinRaw.RawInfo) : list Z :=
  encode_from 8 be 0 DarwinRaw.sizes (DarwinRaw.fields r).

Lemma Darwin_of_fields_ext f g :
  (forall i, (i < 24)%nat -> f i = g i) -> DarwinRaw.of_fields f = DarwinRaw.of_fields g.
Proof. intros H. unfold DarwinRaw.of_fields. by rewrite !H by lia. Qed.

Lemma Darwin_of_fields_fields r : DarwinRaw.of_fields (fun i => DarwinRaw.fields r !!! i) = r.
Proof. by destruct r. Qed.

Lemma Darwin_decode ma be r size :
  goAlign ma -> Darwin_in_range r ->
  DarwinRaw.decode ma be (stored_in size (Darwin_encode be r)) = r.
Proof.
  intros Hma Hr. rewrite <- (Darwin_of_fields_fields r) at 2. unfold DarwinRaw.decode.
  apply Darwin_of_fields_ext. intros i Hi.
  assert (Darwin_encode be r = encode_from ma be 0 DarwinRaw.sizes (DarwinRaw.fields r)) as ->
    by by destruct Hma as [-> | ->].
  apply field_at_whole; [by apply goAlign_pos| |done|done].
  apply (bool_decide_unpack _). by vm_compute.
Qed.

(** What an option's bit contributes on macOS. *)
Definition darwinOptionsOf (bits wscale : Z) : list Option :=
  concat ((fun i => if Z.testbit bits (Z.of_nat i)
    then [mkOption (["Timestamps"; "SACK"; "WindowScale"; "ECN"]%string !!! i)
            (if decide (i = 2%nat) then wscale else 0)] else []) <$> seq 0 4).

Lemma Darwin_options r :
  Darwin.unpackOptions r
  = (Some (darwinOptionsOf (DarwinRaw.Options r) (uint64 (DarwinRaw.SendWscale r))),
     append None (darwinOptionsOf (DarwinRaw.Options r) (uint64 (DarwinRaw.RecvWscale r)))).
Proof.
  unfold Darwin.unpackOptions.
  change Darwin.tcpOptions with ((fun i => 2 ^ Z.of_nat i) <$> seq 0 4).
  set (x w i := if Z.testbit (DarwinRaw.Options r) (Z.of_nat i)
    then [mkOption (["Timestamps"; "SACK"; "WindowScale"; "ECN"]%string !!! i)
            (if decide (i = 2%nat) then w else 0)] else []).
  rewrite (fold_append _ _ (x (uint64 (DarwinRaw.SendWscale r))) (x (uint64 (DarwinRaw.RecvWscale r)))).
  - done.
  - intros i [l1 l2] Hi. apply elem_of_seq in Hi. unfold Darwin.unpackOption.
    rewrite land_bit by lia. unfold x.
    do 4 (destruct i as [|i]; [match goal with |- context [negb ?b] => destruct b end; simpl;
      [reflexivity|rewrite !append_nil; reflexivity]|]). lia.
Qed.

(** C37: On macOS, when the kernel stores its struct, GetTCPInfo succeeds and Info has
    the kernel's times in nanoseconds without overflow, its segment size, receive and
    congestion windows in bytes, slow start threshold and retransmissions, and the
    options whose bits are set. *)
Theorem Darwin_GetTCPInfo_faithful ma be getsockopt Errno opt fd r :
  goAlign ma -> Darwin_in_range r ->
  getsockopt fd Darwin.IPPROTO_TCP opt 112 = inl (Darwin_encode be r) ->
  exists s, Darwin.GetTCPInfo ma be getsockopt Errno opt fd = (Some s, None)
  /\ let i := Darwin.ToInfo s in
     RTT i = 1000000 * DarwinRaw.SRTT r /\ RTTVar i = 1000000 * DarwinRaw.RTTVar r
  /\ RTO i = 1000000 * DarwinRaw.RTO r
  /\ TxMSS i = DarwinRaw.MaxSeg r /\ RxMSS i = DarwinRaw.MaxSeg r
  /\ RxWindow i = DarwinRaw.RecvWnd r /\ TxWindowBytes i = DarwinRaw.SendCwnd r
  /\ TxSSThreshold i = DarwinRaw.SendSSThresh r
  /\ Retransmits i = DarwinRaw.TxRetransmitPackets r
  /\ TxOptions i = Some (darwinOptionsOf (DarwinRaw.Options r) (DarwinRaw.SendWscale r))
  /\ elems (RxOptions i) = darwinOptionsOf (DarwinRaw.Options r) (DarwinRaw.RecvWscale r).
Proof.
  intros Hma Hr Hk. exists (Darwin.Unpack r). split.
  - unfold Darwin.GetTCPInfo.
    assert (uint32 (Z.of_nat (structSize ma DarwinRaw.sizes)) = 112) as ->
      by by destruct Hma as [-> | ->].
    by rewrite Hk, Darwin_decode.
  - unfold Darwin_in_range, DarwinRaw.sizes, DarwinRaw.fields in Hr.
    repeat match goal with H : Forall2 _ (_ :: _) _ |- _ => apply Forall2_cons in H as [? H] end.
    unfold Darwin.ToInfo, Darwin.Unpack.
    cbn [RTT RTTVar RTO TxMSS RxMSS RxWindow TxWindowBytes TxWindowSegs TxSSThreshold Retransmits
         TxOptions RxOptions Darwin.SRTT Darwin.RTTVar Darwin.RTO Darwin.MaxSeg Darwin.RxWindow
         Darwin.TxCWindow Darwin.TxWindow Darwin.TxSSThreshold Darwin.TxRetransmitPackets
         Darwin.TxOptions Darwin.RxOptions].
    rewrite !scale_exact by (done || (unfold Darwin.timeFieldMultiplier; lia)).
    rewrite !(widen_small 32) by done. rewrite Darwin_options. cbn [fst snd].
    rewrite elems_append, !(widen_small 8) by done.
    unfold Darwin.timeFieldMultiplier. split_and!; done || lia.
Qed.

Lemma Darwin_GetTCPInfo_faithful_witness :
  exists s, Darwin.GetTCPInfo 8 false
      (fun _ _ _ _ => inl (Darwin_encode false (DarwinRaw.of_fields Z.of_nat)))
      (fun _ => ErrClosed) 0x106 3 = (Some s, None)
    /\ RTT (Darwin.ToInfo s) = 14000000.
Proof.
  destruct (Darwin_GetTCPInfo_faithful 8 false
      (fun _ _ _ _ => inl (Darwin_encode false (DarwinRaw.of_fields Z.of_nat)))
      (fun _ => ErrClosed) 0x106 3 (DarwinRaw.of_fields Z.of_nat)) as (s & H1 & H2 & _).
  - right. reflexivity.
  - apply (bool_decide_unpack _). vm_compute. exact I.
  - reflexivity.
  - exists s. split; [exact H1|exact H2].
Defined.

(** ** Windows *)

Definition V0_in_range (r : V0.RawInfoV0) : Prop :=
  Forall2 (fun n v => inU (8 * Z.of_nat n) v) V0.sizes (V0.fields r).
Definition V1_in_range (r : V1.RawInfoV1) : Prop :=
  Forall2 (fun n v => inU (8 * Z.of_nat n) v) V1.sizes (V1.fields r).

#[export] Instance V0_in_range_dec r : Decision (V0_in_range r).
Proof. apply Forall2_dec. intros n v. unfold inU. apply _. Defined.
#[export] Instance V1_in_range_dec r : Decision (V1_in_range r).
Proof. apply Forall2_dec. intros n v. unfold inU. apply _. Defined.

(** The structs as the system, whose alignment is 8, lays them out. *)
Definition V0_encode (r : V0.RawInfoV0) : list Z := encode_from 8 false 0 V0.sizes (V0.fields r).
Definition V1_encode (r : V1.RawInfoV1) : list Z := encode_from 8 false 0 V1.sizes (V1.fields r).

Lemma V0_of_fields_ext f g :
  (forall i, (i < 19)%nat -> f i = g i) -> V0.of_fields f = V0.of_fields g.
Proof. intros H. unfold V0.of_fields. by rewrite !H by lia. Qed.
Lemma V1_of_fields_ext f g :
  (forall i, (i < 28)%nat -> f i = g i) -> V1.of_fields f = V1.of_fields g.
Proof. intros H. unfold V1.of_fields. by rewrite !H by lia. Qed.

Lemma V0_of_fields_fields r : V0.of_fields (fun i => V0.fields r !!! i) = r.
Proof. by destruct r as [? ? ? []]. Qed.
Lemma V1_of_fields_fields r : V1.of_fields (fun i => V1.fields r !!! i) = r.
Proof. by destruct r as [? ? ? []]. Qed.

Lemma V0_decode ma r size :
  goAlign ma -> V0_in_range r -> V0.decode ma false (stored_in size (V0_encode r)) = r.
Proof.
  intros Hma Hr. rewrite <- (V0_of_fields_fields r) at 2. unfold V0.decode.
  apply V0_of_fields_ext. intros i Hi.
  assert (V0_encode r = encode_from ma false 0 V0.sizes (V0.fields r)) as ->
    by by destruct Hma as [-> | ->].
  apply field_at_whole; [by apply goAlign_pos| |done|done].
  apply (bool_decide_unpack _). by vm_compute.
Qed.

Lemma V1_decode ma r size :
  goAlign ma -> V1_in_range r -> V1.decode ma false (stored_in size (V1_encode r)) = r.
Proof.
  intros Hma Hr. rewrite <- (V1_of_fields_fields r) at 2. unfold V1.decode.
  apply V1_of_fields_ext. intros i Hi.
  assert (V1_encode r = encode_from ma false 0 V1.sizes (V1.fields r)) as ->
    by by destruct Hma as [-> | ->].
  apply field_at_whole; [by apply goAlign_pos| |done|done].
  apply (bool_decide_unpack _). by vm_compute.
Qed.

(** The fields that both versions have. *)
Definition v0_of_v1 (r : V1.RawInfoV1) : V0.RawInfoV0 :=
  V0.mkV0 (V1.State r) (V1.Mss r) (V1.ConnectionTimeMs r) (V1.TimestampsEnabled r) (V1.RttUs r)
    (V1.MinRttUs r) (V1.BytesInFlight r) (V1.Cwnd r) (V1.SndWnd r) (V1.RcvWnd r) (V1.RcvBuf r)
    (V1.BytesOut r) (V1.BytesIn r) (V1.BytesReordered r) (V1.BytesRetrans r) (V1.FastRetrans r)
    (V1.DupAcksIn r) (V1.TimeoutEpisodes r) (V1.SynRetrans r).

(** The information without the fields of version 1. *)
Definition clear_v1 (s : Win.SysInfo) : Win.SysInfo :=
  Win.mkSysInfo (Win.State s) (Win.StateName s) (Win.MSS s) (Win.ConnectedTimeNS s) (Win.RTT s)
    (Win.RTTMin s) (Win.BytesInFlight s) (Win.CongestionWindow s) (Win.TxWindow s)
    (Win.RxWindow s) (Win.RxBuffer s) (Win.TxBytes s) (Win.RxBytes s) (Win.RxOutOfOrderBytes s)
    (Win.TxRetransmitBytes s) (Win.FastRetrans s) (Win.DupAcksIn s) (Win.TimeoutEpisodes s)
    (Win.SynRetrans s) 0 0 0 0 0 0 0 0 0.

(** A system that holds [r] and knows the control code in the versions [v1] and
    [v0]; [err] is its error otherwise. *)
Definition winsock (v1 v0 : bool) (r : V1.RawInfoV1) (err : error)
    (fd code input outLen : Z) : list Z + error :=
  if v1 && (input =? 1) && (outLen =? 136) then inl (V1_encode r)
  else if v0 && (input =? 0) && (outLen =? 88) then inl (V0_encode (v0_of_v1 r))
  else inr err.

Lemma V0_in_range_of_v1 r : V1_in_range r -> V0_in_range (v0_of_v1 r).
Proof. intros H. apply (Forall2_take _ _ _ 19) in H. exact H. Qed.

(** C38: On Windows, 32- or 64-bit: a system that knows version 1 of SIO_TCP_INFO gives
    the whole information, one that knows only version 0 the same without the nine
    fields of version 1, and one that knows neither an error with the system's message. *)
Theorem Windows_GetTCPInfo_versions ma r v1 v0 err fd :
  goAlign ma -> V1_in_range r ->
  Win.GetTCPInfo ma (winsock v1 v0 r err) fd
  = if v1 then (Some (Win.Unpack_V1 r), None)
    else if v0 then (Some (clear_v1 (Win.Unpack_V1 r)), None)
    else (None, Some (errors_New ("could not perform the WSAIoctl: " +:+ err_msg err))).
Proof.
  intros Hma Hr. unfold Win.GetTCPInfo.
  assert (uint32 (Z.of_nat (structSize ma V1.sizes)) = 136) as -> by by destruct Hma as [-> | ->].
  assert (uint32 (Z.of_nat (structSize ma V0.sizes)) = 88) as -> by by destruct Hma as [-> | ->].
  unfold winsock. destruct v1; simpl.
  - by rewrite V1_decode.
  - destruct v0; simpl; [|done]. by rewrite V0_decode by auto using V0_in_range_of_v1.
Qed.

Lemma Windows_GetTCPInfo_versions_witness :
  Win.GetTCPInfo 4 (winsock false true (V1.of_fields Z.of_nat) ErrClosed) 3
  = (Some (clear_v1 (Win.Unpack_V1 (V1.of_fields Z.of_nat))), None).
Proof.
  apply (Windows_GetTCPInfo_versions 4 (V1.of_fields Z.of_nat) false true ErrClosed 3).
  - left. reflexivity.
  - apply (bool_decide_unpack _). vm_compute. exact I.
Defined.

(** On Windows the 32-bit times are converted to nanoseconds without overflow, and
    the 64-bit connection time iff it is at most 9223372036854 ms. *)
Theorem Windows_durations r :
  V1_in_range r ->
  let s := Win.Unpack_V1 r in
  Win.RTT s = 1000 * V1.RttUs r
  /\ RTT (Win.ToInfo s) = 1000 * V1.MinRttUs r
  /\ Win.SndLimTransTimeRwin s = 1000000 * V1.SndLimTimeRwin r
  /\ Win.SndLimTimeCwnd s = 1000000 * V1.SndLimTimeCwnd r
  /\ Win.SndLimTimeSnd s = 1000000 * V1.SndLimTimeSnd r
  /\ (Win.ConnectedTimeNS s = 1000000 * V1.ConnectionTimeMs r
      <-> V1.ConnectionTimeMs r <= 9223372036854).
Proof.
  intros Hr. unfold V1_in_range, V1.sizes, V1.fields in Hr.
  repeat match goal with H : Forall2 _ (_ :: _) _ |- _ => apply Forall2_cons in H as [? H] end.
  unfold Win.ToInfo, Win.Unpack_V1.
  cbn [RTT Win.RTT Win.RTTMin Win.SndLimTransTimeRwin Win.SndLimTimeCwnd Win.SndLimTimeSnd
       Win.ConnectedTimeNS].
  rewrite !(scale_exact _ Win.Microsecond) by (done || (unfold Win.Microsecond; lia)).
  rewrite !(scale_exact _ Win.Millisecond) by (done || (unfold Win.Millisecond; lia)).
  unfold Win.timeFieldMultiplier, Win.Microsecond, Win.Millisecond. split_and!; try lia.
  assert (inU 64 (V1.ConnectionTimeMs r)) as [? ?] by done. split; intros E.
  - pose proof (wrapS_bound 64 (int64 (V1.ConnectionTimeMs r) * 1000000)) as [_ Hb]; [lia|].
    rewrite E in Hb. lia.
  - rewrite (wrapS_id 64 (V1.ConnectionTimeMs r)) by (unfold inS; lia).
    rewrite wrapS_id; [lia..|unfold inS; lia].
Qed.

Lemma Windows_durations_witness :
  Win.ConnectedTimeNS (Win.Unpack_V1 (V1.of_fields (fun _ => 1))) = 1000000.
Proof.
  destruct (Windows_durations (V1.of_fields (fun _ => 1))) as (_ & _ & _ & _ & _ & H).
  - apply (bool_decide_unpack _). vm_compute. exact I.
  - apply (proj2 H). vm_compute. congruence.
Defined.
