(* ===== verification/OsVersion.v ===== *)
(** Package [osversion] (pkg/osversion): the version of Windows, the release
    numbers, and which container images a host can run. *)

From stdpp Require Import base list strings.
From Stdlib Require Import ZArith Lia.
From S2P Require Import Prelude GoFmt Kernel.

Local Open Scope Z_scope.
Local Open Scope go_scope.

(** ** osversion_windows.go *)

Record OSVersion := mkOSVersion {
  Version : Z;
  MajorVersion : Z;
  MinorVersion : Z;
  Build_ : Z
}.

#[export] Instance OSVersion_eq_dec : EqDecision OSVersion.
Proof. solve_decision. Defined.

(** The variables [osv] and [once]; [once] tells whether [Do] has run. *)
Record vars := mkVars { osv : OSVersion; once : bool }.
Definition vars0 : vars := mkVars (mkOSVersion 0 0 0 0) false.

(** The function given to [once.Do]; the arguments are the fields [MajorVersion],
    [MinorVersion] and [BuildNumber], of type [uint32], of the struct that
    [windows.RtlGetVersion] returns. *)
Definition readVersion (major minor build : Z) : OSVersion :=
  let v := uint32 (Z.shiftl build 16) in
  let v := Z.lor v (uint32 (Z.shiftl minor 8)) in
  let v := Z.lor v major in
  mkOSVersion v (uint8 major) (uint8 minor) (uint16 build).

(** [Get]: the version is read by the first call only. *)
Definition Get (major minor build : Z) (g : vars) : vars * OSVersion :=
  let g := if once g then g else mkVars (readVersion major minor build) true in
  (g, osv g).

Definition Build (major minor build : Z) (g : vars) : vars * Z :=
  let (g, v) := Get major minor build g in (g, Build_ v).

Definition OSVersion_String (v : OSVersion) : string :=
  FormatInt (MajorVersion v) +:+ "." +:+ FormatInt (MinorVersion v) +:+ "."
    +:+ FormatInt (Build_ v).

Definition OSVersion_ToString (v : OSVersion) : string := OSVersion_String v.

(** [BuildRevision]: the results of opening the registry key and of reading its
    value [UBR]. *)
Definition BuildRevision (OpenKey : option error) (UBR : Z + error) : Z * option error :=
  match OpenKey with
  | Some err => (0, Some (errors_New ("open `CurrentVersion` registry key: " +:+ err_msg err)))
  | None =>
      match UBR with
      | inr err => (0, Some (errors_New ("read `UBR` from registry: " +:+ err_msg err)))
      | inl s => (uint32 s, None)
      end
  end.

(** ** windowsbuilds.go *)

Definition RS1 : Z := 14393.
Definition V1607 : Z := RS1.
Definition LTSC2016 : Z := RS1.
Definition RS2 : Z := 15063.
Definition V1703 : Z := RS2.
Definition RS3 : Z := 16299.
Definition V1709 : Z := RS3.
Definition RS4 : Z := 17134.
Definition V1803 : Z := RS4.
Definition RS5 : Z := 17763.
Definition V1809 : Z := RS5.
Definition LTSC2019 : Z := RS5.
Definition V19H1 : Z := 18362.
Definition V1903 : Z := V19H1.
Definition V19H2 : Z := 18363.
Definition V1909 : Z := V19H2.
Definition V20H1 : Z := 19041.
Definition V2004 : Z := V20H1.
Definition V20H2 : Z := 19042.
Definition V21H1 : Z := 19043.
Definition V21H2Win10 : Z := 19044.
Definition V21H2Server : Z := 20348.
Definition LTSC2022 : Z := V21H2Server.
Definition V21H2Win11 : Z := 22000.
Definition V22H2Win10 : Z := 19045.
Definition V22H2Win11 : Z := 22621.
Definition V23H2 : Z := 25398.
Definition V25H1Server : Z := 26100.
Definition LTSC2025 : Z := V25H1Server.

(** ** platform_compat_windows.go *)

Definition compatLTSCReleases : list Z := [LTSC2022; LTSC2025].

(** [for i := len(compatLTSCReleases) - 1; i >= 0; i--], entered with [i = n - 1];
    [acc] is [supportedLTSCRelease]. *)
Fixpoint findLTSC (build : Z) (n : nat) (acc : Z) : Z :=
  match n with
  | O => acc
  | Datatypes.S i =>
      match compatLTSCReleases !! i with
      | Some r => if build >? r then r else findLTSC build i acc
      | None => acc
      end
  end.

Definition CheckHostAndContainerCompat (host ctr : OSVersion) : bool :=
  if negb (MajorVersion host =? MajorVersion ctr) || negb (MinorVersion host =? MinorVersion ctr)
  then false
  else if Build_ host <? LTSC2022 then Build_ host =? Build_ ctr
  else
    let supportedLTSCRelease := findLTSC (Build_ host) (length compatLTSCReleases) LTSC2022 in
    (supportedLTSCRelease <=? Build_ ctr) && (Build_ ctr <=? Build_ host).

(** ** Properties *)

(** The loop finds the greatest release below [build]. *)
Lemma findLTSC_spec build :
  let r := findLTSC build (length compatLTSCReleases) LTSC2022 in
  LTSC2022 <= r /\ (forall l, l ∈ compatLTSCReleases -> l < build -> l <= r)
  /\ (r = LTSC2022 \/ (r ∈ compatLTSCReleases /\ r < build)).
Proof.
  cbn [findLTSC length compatLTSCReleases lookup list_lookup].
  assert (Hin : forall l, l ∈ compatLTSCReleases <-> l = LTSC2022 \/ l = LTSC2025).
  { intros l. unfold compatLTSCReleases. rewrite !elem_of_cons. pose proof (not_elem_of_nil l). tauto. }
  setoid_rewrite Hin. unfold LTSC2022, LTSC2025, V21H2Server, V25H1Server.
  repeat case_match; split_and!; lia.
Qed.

(** C39: A Windows host runs a container image iff major and minor numbers agree, the
    image's build is not newer, equal to the host's on hosts before Server 2022, and
    otherwise not older than 2022 nor than any long-term release older than the host. *)
Theorem compat_spec host ctr :
  CheckHostAndContainerCompat host ctr = true
  <-> MajorVersion host = MajorVersion ctr /\ MinorVersion host = MinorVersion ctr
      /\ Build_ ctr <= Build_ host
      /\ (Build_ host < LTSC2022 -> Build_ ctr = Build_ host)
      /\ (LTSC2022 <= Build_ host ->
          LTSC2022 <= Build_ ctr
          /\ forall l, l ∈ compatLTSCReleases -> l < Build_ host -> l <= Build_ ctr).
Proof.
  unfold CheckHostAndContainerCompat.
  destruct (findLTSC_spec (Build_ host)) as (H1 & H2 & H3). cbv zeta in H1, H2, H3.
  set (r := findLTSC _ _ _) in *.
  destruct (Z.eqb_spec (MajorVersion host) (MajorVersion ctr)); simpl; [|split; [done|lia]].
  destruct (Z.eqb_spec (MinorVersion host) (MinorVersion ctr)); simpl; [|split; [done|lia]].
  destruct (Z.ltb_spec (Build_ host) LTSC2022).
  { rewrite Z.eqb_eq. split; [intros E; split_and!; [lia..|intros ?; exfalso; lia]|].
    intros (_ & _ & _ & E & _). symmetry. by apply E. }
  rewrite andb_true_iff, !Z.leb_le. change (findLTSC _ _ _) with r. split.
  - intros [E1 E2]. split_and!; try lia. intros _. split; [lia|].
    intros l Hl Hlt. specialize (H2 l Hl Hlt). lia.
  - intros (_ & _ & E & _ & Hc). destruct (Hc ltac:(done)) as [Hc1 Hc2]. split; [|done].
    destruct H3 as [->|[Hin Hlt]]; [done|by apply Hc2].
Qed.

(** [Get] packs the three numbers into the version word and reads them once. *)
Theorem Get_packs major minor build major' minor' build' g :
  inU 8 major -> inU 8 minor -> inU 16 build -> once g = false ->
  let '(g1, v) := Get major minor build g in
  Version v = build * 2 ^ 16 + minor * 2 ^ 8 + major
  /\ MajorVersion v = major /\ MinorVersion v = minor /\ Build_ v = build
  /\ Get major' minor' build' g1 = (g1, v).
Proof.
  intros [H1 H2] [H3 H4] [H5 H6] Ho. unfold Get. rewrite Ho. simpl. unfold readVersion.
  cbn [Version MajorVersion MinorVersion Build_].
  rewrite !Z.shiftl_mul_pow2 by lia.
  rewrite (wrapU_id 32 (build * 2 ^ 16)), (wrapU_id 32 (minor * 2 ^ 8)), !wrapU_id by (unfold inU; lia).
  split_and!; try done.
  rewrite (Z.lor_comm _ major).
  replace (Z.lor (build * 2 ^ 16) (minor * 2 ^ 8)) with ((build * 2 ^ 8 + minor) * 2 ^ 8).
  - rewrite lor_low by lia. lia.
  - replace (build * 2 ^ 16) with (build * 2 ^ 8 * 2 ^ 8) by lia.
    rewrite <- !Z.shiftl_mul_pow2, <- Z.shiftl_lor by lia. f_equal.
    rewrite Z.lor_comm, !Z.shiftl_mul_pow2 by lia. rewrite lor_low by lia. lia.
Qed.

Lemma Get_packs_witness :
  let '(g1, v) := Get 10 0 20348 vars0 in
  Version v = 20348 * 2 ^ 16 + 10 /\ Get 6 1 7601 g1 = (g1, v).
Proof.
  destruct (Get_packs 10 0 20348 6 1 7601 vars0) as (H1 & _ & _ & _ & H2);
    try (unfold inU; lia); [reflexivity|].
  split; [exact H1|exact H2].
Defined.
