(* ===== verification/OsInfo.v ===== *)
(** Package [os] (pkg/os): the name and the version of the operating system.
    Files and the registry are arguments: the contents, or the error. *)

From stdpp Require Import base list strings.
From Stdlib Require Import ZArith NArith Ascii Lia.
From S2P Require Import Prelude GoFmt OsVersion.

Local Open Scope Z_scope.
Local Open Scope string_scope.

(** ** Lines, prefixes and trimming in Go's standard library *)

Definition nl : ascii := "010"%char.
Definition cr : ascii := "013"%char.

(** The text up to the first newline, and what follows it. *)
Fixpoint cut_line (s : string) : string * option string :=
  match s with
  | EmptyString => (EmptyString, None)
  | String c s =>
      if Ascii.eqb c nl then (EmptyString, Some s)
      else let (l, rest) := cut_line s in (String c l, rest)
  end.

(** [bytes.Split(s, "\n")]; the fuel is the length of the text. *)
Fixpoint split_lines (fuel : nat) (s : string) : list string :=
  match cut_line s with
  | (l, None) => [l]
  | (l, Some rest) => l :: match fuel with O => [] | Datatypes.S fuel => split_lines fuel rest end
  end.
Definition SplitLines (s : string) : list string := split_lines (String.length s) s.

(** [bufio.ScanLines] drops one trailing carriage return. *)
Fixpoint dropCR (s : string) : string :=
  match s with
  | EmptyString => EmptyString
  | String c EmptyString => if Ascii.eqb c cr then EmptyString else s
  | String c s => String c (dropCR s)
  end.

(** A [bufio.Scanner] stops at a line that does not fit its buffer
    ([MaxScanTokenSize]); the text after the last newline is a line unless it is
    empty.  A read error ends the text like its end does. *)
Definition MaxScanTokenSize : nat := N.to_nat 65536.

Fixpoint scan_lines (l : list string) : list string :=
  match l with
  | [] => []
  | [last] => if (String.length last =? 0)%nat || (MaxScanTokenSize <=? String.length last)%nat
              then [] else [dropCR last]
  | x :: l => if (MaxScanTokenSize <=? String.length x)%nat then [] else dropCR x :: scan_lines l
  end.
Definition Scanner_lines (s : string) : list string := scan_lines (SplitLines s).

(** [strings.CutPrefix] *)
Fixpoint CutPrefix (s prefix : string) : option string :=
  match prefix, s with
  | EmptyString, _ => Some s
  | String p prefix, String c s => if Ascii.eqb p c then CutPrefix s prefix else None
  | String _ _, EmptyString => None
  end.

(** [strings.TrimLeft], [strings.TrimRight] and [strings.Trim] for a set of ASCII
    characters. *)
Fixpoint TrimLeft (s : string) (cut : ascii -> bool) : string :=
  match s with
  | String c s' => if cut c then TrimLeft s' cut else s
  | EmptyString => EmptyString
  end.

Fixpoint TrimRight (s : string) (cut : ascii -> bool) : string :=
  match s with
  | EmptyString => EmptyString
  | String c s =>
      match TrimRight s cut with
      | EmptyString => if cut c then EmptyString else String c EmptyString
      | s => String c s
      end
  end.

Definition Trim (s : string) (cut : ascii -> bool) : string := TrimRight (TrimLeft s cut) cut.

(** ** operatingsystem_linux.go *)

Module OsLinux.
Definition proc1Cgroup : string := "/proc/1/cgroup".
Definition etcOsRelease : string := "/etc/os-release".
Definition altOsRelease : string := "/usr/lib/os-release".

(** An error of [os.Open] and whether [os.IsNotExist] holds of it. *)
Record open_error := mkOpenError { oe_err : error; IsNotExist : bool }.

(** The cutset of the call to [strings.Trim]: both quotes and the space. *)
Definition isQuote (c : ascii) : bool :=
  Ascii.eqb c "034" || Ascii.eqb c "039" || Ascii.eqb c " ".

(** One iteration of the loop over the lines. *)
Definition scanValue (key value line : string) : string :=
  match CutPrefix line (key ++ "=") with
  | Some after => Trim after isQuote
  | None => value
  end.

Section release.
(** [os.Open], with the contents of the file. *)
Context (Open : string -> string + open_error).

Definition getValueFromOsRelease (key : string) : string * option error :=
  let file := match Open etcOsRelease with
              | inl content => inl content
              | inr e => if negb (IsNotExist e) then inr (oe_err e)
                         else match Open altOsRelease with
                              | inl content => inl content
                              | inr e => inr (oe_err e)
                              end
              end in
  match file with
  | inr err => ("", Some err)
  | inl content => (fold_left (scanValue key) (Scanner_lines content) "", None)
  end.

Definition GetOperatingSystem : string * option error :=
  match getValueFromOsRelease "PRETTY_NAME" with
  | (_, Some err) => ("", Some err)
  | (prettyName, None) =>
      if String.eqb prettyName "" then ("Linux", None) else (prettyName, None)
  end.

Definition GetOperatingSystemVersion : string * option error :=
  getValueFromOsRelease "VERSION_ID".
End release.

(** [bytes.HasSuffix] *)
Fixpoint HasSuffix (s suffix : string) : bool :=
  String.eqb s suffix || match s with String _ s => HasSuffix s suffix | EmptyString => false end.

Definition IsContainerized (ReadFile : string -> string + error) : bool * option error :=
  match ReadFile proc1Cgroup with
  | inr err => (false, Some err)
  | inl b =>
      (existsb (fun line => negb (String.length line =? 0)%nat
                            && negb (HasSuffix line ":/") && negb (HasSuffix line ":/init.scope"))
         (SplitLines b), None)
  end.
End OsLinux.

(** ** operatingsystem_unix.go *)

Module OsUnix.
Section unix.
Context {Utsname : Type} (Uname : Utsname + error) (Machine : Utsname -> list ascii).
Context (ByteSliceToString : list ascii -> string).

Definition GetOperatingSystem : string * option error :=
  match Uname with
  | inr err => ("", Some err)
  | inl utsname => (ByteSliceToString (Machine utsname), None)
  end.
End unix.

Definition GetOperatingSystemVersion : string * option error :=
  ("", Some (errors_New "Unsupported on generic unix")).

Definition IsContainerized : bool * option error :=
  (false, Some (errors_New "Cannot detect if we are in container")).
End OsUnix.

(** ** operatingsystem_windows.go and windows_os_string.go *)

Module OsWindows.
Record windowsOSRelease := mkRelease {
  IsServer : bool;
  DisplayVersion : string;
  Build : Z;
  UBR : Z
}.

Definition windowsOSRelease_String (r : windowsOSRelease) : string :=
  let b := "Microsoft Windows" in
  let b := if IsServer r then b ++ " Server" else b in
  let b := if negb (String.eqb (DisplayVersion r) "")
           then b ++ " Version " ++ DisplayVersion r else b in
  let b := b ++ " (OS Build " ++ FormatInt (Build r) in
  let b := if (UBR r >? 0) then b ++ "." ++ FormatInt (UBR r) else b in
  b ++ ")".

Definition verNTWorkstation : Z := 1.

Section registry.
(** [GetStringValue] and [GetIntegerValue] of the opened key;
    [isErrNotExist] is [errors.Is(err, registry.ErrNotExist)]. *)
Context (GetStringValue : string -> string + error) (GetIntegerValue : string -> Z + error).
Context (isErrNotExist : error -> bool) (ErrNotExist : error).

Fixpoint getFirstStringValue (names : list string) : string * option error :=
  match names with
  | [] => ("", Some ErrNotExist)
  | n :: names =>
      match GetStringValue n with
      | inr err => if negb (isErrNotExist err) then ("", Some err)
                   else getFirstStringValue names
      | inl val => (val, None)
      end
  end.

(** [productType] and [buildNumber] are fields of the struct that
    [windows.RtlGetVersion] returns, [OpenKey] the error of opening the key. *)
Definition GetOperatingSystem (productType buildNumber : Z) (OpenKey : option error)
    : string * option error :=
  let server := negb (productType =? verNTWorkstation)%Z in
  let rel :=
    match OpenKey with
    | Some _ => mkRelease server "" buildNumber 0
    | None =>
        let ver := match getFirstStringValue ["DisplayVersion"; "ReleaseId"] with
                   | (ver, None) => ver
                   | (_, Some _) => ""
                   end in
        let ubr := match GetIntegerValue "UBR" with inl ubr => ubr | inr _ => 0 end in
        mkRelease server ver buildNumber ubr
    end in
  (windowsOSRelease_String rel, None).
End registry.

Definition GetOperatingSystemVersion (major minor build : Z) (g : vars)
    : vars * (string * option error) :=
  let (g, v) := Get major minor build g in (g, (OSVersion_ToString v, None)).

Definition IsContainerized : bool * option error := (false, None).

Definition IsWindowsClient (productType : Z) : bool := (productType =? verNTWorkstation)%Z.
End OsWindows.

(** ** Examples: the cases of the repository's tests *)

Example release_ex1 :
  OsLinux.GetOperatingSystem (fun _ => inl ("NAME=Gentoo" ++ String nl "PRETTY_NAME='Gentoo/Linux'"
    ++ String nl "ANSI_COLOR=1;32" ++ String nl ""))
  = ("Gentoo/Linux", None).
Proof. vm_compute. reflexivity. Qed.

Example container_ex1 :
  OsLinux.IsContainerized (fun _ => inl ("9:memory:/init.scope" ++ String nl "8:net_cls,net_prio:/" ++ String nl ""))
  = (false, None).
Proof. vm_compute. reflexivity. Qed.

Example windows_ex1 :
  OsWindows.windowsOSRelease_String (OsWindows.mkRelease true "21H2" 20348 169)
  = "Microsoft Windows Server Version 21H2 (OS Build 20348.169)".
Proof. vm_compute. reflexivity. Qed.

(** ** Reading back an os-release file *)

Fixpoint has_char (c : ascii) (s : string) : bool :=
  match s with String d s => Ascii.eqb d c || has_char c s | EmptyString => false end.

(** A line of the file: [key="value"]. *)
Definition quote : ascii := "034"%char.
Definition entry_line (kv : string * string) : string :=
  kv.1 ++ "=" ++ String quote (kv.2 ++ String quote "").
Fixpoint render (kvs : list (string * string)) : string :=
  match kvs with
  | [] => ""
  | kv :: kvs => entry_line kv ++ String nl (render kvs)
  end.

(** A line that the reader can take apart. *)
Definition entry_ok (kv : string * string) : bool :=
  negb (has_char nl kv.1) && negb (has_char nl kv.2) && negb (has_char "=" kv.1)
  && String.eqb (Trim kv.2 OsLinux.isQuote) kv.2
  && (String.length (entry_line kv) <? MaxScanTokenSize)%nat.

(** The value of the last entry with the key. *)
Definition last_value (key : string) (kvs : list (string * string)) : string :=
  fold_left (fun v kv => if String.eqb kv.1 key then kv.2 else v) kvs "".

Lemma has_char_app c s t : has_char c (s ++ t) = has_char c s || has_char c t.
Proof.
  induction s as [|d s IH]; [done|]. rewrite string_app_cons. simpl.
  by rewrite IH, orb_assoc.
Qed.

Lemma cut_line_app l rest : has_char nl l = false -> cut_line (l ++ String nl rest) = (l, Some rest).
Proof.
  induction l as [|c l IH]; intros H; [done|]. rewrite string_app_cons. simpl in *.
  apply orb_false_iff in H as [-> H]. by rewrite IH.
Qed.

Lemma split_render kvs fuel :
  Forall (fun kv => has_char nl (entry_line kv) = false) kvs -> (length kvs <= fuel)%nat ->
  split_lines fuel (render kvs) = (map entry_line kvs ++ [""])%list.
Proof.
  intros H. revert fuel. induction H as [|kv kvs Hkv _ IH]; intros fuel Hf; [by destruct fuel|].
  destruct fuel as [|fuel]; simpl in Hf; [lia|]. cbn [render map].
  cbn [split_lines]. rewrite cut_line_app by done. rewrite IH by lia. done.
Qed.

Lemma length_render kvs : (length kvs <= String.length (render kvs))%nat.
Proof.
  induction kvs as [|kv kvs IH]; [done|]. cbn [render]. rewrite length_string_app. simpl. lia.
Qed.

Lemma dropCR_snoc s c : Ascii.eqb c cr = false -> dropCR (s ++ String c "") = s ++ String c "".
Proof.
  intros Hc. induction s as [|d s IH]; [simpl; by rewrite Hc|].
  rewrite string_app_cons. cbn [dropCR]. rewrite IH. by destruct s.
Qed.

Lemma entry_line_snoc kv :
  entry_line kv = (kv.1 ++ "=" ++ String quote kv.2) ++ String quote "".
Proof.
  unfold entry_line. rewrite !string_app_assoc. f_equal.
Qed.

Lemma scan_lines_render kvs :
  Forall (fun kv => String.length (entry_line kv) < MaxScanTokenSize)%nat kvs ->
  scan_lines (map entry_line kvs ++ [""])%list = map entry_line kvs.
Proof.
  induction 1 as [|kv kvs Hkv _ IH]; [done|]. cbn [map app].
  assert (E : forall x l, scan_lines (x :: l ++ [""])%list
      = if (MaxScanTokenSize <=? String.length x)%nat then [] else dropCR x :: scan_lines (l ++ [""])%list).
  { intros x l. by destruct l. }
  rewrite E, IH. rewrite (proj2 (Nat.leb_gt _ _)) by done.
  by rewrite entry_line_snoc, dropCR_snoc.
Qed.

(** A prefix [key=] of a line whose key has no [=] is its key. *)
Lemma CutPrefix_entry key k v :
  has_char "=" key = false -> has_char "=" k = false ->
  CutPrefix (k ++ "=" ++ v) (key ++ "=") = if String.eqb k key then Some v else None.
Proof.
  revert k. induction key as [|c key IH]; intros [|d k] H1 H2; rewrite ?string_app_cons; simpl in *.
  - by destruct v.
  - apply orb_false_iff in H2 as [H2 _]. destruct d as [[] [] [] [] [] [] [] []]; done.
  - apply orb_false_iff in H1 as [H1 _]. by rewrite H1.
  - apply orb_false_iff in H1 as [_ H1]. apply orb_false_iff in H2 as [_ H2].
    rewrite Ascii.eqb_sym. destruct (Ascii.eqb d c); [by apply IH|done].
Qed.

Lemma length_TrimLeft s cut : (String.length (TrimLeft s cut) <= String.length s)%nat.
Proof. induction s as [|c s IH]; simpl; [done|]. destruct (cut c); simpl; lia. Qed.

Lemma length_TrimRight s cut : (String.length (TrimRight s cut) <= String.length s)%nat.
Proof.
  induction s as [|c s IH]; simpl; [done|]. destruct (TrimRight s cut); [destruct (cut c)|]; simpl in *; lia.
Qed.

Lemma TrimLeft_full s cut : String.length (TrimLeft s cut) = String.length s -> TrimLeft s cut = s.
Proof.
  destruct s as [|c s]; [done|]. simpl. destruct (cut c); [|done].
  pose proof (length_TrimLeft s cut). simpl. lia.
Qed.

(** A text that [Trim] leaves alone is left alone from both ends. *)
Lemma Trim_fixed s cut : Trim s cut = s -> TrimLeft s cut = s /\ TrimRight s cut = s.
Proof.
  unfold Trim. intros H. pose proof (length_TrimRight (TrimLeft s cut) cut) as H1.
  pose proof (length_TrimLeft s cut) as H2. rewrite H in H1.
  assert (E : TrimLeft s cut = s) by (apply TrimLeft_full; lia). by rewrite E in H.
Qed.

Lemma TrimRight_snoc s c (cut : ascii -> bool) :
  cut c = true -> TrimRight (s ++ String c "") cut = TrimRight s cut.
Proof.
  intros Hc. induction s as [|d s IH]; [simpl; by rewrite Hc|].
  rewrite string_app_cons. simpl. by rewrite IH.
Qed.

Lemma Trim_quoted v :
  Trim v OsLinux.isQuote = v -> Trim (String quote (v ++ String quote "")) OsLinux.isQuote = v.
Proof.
  intros H. destruct (Trim_fixed _ _ H) as [HL HR]. unfold Trim.
  change (TrimLeft (String quote (v ++ String quote "")) OsLinux.isQuote)
    with (TrimLeft (v ++ String quote "") OsLinux.isQuote).
  destruct v as [|c v]; [done|]. rewrite string_app_cons. cbn [TrimLeft] in *.
  destruct (OsLinux.isQuote c) eqn:Ec.
  - pose proof (length_TrimLeft v OsLinux.isQuote) as Hl. rewrite HL in Hl. simpl in Hl. lia.
  - rewrite <- string_app_cons, TrimRight_snoc by done. done.
Qed.

Lemma entry_ok_spec kv :
  entry_ok kv = true ->
  has_char nl (entry_line kv) = false /\ has_char "=" kv.1 = false
  /\ Trim kv.2 OsLinux.isQuote = kv.2 /\ (String.length (entry_line kv) < MaxScanTokenSize)%nat.
Proof.
  unfold entry_ok. rewrite !andb_true_iff, !negb_true_iff, String.eqb_eq, Nat.ltb_lt.
  intros ((((H1 & H2) & H3) & H4) & H5). split_and!; [|done..].
  unfold entry_line. rewrite !has_char_app, H1. simpl. by rewrite has_char_app, H2.
Qed.

Lemma fold_scan_render key kvs v :
  has_char "=" key = false -> Forall (fun kv => entry_ok kv = true) kvs ->
  fold_left (OsLinux.scanValue key) (map entry_line kvs) v
  = fold_left (fun v kv => if String.eqb kv.1 key then kv.2 else v) kvs v.
Proof.
  intros Hk H. revert v. induction H as [|kv kvs Hkv _ IH]; intros v; [done|]. cbn [map fold_left].
  rewrite IH. f_equal. destruct (entry_ok_spec _ Hkv) as (_ & H1 & H2 & _).
  unfold OsLinux.scanValue, entry_line. rewrite CutPrefix_entry by done.
  destruct (String.eqb kv.1 key); [|done]. by apply Trim_quoted.
Qed.

(** C40: Reading a key from an os-release file of quoted entries (no newlines, keys
    without '=', values not surrounded by quotes or spaces, lines shorter than the
    scanner's buffer) gives the value of the last entry with exactly this key, or the
    empty string; the file is /etc/os-release, or /usr/lib/os-release when the first
    does not exist. *)
Theorem os_release_roundtrip Open key kvs :
  (Open OsLinux.etcOsRelease = inl (render kvs)
   \/ (exists e, Open OsLinux.etcOsRelease = inr (OsLinux.mkOpenError e true))
      /\ Open OsLinux.altOsRelease = inl (render kvs)) ->
  has_char "=" key = false -> Forall (fun kv => entry_ok kv = true) kvs ->
  OsLinux.getValueFromOsRelease Open key = (last_value key kvs, None).
Proof.
  intros Ho Hk H. assert (E : fold_left (OsLinux.scanValue key) (Scanner_lines (render kvs)) "" = last_value key kvs).
  { unfold Scanner_lines, SplitLines. rewrite split_render.
    - rewrite scan_lines_render; [by rewrite fold_scan_render|].
      eapply Forall_impl; [exact H|]. intros kv Hkv. by apply entry_ok_spec in Hkv as (_ & _ & _ & ?).
    - eapply Forall_impl; [exact H|]. intros kv Hkv. by apply entry_ok_spec in Hkv as (? & _).
    - apply length_render. }
  unfold OsLinux.getValueFromOsRelease. destruct Ho as [->|[[e ->] ->]]; cbn [OsLinux.IsNotExist negb]; by rewrite E.
Qed.

Lemma os_release_roundtrip_witness :
  OsLinux.getValueFromOsRelease
    (fun name => if String.eqb name "/usr/lib/os-release"
                 then inl (render [("NAME", "Source"); ("VERSION_ID", "14.04"); ("VERSION_ID", "18.04")])
                 else inr (OsLinux.mkOpenError ErrClosed true)) "VERSION_ID" = ("18.04", None).
Proof.
  apply (os_release_roundtrip _ "VERSION_ID" [("NAME", "Source"); ("VERSION_ID", "14.04"); ("VERSION_ID", "18.04")]).
  - right. split; [exists ErrClosed|]; reflexivity.
  - reflexivity.
  - repeat apply List.Forall_cons; try apply List.Forall_nil; vm_compute; reflexivity.
Defined.

(** ** The name of a Windows release *)

Lemma string_app_inj_l a b c : a ++ b = a ++ c -> b = c.
Proof. induction a as [|x a IH]; [done|]. rewrite !string_app_cons. intros [= H]. by apply IH. Qed.

(** A text without [(] is determined by what precedes the first one. *)
Lemma paren_split a b x y :
  has_char "(" a = false -> has_char "(" b = false ->
  a ++ String "(" x = b ++ String "(" y -> a = b /\ x = y.
Proof.
  revert b. induction a as [|c a IH]; intros [|d b] Ha Hb E; rewrite ?string_app_cons in E.
  - by injection E.
  - injection E as <- _. done.
  - injection E as -> _. done.
  - injection E as <- E. cbn [has_char] in Ha, Hb.
    apply orb_false_iff in Ha as [_ Ha]. apply orb_false_iff in Hb as [_ Hb].
    destruct (IH b Ha Hb E) as [-> ->]. done.
Qed.

Lemma read_decimal n rest :
  0 <= n -> no_digit_head rest -> read_digits 10 (FormatInt n ++ rest) 0 = (Z.to_N n, rest).
Proof.
  intros Hn Hr. unfold FormatInt. rewrite (proj2 (Z.ltb_ge n 0)) by done.
  by rewrite read_fmt_N, read_digits_stop.
Qed.

(** The part before the parenthesis, and the part after it. *)
Definition release_head (r : OsWindows.windowsOSRelease) : string :=
  (if OsWindows.IsServer r then " Server" else "")
  ++ (if String.eqb (OsWindows.DisplayVersion r) "" then "" else " Version " ++ OsWindows.DisplayVersion r)
  ++ " ".
Definition release_tail (r : OsWindows.windowsOSRelease) : string :=
  FormatInt (OsWindows.Build r)
  ++ (if (OsWindows.UBR r >? 0)%Z then "." ++ FormatInt (OsWindows.UBR r) else "") ++ ")".

Lemma release_String_split r :
  OsWindows.windowsOSRelease_String r
  = "Microsoft Windows" ++ release_head r ++ String "(" ("OS Build " ++ release_tail r).
Proof.
  unfold OsWindows.windowsOSRelease_String, release_head, release_tail.
  destruct (OsWindows.IsServer r), (String.eqb (OsWindows.DisplayVersion r) ""),
    (OsWindows.UBR r >? 0)%Z; cbn [negb]; rewrite !string_app_assoc; done.
Qed.

Lemma release_tail_inj r1 r2 :
  0 <= OsWindows.Build r1 -> 0 <= OsWindows.Build r2 ->
  0 <= OsWindows.UBR r1 -> 0 <= OsWindows.UBR r2 ->
  release_tail r1 = release_tail r2 ->
  OsWindows.Build r1 = OsWindows.Build r2 /\ OsWindows.UBR r1 = OsWindows.UBR r2.
Proof.
  intros H1 H2 U1 U2 E. unfold release_tail in E.
  pose proof (f_equal (fun s => read_digits 10 s 0) E) as E'. cbv beta in E'.
  rewrite !read_decimal in E'; try done;
    [|by destruct (OsWindows.UBR r2 >? 0)%Z|by destruct (OsWindows.UBR r1 >? 0)%Z].
  injection E' as E1 E2. split; [lia|].
  destruct (Z.gtb_spec (OsWindows.UBR r1) 0), (Z.gtb_spec (OsWindows.UBR r2) 0);
    rewrite ?string_app_assoc in E2; try done; try lia.
  injection E2 as E2. rewrite !string_app_nil_l in E2.
  pose proof (f_equal (fun s => read_digits 10 s 0) E2) as E3. cbv beta in E3.
  rewrite !read_decimal in E3 by done. injection E3 as E3. lia.
Qed.

Lemma string_app_inj_r a b c : a ++ String c "" = b ++ String c "" -> a = b.
Proof.
  revert b. induction a as [|x a IH]; intros [|y b] E; rewrite ?string_app_cons in E.
  - done.
  - injection E as _ E. by destruct b.
  - injection E as _ E. by destruct a.
  - injection E as -> E. by rewrite (IH b).
Qed.

Lemma release_head_inj r1 r2 :
  release_head r1 = release_head r2 ->
  OsWindows.IsServer r1 = OsWindows.IsServer r2
  /\ OsWindows.DisplayVersion r1 = OsWindows.DisplayVersion r2.
Proof.
  unfold release_head. destruct r1 as [s1 d1 b1 u1], r2 as [s2 d2 b2 u2].
  cbn [OsWindows.IsServer OsWindows.DisplayVersion].
  destruct s1, s2, (String.eqb_spec d1 "") as [->|N1], (String.eqb_spec d2 "") as [->|N2];
    rewrite ?string_app_assoc, ?string_app_nil_l; intros E; try done; split; try done;
    repeat apply string_app_inj_l in E; by apply string_app_inj_r in E.
Qed.

Lemma release_head_no_paren r :
  has_char "(" (OsWindows.DisplayVersion r) = false -> has_char "(" (release_head r) = false.
Proof.
  intros H. unfold release_head. rewrite !has_char_app.
  destruct (OsWindows.IsServer r), (String.eqb _ _); cbn [has_char orb]; try done;
    by rewrite has_char_app, H.
Qed.

(** The printed name determines the Windows release: server or client, display
    version (without parenthesis), build and revision. *)
Theorem windowsOSRelease_String_inj r1 r2 :
  has_char "(" (OsWindows.DisplayVersion r1) = false ->
  has_char "(" (OsWindows.DisplayVersion r2) = false ->
  inU 32 (OsWindows.Build r1) -> inU 32 (OsWindows.Build r2) ->
  inU 64 (OsWindows.UBR r1) -> inU 64 (OsWindows.UBR r2) ->
  OsWindows.windowsOSRelease_String r1 = OsWindows.windowsOSRelease_String r2 -> r1 = r2.
Proof.
  intros D1 D2 [B1 _] [B2 _] [U1 _] [U2 _] E. rewrite !release_String_split in E.
  apply string_app_inj_l, paren_split in E as [Eh Et];
    [|by apply release_head_no_paren..].
  apply string_app_inj_l, release_tail_inj in Et as [Eb Eu]; [|done..].
  apply release_head_inj in Eh as [Es Ed]. destruct r1, r2. simpl in *. by subst.
Qed.

Lemma windowsOSRelease_String_inj_witness :
  OsWindows.mkRelease true "21H2" 20348 169 = OsWindows.mkRelease true "21H2" 20348 169.
Proof.
  apply windowsOSRelease_String_inj; first [reflexivity | vm_compute; split; congruence].
Defined.

(** ** Containers *)

Lemma HasSuffix_spec s t : OsLinux.HasSuffix s t = true <-> exists p, s = p ++ t.
Proof.
  induction s as [|c s IH]; cbn [OsLinux.HasSuffix]; rewrite orb_true_iff, String.eqb_eq.
  - split; [intros [->|[=]]; by exists ""|]. intros [[|d p] E]; [by left|].
    by rewrite string_app_cons in E.
  - rewrite IH. split.
    + intros [<-|[p ->]]; [by exists ""|]. exists (String c p). by rewrite string_app_cons.
    + intros [[|d p] E]; [by left|]. rewrite string_app_cons in E. injection E as -> E. right. by exists p.
Qed.

Lemma split_join ls fuel :
  ls <> [] -> Forall (fun l => has_char nl l = false) ls -> (length ls <= fuel + 1)%nat ->
  split_lines fuel (strings_Join ls (String nl "")) = ls.
Proof.
  intros Hne H. revert fuel. induction H as [|l ls Hl H IH]; intros fuel Hf; [done|].
  assert (E1 : cut_line l = (l, None)).
  { clear -Hl. induction l as [|c l IH]; [done|]. simpl in *.
    apply orb_false_iff in Hl as [-> Hl]. by rewrite IH. }
  destruct ls as [|l' ls]; [destruct fuel; cbn [strings_Join split_lines]; by rewrite E1|].
  change (strings_Join (l :: l' :: ls) (String nl ""))
    with (l ++ String nl (strings_Join (l' :: ls) (String nl ""))).
  destruct fuel as [|fuel]; simpl in Hf; [lia|]. cbn [split_lines].
  rewrite cut_line_app by done. rewrite IH; [done|done|simpl; lia].
Qed.

Lemma length_join ls : (length ls <= String.length (strings_Join ls (String nl "")) + 1)%nat.
Proof.
  induction ls as [|l [|l' ls] IH]; [simpl; lia..|].
  change (strings_Join (l :: l' :: ls) (String nl ""))
    with (l ++ String nl (strings_Join (l' :: ls) (String nl ""))).
  rewrite length_string_app. simpl in *. lia.
Qed.

(** IsContainerized holds of a cgroup file iff one of its lines is not empty and
    ends neither in ':/' nor in ':/init.scope'. *)
Theorem container_detection ReadFile ls :
  ReadFile OsLinux.proc1Cgroup = inl (strings_Join ls (String nl "")) ->
  ls <> [] -> Forall (fun l => has_char nl l = false) ls ->
  exists b, OsLinux.IsContainerized ReadFile = (b, None)
  /\ (b = true <-> exists l, l ∈ ls /\ l <> ""
        /\ (forall p, l <> p ++ ":/") /\ (forall p, l <> p ++ ":/init.scope")).
Proof.
  intros Hf Hne H. unfold OsLinux.IsContainerized. rewrite Hf. eexists. split; [reflexivity|].
  unfold SplitLines. rewrite (split_join ls) by (exact Hne || exact H || apply length_join).
  rewrite existsb_exists. apply exist_proper. intros l.
  rewrite !andb_true_iff, !negb_true_iff, Nat.eqb_neq, <- !not_true_iff_false, !HasSuffix_spec.
  rewrite <- list_elem_of_In. split.
  - intros (Hin & (Hl & H1) & H2). split_and!; [done| |naive_solver..]. by intros ->.
  - intros (Hin & Hl & H1 & H2). split_and!; [done| |naive_solver..]. by destruct l.
Qed.

Lemma container_detection_witness :
  exists b, OsLinux.IsContainerized (fun _ => inl (strings_Join ["7:net_cls:/"; "6:freezer:/docker/3cef"] (String nl ""))) = (b, None)
    /\ b = true.
Proof.
  destruct (container_detection (fun _ => inl (strings_Join ["7:net_cls:/"; "6:freezer:/docker/3cef"] (String nl "")))
    ["7:net_cls:/"; "6:freezer:/docker/3cef"]) as (b & H1 & H2).
  - reflexivity.
  - congruence.
  - repeat constructor.
  - exists b. split; [exact H1|]. vm_compute in H1. congruence.
Defined.
