(* ===== verification/Wrap.v ===== *)
(** wrap.go: the connection wrapper.  This file holds the wrapper's state, the
    sections of code it runs with its mutex held, and its operations as one
    goroutine executes them when no other goroutine uses the wrapper; [WrapConc]
    interleaves the same sections.

    The section variables stand for what the wrapper is handed: [C] the values
    of the interface [net.Conn] (not nil), [S] the platform's [SysInfo], [X]
    contexts and [F] report callbacks.  A [net.Addr] is the string its [String]
    method returns.  The results of system calls, of [time.Now().UnixNano()] and
    of the methods of the wrapped connection are arguments. *)

From stdpp Require Import base list strings gmap.
From Stdlib Require Import ZArith Lia.
From S2P Require Import Prelude GoFmt TcpInfo.

Local Open Scope Z_scope.
Local Open Scope go_scope.

(** The lifecycle states given to the report callback. *)
Definition Opened : Z := 0.
Definition Closed : Z := 1.
Definition StateMap : gmap Z string := {[ Opened := "open"; Closed := "close" ]}%string.

(** What the wrapper asks of a wrapped connection without side effect. *)
Class NetConnOps (C : Type) := {
  nc_LocalAddr : C -> option string;
  nc_RemoteAddr : C -> option string;
  nc_isTCPConn : C -> bool
}.

(** ** Options *)

Record wrapOptions := mkWrapOptions { emitOpenCallback : bool }.
Definition WrapOption : Type := wrapOptions -> wrapOptions.

Definition WithEmitOpenCallback (enabled : bool) : WrapOption :=
  fun _ => mkWrapOptions enabled.

(** The loop over [opts]; a nil option is skipped. *)
Definition applyOptions (opts : list (option WrapOption)) : wrapOptions :=
  fold_left (fun cfg o => match o with Some f => f cfg | None => cfg end)
    opts (mkWrapOptions false).

Section wrap.
Context {C S X F : Type} `{!NetConnOps C, !Platform S}.

(** ** State *)

(** [closeDone] is the channel made by [Close]: [None] before it is made,
    [Some true] once it is closed. *)
Record Conn := mkConn {
  NetConn : option C;
  Context_ : X;
  reportStats : option F;
  OpenedAt : Z;
  ClosedAt : Z;
  FirstRxAt : Z;
  FirstTxAt : Z;
  LastRxAt : Z;
  LastTxAt : Z;
  TxBytes : Z;
  RxBytes : Z;
  RxErr : option error;
  TxErr : option error;
  InfoErr : option error;
  Reconnects : Z;
  OpenedInfo : option (Info S);
  ClosedInfo : option (Info S);
  supportsTCPInfo : bool;
  closeStarted : bool;
  closeDone : option bool;
  closeErr : option error;
  inFlight : Z;
  localAddr : option string;
  remoteAddr : option string
}.

(** The record rebuilt from its fields, from which the setters are derived. *)
Definition Conn_eta (w : Conn) : Conn :=
  mkConn (NetConn w) (Context_ w) (reportStats w) (OpenedAt w) (ClosedAt w) (FirstRxAt w)
    (FirstTxAt w) (LastRxAt w) (LastTxAt w) (TxBytes w) (RxBytes w) (RxErr w) (TxErr w)
    (InfoErr w) (Reconnects w) (OpenedInfo w) (ClosedInfo w) (supportsTCPInfo w)
    (closeStarted w) (closeDone w) (closeErr w) (inFlight w) (localAddr w) (remoteAddr w).

#[global] Instance set_NetConn : Setter NetConn := ltac:(setter Conn_eta NetConn).
#[global] Instance set_reportStats : Setter reportStats := ltac:(setter Conn_eta reportStats).
#[global] Instance set_ClosedAt : Setter ClosedAt := ltac:(setter Conn_eta ClosedAt).
#[global] Instance set_FirstRxAt : Setter FirstRxAt := ltac:(setter Conn_eta FirstRxAt).
#[global] Instance set_FirstTxAt : Setter FirstTxAt := ltac:(setter Conn_eta FirstTxAt).
#[global] Instance set_LastRxAt : Setter LastRxAt := ltac:(setter Conn_eta LastRxAt).
#[global] Instance set_LastTxAt : Setter LastTxAt := ltac:(setter Conn_eta LastTxAt).
#[global] Instance set_TxBytes : Setter TxBytes := ltac:(setter Conn_eta TxBytes).
#[global] Instance set_RxBytes : Setter RxBytes := ltac:(setter Conn_eta RxBytes).
#[global] Instance set_RxErr : Setter RxErr := ltac:(setter Conn_eta RxErr).
#[global] Instance set_TxErr : Setter TxErr := ltac:(setter Conn_eta TxErr).
#[global] Instance set_InfoErr : Setter InfoErr := ltac:(setter Conn_eta InfoErr).
#[global] Instance set_Reconnects : Setter Reconnects := ltac:(setter Conn_eta Reconnects).
#[global] Instance set_OpenedInfo : Setter OpenedInfo := ltac:(setter Conn_eta OpenedInfo).
#[global] Instance set_ClosedInfo : Setter ClosedInfo := ltac:(setter Conn_eta ClosedInfo).
#[global] Instance set_closeStarted : Setter closeStarted := ltac:(setter Conn_eta closeStarted).
#[global] Instance set_closeDone : Setter closeDone := ltac:(setter Conn_eta closeDone).
#[global] Instance set_closeErr : Setter closeErr := ltac:(setter Conn_eta closeErr).
#[global] Instance set_inFlight : Setter inFlight := ltac:(setter Conn_eta inFlight).

(** ** TCP information *)

(** The results of [SyscallConn], [Control] and [tcpinfo.GetTCPInfo]. *)
Record probe := mkProbe {
  syscallErr : option error;
  controlErr : option error;
  sysInfo : option S;
  infoErr : option error
}.

Definition collectTCPInfo (w : Conn) (p : probe) : option (Info S) * option error :=
  if negb (supportsTCPInfo w) then (None, None)
  else if negb (from_option nc_isTCPConn false (NetConn w)) then (None, None)
  else match syscallErr p with
       | Some err => (None, Some err)
       | None =>
           match controlErr p with
           | Some err => (None, Some err)
           | None =>
               match sysInfo p with
               | None => (None, infoErr p)
               | Some s => (Some (sys_ToInfo s), infoErr p)
               end
           end
       end.

Definition applyTCPInfoLocked (state : Z) (info : option (Info S)) (infoErr : option error)
    (w : Conn) : Conn :=
  let w := match info with
           | Some _ => if state =? Opened then w <| OpenedInfo := info |>
                       else w <| ClosedInfo := info |>
           | None => w
           end in
  match info, infoErr with
  | None, None => w
  | _, _ => w <| InfoErr := infoErr |>
  end.

(** ** Addresses and snapshots *)

Definition localAddrLocked (w : Conn) : option string :=
  match localAddr w with
  | Some a => Some a
  | None => NetConn w ≫= nc_LocalAddr
  end.

Definition remoteAddrLocked (w : Conn) : option string :=
  match remoteAddr w with
  | Some a => Some a
  | None => NetConn w ≫= nc_RemoteAddr
  end.

(** The exported methods take the lock. *)
Definition LocalAddr (w : Conn) : option string := localAddrLocked w.
Definition RemoteAddr (w : Conn) : option string := remoteAddrLocked w.

Definition addrString (addr : option string) (fallback : string) : string :=
  match addr with None => fallback | Some s => s end.

Definition LocalAddrString (w : Conn) : string := addrString (localAddrLocked w) "unknown".
Definition RemoteAddrString (w : Conn) : string := addrString (remoteAddrLocked w) "unknown".

Definition snapshotLocked (w : Conn) : Conn := {|
  NetConn := None;
  Context_ := Context_ w;
  reportStats := None;
  OpenedAt := OpenedAt w;
  ClosedAt := ClosedAt w;
  FirstRxAt := FirstRxAt w;
  FirstTxAt := FirstTxAt w;
  LastRxAt := LastRxAt w;
  LastTxAt := LastTxAt w;
  TxBytes := TxBytes w;
  RxBytes := RxBytes w;
  RxErr := RxErr w;
  TxErr := TxErr w;
  InfoErr := InfoErr w;
  Reconnects := Reconnects w;
  OpenedInfo := Info_Clone <$> OpenedInfo w;
  ClosedInfo := Info_Clone <$> ClosedInfo w;
  supportsTCPInfo := supportsTCPInfo w;
  closeStarted := closeStarted w;
  closeDone := None;
  closeErr := closeErr w;
  inFlight := 0;
  localAddr := localAddrLocked w;
  remoteAddr := remoteAddrLocked w
|}.

(** A call of the report callback. *)
Record report := mkReport { rp_fn : F; rp_conn : Conn; rp_state : Z }.

Definition reportState (state : Z) (info : option (Info S)) (infoErr : option error)
    (w : Conn) : Conn * option report :=
  let w := applyTCPInfoLocked state info infoErr w in
  match reportStats w with
  | None => (w, None)
  | Some f =>
      let snapshot := snapshotLocked w in
      let snapshot := if state =? Opened then snapshot <| NetConn := NetConn w |>
                      else snapshot in
      (w, Some (mkReport f snapshot state))
  end.

(** ** Construction *)

Definition WrapConnWithContext (ctx : X) (ncon : option C) (reportStatsFn : option F)
    (opts : list (option WrapOption)) (now : Z) (p : probe) : Conn * option report :=
  let cfg := applyOptions opts in
  let w := {|
    NetConn := ncon;
    Context_ := ctx;
    reportStats := reportStatsFn;
    OpenedAt := now;
    ClosedAt := 0;
    FirstRxAt := 0; FirstTxAt := 0; LastRxAt := 0; LastTxAt := 0;
    TxBytes := 0; RxBytes := 0;
    RxErr := None; TxErr := None; InfoErr := None;
    Reconnects := 0;
    OpenedInfo := None; ClosedInfo := None;
    supportsTCPInfo := Supported;
    closeStarted := false; closeDone := None; closeErr := None;
    inFlight := 0;
    localAddr := ncon ≫= nc_LocalAddr;
    remoteAddr := ncon ≫= nc_RemoteAddr
  |} in
  let '(openedInfo, openedInfoErr) := collectTCPInfo w p in
  if emitOpenCallback cfg then reportState Opened openedInfo openedInfoErr w
  else (applyTCPInfoLocked Opened openedInfo openedInfoErr w, None).

(** [WrapConn]; [bg] is [context.Background()]. *)
Definition WrapConn (bg : X) := WrapConnWithContext bg.

(** ** Input and output *)

Definition beginIO (w : Conn) : Conn * (C + error) :=
  if closeStarted w then (w, inr ErrClosed)
  else match NetConn w with
       | None => (w, inr ErrClosed)
       | Some c => (w <| inFlight := inFlight w + 1 |>, inl c)
       end.

(** The flag is whether [ioDrained.Broadcast] is called. *)
Definition finishIO (w : Conn) : Conn * bool :=
  let w := w <| inFlight := inFlight w - 1 |> in
  let broadcast := closeStarted w && (inFlight w =? 0) in
  let w := if inFlight w <? 0 then w <| inFlight := 0 |> else w in
  (w, broadcast).

(** [if err, ok := err.(net.Error); ok && !err.Timeout()] *)
Definition fatalNetError (err : option error) : bool :=
  match err with
  | Some e => bool_decide (err_timeout e = Some false)
  | None => false
  end.

(** The section of [Read] between its [Lock] and its [Unlock]. *)
Definition Read_stats (n : Z) (err : option error) (ts : Z) (w : Conn) : Conn :=
  let w :=
    if bool_decide (err = None) && (n >? 0) then
      if FirstRxAt w =? 0 then w <| FirstRxAt := ts |> <| LastRxAt := ts |>
      else w <| LastRxAt := ts |>
    else w in
  let w := w <| RxBytes := RxBytes w +i64 n |> in
  if fatalNetError err then w <| RxErr := err |> else w.

(** The section of [Write] between its [Lock] and its [Unlock]. *)
Definition Write_stats (n : Z) (err : option error) (ts : Z) (w : Conn) : Conn :=
  let w :=
    if bool_decide (err = None) && (n >? 0) then
      if FirstTxAt w =? 0 then w <| FirstTxAt := ts |> <| LastTxAt := ts |>
      else w <| LastTxAt := ts |>
    else w in
  let w := w <| TxBytes := TxBytes w +i64 n |> in
  if fatalNetError err then w <| TxErr := err |> else w.

(** [Read] alone: [(n, err)] is what the wrapped connection's [Read] returns. *)
Definition Read (n : Z) (err : option error) (ts : Z) (w : Conn) : Conn * (Z * option error) :=
  match beginIO w with
  | (w, inr e) => (w, (0, Some e))
  | (w, inl _) =>
      let w := Read_stats n err ts w in
      let '(w, _) := finishIO w in
      (w, (n, err))
  end.

Definition Write (n : Z) (err : option error) (ts : Z) (w : Conn) : Conn * (Z * option error) :=
  match beginIO w with
  | (w, inr e) => (w, (0, Some e))
  | (w, inl _) =>
      let w := Write_stats n err ts w in
      let '(w, _) := finishIO w in
      (w, (n, err))
  end.

(** ** Close *)

(** What the first section of [Close] decides. *)
Inductive close_entry :=
| CloseWait                        (* another Close is under way or done *)
| CloseNil (err : option error)    (* there is no connection *)
| CloseStart (c : C).              (* this call closes the connection *)

Definition Close_enter (now : Z) (w : Conn) : Conn * close_entry :=
  match closeDone w with
  | Some _ => (w, CloseWait)
  | None =>
      match NetConn w with
      | None =>
          (w, CloseNil (match closeErr w with Some e => Some e | None => Some ErrClosed end))
      | Some c =>
          (w <| closeStarted := true |> <| ClosedAt := now |> <| closeDone := Some false |>,
           CloseStart c)
      end
  end.

(** The start of the last section: the error is kept, the connection dropped. *)
Definition Close_detach (err : option error) (w : Conn) : Conn :=
  w <| closeErr := err |> <| NetConn := None |>.

(** The test of the loop that waits for [ioDrained]. *)
Definition Close_mustWait (w : Conn) : bool := inFlight w >? 0.

(** The rest of the last section, after the loop. *)
Definition Close_finish (info : option (Info S)) (infoErr : option error) (w : Conn)
    : Conn * option report :=
  let w := applyTCPInfoLocked Closed info infoErr w in
  let snapshot := snapshotLocked w in
  (w, (fun f => mkReport f snapshot Closed) <$> reportStats w).

(** [close(done)] *)
Definition Close_done (w : Conn) : Conn := w <| closeDone := Some true |>.

(** [Close] alone; [None] when the goroutine would block forever. *)
Definition Close (now : Z) (p : probe) (err : option error) (w : Conn)
    : option (Conn * option report * option error) :=
  match Close_enter now w with
  | (w, CloseWait) => if closeDone w is Some true then Some (w, None, closeErr w) else None
  | (w, CloseNil e) => Some (w, None, e)
  | (w, CloseStart _) =>
      let '(info, infoErr) := collectTCPInfo w p in
      let w := Close_detach err w in
      if Close_mustWait w then None
      else let '(w, rp) := Close_finish info infoErr w in
           Some (Close_done w, rp, err)
  end.

(** ** Other methods *)

Definition SetReconnects (reconnects : Z) (w : Conn) : Conn :=
  w <| Reconnects := reconnects |>.

(** [withLiveConn]: the connection to call, or the error returned. *)
Definition withLiveConn (w : Conn) : C + option error :=
  if closeStarted w then
    inr (match closeErr w with Some e => Some e | None => Some ErrClosed end)
  else match NetConn w with
       | None => inr (match closeErr w with Some e => Some e | None => Some ErrClosed end)
       | Some c => inl c
       end.

Definition SetDeadline (setDeadline : C -> option error) (w : Conn) : option error :=
  match withLiveConn w with inl c => setDeadline c | inr e => e end.
Definition SetReadDeadline (setReadDeadline : C -> option error) (w : Conn) : option error :=
  match withLiveConn w with inl c => setReadDeadline c | inr e => e end.
Definition SetWriteDeadline (setWriteDeadline : C -> option error) (w : Conn) : option error :=
  match withLiveConn w with inl c => setWriteDeadline c | inr e => e end.

Definition infoWarnings (info : option (Info S)) : list string :=
  match info with
  | None => []
  | Some i =>
      (if Retransmits i >? 0
       then ["retransmits=" +:+ FormatInt (int64 (Retransmits i))]%string else [])
      ++ (if Sys i is Some s then sys_Warnings s else [])
  end.

Definition warnings (w : Conn) : list string :=
  (if Reconnects w >? 0 then ["reconnects=" +:+ FormatInt (int64 (Reconnects w))]%string else [])
  ++ infoWarnings (OpenedInfo w) ++ infoWarnings (ClosedInfo w).

(** [Warnings] takes the lock. *)
Definition Warnings (w : Conn) : list string := warnings w.

Definition put_err (k : string) (e : option error) (m : gmap string any) : gmap string any :=
  match e with Some e => <[k := AString (err_msg e)]> m | None => m end.

Definition put_info (k : string) (i : option (Info S)) (m : gmap string any) : gmap string any :=
  match i with Some i => <[k := AMap (Info_ToMap i)]> m | None => m end.

Definition Conn_ToMap (w : Conn) : gmap string any :=
  let fset : gmap string any := list_to_map [
    ("openedAt", AInt64 (OpenedAt w));
    ("closedAt", AInt64 (ClosedAt w));
    ("firstRxAt", AInt64 (FirstRxAt w));
    ("firstTxAt", AInt64 (FirstTxAt w));
    ("lastRxAt", AInt64 (LastRxAt w));
    ("lastTxAt", AInt64 (LastTxAt w));
    ("txBytes", AInt64 (TxBytes w));
    ("rxBytes", AInt64 (RxBytes w));
    ("reconnects", AInt (Reconnects w));
    ("localAddr", AString (addrString (localAddrLocked w) ""));
    ("remoteAddr", AString (addrString (remoteAddrLocked w) ""));
    ("warnings", AStrings (append None (warnings w))) ]%string in
  let fset := put_err "rxErr" (RxErr w) fset in
  let fset := put_err "txErr" (TxErr w) fset in
  let fset := put_err "infoErr" (InfoErr w) fset in
  let fset := put_info "openedInfo" (OpenedInfo w) fset in
  put_info "closedInfo" (ClosedInfo w) fset.
End wrap.
Arguments Conn : clear implicits.
Arguments probe : clear implicits.
Arguments report : clear implicits.
Arguments close_entry : clear implicits.

(** ** Options and construction *)

(** The last option that is not nil decides; without any the callback is off. *)
Lemma applyOptions_last (bs : list (option bool)) :
  emitOpenCallback (applyOptions (map (option_map WithEmitOpenCallback) bs))
  = default false (last (omap (M:=list) id bs)).
Proof.
  unfold applyOptions. induction bs as [|o bs IH] using rev_ind; [done|].
  rewrite map_app, fold_left_app, omap_app. destruct o; simpl.
  - by rewrite last_snoc.
  - by rewrite app_nil_r.
Qed.

Section wrap_laws.
Context {C S X F : Type} `{!NetConnOps C, !Platform S, !PlatformLaws S}.
Implicit Types w : Conn C S X F.

Lemma localAddr_snapshot w : localAddrLocked (snapshotLocked w) = localAddrLocked w.
Proof. unfold localAddrLocked at 1. simpl. by destruct (localAddrLocked w). Qed.

Lemma remoteAddr_snapshot w : remoteAddrLocked (snapshotLocked w) = remoteAddrLocked w.
Proof. unfold remoteAddrLocked at 1. simpl. by destruct (remoteAddrLocked w). Qed.

Lemma infoWarnings_clone (i : option (Info S)) : infoWarnings (Info_Clone <$> i) = infoWarnings i.
Proof.
  destruct i as [i|]; [|done]. unfold infoWarnings; simpl.
  destruct (Sys i); simpl; by rewrite ?clone_warnings.
Qed.

Lemma warnings_snapshot w : warnings (snapshotLocked w) = warnings w.
Proof. unfold warnings. simpl. by rewrite !infoWarnings_clone. Qed.

Lemma put_err_eqv k e m m' : map_eqv m m' -> map_eqv (put_err k e m) (put_err k e m').
Proof. destruct e; simpl; auto with go. Qed.

Lemma put_info_eqv k (i i' : option (Info S)) m m' :
  i = Info_Clone <$> i' -> map_eqv m m' -> map_eqv (put_info k i m) (put_info k i' m').
Proof.
  intros -> Hm. destruct i' as [i'|]; simpl; [|done].
  apply map_eqv_insert; [|done]. apply eqv_map, Info_Clone_map.
Qed.

(** C11: A snapshot has the same warnings, the same exported map (up to empty option
    lists becoming nil) and the same address strings as the connection it was taken
    from, on every platform whose SysInfo copies keep warnings and contents; shown to
    apply on Linux. *)
Theorem snapshot_faithful w :
  warnings (snapshotLocked w) = warnings w
  /\ map_eqv (Conn_ToMap (snapshotLocked w)) (Conn_ToMap w)
  /\ LocalAddrString (snapshotLocked w) = LocalAddrString w
  /\ RemoteAddrString (snapshotLocked w) = RemoteAddrString w.
Proof.
  split_and!.
  - apply warnings_snapshot.
  - unfold Conn_ToMap.
    rewrite warnings_snapshot, localAddr_snapshot, remoteAddr_snapshot.
    apply put_info_eqv, put_info_eqv; [done..|].
    apply put_err_eqv, put_err_eqv, put_err_eqv, map_eqv_refl.
  - unfold LocalAddrString. by rewrite localAddr_snapshot.
  - unfold RemoteAddrString. by rewrite remoteAddr_snapshot.
Qed.

(** Recording TCP information touches nothing a snapshot's address uses. *)
Lemma applyTCPInfo_frame st info e w :
  let w' := applyTCPInfoLocked st info e w in
  NetConn w' = NetConn w /\ reportStats w' = reportStats w /\ closeStarted w' = closeStarted w
  /\ closeDone w' = closeDone w /\ closeErr w' = closeErr w /\ inFlight w' = inFlight w
  /\ TxBytes w' = TxBytes w /\ RxBytes w' = RxBytes w.
Proof.
  unfold applyTCPInfoLocked. destruct info, e; simpl; repeat case_match; done.
Qed.

(** C14: Wrapping a connection with any list of options, nil or WithEmitOpenCallback of
    a boolean: the state does not depend on them; the Opened callback is called iff one
    was given and the last option that is not nil is true, with a snapshot that keeps
    the live connection; OpenedAt is the time given, the TCP information and its error
    are those collected, nothing is in flight, and the addresses are the connection's. *)
Theorem WrapConn_open (ctx : X) (ncon : option C) (f : option F) (bs : list (option bool)) now p :
  let '(w, rp) := WrapConnWithContext ctx ncon f (map (option_map WithEmitOpenCallback) bs) now p in
  w = (WrapConnWithContext ctx ncon f [] now p).1
  /\ rp = match f with
          | Some f => if bool_decide (last (omap (M:=list) id bs) = Some true)
                      then Some (mkReport f ((snapshotLocked w) <| NetConn := ncon |>) Opened)
                      else None
          | None => None
          end
  /\ OpenedInfo w = (collectTCPInfo w p).1 /\ InfoErr w = (collectTCPInfo w p).2
  /\ ClosedInfo w = None /\ NetConn w = ncon /\ closeStarted w = false /\ inFlight w = 0
  /\ OpenedAt w = now /\ ClosedAt w = 0
  /\ localAddrLocked w = (ncon ≫= nc_LocalAddr) /\ remoteAddrLocked w = (ncon ≫= nc_RemoteAddr).
Proof.
  unfold WrapConnWithContext. change (emitOpenCallback (applyOptions [])) with false.
  rewrite applyOptions_last.
  replace (bool_decide (last (omap (M:=list) id bs) = Some true)) with (default false (last (omap (M:=list) id bs)))
    by by destruct (last (omap (M:=list) id bs)) as [[]|].
  set (w0 := mkConn _ _ _ _ _ _ _ _ _ _ _ _ _ _ _ _ _ _ _ _ _ _ _ _).
  assert (Hc : forall st i e, collectTCPInfo (applyTCPInfoLocked st i e w0) p
                              = collectTCPInfo w0 p).
  { intros st i e. unfold collectTCPInfo, applyTCPInfoLocked.
    by destruct i, e, (st =? Opened). }
  destruct (collectTCPInfo w0 p) as [info e] eqn:E. unfold reportState.
  destruct (applyTCPInfo_frame Opened info e w0) as (H1 & H2 & H3 & H4 & H5 & H6 & H7 & H8).
  assert (Ha : localAddrLocked (applyTCPInfoLocked Opened info e w0) = (ncon ≫= nc_LocalAddr)
            /\ remoteAddrLocked (applyTCPInfoLocked Opened info e w0) = (ncon ≫= nc_RemoteAddr)
            /\ OpenedInfo (applyTCPInfoLocked Opened info e w0) = info
            /\ InfoErr (applyTCPInfoLocked Opened info e w0) = e
            /\ ClosedInfo (applyTCPInfoLocked Opened info e w0) = None
            /\ OpenedAt (applyTCPInfoLocked Opened info e w0) = now
            /\ ClosedAt (applyTCPInfoLocked Opened info e w0) = 0).
  { unfold localAddrLocked, remoteAddrLocked. subst w0.
    destruct info, e; simpl; split_and!; try done; by repeat case_match. }
  destruct Ha as (Ha1 & Ha2 & Ha3 & Ha4 & Ha5 & Ha6 & Ha7).
  destruct (default false (last (omap (M:=list) id bs))); rewrite ?H2; simpl;
    destruct f; simpl; split_and!; try done; rewrite ?Hc; simpl; try done.
  by rewrite H1.
Qed.
End wrap_laws.
