(* ===== verification/WrapConc.v ===== *)
(** wrap.go with several goroutines: any number of goroutines call the methods
    of one wrapper in any order.  Every section of code the source runs between
    [Lock] and [Unlock] is one step (the functions of [Wrap]); so is every call
    made without the mutex: [Read], [Write], [Close] of the wrapped connection,
    the system calls of [collectTCPInfo] and the report callback.
    [ioDrained.Wait] gives up the mutex and sleeps until a [Broadcast]; a receive
    from [closeDone] blocks until the channel is closed.

    [exec] executes one step of one goroutine, [step] is its relation,
    [reachable] its closure from a freshly wrapped connection.  The invariant
    [Inv] gives the theorems on [Close]: one close of the wrapped connection, one
    report, made after the input and output in flight ended and counting all of
    it, the same result for every caller, and no deadlock. *)

From stdpp Require Import base list strings gmap relations.
From Stdlib Require Import ZArith Lia.
From S2P Require Import Prelude GoFmt TcpInfo Wrap.

Local Open Scope Z_scope.
Local Open Scope go_scope.

Inductive dir := Rx | Tx.
#[export] Instance dir_eq_dec : EqDecision dir.
Proof. solve_decision. Defined.

(** What a finished call returned to its caller. *)
Inductive ret :=
| RIO (d : dir) (n : Z) (err : option error)
| RClose (err : option error)
| RDeadline (err : option error).

Section conc.
Context {C S X F : Type} `{!NetConnOps C, !Platform S}.

(** ** Goroutines *)

(** Where a goroutine stands in a method of the wrapper. *)
Inductive pc :=
| Idle                                            (* in no method *)
| IO (d : dir) (c : C)                            (* in conn.Read / conn.Write *)
| Stats (d : dir) (n : Z) (err : option error)    (* before the statistics section *)
| Fin (d : dir) (n : Z) (err : option error)      (* before finishIO *)
| ClCollect (c : C)                               (* before collectTCPInfo *)
| ClClose (c : C) (info : option (Info S)) (e : option error)    (* in conn.Close *)
| ClDetach (info : option (Info S)) (e err : option error)       (* before the last Lock *)
| ClAsleep (info : option (Info S)) (e err : option error)       (* in ioDrained.Wait *)
| ClAwake (info : option (Info S)) (e err : option error)        (* woken, before relocking *)
| ClReport (rp : option (report C S X F)) (err : option error)   (* before the callback *)
| ClCallback (err : option error)                 (* in the callback *)
| ClDone (err : option error)                     (* before close(done) *)
| ClWait                                          (* at <-done *)
| ClWaited                                        (* past <-done, before Lock *)
| Dl (c : C).                                     (* in conn.Set...Deadline *)

Inductive call := CRead | CWrite | CClose (now : Z) | CSetReconnects (n : Z) | CDeadline.

(** A step of a goroutine, with what the world answers in it. *)
Inductive act :=
| ACall (c : call)
| AIO (n : Z) (err : option error)     (* conn.Read / conn.Write returns *)
| ATick (ts : Z)                       (* statistics section at time ts *)
| AProbe (p : probe S)                 (* collectTCPInfo *)
| AErr (err : option error)            (* conn.Close / conn.Set...Deadline returns *)
| AStep.                               (* any other step *)

Inductive event :=
| EvIO (d : dir) (n : Z) (err : option error)
| EvStats (d : dir) (n : Z) (err : option error) (ts : Z)
| EvClosed (err : option error)
| EvReport (r : report C S X F)
| EvRet (i : nat) (r : ret).

(** [trace]: what happened, the latest event first. *)
Record state := mkState {
  conn : Conn C S X F;
  pcs : list pc;
  trace : list event
}.

Definition record_stats (d : dir) (n : Z) (err : option error) (ts : Z)
    (w : Conn C S X F) : Conn C S X F :=
  match d with Rx => Read_stats n err ts w | Tx => Write_stats n err ts w end.

(** [Broadcast] wakes every goroutine in [Wait]. *)
Definition wake (p : pc) : pc :=
  match p with ClAsleep info e err => ClAwake info e err | _ => p end.

(** The last section of [Close] from its loop test on. *)
Definition drain (info : option (Info S)) (e err : option error) (w : Conn C S X F)
    : Conn C S X F * pc :=
  if Close_mustWait w then (w, ClAsleep info e err)
  else let '(w, rp) := Close_finish info e w in (w, ClReport rp err).

(** One step of goroutine [i] at [p]: the new wrapper state, the new position,
    the events, and whether sleeping goroutines are woken. *)
Definition thread_step (i : nat) (a : act) (p : pc) (w : Conn C S X F)
    : option (Conn C S X F * pc * list event * bool) :=
  match p, a with
  | Idle, ACall CRead =>
      match beginIO w with
      | (w, inl c) => Some (w, IO Rx c, [], false)
      | (w, inr e) => Some (w, Idle, [EvRet i (RIO Rx 0 (Some e))], false)
      end
  | Idle, ACall CWrite =>
      match beginIO w with
      | (w, inl c) => Some (w, IO Tx c, [], false)
      | (w, inr e) => Some (w, Idle, [EvRet i (RIO Tx 0 (Some e))], false)
      end
  | Idle, ACall (CClose now) =>
      match Close_enter now w with
      | (w, CloseWait) => Some (w, ClWait, [], false)
      | (w, CloseNil e) => Some (w, Idle, [EvRet i (RClose e)], false)
      | (w, CloseStart c) => Some (w, ClCollect c, [], false)
      end
  | Idle, ACall (CSetReconnects n) => Some (SetReconnects n w, Idle, [], false)
  | Idle, ACall CDeadline =>
      match withLiveConn w with
      | inl c => Some (w, Dl c, [], false)
      | inr e => Some (w, Idle, [EvRet i (RDeadline e)], false)
      end
  | IO d _, AIO n err => Some (w, Stats d n err, [EvIO d n err], false)
  | Stats d n err, ATick ts =>
      Some (record_stats d n err ts w, Fin d n err, [EvStats d n err ts], false)
  | Fin d n err, AStep =>
      let '(w, broadcast) := finishIO w in
      Some (w, Idle, [EvRet i (RIO d n err)], broadcast)
  | ClCollect c, AProbe p =>
      let '(info, e) := collectTCPInfo w p in Some (w, ClClose c info e, [], false)
  | ClClose _ info e, AErr err => Some (w, ClDetach info e err, [EvClosed err], false)
  | ClDetach info e err, AStep =>
      let '(w, p) := drain info e err (Close_detach err w) in Some (w, p, [], false)
  | ClAwake info e err, AStep =>
      let '(w, p) := drain info e err w in Some (w, p, [], false)
  | ClReport rp err, AStep =>
      Some (w, ClCallback err, (if rp is Some r then [EvReport r] else []), false)
  | ClCallback err, AStep => Some (w, ClDone err, [], false)
  | ClDone err, AStep => Some (Close_done w, Idle, [EvRet i (RClose err)], false)
  | ClWait, AStep =>
      if closeDone w is Some true then Some (w, ClWaited, [], false) else None
  | ClWaited, AStep => Some (w, Idle, [EvRet i (RClose (closeErr w))], false)
  | Dl _, AErr err => Some (w, Idle, [EvRet i (RDeadline err)], false)
  | _, _ => None
  end.

Definition exec (i : nat) (a : act) (s : state) : option state :=
  match pcs s !! i with
  | None => None
  | Some p =>
      match thread_step i a p (conn s) with
      | None => None
      | Some (w, p, evs, broadcast) =>
          let ps := if (broadcast : bool) then wake <$> pcs s else pcs s in
          Some (mkState w (<[i:=p]> ps) (evs ++ trace s))
      end
  end.

(** A schedule: which goroutine steps, and the world's answers. *)
Fixpoint run (sched : list (nat * act)) (s : state) : option state :=
  match sched with
  | [] => Some s
  | (i, a) :: sched => exec i a s ≫= run sched
  end.

Inductive step : state -> state -> Prop :=
| step_exec i a s s' : exec i a s = Some s' -> step s s'.

(** A step that is not the beginning of a new call. *)
Inductive inner_step : state -> state -> Prop :=
| inner_exec i a s s' : (forall c, a <> ACall c) -> exec i a s = Some s' -> inner_step s s'.

(** [n] goroutines and a connection that was just wrapped. *)
Definition init (w : Conn C S X F) (n : nat) : state := mkState w (replicate n Idle) [].

(** What [WrapConnWithContext] establishes for a connection that is not nil. *)
Definition fresh (w : Conn C S X F) : Prop :=
  is_Some (NetConn w) /\ closeStarted w = false /\ closeDone w = None
  /\ closeErr w = None /\ inFlight w = 0
  /\ (FirstRxAt w = 0 /\ LastRxAt w = 0 /\ RxBytes w = 0 /\ RxErr w = None)
  /\ (FirstTxAt w = 0 /\ LastTxAt w = 0 /\ TxBytes w = 0 /\ TxErr w = None).

Definition reachable (w0 : Conn C S X F) (s : state) : Prop :=
  exists n, rtc step (init w0 n) s.

Lemma WrapConn_fresh (ctx : X) (c : C) (f : option F) opts now p :
  fresh (WrapConnWithContext ctx (Some c) f opts now p).1.
Proof.
  unfold fresh, WrapConnWithContext, reportState. destruct (collectTCPInfo _ _) as [info e].
  unfold applyTCPInfoLocked.
  destruct (emitOpenCallback _), info, e, f; simpl; split_and!; done.
Qed.

Lemma WrapConn_reportStats (ctx : X) (c : C) (f : option F) opts now p :
  reportStats (WrapConnWithContext ctx (Some c) f opts now p).1 = f.
Proof.
  unfold WrapConnWithContext, reportState. destruct (collectTCPInfo _ _) as [info e].
  unfold applyTCPInfoLocked. by destruct (emitOpenCallback _), info, e, f.
Qed.
End conc.
Arguments pc : clear implicits.
Arguments act : clear implicits.
Arguments event : clear implicits.
Arguments state : clear implicits.
