(* ===== verification/WrapInv.v ===== *)
(** The invariant of the concurrent wrapper ([WrapConc]) and its preservation. *)

From stdpp Require Import base list strings gmap relations.
From Stdlib Require Import ZArith Lia.
From S2P Require Import Prelude GoFmt TcpInfo Wrap WrapConc.

Local Open Scope Z_scope.
Local Open Scope go_scope.

Section inv.
Context {C S X F : Type} `{!NetConnOps C, !Platform S}.
Implicit Types (w : Conn C S X F) (p q : pc C S X F) (s : state C S X F)
  (tr : list (event C S X F)).

(** ** Measures of a position *)

(** A goroutine between [beginIO] and [finishIO]. *)
Definition io p : Z := match p with IO _ _ | Stats _ _ _ | Fin _ _ _ => 1 | _ => 0 end.

(** A goroutine executing the [Close] that closes the connection. *)
Definition closer p : Z :=
  match p with
  | ClCollect _ | ClClose _ _ _ | ClDetach _ _ _ | ClAsleep _ _ _ | ClAwake _ _ _
  | ClReport _ _ | ClCallback _ | ClDone _ => 1
  | _ => 0
  end.

(** ... and has dropped the connection. *)
Definition detached p : Z :=
  match p with
  | ClAsleep _ _ _ | ClAwake _ _ _ | ClReport _ _ | ClCallback _ | ClDone _ => 1
  | _ => 0
  end.

(** Bytes the wrapped connection moved that are not counted yet. *)
Definition pending (d : dir) p : Z :=
  match p with Stats d' n _ => if decide (d' = d) then n else 0 | _ => 0 end.

(** ** Readings of a trace *)

Definition closes tr : list (option error) :=
  omap (fun ev => match ev with EvClosed e => Some e | _ => None end) tr.

Definition reports tr : list (report C S X F) :=
  omap (fun ev => match ev with EvReport r => Some r | _ => None end) tr.

Definition bytes_moved (d : dir) tr : Z :=
  sumZ (fun ev => match ev with EvIO d' n _ => if decide (d' = d) then n else 0 | _ => 0 end) tr.

Definition bytes_counted (d : dir) tr : Z :=
  sumZ (fun ev => match ev with EvStats d' n _ _ => if decide (d' = d) then n else 0 | _ => 0 end) tr.

Lemma reports_report r tr : reports (EvReport r :: tr) = r :: reports tr.
Proof. done. Qed.

(** The statistics the events of a trace leave on a wrapper. *)
Fixpoint replay w0 tr : Conn C S X F :=
  match tr with
  | [] => w0
  | EvStats d n err ts :: tr => record_stats d n err ts (replay w0 tr)
  | _ :: tr => replay w0 tr
  end.

Definition stat_view w :=
  ((FirstRxAt w, LastRxAt w, RxBytes w, RxErr w), (FirstTxAt w, LastTxAt w, TxBytes w, TxErr w)).

(** Each event is preceded by what must come before it: a report by the close
    of the connection, and by all input and output; the return of [Close] by
    the report. *)
Fixpoint ordered (has_report : bool) tr : Prop :=
  match tr with
  | [] => True
  | ev :: tr =>
      ordered has_report tr
      /\ match ev with
         | EvIO _ _ _ | EvStats _ _ _ _ => reports tr = []
         | EvClosed _ => closes tr = [] /\ reports tr = []
         | EvReport _ => length (closes tr) = 1%nat /\ reports tr = []
         | EvRet _ (RClose _) =>
             length (closes tr) = 1%nat
             /\ length (reports tr) = (if has_report then 1 else 0)%nat
         | EvRet _ (RIO _ _ _) | EvRet _ (RDeadline _) => True
         end
  end.

(** ** The invariant *)

(** The snapshot of a report is the wrapper's, but for the reconnect count,
    which the caller may change at any time. *)
Definition agrees w (r : report C S X F) : Prop :=
  Some (rp_fn r) = reportStats w /\ rp_state r = Closed
  /\ rp_conn r = (snapshotLocked w) <| Reconnects := Reconnects (rp_conn r) |>.

Definition reported w tr : Prop :=
  match reportStats w with
  | None => reports tr = []
  | Some _ => exists r, reports tr = [r] /\ agrees w r
  end.

Definition will_report w (rp : option (report C S X F)) : Prop :=
  match reportStats w with
  | None => rp = None
  | Some _ => exists r, rp = Some r /\ agrees w r
  end.

Definition closer_ok w tr p : Prop :=
  match p with
  | ClCollect _ | ClClose _ _ _ => closes tr = [] /\ reports tr = []
  | ClDetach _ _ err => closes tr = [err] /\ reports tr = []
  | ClAsleep _ _ err =>
      closes tr = [err] /\ reports tr = [] /\ closeErr w = err /\ 0 < inFlight w
  | ClAwake _ _ err =>
      closes tr = [err] /\ reports tr = [] /\ closeErr w = err /\ inFlight w = 0
  | ClReport rp err =>
      closes tr = [err] /\ reports tr = [] /\ closeErr w = err /\ inFlight w = 0
      /\ will_report w rp
  | ClCallback err | ClDone err =>
      closes tr = [err] /\ closeErr w = err /\ inFlight w = 0 /\ reported w tr
  | _ => True
  end.

Definition waiter_ok w p : Prop :=
  match p with
  | ClWait => closeDone w <> None
  | ClWaited => closeDone w = Some true
  | _ => True
  end.

Record Inv w0 s : Prop := {
  inv_flight : inFlight (conn s) = sumZ io (pcs s);
  inv_started : closeStarted (conn s) = (if closeDone (conn s) is Some _ then true else false);
  inv_closer : sumZ closer (pcs s) = (if closeDone (conn s) is Some false then 1 else 0);
  inv_conn : (if NetConn (conn s) is Some _ then 0 else 1)
             = sumZ detached (pcs s) + (if closeDone (conn s) is Some true then 1 else 0);
  inv_same : forall c, NetConn (conn s) = Some c -> NetConn w0 = Some c;
  inv_closer_ok : forall i p, pcs s !! i = Some p -> closer_ok (conn s) (trace s) p;
  inv_waiter_ok : forall i p, pcs s !! i = Some p -> waiter_ok (conn s) p;
  inv_open : closeDone (conn s) = None ->
             closes (trace s) = [] /\ reports (trace s) = [] /\ closeErr (conn s) = None;
  inv_done : closeDone (conn s) = Some true ->
             closes (trace s) = [closeErr (conn s)] /\ inFlight (conn s) = 0
             /\ reported (conn s) (trace s);
  inv_ret : forall i e, EvRet i (RClose e) ∈ trace s ->
            closeDone (conn s) = Some true /\ closeErr (conn s) = e;
  inv_stats : stat_view (conn s) = stat_view (replay w0 (trace s));
  inv_bytes : forall d, bytes_moved d (trace s)
                        = bytes_counted d (trace s) + sumZ (pending d) (pcs s);
  inv_report_fn : reportStats (conn s) = reportStats w0;
  inv_ordered : ordered (if reportStats w0 is Some _ then true else false) (trace s)
}.

Lemma io_nonneg p : 0 <= io p.
Proof. destruct p; simpl; lia. Qed.
Lemma closer_nonneg p : 0 <= closer p.
Proof. destruct p; simpl; lia. Qed.

Lemma inv_init w0 n : fresh w0 -> Inv w0 (init w0 n).
Proof.
  intros ([c Hc] & Hs & Hd & He & Hf & _). unfold init.
  split; simpl; rewrite ?Hc, ?Hd, ?He; try done.
  - by rewrite sumZ_replicate.
  - by rewrite sumZ_replicate.
  - by rewrite sumZ_replicate.
  - intros i p [-> _]%lookup_replicate. done.
  - intros i p [-> _]%lookup_replicate. done.
  - intros i e Hin. by apply not_elem_of_nil in Hin.
  - intros d. by rewrite sumZ_replicate.
Qed.

(** ** Consequences used in every case *)

Lemma closer_ok_other w tr p : closer p = 0 -> closer_ok w tr p.
Proof. by destruct p. Qed.

Lemma closer_detached p : closer p = 0 -> detached p = 0.
Proof. by destruct p. Qed.

(** While no [Close] has started no goroutine is a closer. *)
Lemma open_no_closer w0 s i p :
  Inv w0 s -> closeDone (conn s) = None -> pcs s !! i = Some p -> closer p = 0.
Proof.
  intros HI Hd Hi. pose proof (inv_closer _ _ HI) as H. rewrite Hd in H.
  eapply sumZ_zero_lookup; eauto using closer_nonneg.
Qed.

(** The closer is unique, and its channel is open. *)
Lemma closer_unique w0 s i p :
  Inv w0 s -> pcs s !! i = Some p -> closer p = 1 ->
  closeDone (conn s) = Some false
  /\ forall j q, j <> i -> pcs s !! j = Some q -> closer q = 0.
Proof.
  intros HI Hi Hp. pose proof (inv_closer _ _ HI) as H.
  pose proof (sumZ_lookup_le closer _ _ _ closer_nonneg Hi) as Hle.
  destruct (closeDone (conn s)) as [[]|] eqn:E; try lia. split; [done|].
  intros j q Hj Hq.
  pose proof (sumZ_lookup_two closer _ _ _ _ _ closer_nonneg Hj Hq Hi).
  pose proof (closer_nonneg q). lia.
Qed.

(** A goroutine doing input or output keeps the count positive. *)
Lemma io_in_flight w0 s i p :
  Inv w0 s -> pcs s !! i = Some p -> io p = 1 -> 0 < inFlight (conn s).
Proof.
  intros HI Hi Hp. rewrite (inv_flight _ _ HI).
  pose proof (sumZ_lookup_le io _ _ _ io_nonneg Hi). lia.
Qed.

(** While input or output is in flight nothing was reported. *)
Lemma in_flight_no_report w0 s :
  Inv w0 s -> 0 < inFlight (conn s) -> reports (trace s) = [].
Proof.
  intros HI Hf. destruct (closeDone (conn s)) as [[]|] eqn:E.
  - destruct (inv_done _ _ HI E) as (_ & ? & _). lia.
  - pose proof (inv_closer _ _ HI) as H. rewrite E in H.
    destruct (sumZ_pos_exists closer (pcs s)) as (i & p & Hi & Hp); [lia|].
    pose proof (inv_closer_ok _ _ HI i p Hi) as Hok.
    destruct p; simpl in *; destruct_and?; try done; lia.
  - by destruct (inv_open _ _ HI E) as (_ & ? & _).
Qed.

(** A map on positions that only wakes goroutines. *)
Definition wakes (g : pc C S X F -> pc C S X F) : Prop :=
  forall p, io (g p) = io p /\ closer (g p) = closer p /\ detached (g p) = detached p
    /\ (forall d, pending d (g p) = pending d p) /\ (forall w, waiter_ok w (g p) <-> waiter_ok w p).

Lemma wakes_wake : wakes wake.
Proof. by intros []. Qed.
Lemma wakes_id : wakes id.
Proof. done. Qed.

Lemma sumZ_wakes g (f : pc C S X F -> Z) (l : list (pc C S X F)) i p q :
  (forall x, f (g x) = f x) -> l !! i = Some p ->
  sumZ f (<[i:=q]> (g <$> l)) = sumZ f l - f p + f q.
Proof.
  intros Hf Hi. rewrite (sumZ_insert f _ _ (g p)) by by rewrite list_lookup_fmap, Hi.
  rewrite sumZ_fmap, (sumZ_ext _ f) by done. by rewrite Hf.
Qed.

(** The general step: [w], [q] and [evs] replace the wrapper state, the
    position of goroutine [i] and extend the trace; the other goroutines go
    through [g]. *)
Lemma inv_gen_map g w0 s i p q w evs :
  wakes g ->
  Inv w0 s -> pcs s !! i = Some p ->
  inFlight w = inFlight (conn s) - io p + io q ->
  closeStarted w = (if closeDone w is Some _ then true else false) ->
  (if closeDone w is Some false then 1 else 0)
    = (if closeDone (conn s) is Some false then 1 else 0) - closer p + closer q ->
  (if NetConn w is Some _ then 0 else 1) - (if closeDone w is Some true then 1 else 0)
    = (if NetConn (conn s) is Some _ then 0 else 1)
      - (if closeDone (conn s) is Some true then 1 else 0) - detached p + detached q ->
  (forall c, NetConn w = Some c -> NetConn (conn s) = Some c) ->
  (forall j p', j <> i -> pcs s !! j = Some p' -> closer_ok (conn s) (trace s) p' ->
     closer_ok w (evs ++ trace s) (g p')) ->
  closer_ok w (evs ++ trace s) q ->
  (forall p', waiter_ok (conn s) p' -> waiter_ok w p') ->
  waiter_ok w q ->
  (closeDone w = None ->
     closes (evs ++ trace s) = [] /\ reports (evs ++ trace s) = [] /\ closeErr w = None) ->
  (closeDone w = Some true ->
     closes (evs ++ trace s) = [closeErr w] /\ inFlight w = 0 /\ reported w (evs ++ trace s)) ->
  (forall j e, EvRet j (RClose e) ∈ evs ++ trace s ->
     closeDone w = Some true /\ closeErr w = e) ->
  stat_view w = stat_view (replay w0 (evs ++ trace s)) ->
  (forall d, bytes_moved d evs = bytes_counted d evs - pending d p + pending d q) ->
  reportStats w = reportStats (conn s) ->
  ordered (if reportStats w0 is Some _ then true else false) (evs ++ trace s) ->
  Inv w0 (mkState w (<[i:=q]> (g <$> pcs s)) (evs ++ trace s)).
Proof.
  intros Hg HI Hi Hfl Hst Hcl Hco Hsame Hoth Hq Hwo Hwq Hop Hdn Hret Hsv Hby Hrf Hord.
  assert (Hlk : forall j p', <[i:=q]> (g <$> pcs s) !! j = Some p' ->
            p' = q \/ exists p'', j <> i /\ pcs s !! j = Some p'' /\ p' = g p'').
  { intros j p' Hj. destruct (decide (j = i)) as [->|Hne].
    - rewrite list_lookup_insert_eq in Hj; [left; congruence|].
      rewrite length_fmap. by eapply lookup_lt_Some.
    - rewrite list_lookup_insert_ne, list_lookup_fmap in Hj by done. right.
      destruct (pcs s !! j); simplify_eq/=; eauto. }
  split; simpl; try done.
  - rewrite (sumZ_wakes g io _ _ _ _ (fun x => proj1 (Hg x)) Hi), <- (inv_flight _ _ HI). lia.
  - rewrite (sumZ_wakes g closer _ _ p) by (done || intros x; apply (Hg x)).
    rewrite (inv_closer _ _ HI). lia.
  - rewrite (sumZ_wakes g detached _ _ p) by (done || intros x; apply (Hg x)).
    pose proof (inv_conn _ _ HI). lia.
  - intros c Hc. apply (inv_same _ _ HI). by apply Hsame.
  - intros j p' [->|(p'' & Hj & Hp & ->)]%Hlk; [done|]. eauto using inv_closer_ok.
  - intros j p' [->|(p'' & Hj & Hp & ->)]%Hlk; [done|]. apply (Hg p'').
    eauto using inv_waiter_ok.
  - intros d. unfold bytes_moved, bytes_counted in *. rewrite !sumZ_app.
    rewrite (sumZ_wakes g (pending d) _ _ p) by (done || intros x; apply (Hg x)).
    pose proof (inv_bytes _ _ HI d) as Hb. specialize (Hby d).
    unfold bytes_moved, bytes_counted in Hb. lia.
  - by rewrite Hrf, (inv_report_fn _ _ HI).
Qed.

Lemma inv_gen w0 s i p q w evs :
  Inv w0 s -> pcs s !! i = Some p ->
  inFlight w = inFlight (conn s) - io p + io q ->
  closeStarted w = (if closeDone w is Some _ then true else false) ->
  (if closeDone w is Some false then 1 else 0)
    = (if closeDone (conn s) is Some false then 1 else 0) - closer p + closer q ->
  (if NetConn w is Some _ then 0 else 1) - (if closeDone w is Some true then 1 else 0)
    = (if NetConn (conn s) is Some _ then 0 else 1)
      - (if closeDone (conn s) is Some true then 1 else 0) - detached p + detached q ->
  (forall c, NetConn w = Some c -> NetConn (conn s) = Some c) ->
  (forall j p', j <> i -> pcs s !! j = Some p' -> closer_ok (conn s) (trace s) p' ->
     closer_ok w (evs ++ trace s) p') ->
  closer_ok w (evs ++ trace s) q ->
  (forall p', waiter_ok (conn s) p' -> waiter_ok w p') ->
  waiter_ok w q ->
  (closeDone w = None ->
     closes (evs ++ trace s) = [] /\ reports (evs ++ trace s) = [] /\ closeErr w = None) ->
  (closeDone w = Some true ->
     closes (evs ++ trace s) = [closeErr w] /\ inFlight w = 0 /\ reported w (evs ++ trace s)) ->
  (forall j e, EvRet j (RClose e) ∈ evs ++ trace s ->
     closeDone w = Some true /\ closeErr w = e) ->
  stat_view w = stat_view (replay w0 (evs ++ trace s)) ->
  (forall d, bytes_moved d evs = bytes_counted d evs - pending d p + pending d q) ->
  reportStats w = reportStats (conn s) ->
  ordered (if reportStats w0 is Some _ then true else false) (evs ++ trace s) ->
  Inv w0 (mkState w (<[i:=q]> (pcs s)) (evs ++ trace s)).
Proof.
  intros. rewrite <- (list_fmap_id (pcs s)). by apply (inv_gen_map id w0 s i p).
Qed.

(** ** The steps *)

(** Events that only tell a caller the result of something other than [Close]. *)
Definition quiet (evs : list (event C S X F)) : Prop :=
  evs = [] \/ (exists i d n e, evs = [EvRet i (RIO d n e)])
  \/ (exists i e, evs = [EvRet i (RDeadline e)]).

Lemma quiet_readings evs w0 hr tr :
  quiet evs ->
  closes (evs ++ tr) = closes tr /\ reports (evs ++ tr) = reports tr
  /\ replay w0 (evs ++ tr) = replay w0 tr
  /\ (ordered hr tr -> ordered hr (evs ++ tr))
  /\ (forall j e, EvRet j (RClose e) ∈ evs ++ tr -> EvRet j (RClose e) ∈ tr)
  /\ (forall d, bytes_moved d evs = 0 /\ bytes_counted d evs = 0).
Proof.
  intros [->|[(i & d & n & e & ->)|(i & e & ->)]]; simpl; split_and!; try done; try tauto;
    intros j e' [|]%elem_of_cons; congruence.
Qed.

(** A step that leaves the wrapper alone. *)
Lemma inv_quiet w0 s i p q evs :
  Inv w0 s -> pcs s !! i = Some p -> quiet evs ->
  io q = io p -> closer q = closer p -> detached q = detached p ->
  (forall d, pending d q = pending d p) ->
  closer_ok (conn s) (trace s) q -> waiter_ok (conn s) q ->
  Inv w0 (mkState (conn s) (<[i:=q]> (pcs s)) (evs ++ trace s)).
Proof.
  intros HI Hi Hev Hio Hcl Hde Hpe Hq Hw.
  destruct (quiet_readings evs w0 (if reportStats w0 is Some _ then true else false) (trace s) Hev)
    as (E1 & E2 & E3 & E4 & E5 & E6).
  assert (Hok : forall p', closer_ok (conn s) (evs ++ trace s) p'
                           <-> closer_ok (conn s) (trace s) p').
  { intros p'. unfold closer_ok, reported. by rewrite E1, E2. }
  eapply inv_gen; eauto; unfold reported; rewrite ?E1, ?E2, ?E3; try lia; try apply HI.
  - intros j p' _ _. by rewrite Hok.
  - by rewrite Hok.
  - intros j e Hj%E5. by eapply inv_ret.
  - intros d. destruct (E6 d) as [-> ->]. specialize (Hpe d). lia.
  - apply E4, HI.
Qed.

(** [beginIO] succeeds. *)
Lemma inv_begin w0 s i d c :
  Inv w0 s -> pcs s !! i = Some Idle ->
  closeStarted (conn s) = false -> NetConn (conn s) = Some c ->
  Inv w0 (mkState ((conn s) <| inFlight := inFlight (conn s) + 1 |>)
            (<[i:=IO d c]> (pcs s)) (trace s)).
Proof.
  intros HI Hi Hs Hc. pose proof (inv_started _ _ HI) as Hst. rewrite Hs in Hst.
  assert (Hd : closeDone (conn s) = None) by by destruct (closeDone (conn s)).
  apply (inv_gen w0 s i Idle _ _ []); auto; simpl; rewrite ?Hs, ?Hd, ?Hc; try done; try lia;
    try apply HI.
  - intros j p' _ Hj _. by eapply closer_ok_other, open_no_closer.
  - intros _. by destruct (inv_open _ _ HI Hd).
  - intros j e Hj. by destruct (inv_ret _ _ HI _ _ Hj) as [H _]; rewrite Hd in H.
Qed.

(** The wrapped connection's [Read] or [Write] returns. *)
Lemma inv_moved w0 s i d c n err :
  Inv w0 s -> pcs s !! i = Some (IO d c) ->
  Inv w0 (mkState (conn s) (<[i:=Stats d n err]> (pcs s)) ([EvIO d n err] ++ trace s)).
Proof.
  intros HI Hi. assert (Hf : 0 < inFlight (conn s)) by by eapply io_in_flight.
  pose proof (in_flight_no_report _ _ HI Hf).
  eapply inv_gen; eauto; simpl; try lia; try apply HI; try done.
  - intros j e [|Hj]%elem_of_cons; [done|]. by eapply inv_ret.
  - intros d'. unfold bytes_moved, bytes_counted; simpl. case_decide; lia.
  - split; [apply HI|done].
Qed.

Lemma stat_view_record d n err ts w w' :
  stat_view w = stat_view w' ->
  stat_view (record_stats d n err ts w) = stat_view (record_stats d n err ts w').
Proof.
  unfold stat_view. intros [=]. destruct d; simpl; unfold Read_stats, Write_stats;
    repeat case_match; simpl; congruence.
Qed.

(** The statistics sections change the statistics only. *)
Lemma record_frame d n err ts w :
  let w' := record_stats d n err ts w in
  NetConn w' = NetConn w /\ closeStarted w' = closeStarted w /\ closeDone w' = closeDone w
  /\ closeErr w' = closeErr w /\ inFlight w' = inFlight w /\ reportStats w' = reportStats w.
Proof.
  destruct d; simpl; unfold Read_stats, Write_stats; repeat case_match; simpl; done.
Qed.

(** The statistics section of [Read] or [Write]. *)
Lemma inv_record w0 s i d n err ts :
  Inv w0 s -> pcs s !! i = Some (Stats d n err) ->
  Inv w0 (mkState (record_stats d n err ts (conn s)) (<[i:=Fin d n err]> (pcs s))
            ([EvStats d n err ts] ++ trace s)).
Proof.
  intros HI Hi. assert (Hf : 0 < inFlight (conn s)) by by eapply io_in_flight.
  pose proof (in_flight_no_report _ _ HI Hf) as Hr.
  destruct (record_frame d n err ts (conn s)) as (E1 & E2 & E3 & E4 & E5 & E6).
  eapply inv_gen; eauto; simpl; rewrite ?E1, ?E2, ?E3, ?E4, ?E5; try lia; try apply HI; try done.
  - intros j p' _ _. destruct p'; simpl; rewrite ?E4, ?E5; try done; intros; lia.
  - intros p'. unfold waiter_ok. by rewrite E3.
  - intros Hd. destruct (inv_done _ _ HI Hd) as (_ & ? & _). lia.
  - intros j e [|Hj]%elem_of_cons; [done|]. by eapply inv_ret.
  - apply stat_view_record, HI.
  - intros d'. unfold bytes_moved, bytes_counted; simpl. case_decide; lia.
  - split; [apply HI|done].
Qed.

(** [finishIO]: the count goes down; at zero a pending [Close] is woken. *)
Lemma inv_finish w0 s i d n err w bc :
  Inv w0 s -> pcs s !! i = Some (Fin d n err) -> finishIO (conn s) = (w, bc) ->
  Inv w0 (mkState w (<[i:=Idle]> ((if bc then wake else id) <$> pcs s))
            ([EvRet i (RIO d n err)] ++ trace s)).
Proof.
  intros HI Hi E. assert (Hf : 0 < inFlight (conn s)) by by eapply io_in_flight.
  assert (w = (conn s) <| inFlight := inFlight (conn s) - 1 |>
          /\ bc = closeStarted (conn s) && (inFlight (conn s) - 1 =? 0)) as [-> ->].
  { unfold finishIO in E. simpl in E. destruct (Z.ltb_spec (inFlight (conn s) - 1) 0); [lia|].
    by simplify_eq. }
  set (bc := closeStarted (conn s) && (inFlight (conn s) - 1 =? 0)) in *.
  apply (inv_gen_map _ w0 s i (Fin d n err)); simpl; try done; try lia; try apply HI.
  - destruct bc; [apply wakes_wake|apply wakes_id].
  - intros j p' Hj Hp Hok.
    assert (Hbc : closer p' = 1 -> bc = (inFlight (conn s) - 1 =? 0)).
    { intros Hc. subst bc. rewrite (inv_started _ _ HI).
      by destruct (closer_unique _ _ _ _ HI Hp Hc) as [-> _]. }
    clearbody bc. destruct p'; simpl in *; try (destruct bc; simpl; destruct_and?; (done || lia)).
    rewrite Hbc by done. destruct Hok as (? & ? & ? & ?).
    destruct (Z.eqb_spec (inFlight (conn s) - 1) 0); simpl; split_and!; try done; lia.
  - intros Hd. destruct (inv_done _ _ HI Hd) as (_ & ? & _). lia.
  - intros j e [|Hj]%elem_of_cons; [done|]. by eapply inv_ret.
  - split; [apply HI|done].
Qed.

(** [Close] starts. *)
Lemma inv_enter w0 s i c now :
  Inv w0 s -> pcs s !! i = Some Idle ->
  closeDone (conn s) = None -> NetConn (conn s) = Some c ->
  Inv w0 (mkState ((conn s) <| closeStarted := true |> <| ClosedAt := now |>
                     <| closeDone := Some false |>) (<[i:=ClCollect c]> (pcs s)) (trace s)).
Proof.
  intros HI Hi Hd Hc. destruct (inv_open _ _ HI Hd) as (Hcl & Hre & He).
  apply (inv_gen w0 s i Idle _ _ []); simpl; rewrite ?Hd, ?Hc; try done; try lia; try apply HI.
  - intros j p' _ Hj _. by eapply closer_ok_other, open_no_closer.
  - intros []; simpl; congruence.
  - intros j e Hj. by destruct (inv_ret _ _ HI _ _ Hj) as [H _]; rewrite Hd in H.
Qed.

(** The wrapped connection's [Close] returns. *)
Lemma inv_closed w0 s i c info e err :
  Inv w0 s -> pcs s !! i = Some (ClClose c info e) ->
  Inv w0 (mkState (conn s) (<[i:=ClDetach info e err]> (pcs s)) ([EvClosed err] ++ trace s)).
Proof.
  intros HI Hi. destruct (closer_unique _ _ _ _ HI Hi) as [Hd Hu]; [done|].
  destruct (inv_closer_ok _ _ HI _ _ Hi) as [Hcl Hre].
  eapply inv_gen; eauto; simpl; rewrite ?Hd; try done; try lia; try apply HI.
  - by rewrite (inv_started _ _ HI), Hd.
  - intros j p' Hj Hp _. eauto using closer_ok_other.
  - split; [|done]. change (err :: closes (trace s) = [err]). by rewrite Hcl.
  - intros j e' [|Hj]%elem_of_cons; [done|].
    by destruct (inv_ret _ _ HI _ _ Hj) as [H _]; rewrite Hd in H.
  - split; [apply HI|done].
Qed.

Lemma applyTCPInfo_stats st info e w :
  stat_view (applyTCPInfoLocked st info e w) = stat_view w.
Proof. unfold applyTCPInfoLocked. destruct info, e; simpl; repeat case_match; done. Qed.

(** The last section of [Close] from the loop test on, from a position [p]
    before or in the loop; [w] is the state the section starts the test in. *)
Lemma inv_drain w0 s i p w info e err w' q :
  Inv w0 s -> pcs s !! i = Some p -> closer p = 1 -> io p = 0 ->
  (forall d, pending d p = 0) ->
  drain info e err w = (w', q) ->
  closes (trace s) = [err] -> reports (trace s) = [] ->
  w = (if decide (detached p = 0) then Close_detach err (conn s) else conn s) ->
  closeErr w = err -> NetConn w = None ->
  (detached p = 0 -> is_Some (NetConn (conn s))) ->
  (detached p <> 0 -> detached p = 1) ->
  Inv w0 (mkState w' (<[i:=q]> (pcs s)) ([] ++ trace s)).
Proof.
  intros HI Hi Hp Hio Hpe Hdr Hcl Hre Hw He Hn Hs Hs'.
  destruct (closer_unique _ _ _ _ HI Hi Hp) as [Hd Hu].
  assert (Hfr : inFlight w = inFlight (conn s) /\ closeStarted w = closeStarted (conn s)
    /\ closeDone w = closeDone (conn s) /\ reportStats w = reportStats (conn s)
    /\ stat_view w = stat_view (conn s)).
  { subst w. case_decide; done. }
  destruct Hfr as (F1 & F2 & F3 & F4 & F5).
  assert (Hw' : inFlight w' = inFlight w /\ closeStarted w' = closeStarted w
    /\ closeDone w' = closeDone w /\ reportStats w' = reportStats w /\ NetConn w' = None
    /\ closeErr w' = err /\ stat_view w' = stat_view w
    /\ closer q = 1 /\ detached q = 1 /\ io q = 0 /\ (forall d, pending d q = 0)
    /\ waiter_ok w' q /\ closer_ok w' (trace s) q).
  { unfold drain, Close_mustWait in Hdr. destruct (Z.gtb_spec (inFlight w) 0).
    - injection Hdr as <- <-. simpl. split_and!; try done; lia.
    - unfold Close_finish in Hdr. injection Hdr as <- <-. simpl.
      destruct (applyTCPInfo_frame Closed info e w) as (A1 & A2 & A3 & A4 & A5 & A6 & _).
      rewrite A1, A2, A3, A4, A5, A6. split_and!; try done; [apply applyTCPInfo_stats| |].
      + pose proof (sumZ_nonneg io (pcs s) io_nonneg). rewrite <- (inv_flight _ _ HI) in *. lia.
      + unfold will_report. rewrite A2. destruct (reportStats w) as [f|] eqn:Ef; [|done].
        simpl. eexists; split; [done|]. unfold agrees. split_and!; simpl; [congruence|done..]. }
  destruct Hw' as (G1 & G2 & G3 & G4 & G5 & G6 & G7 & K1 & K2 & K3 & K4 & K5 & K6).
  eapply inv_gen; eauto; rewrite ?G1, ?G2, ?G3, ?G4, ?G5, ?G6, ?F1, ?F2, ?F3, ?F4, ?Hd;
    try done; try lia.
  - by rewrite (inv_started _ _ HI), Hd.
  - rewrite K2. destruct (decide (detached p = 0)) as [E0|E0].
    + destruct (Hs E0) as [c ->]. lia.
    + rewrite (Hs' E0). subst w. rewrite Hn. lia.
  - intros j p' Hj Hp' _. eauto using closer_ok_other.
  - intros p'. unfold waiter_ok. by rewrite G3, F3.
  - intros j e' Hj. by destruct (inv_ret _ _ HI _ _ Hj) as [H _]; rewrite Hd in H.
  - rewrite G7, F5. apply HI.
  - intros d. rewrite Hpe, K4. done.
  - apply HI.
Qed.

(** The report callback is called (if there is one). *)
Lemma inv_report w0 s i rp err :
  Inv w0 s -> pcs s !! i = Some (ClReport rp err) ->
  Inv w0 (mkState (conn s) (<[i:=ClCallback err]> (pcs s))
            ((if rp is Some r then [EvReport r] else []) ++ trace s)).
Proof.
  intros HI Hi. destruct (closer_unique _ _ _ _ HI Hi) as [Hd Hu]; [done|].
  destruct (inv_closer_ok _ _ HI _ _ Hi) as (Hcl & Hre & He & Hf & Hw).
  assert (Hrep : reported (conn s) ((if rp is Some r then [EvReport r] else []) ++ trace s)).
  { unfold will_report, reported in *. destruct (reportStats (conn s)).
    - destruct Hw as (r & -> & Ha). exists r. split; [|done].
      simpl app. by rewrite reports_report, Hre.
    - by subst rp. }
  eapply inv_gen; eauto; simpl; rewrite ?Hd; try done; try lia; try apply HI.
  - by rewrite (inv_started _ _ HI), Hd.
  - intros j p' Hj Hp _. eauto using closer_ok_other.
  - split_and!; try done. by destruct rp.
  - intros j e' Hj. assert (EvRet j (RClose e') ∈ trace s) as Hj'.
    { destruct rp; [|done]. by apply elem_of_cons in Hj as [|]. }
    by destruct (inv_ret _ _ HI _ _ Hj') as [H _]; rewrite Hd in H.
  - rewrite (inv_stats _ _ HI). by destruct rp.
  - by destruct rp.
  - destruct rp; simpl; [|apply HI]. split; [apply HI|]. by rewrite Hcl.
Qed.

(** Closing an already detached wrapper's channel or changing the reconnect
    count does not change what a report must agree with. *)
Lemma agrees_done w r : agrees w r -> agrees (Close_done w) r.
Proof. done. Qed.

Lemma agrees_reconnects n w r : agrees w r -> agrees (SetReconnects n w) r.
Proof. done. Qed.

Lemma reported_length w tr :
  reported w tr -> length (reports tr) = (if reportStats w is Some _ then 1 else 0)%nat.
Proof. unfold reported. destruct (reportStats w); [by intros (r & -> & _)|by intros ->]. Qed.

(** The deferred [close(done)] and the return of the closing [Close]. *)
Lemma inv_done_step w0 s i err :
  Inv w0 s -> pcs s !! i = Some (ClDone err) ->
  Inv w0 (mkState (Close_done (conn s)) (<[i:=Idle]> (pcs s))
            ([EvRet i (RClose err)] ++ trace s)).
Proof.
  intros HI Hi. destruct (closer_unique _ _ _ _ HI Hi) as [Hd Hu]; [done|].
  destruct (inv_closer_ok _ _ HI _ _ Hi) as (Hcl & He & Hf & Hr).
  eapply inv_gen; eauto; simpl; rewrite ?Hd; try done; try lia; try apply HI.
  - by rewrite (inv_started _ _ HI), Hd.
  - intros []; simpl; congruence.
  - intros _. subst err. split_and!; done.
  - intros j e' [Hj|Hj]%elem_of_cons; [by simplify_eq|].
    by destruct (inv_ret _ _ HI _ _ Hj) as [H _]; rewrite Hd in H.
  - split; [apply HI|]. rewrite Hcl, (reported_length _ _ Hr), (inv_report_fn _ _ HI).
    by destruct (reportStats w0).
Qed.

(** A [Close] that waited for another one returns. *)
Lemma inv_waited w0 s i :
  Inv w0 s -> pcs s !! i = Some ClWaited ->
  Inv w0 (mkState (conn s) (<[i:=Idle]> (pcs s))
            ([EvRet i (RClose (closeErr (conn s)))] ++ trace s)).
Proof.
  intros HI Hi. pose proof (inv_waiter_ok _ _ HI _ _ Hi) as Hd. simpl in Hd.
  destruct (inv_done _ _ HI Hd) as (Hcl & Hf & Hr).
  eapply inv_gen; eauto; simpl; try done; try lia; try apply HI.
  - intros j e' [Hj|Hj]%elem_of_cons; [by simplify_eq|]. by eapply inv_ret.
  - split; [apply HI|]. rewrite Hcl, (reported_length _ _ Hr), (inv_report_fn _ _ HI).
    by destruct (reportStats w0).
Qed.

Lemma inv_reconnects w0 s i n :
  Inv w0 s -> pcs s !! i = Some Idle ->
  Inv w0 (mkState (SetReconnects n (conn s)) (<[i:=Idle]> (pcs s)) ([] ++ trace s)).
Proof. intros HI Hi. eapply inv_gen; eauto; simpl; try done; try lia; apply HI. Qed.

(** ** Every step *)

(** A [Read] or [Write] call. *)
Lemma inv_begin_call w0 s i d :
  Inv w0 s -> pcs s !! i = Some Idle ->
  Inv w0 (match beginIO (conn s) with
          | (w, inl c) => mkState w (<[i:=IO d c]> (pcs s)) ([] ++ trace s)
          | (w, inr e) =>
              mkState w (<[i:=Idle]> (pcs s)) ([EvRet i (RIO d 0 (Some e))] ++ trace s)
          end).
Proof.
  intros HI Hi.
  assert (Hq : Inv w0 (mkState (conn s) (<[i:=Idle]> (pcs s))
            ([EvRet i (RIO d 0 (Some ErrClosed))] ++ trace s))).
  { eapply inv_quiet; eauto; try done. right; left; eauto 6. }
  unfold beginIO. destruct (closeStarted (conn s)) eqn:Es; [done|].
  destruct (NetConn (conn s)) as [c|] eqn:Ec; [|done]. by apply inv_begin.
Qed.

(** A [Close] call. *)
Lemma inv_close_call w0 s i now :
  Inv w0 s -> pcs s !! i = Some Idle ->
  Inv w0 (match Close_enter now (conn s) with
          | (w, CloseWait) => mkState w (<[i:=ClWait]> (pcs s)) ([] ++ trace s)
          | (w, CloseNil e) => mkState w (<[i:=Idle]> (pcs s)) ([EvRet i (RClose e)] ++ trace s)
          | (w, CloseStart c) => mkState w (<[i:=ClCollect c]> (pcs s)) ([] ++ trace s)
          end).
Proof.
  intros HI Hi. unfold Close_enter. destruct (closeDone (conn s)) eqn:Ed.
  - eapply inv_quiet; eauto; try done; [by left|]. simpl. congruence.
  - destruct (NetConn (conn s)) as [c|] eqn:Ec; [by apply inv_enter|].
    exfalso. pose proof (inv_conn _ _ HI) as H. rewrite Ed, Ec in H.
    assert (sumZ detached (pcs s) = 0); [|lia].
    apply sumZ_zero. intros j p Hj. by eapply closer_detached, open_no_closer.
Qed.

Lemma inv_deadline_call w0 s i :
  Inv w0 s -> pcs s !! i = Some Idle ->
  Inv w0 (match withLiveConn (conn s) with
          | inl c => mkState (conn s) (<[i:=Dl c]> (pcs s)) ([] ++ trace s)
          | inr e => mkState (conn s) (<[i:=Idle]> (pcs s)) ([EvRet i (RDeadline e)] ++ trace s)
          end).
Proof.
  intros HI Hi. destruct (withLiveConn (conn s)).
  - eapply inv_quiet; eauto; try done. by left.
  - eapply inv_quiet; eauto; try done. right; right; eauto.
Qed.

(** The connection is there until the closer drops it. *)
Lemma closer_conn w0 s i p :
  Inv w0 s -> pcs s !! i = Some p -> closer p = 1 ->
  if decide (detached p = 0) then is_Some (NetConn (conn s)) else NetConn (conn s) = None.
Proof.
  intros HI Hi Hp. destruct (closer_unique _ _ _ _ HI Hi Hp) as [Hd Hu].
  assert (sumZ detached (pcs s) = detached p) as Hs.
  { rewrite <- (list_insert_id (pcs s) i p Hi).
    rewrite (sumZ_insert detached _ _ p) by done.
    assert (sumZ detached (<[i:=Idle]> (pcs s)) = 0) as H0.
    { apply sumZ_zero. intros j q Hj. destruct (decide (j = i)) as [->|Hne].
      - rewrite list_lookup_insert_eq in Hj by by eapply lookup_lt_Some. by simplify_eq.
      - rewrite list_lookup_insert_ne in Hj by done. eauto using closer_detached. }
    rewrite (sumZ_insert detached _ _ p) in H0 by done. simpl in H0. lia. }
  pose proof (inv_conn _ _ HI) as H. rewrite Hd, Hs in H.
  destruct p; try done; simpl in *; destruct (NetConn (conn s)); (lia || done).
Qed.

Lemma inv_thread_step w0 s i a p w q evs bc :
  Inv w0 s -> pcs s !! i = Some p -> thread_step i a p (conn s) = Some (w, q, evs, bc) ->
  Inv w0 (mkState w (<[i:=q]> (if (bc : bool) then wake <$> pcs s else pcs s)) (evs ++ trace s)).
Proof.
  intros HI Hi E. pose proof (inv_closer_ok _ _ HI _ _ Hi) as Hok.
  pose proof (closer_conn _ _ _ _ HI Hi) as Hcc.
  destruct p, a as [[]| | | | | ]; cbn [thread_step] in E; try done.
  - pose proof (inv_begin_call w0 s i Rx HI Hi). by destruct (beginIO _) as [? []]; simplify_eq.
  - pose proof (inv_begin_call w0 s i Tx HI Hi). by destruct (beginIO _) as [? []]; simplify_eq.
  - pose proof (inv_close_call w0 s i now HI Hi).
    by destruct (Close_enter _ _) as [? []]; simplify_eq.
  - simplify_eq. by apply inv_reconnects.
  - pose proof (inv_deadline_call w0 s i HI Hi). by destruct (withLiveConn _); simplify_eq.
  - simplify_eq. by eapply inv_moved.
  - simplify_eq. by eapply inv_record.
  - destruct (finishIO (conn s)) as [w' b] eqn:Ef. simplify_eq.
    pose proof (inv_finish _ _ _ _ _ _ _ _ HI Hi Ef) as H.
    destruct bc; [done|]. by rewrite list_fmap_id in H.
  - destruct (collectTCPInfo _ _). simplify_eq. eapply inv_quiet; eauto; try done. by left.
  - simplify_eq. by eapply inv_closed.
  - destruct (drain _ _ _ _) as [w' q'] eqn:Ed. simplify_eq. destruct Hok.
    eapply (inv_drain w0 s i (ClDetach info e err)); eauto; try done. intros _. by apply Hcc.
  - destruct (drain _ _ _ _) as [w' q'] eqn:Ed. simplify_eq. destruct Hok as (? & ? & ? & ?).
    eapply (inv_drain w0 s i (ClAwake info e err)); eauto; try done. by apply Hcc.
  - simplify_eq. by apply inv_report.
  - simplify_eq. eapply inv_quiet; eauto; try done. by left.
  - simplify_eq. by apply inv_done_step.
  - destruct (closeDone (conn s)) as [[]|] eqn:Ed; simplify_eq.
    eapply inv_quiet; eauto; try done. by left.
  - simplify_eq. by apply inv_waited.
  - simplify_eq. eapply inv_quiet; eauto; try done. right; right; eauto.
Qed.

Lemma inv_exec w0 s i a s' : Inv w0 s -> exec i a s = Some s' -> Inv w0 s'.
Proof.
  intros HI E. unfold exec in E. destruct (pcs s !! i) as [p|] eqn:Hi; [|done].
  destruct (thread_step i a p (conn s)) as [[[[w q] evs] bc]|] eqn:Et; [|done].
  simplify_eq. by eapply inv_thread_step.
Qed.

Lemma inv_step w0 s s' : Inv w0 s -> step s s' -> Inv w0 s'.
Proof. intros HI Hs. inversion Hs; subst. eauto using inv_exec. Qed.

Lemma inv_rtc w0 s s' : Inv w0 s -> rtc step s s' -> Inv w0 s'.
Proof. intros HI Hs. induction Hs; eauto using inv_step. Qed.

Lemma inv_reachable w0 s : fresh w0 -> reachable w0 s -> Inv w0 s.
Proof. intros Hf [n Hs]. eapply inv_rtc; eauto using inv_init. Qed.
End inv.
