(* ===== verification/WrapThms.v ===== *)
(** What the concurrent wrapper guarantees, from the invariant of [WrapInv]:
    one close and one complete report, the order of events, the result of every
    [Close], the meaning of the statistics, progress and termination, and the
    agreement of the interleaved methods with the methods of [Wrap]. *)

From stdpp Require Import base list strings gmap relations.
From Stdlib Require Import ZArith Lia.
From S2P Require Import Prelude GoFmt TcpInfo Other Wrap WrapConc WrapInv.

Local Open Scope Z_scope.
Local Open Scope go_scope.

Section thms.
Context {C S X F : Type} `{!NetConnOps C, !Platform S}.
Implicit Types (w : Conn C S X F) (p q : pc C S X F) (s : state C S X F)
  (tr : list (event C S X F)).

(** ** Progress *)

(** Steps a call has left. *)
Definition weight p : Z :=
  match p with
  | Idle => 0
  | IO _ _ => 3 | Stats _ _ _ => 2 | Fin _ _ _ => 1
  | ClCollect _ => 9 | ClClose _ _ _ => 8 | ClDetach _ _ _ => 7 | ClAsleep _ _ _ => 6
  | ClAwake _ _ _ => 5 | ClReport _ _ => 4 | ClCallback _ => 3 | ClDone _ => 2
  | ClWait => 2 | ClWaited => 1
  | Dl _ => 1
  end.

Definition work s : Z := sumZ weight (pcs s).

Definition quiescent s : Prop := Forall (fun p => p = Idle) (pcs s).

(** ** Meaning of the statistics *)

(** The times of the successful operations that moved data, latest first. *)
Definition success_times (d : dir) tr : list Z :=
  omap (fun ev => match ev with
                  | EvStats d' n None ts => if decide (d' = d /\ 0 < n) then Some ts else None
                  | _ => None
                  end) tr.

(** The errors that are network errors and not timeouts, latest first. *)
Definition fatal_errors (d : dir) tr : list error :=
  omap (fun ev => match ev with
                  | EvStats d' _ (Some e) _ =>
                      if decide (d' = d /\ err_timeout e = Some false) then Some e else None
                  | _ => None
                  end) tr.

#[local] Instance idle_dec p : Decision (p = Idle).
Proof. destruct p; (by left) || by right. Defined.
#[local] Instance quiescent_dec s : Decision (quiescent s).
Proof. apply Forall_dec. apply _. Defined.

(** ** Lemmas *)

Lemma weight_nonneg p : 0 <= weight p.
Proof. destruct p; simpl; lia. Qed.

Lemma weight_wake p : weight (wake p) <= weight p.
Proof. destruct p; simpl; lia. Qed.

Lemma sumZ_le {A} (f g : A -> Z) (l : list A) :
  (forall x, f x <= g x) -> sumZ f l <= sumZ g l.
Proof. intros H. induction l as [|a l IH]; simpl; [lia|]. specialize (H a). lia. Qed.

Lemma drain_weight info e err w w' q :
  drain info e err w = (w', q) ->
  weight q <= 6 /\ (inFlight w <= 0 -> weight q = 4).
Proof.
  unfold drain, Close_mustWait. destruct (Z.gtb_spec (inFlight w) 0); intros H'.
  - injection H' as <- <-. simpl. lia.
  - destruct (Close_finish info e w). injection H' as <- <-. simpl. lia.
Qed.

Lemma thread_step_weight w0 s i a p w q evs bc :
  Inv w0 s -> pcs s !! i = Some p -> (forall c, a <> ACall c) ->
  thread_step i a p (conn s) = Some (w, q, evs, bc) -> weight q < weight p.
Proof.
  intros HI Hi Ha E. pose proof (inv_closer_ok _ _ HI _ _ Hi) as Hok.
  destruct p, a as [cl| | | | | ]; cbn [thread_step] in E; try done; try (by destruct (Ha cl));
    try (by simplify_eq).
  - destruct (finishIO (conn s)). by simplify_eq.
  - destruct (collectTCPInfo _ _). by simplify_eq.
  - destruct (drain _ _ _ _) eqn:Ed. simplify_eq. apply drain_weight in Ed. simpl. lia.
  - destruct (drain _ _ _ _) eqn:Ed. simplify_eq. apply drain_weight in Ed.
    destruct Hok as (_ & _ & _ & ?). simpl. lia.
  - destruct (closeDone (conn s)) as [[]|]; by simplify_eq.
Qed.

(** A step that is not a new call uses up work. *)
Lemma inner_step_work w0 s s' : Inv w0 s -> inner_step s s' -> work s' < work s.
Proof.
  intros HI Hs. inversion Hs as [i a s1 s2 Ha E]; subst. unfold exec in E.
  destruct (pcs s !! i) as [p|] eqn:Hi; [|done].
  destruct (thread_step i a p (conn s)) as [[[[w q] evs] bc]|] eqn:Et; [|done].
  pose proof (thread_step_weight _ _ _ _ _ _ _ _ _ HI Hi Ha Et) as Hlt.
  simplify_eq. unfold work. simpl. destruct bc.
  - rewrite (sumZ_insert weight _ _ (wake p)) by by rewrite list_lookup_fmap, Hi.
    rewrite sumZ_fmap. pose proof (sumZ_le _ _ (pcs s) weight_wake).
    assert (weight (wake p) = weight p); [|lia].
    destruct p, a as [cl| | | | | ]; cbn [thread_step] in Et; try done.
  - rewrite (sumZ_insert weight _ _ p) by done. lia.
Qed.

(** A goroutine that is neither asleep nor waiting for [closeDone] can step. *)
Lemma enabled w i p :
  p <> Idle -> p <> ClWait -> (forall a b c, p <> ClAsleep a b c) ->
  exists a r, (forall c, a <> ACall c) /\ thread_step i a p w = Some r.
Proof.
  intros H1 H2 H3.
  destruct p as [| d c|d n err|d n err|c|c info e|info e err|info e err|info e err|rp err|err|err| | |c];
    try done.
  - exists (AIO 0 None). eexists. by split.
  - exists (ATick 0). eexists. by split.
  - exists AStep. cbn [thread_step]. destruct (finishIO w). eexists. by split.
  - exists (AProbe (mkProbe None None None None)). cbn [thread_step].
    destruct (collectTCPInfo w _). eexists. by split.
  - exists (AErr None). eexists. by split.
  - exists AStep. cbn [thread_step]. destruct (drain _ _ _ _). eexists. by split.
  - by destruct (H3 info e err).
  - exists AStep. cbn [thread_step]. destruct (drain _ _ _ _). eexists. by split.
  - exists AStep. eexists. by split.
  - exists AStep. eexists. by split.
  - exists AStep. eexists. by split.
  - exists AStep. eexists. by split.
  - exists (AErr None). eexists. by split.
Qed.

Lemma enabled_step s i p :
  pcs s !! i = Some p -> p <> Idle -> p <> ClWait -> (forall a b c, p <> ClAsleep a b c) ->
  exists s', inner_step s s'.
Proof.
  intros Hi H1 H2 H3.
  destruct (enabled (conn s) i p H1 H2 H3) as (a & [[[w q] evs] bc] & Ha & E).
  eexists. apply (inner_exec i a); [done|]. unfold exec. by rewrite Hi, E.
Qed.

(** Someone doing input or output can step. *)
Lemma io_step w0 s : Inv w0 s -> 0 < inFlight (conn s) -> exists s', inner_step s s'.
Proof.
  intros HI Hf. rewrite (inv_flight _ _ HI) in Hf.
  destruct (sumZ_pos_exists io (pcs s) Hf) as (i & p & Hi & Hp).
  eapply enabled_step; eauto; by destruct p.
Qed.

Lemma closer_step w0 s i p :
  Inv w0 s -> pcs s !! i = Some p -> closer p = 1 -> exists s', inner_step s s'.
Proof.
  intros HI Hi Hp. pose proof (inv_closer_ok _ _ HI _ _ Hi) as Hok.
  destruct p; try done; try (eapply enabled_step; eauto; done).
  destruct Hok as (_ & _ & _ & Hf). by eapply io_step.
Qed.

Lemma progress w0 s : Inv w0 s -> ~ quiescent s -> exists s', inner_step s s'.
Proof.
  intros HI Hq.
  assert (exists i p, pcs s !! i = Some p /\ p <> Idle) as (i & p & Hi & Hp).
  { apply not_Forall_Exists in Hq; [|apply _].
    apply Exists_exists in Hq as (p & [i Hi]%list_elem_of_lookup & Hp). eauto. }
  destruct p; try (eapply enabled_step; eauto; done); try (eapply closer_step; eauto; done).
  pose proof (inv_waiter_ok _ _ HI _ _ Hi) as Hw. simpl in Hw.
  destruct (closeDone (conn s)) as [[]|] eqn:Ed; [| |done].
  - eexists. apply (inner_exec i AStep); [done|]. unfold exec. rewrite Hi. simpl. by rewrite Ed.
  - pose proof (inv_closer _ _ HI) as Hc. rewrite Ed in Hc.
    destruct (sumZ_pos_exists closer (pcs s)) as (j & q & Hj & Hq'); [lia|].
    eapply (closer_step w0 s j q); eauto. by destruct q.
Qed.

Lemma inner_step_step s s' : inner_step s s' -> step s s'.
Proof. intros H. inversion H; subst. by econstructor. Qed.

Lemma quiesce w0 s : Inv w0 s -> exists s', rtc inner_step s s' /\ quiescent s'.
Proof.
  intros HI. remember (Z.to_nat (work s)) as n eqn:En. revert s HI En.
  induction n as [n IH] using lt_wf_ind. intros s HI En.
  destruct (decide (quiescent s)) as [Hq|Hq]; [by exists s|].
  destruct (progress _ _ HI Hq) as [s1 Hs1].
  pose proof (inner_step_work _ _ _ HI Hs1) as Hlt.
  pose proof (sumZ_nonneg weight (pcs s1) weight_nonneg) as Hn. fold (work s1) in Hn.
  destruct (IH (Z.to_nat (work s1))) with (s := s1) as (s' & Hr & Hq'); [lia| |done|].
  - eapply inv_step; eauto using inner_step_step.
  - exists s'. split; [by eapply rtc_l|done].
Qed.

Lemma nsteps_work w0 n s s' : Inv w0 s -> nsteps inner_step n s s' -> Z.of_nat n <= work s.
Proof.
  intros HI Hs. induction Hs as [s|n s1 s2 s3 Hs Hn IH].
  - apply (sumZ_nonneg weight), weight_nonneg.
  - pose proof (inner_step_work _ _ _ HI Hs).
    assert (Inv w0 s2) as HI2 by eauto using inv_step, inner_step_step.
    specialize (IH HI2). lia.
Qed.

Lemma inv_nsteps w0 n s s' : Inv w0 s -> nsteps inner_step n s s' -> Inv w0 s'.
Proof.
  intros HI Hs. induction Hs as [|n s1 s2 s3 Hs _ IH]; [done|].
  eauto using inv_step, inner_step_step.
Qed.

(** ** Close: once, complete, in order *)

(** What is known of closes and reports in any reachable state. *)
Lemma closes_reports w0 s :
  Inv w0 s ->
  (length (closes (trace s)) <= 1)%nat /\ (length (reports (trace s)) <= 1)%nat
  /\ (forall r, r ∈ reports (trace s) -> inFlight (conn s) = 0 /\ agrees (conn s) r
       /\ closes (trace s) = [closeErr (conn s)]).
Proof.
  intros HI. set (tr := trace s) in *.
  assert (Hrep : reported (conn s) tr -> inFlight (conn s) = 0 -> closes tr = [closeErr (conn s)] ->
     (length (reports tr) <= 1)%nat
     /\ forall r, r ∈ reports tr -> inFlight (conn s) = 0 /\ agrees (conn s) r
          /\ closes tr = [closeErr (conn s)]).
  { unfold reported. destruct (reportStats (conn s)).
    - intros (r & -> & Ha) Hf. split; [done|]. intros r' ->%list_elem_of_singleton. done.
    - intros -> _. split; [simpl; lia|]. intros r []%not_elem_of_nil. }
  assert (Hnil : reports tr = [] -> (length (reports tr) <= 1)%nat
     /\ forall r, r ∈ reports tr -> inFlight (conn s) = 0 /\ agrees (conn s) r
          /\ closes tr = [closeErr (conn s)]).
  { intros ->. split; [simpl; lia|]. intros r []%not_elem_of_nil. }
  destruct (closeDone (conn s)) as [[]|] eqn:Ed.
  - destruct (inv_done _ _ HI Ed) as (Hcl & Hf & Hr). fold tr in Hcl, Hr.
    split; [by rewrite Hcl|]. by apply Hrep.
  - pose proof (inv_closer _ _ HI) as Hc. rewrite Ed in Hc.
    destruct (sumZ_pos_exists closer (pcs s)) as (j & q & Hj & Hq'); [lia|].
    pose proof (inv_closer_ok _ _ HI _ _ Hj) as Hok.
    fold tr in Hok.
    destruct q; simpl in *; try lia; destruct_and!;
      (split; [match goal with H : closes _ = _ |- _ => rewrite H end; simpl; lia|]);
      subst; auto.
  - destruct (inv_open _ _ HI Ed) as (Hcl & Hr & _). fold tr in Hcl, Hr.
    split; [rewrite Hcl; simpl; lia|]. auto.
Qed.

Lemma no_flight_no_pending w0 s d :
  Inv w0 s -> inFlight (conn s) = 0 -> sumZ (pending d) (pcs s) = 0.
Proof.
  intros HI Hf. rewrite (inv_flight _ _ HI) in Hf. apply sumZ_zero. intros i p Hi.
  pose proof (sumZ_zero_lookup io _ _ _ io_nonneg Hf Hi). by destruct p.
Qed.

(** ** Statistics *)

(** Each section updates the statistics of its own direction only. *)
Lemma Read_stats_spec n err ts w :
  stat_view (Read_stats n err ts w) =
    ((if decide (err = None /\ 0 < n /\ FirstRxAt w = 0) then ts else FirstRxAt w,
      if decide (err = None /\ 0 < n) then ts else LastRxAt w,
      RxBytes w +i64 n,
      if fatalNetError err then err else RxErr w), (stat_view w).2).
Proof.
  unfold Read_stats, stat_view.
  destruct err as [e|]; simpl; [|destruct (Z.gtb_spec n 0), (Z.eqb_spec (FirstRxAt w) 0); simpl];
    repeat case_decide; destruct_and?; try case_bool_decide; simpl; try done; try lia; tauto.
Qed.

Lemma Write_stats_spec n err ts w :
  stat_view (Write_stats n err ts w) =
    ((stat_view w).1,
     (if decide (err = None /\ 0 < n /\ FirstTxAt w = 0) then ts else FirstTxAt w,
      if decide (err = None /\ 0 < n) then ts else LastTxAt w,
      TxBytes w +i64 n,
      if fatalNetError err then err else TxErr w)).
Proof.
  unfold Write_stats, stat_view.
  destruct err as [e|]; simpl; [|destruct (Z.gtb_spec n 0), (Z.eqb_spec (FirstTxAt w) 0); simpl];
    repeat case_decide; destruct_and?; try case_bool_decide; simpl; try done; try lia; tauto.
Qed.

(** The statistics of one direction that a trace accounts for. *)
Definition ledger (d : dir) tr : Z * Z * Z * option error :=
  (default 0 (last (success_times d tr)), default 0 (head (success_times d tr)),
   wrapS 64 (bytes_counted d tr), head (fatal_errors d tr)).

(** One more operation of direction [d]: [(n, err)] at time [ts]. *)
Lemma ledger_stats d n err ts tr (f l b : Z) (e : option error) :
  ts <> 0 -> Forall (fun t => t <> 0) (success_times d tr) ->
  ledger d tr = (f, l, b, e) ->
  ledger d (EvStats d n err ts :: tr) =
    (if decide (err = None /\ 0 < n /\ f = 0) then ts else f,
     if decide (err = None /\ 0 < n) then ts else l,
     b +i64 n,
     if fatalNetError err then err else e).
Proof.
  intros Hts Hall. unfold ledger. intros [= <- <- <- <-].
  assert (Hb : bytes_counted d (EvStats d n err ts :: tr) = n + bytes_counted d tr).
  { unfold bytes_counted. simpl. by rewrite decide_True. }
  rewrite Hb, wrapS_add_l, (Z.add_comm (bytes_counted d tr)).
  destruct err as [er|].
  - change (success_times d (EvStats d n (Some er) ts :: tr)) with (success_times d tr).
    rewrite !decide_False by by intros [? _].
    assert (fatal_errors d (EvStats d n (Some er) ts :: tr)
            = if fatalNetError (Some er) then er :: fatal_errors d tr else fatal_errors d tr) as ->.
    { unfold fatal_errors. simpl. case_bool_decide;
        [by rewrite decide_True | by rewrite decide_False by tauto]. }
    by destruct (fatalNetError (Some er)).
  - change (fatal_errors d (EvStats d n None ts :: tr)) with (fatal_errors d tr).
    assert (success_times d (EvStats d n None ts :: tr)
            = if decide (0 < n) then ts :: success_times d tr else success_times d tr) as ->.
    { unfold success_times. simpl. repeat case_decide; tauto. }
    destruct (decide (0 < n)) as [Hn|Hn]; [|rewrite !decide_False by tauto; done].
    rewrite (decide_True (P := None = None /\ 0 < n)) by done. simpl.
    destruct (success_times d tr) as [|t l] eqn:E; [by rewrite decide_True|].
    rewrite decide_False; [done|]. intros (_ & _ & H0).
    destruct (last (t :: l)) as [t'|] eqn:El; [|by apply last_None in El].
    simpl in H0. subst t'. apply last_Some_elem_of in El.
    by eapply (proj1 (Forall_forall _ _) Hall _ El).
Qed.

Lemma replay_bytes w0 tr :
  fresh w0 ->
  RxBytes (replay w0 tr) = wrapS 64 (bytes_counted Rx tr)
  /\ TxBytes (replay w0 tr) = wrapS 64 (bytes_counted Tx tr).
Proof.
  intros (_ & _ & _ & _ & _ & (_ & _ & HR & _) & (_ & _ & HT & _)).
  induction tr as [|ev tr [IHr IHt]]; [simpl; by rewrite HR, HT|].
  destruct ev as [| [] n err ts | | | ]; try done; cbn [replay record_stats].
  - pose proof (Read_stats_spec n err ts (replay w0 tr)) as [= _ _ -> _ _ _ -> _].
    rewrite IHr, IHt, wrapS_add_l, Z.add_comm. done.
  - pose proof (Write_stats_spec n err ts (replay w0 tr)) as [= _ _ -> _ _ _ -> _].
    rewrite IHr, IHt, wrapS_add_l, Z.add_comm. done.
Qed.

(** No clock reading of a statistics section is zero, the value the source
    uses for "not yet". *)
Definition clock_ok tr : Prop :=
  Forall (fun ev => match ev with EvStats _ _ _ ts => ts <> 0 | _ => True end) tr.

Lemma clock_ok_times d tr : clock_ok tr -> Forall (fun t => t <> 0) (success_times d tr).
Proof.
  induction 1 as [|ev tr Hev _ IH]; [constructor|]. unfold success_times in *. simpl.
  destruct ev as [| ? ? [] ? | | | ]; try done. case_decide; [by constructor|done].
Qed.

Lemma replay_ledger w0 tr :
  fresh w0 -> clock_ok tr -> stat_view (replay w0 tr) = (ledger Rx tr, ledger Tx tr).
Proof.
  intros (_ & _ & _ & _ & _ & (H1 & H2 & H3 & H4) & (H5 & H6 & H7 & H8)).
  induction 1 as [|ev tr Hev Hok IH].
  { unfold stat_view. simpl. by rewrite H1, H2, H3, H4, H5, H6, H7, H8. }
  destruct ev as [| [] n err ts | | | ]; try done; cbn [replay record_stats].
  - rewrite Read_stats_spec.
    pose proof (eq_sym (f_equal fst IH)) as E1. pose proof (f_equal snd IH) as E2.
    unfold stat_view at 1 in E1. cbn [fst] in E1.
    rewrite (ledger_stats _ _ _ _ _ _ _ _ _ Hev (clock_ok_times _ _ Hok) E1), E2.
    by destruct err.
  - rewrite Write_stats_spec.
    pose proof (f_equal fst IH) as E1. pose proof (eq_sym (f_equal snd IH)) as E2.
    unfold stat_view at 1 in E2. cbn [snd] in E2.
    rewrite (ledger_stats _ _ _ _ _ _ _ _ _ Hev (clock_ok_times _ _ Hok) E2), E1.
    by destruct err.
Qed.

Lemma run_reachable w0 n sched s : run sched (init w0 n) = Some s -> reachable w0 s.
Proof.
  intros H. exists n. revert H. generalize (init w0 n) as s0.
  induction sched as [|[i a] sched IH]; intros s0 H; simpl in H; [by simplify_eq|].
  destruct (exec i a s0) as [s1|] eqn:E; [|done]. eapply rtc_l; [by econstructor|]. by apply IH.
Qed.

(** ** Theorems *)

(** The report describes the whole life of the connection. *)
Lemma report_complete w0 s r :
  fresh w0 -> reachable w0 s -> r ∈ reports (trace s) ->
  RxBytes (rp_conn r) = wrapS 64 (bytes_moved Rx (trace s))
  /\ TxBytes (rp_conn r) = wrapS 64 (bytes_moved Tx (trace s))
  /\ stat_view (rp_conn r) = stat_view (conn s)
  /\ closes (trace s) = [closeErr (rp_conn r)]
  /\ NetConn (rp_conn r) = None /\ rp_state r = Closed /\ Some (rp_fn r) = reportStats w0.
Proof.
  intros Hf Hr Hin. pose proof (inv_reachable _ _ Hf Hr) as HI.
  destruct (closes_reports _ _ HI) as (_ & _ & H).
  destruct (H r Hin) as (Hfl & (Ha1 & Ha2 & Ha3) & Hcl).
  assert (Hv : stat_view (rp_conn r) = stat_view (conn s)) by by rewrite Ha3.
  pose proof (inv_stats _ _ HI) as Hs.
  destruct (replay_bytes w0 (trace s) Hf) as [HR HT].
  assert (Hb : forall d, bytes_moved d (trace s) = bytes_counted d (trace s)).
  { intros d. rewrite (inv_bytes _ _ HI d), (no_flight_no_pending _ _ d HI Hfl). lia. }
  rewrite !Hb, <- HR, <- HT. rewrite Hs in Hv.
  split_and!; try (by rewrite Ha3); try done; try congruence.
  - unfold stat_view in Hv. congruence.
  - unfold stat_view in Hv. congruence.
  - by rewrite Ha1, (inv_report_fn _ _ HI).
Qed.

(** C1: In every interleaving of reads, writes, deadline calls and closes on a freshly
    wrapped connection, a close report counts exactly the bytes that reads and writes
    moved over the whole run (as 64-bit sums), carries the final statistics and the
    error of the single close of the wrapped connection, refers to no live connection,
    and goes to the callback given at wrapping. *)
Theorem close_report_complete w0 s r :
  fresh w0 -> reachable w0 s -> r ∈ reports (trace s) ->
  RxBytes (rp_conn r) = wrapS 64 (bytes_moved Rx (trace s))
  /\ TxBytes (rp_conn r) = wrapS 64 (bytes_moved Tx (trace s))
  /\ stat_view (rp_conn r) = stat_view (conn s)
  /\ closes (trace s) = [closeErr (rp_conn r)]
  /\ NetConn (rp_conn r) = None /\ rp_state r = Closed /\ Some (rp_fn r) = reportStats w0.
Proof. apply report_complete. Qed.

(** The connection is closed and reported at most once, and exactly once when
    a [Close] has returned. *)
Lemma closed_once w0 s :
  fresh w0 -> reachable w0 s ->
  (length (closes (trace s)) <= 1)%nat /\ (length (reports (trace s)) <= 1)%nat
  /\ forall i e, EvRet i (RClose e) ∈ trace s ->
       closes (trace s) = [e]
       /\ length (reports (trace s)) = (if reportStats w0 is Some _ then 1 else 0)%nat.
Proof.
  intros Hf Hr. pose proof (inv_reachable _ _ Hf Hr) as HI.
  destruct (closes_reports _ _ HI) as (H1 & H2 & _). split_and!; [done..|].
  intros i e Hin. destruct (inv_ret _ _ HI _ _ Hin) as [Hd He].
  destruct (inv_done _ _ HI Hd) as (Hcl & _ & Hrep). rewrite Hcl, He. split; [done|].
  by rewrite (reported_length _ _ Hrep), (inv_report_fn _ _ HI).
Qed.

(** C2: However many goroutines call Close, the wrapped connection is closed at most
    once and the callback reports Closed at most once; once some Close has returned,
    both have happened exactly once (the report only when a callback was given) and
    every Close returns the error of that one close. *)
Theorem close_once w0 s :
  fresh w0 -> reachable w0 s ->
  (length (closes (trace s)) <= 1)%nat /\ (length (reports (trace s)) <= 1)%nat
  /\ forall i e, EvRet i (RClose e) ∈ trace s ->
       closes (trace s) = [e]
       /\ length (reports (trace s)) = (if reportStats w0 is Some _ then 1 else 0)%nat.
Proof. apply closed_once. Qed.

Lemma reports_app tr1 tr2 : reports (tr1 ++ tr2) = reports tr1 ++ reports tr2.
Proof. apply omap_app. Qed.

Lemma ordered_app hr tr1 tr2 : ordered hr (tr1 ++ tr2) -> ordered hr tr2.
Proof. induction tr1 as [|ev tr1 IH]; [done|]. intros [H _]. auto. Qed.

(** Once a report is in the trace no input or output follows. *)
Lemma ordered_after hr tr1 tr2 :
  ordered hr (tr1 ++ tr2) -> reports tr2 <> [] ->
  forall ev, ev ∈ tr1 ->
    match ev with EvIO _ _ _ | EvStats _ _ _ _ | EvClosed _ => False | _ => True end.
Proof.
  induction tr1 as [|ev tr1 IH]; intros Ho Hne ev' Hin; [by apply not_elem_of_nil in Hin|].
  destruct Ho as [Ho Hev]. apply elem_of_cons in Hin as [->|Hin]; [|by apply IH].
  assert (reports (tr1 ++ tr2) <> []) as Hne'.
  { rewrite reports_app. by intros [_ H]%app_eq_nil. }
  destruct ev; try done; by destruct_and?.
Qed.

(** C3: Order of events around the close report: the wrapped connection was closed
    before it, no Close has returned before it, and no read, write, statistics update
    or close of the wrapped connection happens after it. *)
Theorem close_order w0 s tr1 tr2 r :
  fresh w0 -> reachable w0 s -> trace s = tr1 ++ EvReport r :: tr2 ->
  (exists e, closes tr2 = [e])
  /\ (forall i e, ~ EvRet i (RClose e) ∈ tr2)
  /\ forall ev, ev ∈ tr1 ->
       match ev with EvIO _ _ _ | EvStats _ _ _ _ | EvClosed _ => False | _ => True end.
Proof.
  intros Hf Hr E. pose proof (inv_ordered _ _ (inv_reachable _ _ Hf Hr)) as Ho.
  rewrite E in Ho. pose proof (ordered_app _ _ _ Ho) as [Ho2 [Hc Hre]]. split_and!.
  - destruct (closes tr2) as [|e [|]]; try done. eauto.
  - intros i e [l1 [l2 ->]]%list_elem_of_split.
    apply ordered_app in Ho2 as [_ [_ Hl]].
    rewrite reports_app in Hre. apply app_eq_nil in Hre as [_ Hre].
    change (reports l2 = []) in Hre. rewrite Hre in Hl.
    destruct (closes_reports _ _ (inv_reachable _ _ Hf Hr)) as (_ & _ & H).
    destruct (H r) as (_ & (Hs & _) & _).
    { rewrite E, reports_app. apply elem_of_app. right. by left. }
    rewrite (inv_report_fn _ _ (inv_reachable _ _ Hf Hr)) in Hs. by rewrite <- Hs in Hl.
  - eapply ordered_after; [done|]. unfold reports. done.
Qed.

(** C6: At every reachable state, with a clock that never reads zero, the first and
    last transfer times, byte counts and errors of both directions are those of the
    ledger: time of the first and of the latest successful operation that moved data,
    sum of the bytes of all operations, latest network error that is not a timeout. *)
Theorem stats_ledger w0 s :
  fresh w0 -> reachable w0 s -> clock_ok (trace s) ->
  stat_view (conn s) = (ledger Rx (trace s), ledger Tx (trace s)).
Proof.
  intros Hf Hr Hc. rewrite (inv_stats _ _ (inv_reachable _ _ Hf Hr)). by apply replay_ledger.
Qed.

(** C5: The counter inFlight always equals the number of goroutines between beginIO and
    finishIO; finishIO never meets its clamp at zero and wakes the closer exactly when
    the last operation of a closing connection ends; while a closer sleeps some
    operation is in flight. *)
Theorem in_flight_exact w0 s :
  fresh w0 -> reachable w0 s ->
  inFlight (conn s) = sumZ io (pcs s)
  /\ (forall i d n err, pcs s !! i = Some (Fin d n err) ->
        finishIO (conn s) = ((conn s) <| inFlight := inFlight (conn s) - 1 |>,
           closeStarted (conn s) && (inFlight (conn s) - 1 =? 0)))
  /\ (forall i info e err, pcs s !! i = Some (ClAsleep info e err) -> 0 < sumZ io (pcs s)).
Proof.
  intros Hf Hr. pose proof (inv_reachable _ _ Hf Hr) as HI.
  pose proof (inv_flight _ _ HI) as Hfl. split_and!; [done| |].
  - intros i d n err Hi. assert (0 < inFlight (conn s)) by by eapply io_in_flight.
    unfold finishIO. simpl. by destruct (Z.ltb_spec (inFlight (conn s) - 1) 0); [lia|].
  - intros i info e err Hi. rewrite <- Hfl.
    by destruct (inv_closer_ok _ _ HI _ _ Hi) as (_ & _ & _ & ?).
Qed.

(** From every reachable state some schedule finishes all the calls in progress. *)
Theorem calls_can_finish w0 s :
  fresh w0 -> reachable w0 s -> exists s', rtc inner_step s s' /\ quiescent s'.
Proof. intros Hf Hr. eapply quiesce. by apply inv_reachable. Qed.

(** C4: From every reachable state the calls in progress take at most work(s) further
    steps in any schedule, and a state where no call can step has no call in progress:
    no deadlock, no lost wake-up of a closing goroutine (given that the wrapped
    connection and the callback return). *)
Theorem calls_terminate w0 s n s' :
  fresh w0 -> reachable w0 s -> nsteps inner_step n s s' ->
  Z.of_nat n <= work s
  /\ ((forall s'', ~ inner_step s' s'') -> quiescent s').
Proof.
  intros Hf Hr Hn. pose proof (inv_reachable _ _ Hf Hr) as HI. split.
  - by eapply nsteps_work.
  - intros Hstuck. destruct (decide (quiescent s')) as [|Hq]; [done|].
    destruct (progress _ _ (inv_nsteps _ _ _ _ HI Hn) Hq) as [s'' Hs]. by destruct (Hstuck s'').
Qed.

(** While the report callback runs no Close has returned and no waiting Close can
    step: a callback that calls Close on the wrapper it reports would wait for itself. *)
Theorem close_returns_after_callback w0 s i err j e :
  fresh w0 -> reachable w0 s -> pcs s !! i = Some (ClCallback err) ->
  ~ EvRet j (RClose e) ∈ trace s
  /\ (forall k a s', pcs s !! k = Some ClWait -> exec k a s <> Some s').
Proof.
  intros Hf Hr Hi. pose proof (inv_reachable _ _ Hf Hr) as HI.
  destruct (closer_unique _ _ _ _ HI Hi) as [Hd _]; [done|]. split.
  - intros Hin. destruct (inv_ret _ _ HI _ _ Hin) as [Hd' _]. congruence.
  - intros k a s' Hk. unfold exec. rewrite Hk. destruct a; simpl; try done. by rewrite Hd.
Qed.

(** C7: Once a Close has begun, a later Read or Write returns 0 bytes and
    net.ErrClosed, a deadline call returns an error, and a later Close waits for the
    first, without touching the wrapped connection or the statistics. *)
Theorem closed_rejects_calls w0 s i :
  fresh w0 -> reachable w0 s -> closeDone (conn s) <> None -> pcs s !! i = Some Idle ->
  (forall a d, (a, d) = (CRead, Rx) \/ (a, d) = (CWrite, Tx) ->
     exec i (ACall a) s = Some (mkState (conn s) (<[i:=Idle]> (pcs s))
                             (EvRet i (RIO d 0 (Some ErrClosed)) :: trace s)))
  /\ (exists e, exec i (ACall CDeadline) s = Some (mkState (conn s) (<[i:=Idle]> (pcs s))
                             (EvRet i (RDeadline (Some e)) :: trace s)))
  /\ (forall now, exec i (ACall (CClose now)) s
                   = Some (mkState (conn s) (<[i:=ClWait]> (pcs s)) (trace s))).
Proof.
  intros Hf Hr Hd Hi. pose proof (inv_started _ _ (inv_reachable _ _ Hf Hr)) as Hs.
  destruct (closeDone (conn s)) as [b|] eqn:Eb; [|done]. split_and!.
  - intros a d [E|E]; simplify_eq; unfold exec; rewrite Hi; simpl; unfold beginIO;
      by rewrite Hs.
  - exists (default ErrClosed (closeErr (conn s))).
    unfold exec. rewrite Hi. simpl. unfold withLiveConn. rewrite Hs.
    by destruct (closeErr (conn s)).
  - intros now. unfold exec. rewrite Hi. simpl. unfold Close_enter. by rewrite Eb.
Qed.

(** ** A goroutine alone *)

Lemma exec_at i a s p w q evs :
  pcs s !! i = Some p -> thread_step i a p (conn s) = Some (w, q, evs, false) ->
  exec i a s = Some (mkState w (<[i:=q]> (pcs s)) (evs ++ trace s)).
Proof. intros Hi E. unfold exec. by rewrite Hi, E. Qed.

(** The method a call of direction [d] runs, and its sequential form. *)
Definition io_call (d : dir) : call := match d with Rx => CRead | Tx => CWrite end.

Definition seq_io (d : dir) (n : Z) (err : option error) (ts : Z) w
    : Conn C S X F * (Z * option error) :=
  match d with Rx => Read n err ts w | Tx => Write n err ts w end.

Lemma lookup_insert_self (l : list (pc C S X F)) i p q :
  l !! i = Some p -> <[i:=q]> l !! i = Some q.
Proof. intros H. apply list_lookup_insert_eq. by eapply lookup_lt_Some. Qed.

(** The wrapper after one operation of direction [d] that transferred [n] bytes
    with error [err] at time [ts], field by field. *)
Definition after_io (d : dir) (n : Z) (err : option error) (ts : Z) w : Conn C S X F :=
  let moved := bool_decide (err = None /\ 0 < n) in
  let fatal := bool_decide (err ≫= err_timeout = Some false) in
  match d with
  | Rx => w <| RxBytes := wrapS 64 (RxBytes w + n) |>
            <| FirstRxAt := if moved && (FirstRxAt w =? 0) then ts else FirstRxAt w |>
            <| LastRxAt := if moved then ts else LastRxAt w |>
            <| RxErr := if fatal then err else RxErr w |>
  | Tx => w <| TxBytes := wrapS 64 (TxBytes w + n) |>
            <| FirstTxAt := if moved && (FirstTxAt w =? 0) then ts else FirstTxAt w |>
            <| LastTxAt := if moved then ts else LastTxAt w |>
            <| TxErr := if fatal then err else TxErr w |>
  end.

Lemma after_io_eq d n err ts w c :
  NetConn w = Some c -> closeStarted w = false -> 0 <= inFlight w ->
  beginIO w = (w <| inFlight := inFlight w + 1 |>, inl c)
  /\ finishIO (record_stats d n err ts (w <| inFlight := inFlight w + 1 |>))
     = (after_io d n err ts w, false).
Proof.
  intros Hc Hs Hf. unfold beginIO. rewrite Hs, Hc. split; [done|].
  destruct w as [? ? ? ? ? ? ? ? ? ? ? ? ? ? ? ? ? ? ? ? ? fl ? ?]; simpl in *. subst.
  assert (Hm : bool_decide (err = None) && (n >? 0) = bool_decide (err = None /\ 0 < n)).
  { destruct (Z.gtb_spec n 0); repeat case_bool_decide; simpl; try done; destruct_and?; lia || tauto. }
  assert (Hfn : fatalNetError err = bool_decide (err ≫= err_timeout = Some false)) by by destruct err.
  unfold finishIO, record_stats, Read_stats, Write_stats, after_io. rewrite Hm, Hfn.
  generalize (bool_decide (err = None /\ 0 < n)) as moved.
  generalize (bool_decide (err ≫= err_timeout = Some false)) as fatal. intros fatal moved.
  assert (fl + 1 - 1 = fl) as E by lia. assert (Hl : (fl <? 0) = false) by (apply Z.ltb_ge; lia).
  destruct d, fatal, moved; simpl; try (destruct (_ =? 0); simpl); by rewrite E, Hl.
Qed.

(** C9: A Read or Write that runs without interference from an idle goroutine: on a
    live connection the whole state afterwards is written out (bytes added modulo 2^64,
    first and last time set iff data moved without error, the error kept iff it is a
    network error that is no timeout, inFlight as before and every other field
    unchanged), with the events and the result; on a closing or absent connection
    nothing changes and 0 and net.ErrClosed are returned. The sequential methods
    compute the same. *)
Theorem io_runs_alone d s i n err ts :
  pcs s !! i = Some Idle -> 0 <= inFlight (conn s) ->
  (forall c, NetConn (conn s) = Some c -> closeStarted (conn s) = false ->
     run [(i, ACall (io_call d)); (i, AIO n err); (i, ATick ts); (i, AStep)] s
       = Some (mkState (after_io d n err ts (conn s)) (pcs s)
                 (EvRet i (RIO d n err) :: EvStats d n err ts :: EvIO d n err :: trace s))
     /\ seq_io d n err ts (conn s) = (after_io d n err ts (conn s), (n, err)))
  /\ (NetConn (conn s) = None \/ closeStarted (conn s) = true ->
     run [(i, ACall (io_call d))] s
       = Some (mkState (conn s) (pcs s) (EvRet i (RIO d 0 (Some ErrClosed)) :: trace s))
     /\ seq_io d n err ts (conn s) = (conn s, (0, Some ErrClosed))).
Proof.
  intros Hi Hf. split.
  - intros c Hc Hs. destruct (after_io_eq d n err ts _ _ Hc Hs Hf) as [Eb Ef]. split.
    + cbn [run]. rewrite (exec_at i _ s Idle _ (IO d c) []) by (done || by destruct d; simpl; rewrite Eb).
      cbn [mbind option_bind run app].
      erewrite exec_at; [|by eapply lookup_insert_self|done]. cbn [mbind option_bind run app conn].
      erewrite exec_at; [|by eapply lookup_insert_self, lookup_insert_self|done].
      cbn [mbind option_bind run app conn pcs trace].
      erewrite exec_at; [|by do 3 eapply lookup_insert_self|cbn [thread_step conn]; by rewrite Ef].
      cbn [pcs trace conn]. by rewrite !list_insert_insert_eq, list_insert_id.
    + destruct d; simpl; unfold Read, Write; rewrite Eb; cbn [record_stats] in Ef; by rewrite Ef.
  - intros Hor.
    assert (Eb : beginIO (conn s) = (conn s, inr ErrClosed)).
    { unfold beginIO. destruct Hor as [-> | ->]; by destruct (closeStarted (conn s)). }
    split; [|by destruct d; simpl; unfold Read, Write; rewrite Eb].
    cbn [run]. rewrite (exec_at i _ s Idle (conn s) Idle [EvRet i (RIO d 0 (Some ErrClosed))])
      by (done || by destruct d; simpl; rewrite Eb).
    simpl. by rewrite list_insert_id.
Qed.

(** The wrapper after a first [Close] at time [now], whose close of the wrapped
    connection returned [err] and whose probe found [info] and [e], field by field. *)
Definition after_close (now : Z) (info : option (Info S)) (e err : option error) w
    : Conn C S X F := {|
  NetConn := None;
  Context_ := Context_ w;
  reportStats := reportStats w;
  OpenedAt := OpenedAt w;
  ClosedAt := now;
  FirstRxAt := FirstRxAt w;
  FirstTxAt := FirstTxAt w;
  LastRxAt := LastRxAt w;
  LastTxAt := LastTxAt w;
  TxBytes := TxBytes w;
  RxBytes := RxBytes w;
  RxErr := RxErr w;
  TxErr := TxErr w;
  InfoErr := match info, e with None, None => InfoErr w | _, _ => e end;
  Reconnects := Reconnects w;
  OpenedInfo := OpenedInfo w;
  ClosedInfo := if info is Some _ then info else ClosedInfo w;
  supportsTCPInfo := supportsTCPInfo w;
  closeStarted := true;
  closeDone := Some true;
  closeErr := err;
  inFlight := 0;
  localAddr := localAddr w;
  remoteAddr := remoteAddr w
|}.

(** The snapshot reported then: no connection, callback or channel, and copies of
    the informations. *)
Definition closing_snapshot w : Conn C S X F :=
  w <| reportStats := None |> <| closeDone := None |>
    <| OpenedInfo := Info_Clone <$> OpenedInfo w |>
    <| ClosedInfo := Info_Clone <$> ClosedInfo w |>.

(** The sections of a first [Close], each with the state it leaves. *)
Lemma Close_sections w now (p : probe S) err c :
  closeDone w = None -> NetConn w = Some c -> inFlight w = 0 ->
  let tcp := supportsTCPInfo w && nc_isTCPConn c in
  let info := if tcp && bool_decide (syscallErr p ∪ controlErr p = None)
              then sys_ToInfo <$> sysInfo p else None in
  let e := if tcp then syscallErr p ∪ controlErr p ∪ infoErr p else None in
  let w1 := w <| closeStarted := true |> <| ClosedAt := now |> <| closeDone := Some false |> in
  let w' := after_close now info e err w in
  Close_enter now w = (w1, CloseStart c)
  /\ collectTCPInfo w1 p = (info, e)
  /\ Close_mustWait (Close_detach err w1) = false
  /\ Close_done (Close_finish info e (Close_detach err w1)).1 = w'
  /\ (Close_finish info e (Close_detach err w1)).2
     = (fun f => mkReport f (closing_snapshot w') Closed) <$> reportStats w.
Proof.
  intros Hd Hc Hf tcp info e w1 w'. split_and!.
  - unfold Close_enter. by rewrite Hd, Hc.
  - unfold collectTCPInfo. subst w1. simpl. rewrite Hc. simpl. subst tcp info e.
    by destruct p as [[] [] [] []], (supportsTCPInfo w), (nc_isTCPConn c).
  - unfold Close_mustWait. simpl. by rewrite Hf.
  - subst w1 w'. clearbody info e. unfold Close_finish, applyTCPInfoLocked, after_close.
    destruct w; simpl in *. subst. by destruct info, e.
  - subst w1 w'. clearbody info e.
    unfold Close_finish, applyTCPInfoLocked, after_close, snapshotLocked, localAddrLocked,
      remoteAddrLocked.
    destruct w as [? ? rs ? ? ? ? ? ? ? ? ? ? ? ? ? ? ? ? ? ? ? la ra]; simpl in *. subst.
    by destruct info, e, rs, la, ra.
Qed.

(** C10: A first Close with no operation in flight that runs without interference ends
    after seven steps in a state written out field by field: closed at the given time,
    the error of the connection kept, the connection dropped, the information and error
    of the probe recorded (the first error of SyscallConn, Control and GetTCPInfo),
    everything else unchanged; its events are the close of the wrapped connection, the
    report of that state with copied informations, and the return, in this order. The
    sequential Close computes the same. *)
Theorem close_runs_alone s i now (p : probe S) err c :
  pcs s !! i = Some Idle -> closeDone (conn s) = None -> NetConn (conn s) = Some c ->
  inFlight (conn s) = 0 ->
  let tcp := supportsTCPInfo (conn s) && nc_isTCPConn c in
  let info := if tcp && bool_decide (syscallErr p ∪ controlErr p = None)
              then sys_ToInfo <$> sysInfo p else None in
  let e := if tcp then syscallErr p ∪ controlErr p ∪ infoErr p else None in
  let w' := after_close now info e err (conn s) in
  let rp := (fun f => mkReport f (closing_snapshot w') Closed) <$> reportStats (conn s) in
  run [(i, ACall (CClose now)); (i, AProbe p); (i, AErr err);
       (i, AStep); (i, AStep); (i, AStep); (i, AStep)] s
    = Some (mkState w' (pcs s)
        (EvRet i (RClose err) :: (if rp is Some r then [EvReport r] else [])
         ++ EvClosed err :: trace s))
  /\ Close now p err (conn s) = Some (w', rp, err).
Proof.
  intros Hi Hd Hc Hf tcp info e w' rp. unfold Close.
  destruct (Close_sections (conn s) now p err c Hd Hc Hf) as (E1 & E2 & E3 & E4).
  fold tcp info e w' rp in E2, E4. set (w1 := (conn s) <| closeStarted := true |> <| ClosedAt := now |>
     <| closeDone := Some false |>) in *. rewrite E1, E2, E3.
  destruct (Close_finish info e (Close_detach err w1)) as [w2 rp'] eqn:Ef.
  destruct E4 as [Ew Er]. simpl in Ew, Er. subst rp'. split; [|by rewrite Ew].
  cbn [run].
  rewrite (exec_at i _ s Idle w1 (ClCollect c) []) by (done || (cbn [thread_step]; by rewrite E1)).
  cbn [mbind option_bind run app].
  erewrite exec_at; [|by eapply lookup_insert_self|cbn [thread_step conn]; rewrite E2; done].
  cbn [mbind option_bind run app conn pcs trace].
  erewrite exec_at; [|by eapply lookup_insert_self, lookup_insert_self|done].
  cbn [mbind option_bind run app conn pcs trace].
  erewrite exec_at; [|by do 3 eapply lookup_insert_self|
    cbn [thread_step conn]; unfold drain; rewrite E3, Ef; done].
  cbn [mbind option_bind run app conn pcs trace].
  erewrite exec_at; [|by do 4 eapply lookup_insert_self|done].
  cbn [mbind option_bind run app conn pcs trace].
  erewrite exec_at; [|by do 5 eapply lookup_insert_self|done].
  cbn [mbind option_bind run app conn pcs trace].
  erewrite exec_at; [|by do 6 eapply lookup_insert_self|done].
  cbn [conn pcs trace app]. by rewrite Ew, !list_insert_insert_eq, list_insert_id.
Qed.
End thms.

(** ** A concrete run *)

(** The connection of wrap_test.go: two addresses, not a [*net.TCPConn].  In
    [demo] goroutine 0 reads while goroutine 1 closes: the close goes to sleep,
    the read delivers 4 bytes, and the report counts them. *)
Module Demo.
#[export] Instance fakeConn : NetConnOps unit := {|
  nc_LocalAddr _ := Some "127.0.0.1:12345"%string;
  nc_RemoteAddr _ := Some "127.0.0.1:443"%string;
  nc_isTCPConn _ := false
|}.

Definition no_probe : probe Other.SysInfo := mkProbe None None None None.

Definition wrapped : Conn unit Other.SysInfo unit unit :=
  (WrapConn tt (Some tt) (Some tt) [] 100 no_probe).1.

Definition schedule : list (nat * act Other.SysInfo) :=
  [(0, ACall CRead); (1, ACall (CClose 200)); (1, AProbe no_probe); (1, AErr None);
   (1, AStep); (0, AIO 4 None); (0, ATick 210); (0, AStep); (1, AStep); (1, AStep);
   (1, AStep); (1, AStep)]%nat.

Definition at_step (k : nat) : state unit Other.SysInfo unit unit :=
  default (init wrapped 2) (run (take k schedule) (init wrapped 2)).

Lemma at_step_reachable k :
  run (take k schedule) (init wrapped 2) <> None -> reachable wrapped (at_step k).
Proof.
  unfold at_step. destruct (run _ _) as [s|] eqn:E; [|done]. intros _. simpl.
  by eapply run_reachable.
Qed.

Lemma wrapped_fresh : fresh wrapped.
Proof. apply WrapConn_fresh. Qed.
End Demo.
Import Demo.

Lemma close_report_complete_witness :
  exists r, reports (trace (at_step 12)) = [r] /\ RxBytes (rp_conn r) = 4 /\ TxBytes (rp_conn r) = 0.
Proof.
  eexists. split; [vm_compute; reflexivity|].
  match goal with |- RxBytes (rp_conn ?r) = _ /\ _ =>
    destruct (close_report_complete wrapped (at_step 12) r) as (H1 & H2 & _) end.
  - apply wrapped_fresh.
  - apply at_step_reachable. vm_compute. congruence.
  - vm_compute. left.
  - rewrite H1, H2. vm_compute. split; reflexivity.
Defined.

(** The facts each witness needs: the state after [k] steps is reachable. *)
Lemma step_reachable k :
  (if run (take k schedule) (init wrapped 2) is Some _ then true else false) = true ->
  fresh wrapped /\ reachable wrapped (at_step k).
Proof.
  intros H. split; [apply wrapped_fresh|]. apply at_step_reachable. by intros E; rewrite E in H.
Qed.

Lemma close_once_witness :
  EvRet 1 (RClose None) ∈ trace (at_step 12) /\ closes (trace (at_step 12)) = [None].
Proof.
  destruct (step_reachable 12) as [Hf Hr]; [vm_compute; reflexivity|].
  assert (H : EvRet 1 (RClose None) ∈ trace (at_step 12)) by (vm_compute; left).
  split; [exact H|]. exact (proj1 (proj2 (proj2 (close_once _ _ Hf Hr)) _ _ H)).
Defined.

Lemma close_order_witness :
  exists r tr1 tr2, trace (at_step 12) = tr1 ++ EvReport r :: tr2 /\ length tr1 = 1%nat
    /\ exists e, closes tr2 = [e].
Proof.
  destruct (step_reachable 12) as [Hf Hr]; [vm_compute; reflexivity|].
  eexists _, [EvRet 1 (RClose None)], _.
  refine (let E := _ in conj E (conj eq_refl (proj1 (close_order _ _ _ _ _ Hf Hr E)))).
  vm_compute. reflexivity.
Defined.

Lemma stats_ledger_witness :
  clock_ok (trace (at_step 8)) /\
  stat_view (conn (at_step 8)) = (ledger Rx (trace (at_step 8)), ledger Tx (trace (at_step 8))).
Proof.
  destruct (step_reachable 8) as [Hf Hr]; [vm_compute; reflexivity|].
  assert (H : clock_ok (trace (at_step 8))).
  { vm_compute. repeat first [apply List.Forall_cons | apply List.Forall_nil]; first [exact I | discriminate]. }
  split; [exact H|]. exact (stats_ledger _ _ Hf Hr H).
Defined.

Lemma in_flight_exact_witness :
  inFlight (conn (at_step 5)) = 1 /\ 0 < sumZ io (pcs (at_step 5)).
Proof.
  destruct (step_reachable 5) as [Hf Hr]; [vm_compute; reflexivity|].
  destruct (in_flight_exact _ _ Hf Hr) as (H & _ & Ha). split; [vm_compute; reflexivity|].
  refine (Ha 1%nat _ _ _ _). vm_compute. reflexivity.
Defined.

Lemma calls_can_finish_witness : exists s', rtc inner_step (at_step 5) s' /\ quiescent s'.
Proof.
  destruct (step_reachable 5) as [Hf Hr]; [vm_compute; reflexivity|].
  exact (calls_can_finish _ _ Hf Hr).
Defined.

(** Three steps of the read that a sleeping [Close] waits for. *)
Lemma calls_terminate_witness :
  nsteps inner_step 3 (at_step 5) (at_step 8) /\ 3 <= work (at_step 5).
Proof.
  destruct (step_reachable 5) as [Hf Hr]; [vm_compute; reflexivity|].
  assert (Hn : nsteps inner_step 3 (at_step 5) (at_step 8)).
  { apply (nsteps_l _ _ _ (at_step 6)); [|apply (nsteps_l _ _ _ (at_step 7));
      [|apply (nsteps_l _ _ _ (at_step 8)); [|apply nsteps_O]]].
    - apply (inner_exec 0 (AIO 4 None)); [discriminate|vm_compute; reflexivity].
    - apply (inner_exec 0 (ATick 210)); [discriminate|vm_compute; reflexivity].
    - apply (inner_exec 0 AStep); [discriminate|vm_compute; reflexivity]. }
  split; [exact Hn|]. exact (proj1 (calls_terminate _ _ 3 _ Hf Hr Hn)).
Defined.

Lemma close_returns_after_callback_witness :
  (exists err, pcs (at_step 10) !! 1%nat = Some (ClCallback err))
  /\ ~ EvRet 1 (RClose None) ∈ trace (at_step 10).
Proof.
  destruct (step_reachable 10) as [Hf Hr]; [vm_compute; reflexivity|].
  assert (H : pcs (at_step 10) !! 1%nat = Some (ClCallback None)) by (vm_compute; reflexivity).
  split; [eexists; exact H|].
  exact (proj1 (close_returns_after_callback _ _ 1 None 1 None Hf Hr H)).
Defined.

Lemma closed_rejects_calls_witness :
  exists e, exec 0 (ACall CDeadline) (at_step 12)
            = Some (mkState (conn (at_step 12)) (<[0%nat:=Idle]> (pcs (at_step 12)))
                      (EvRet 0 (RDeadline (Some e)) :: trace (at_step 12))).
Proof.
  destruct (step_reachable 12) as [Hf Hr]; [vm_compute; reflexivity|].
  refine (proj1 (proj2 (closed_rejects_calls _ _ 0 Hf Hr _ _))).
  - vm_compute. congruence.
  - vm_compute. reflexivity.
Defined.

Lemma io_runs_alone_witness :
  exists s', run [(0, ACall CRead); (0, AIO 7 None); (0, ATick 150); (0, AStep)]%nat (at_step 0)
             = Some s'
    /\ RxBytes (conn s') = 7 /\ FirstRxAt (conn s') = 150.
Proof.
  destruct (io_runs_alone Rx (at_step 0) 0 7 None 150) as [H _];
    [vm_compute; reflexivity|vm_compute; congruence|].
  destruct (H tt) as [Hrun _]; [vm_compute; reflexivity..|].
  eexists. split; [exact Hrun|]. vm_compute. split; reflexivity.
Defined.

Lemma close_runs_alone_witness :
  exists s', run [(0, ACall (CClose 300)); (0, AProbe no_probe); (0, AErr None);
                  (0, AStep); (0, AStep); (0, AStep); (0, AStep)]%nat (at_step 0) = Some s'
    /\ length (reports (trace s')) = 1%nat /\ ClosedAt (conn s') = 300.
Proof.
  destruct (close_runs_alone (at_step 0) 0 300 no_probe None tt) as [H _];
    try (vm_compute; reflexivity).
  eexists. split; [exact H|]. vm_compute. split; reflexivity.
Defined.
