(* ===== verification/WrapTimes.v ===== *)
(** The times of a wrapped connection, in every interleaving: what is fixed when it is
    wrapped, when it counts as closed, and the order of its times when the clock does
    not go back. *)

From stdpp Require Import base list strings gmap relations.
From Stdlib Require Import ZArith Lia Sorted.
From S2P Require Import Prelude GoFmt TcpInfo Other Wrap WrapConc WrapInv WrapThms.

Local Open Scope Z_scope.
Local Open Scope go_scope.

(** The clock readings of a step, and of a call of [Close]. *)
Definition act_time {S} (a : act S) : option Z :=
  match a with ACall (CClose now) => Some now | ATick ts => Some ts | _ => None end.
Definition close_time {S} (a : act S) : option Z :=
  match a with ACall (CClose now) => Some now | _ => None end.

(** The clock of a schedule starts at [lo] and never goes back. *)
Definition clock_ascends {S} (lo : Z) (acts : list (act S)) : Prop :=
  Sorted Z.le (lo :: omap act_time acts).

(** First and last transfer of a direction, both after [lo]; 0 when there was none. *)
Definition span_ok (lo first last : Z) : Prop :=
  (first = 0 /\ last = 0) \/ lo <= first <= last.

Section times.
Context {C S X F : Type} `{!NetConnOps C, !Platform S}.
Implicit Types (w : Conn C S X F) (p q : pc C S X F) (s : state C S X F)
  (tr : list (event C S X F)).

(** ** What wrapping fixes *)

Definition fixed_view w :=
  (OpenedAt w, Context_ w, OpenedInfo w, supportsTCPInfo w, localAddr w, remoteAddr w).

Lemma apply_closed_fixed info e w : fixed_view (applyTCPInfoLocked Closed info e w) = fixed_view w.
Proof. unfold applyTCPInfoLocked. by destruct info, e. Qed.

Lemma drain_fixed info e err w w' q : drain info e err w = (w', q) -> fixed_view w' = fixed_view w.
Proof.
  unfold drain, Close_finish. case_match; intros [= <- <-]; [done|]. apply apply_closed_fixed.
Qed.

Lemma record_fixed d n err ts w : fixed_view (record_stats d n err ts w) = fixed_view w.
Proof. destruct d; unfold record_stats, Read_stats, Write_stats; by repeat case_match. Qed.

Lemma thread_step_fixed i a p w w' q evs b :
  thread_step i a p w = Some (w', q, evs, b) -> fixed_view w' = fixed_view w.
Proof.
  intros E. destruct p, a as [[]| | | | |]; cbn [thread_step] in E; try discriminate E;
    try (by simplify_eq); try (by unfold beginIO, Close_enter, withLiveConn in E; repeat case_match; simplify_eq).
  - simplify_eq. apply record_fixed.
  - unfold finishIO in E. by repeat case_match; simplify_eq.
  - destruct (drain _ _ _ _) eqn:Ed. simplify_eq. by apply drain_fixed in Ed.
  - destruct (drain _ _ _ _) eqn:Ed. simplify_eq. by apply drain_fixed in Ed.
Qed.

Lemma run_fixed sched s s' : run sched s = Some s' -> fixed_view (conn s') = fixed_view (conn s).
Proof.
  revert s. induction sched as [|[i a] sched IH]; intros s E; simpl in E; [by simplify_eq|].
  unfold exec in E. destruct (pcs s !! i) as [p|]; [|done].
  destruct (thread_step i a p (conn s)) as [[[[w q] evs] b]|] eqn:Et; [|done].
  rewrite (IH _ E). simpl. by eapply thread_step_fixed.
Qed.

Lemma WrapConn_times (ctx : X) (ncon : option C) (f : option F) opts now pr :
  let w := (WrapConnWithContext ctx ncon f opts now pr).1 in
  OpenedAt w = now /\ ClosedAt w = 0 /\ NetConn w = ncon
  /\ localAddr w = (ncon ≫= nc_LocalAddr) /\ remoteAddr w = (ncon ≫= nc_RemoteAddr).
Proof.
  unfold WrapConnWithContext, reportState. destruct (collectTCPInfo _ _) as [info e].
  unfold applyTCPInfoLocked. by destruct (emitOpenCallback _), info, e, f.
Qed.

(** The addresses a run reports are those of the connection that was wrapped. *)
Lemma run_addrs (ctx : X) (c : C) (f : option F) opts now pr n sched s :
  run sched (init (WrapConnWithContext ctx (Some c) f opts now pr).1 n) = Some s ->
  OpenedAt (conn s) = now
  /\ localAddrLocked (conn s) = nc_LocalAddr c /\ remoteAddrLocked (conn s) = nc_RemoteAddr c.
Proof.
  intros E. pose proof (run_reachable _ _ _ _ E) as Hr.
  pose proof (inv_same _ _ (inv_reachable _ _ (WrapConn_fresh ctx c f opts now pr) Hr)) as Hs.
  destruct (WrapConn_times ctx (Some c) f opts now pr) as (W1 & _ & W2 & W3 & W4).
  apply run_fixed in E. injection E as E1 _ _ _ E2 E3. simpl in E1, E2, E3.
  rewrite W2 in Hs. unfold localAddrLocked, remoteAddrLocked. rewrite E1, E2, E3, W1, W3, W4. simpl.
  split_and!; [done|..]; (case_match; [done|]); destruct (NetConn (conn s)) as [c'|]; try done;
    by injection (Hs c' eq_refl) as <-.
Qed.

(** ** Times *)

(** The times that change. *)
Definition time_view w := (FirstRxAt w, LastRxAt w, FirstTxAt w, LastTxAt w, ClosedAt w).

Lemma drain_times info e err w w' q :
  drain info e err w = (w', q) -> time_view w' = time_view w /\ closeDone w' = closeDone w.
Proof.
  unfold drain, Close_finish, applyTCPInfoLocked. case_match; intros [= <- <-]; [done|].
  by destruct info, e.
Qed.

(** The only steps that read the clock. *)
Lemma thread_step_times w0 i a p s w' q evs b :
  Inv w0 s -> pcs s !! i = Some p ->
  close_time a = None -> thread_step i a p (conn s) = Some (w', q, evs, b) ->
  (closeDone (conn s) = None <-> closeDone w' = None)
  /\ (time_view w' = time_view (conn s)
      \/ exists d n err ts, a = ATick ts /\ w' = record_stats d n err ts (conn s)).
Proof.
  intros HI Hi Ha E. set (w := conn s) in *.
  destruct p, a as [[]| | | | |]; cbn [thread_step] in E; try discriminate E; try discriminate Ha;
    try (by simplify_eq; auto);
    try (by unfold beginIO, withLiveConn in E; repeat case_match; simplify_eq; auto).
  - simplify_eq. split; [|eauto 8].
    destruct d; unfold record_stats, Read_stats, Write_stats; by repeat case_match.
  - unfold finishIO in E. by repeat case_match; simplify_eq; auto.
  - destruct (drain _ _ _ _) eqn:Ed. simplify_eq. apply drain_times in Ed as [-> ->]. auto.
  - destruct (drain _ _ _ _) eqn:Ed. simplify_eq. apply drain_times in Ed as [-> ->]. auto.
  - simplify_eq. split; [|by left]. simpl.
    destruct (closer_unique _ _ _ _ HI Hi) as [Hd _]; [done|]. subst w. by rewrite Hd.
  - destruct (closeDone w) as [[]|] eqn:Ed; simplify_eq. by rewrite Ed; auto.
Qed.

(** A call of [Close] on an open connection sets the time; no other call does. *)
Lemma close_call_times w0 i now p s w' q evs b :
  Inv w0 s -> pcs s !! i = Some p ->
  thread_step i (ACall (CClose now)) p (conn s) = Some (w', q, evs, b) ->
  closeDone w' <> None
  /\ time_view w' = (let '(f, l, f', l', c) := time_view (conn s) in
       (f, l, f', l', if closeDone (conn s) is None then now else c)).
Proof.
  intros HI Hi E. destruct p; try discriminate E. cbn [thread_step] in E. unfold Close_enter in E.
  destruct (closeDone (conn s)) as [d|] eqn:Ed; [by simplify_eq; rewrite Ed|].
  pose proof (inv_conn _ _ HI) as Hc. rewrite Ed in Hc.
  assert (sumZ detached (pcs s) = 0) as H0.
  { apply sumZ_zero. intros j q' Hj. by eapply closer_detached, open_no_closer. }
  destruct (NetConn (conn s)); [|lia]. by simplify_eq.
Qed.

(** The times of [w] in a run that began at [now] and whose clock stands at [lo]:
    [c] is the time of the first call of [Close]. *)
Definition times_at (now lo : Z) (c : option Z) w : Prop :=
  now <= lo /\ span_ok now (FirstRxAt w) (LastRxAt w) /\ LastRxAt w <= lo
  /\ span_ok now (FirstTxAt w) (LastTxAt w) /\ LastTxAt w <= lo
  /\ ClosedAt w = default 0 c /\ (closeDone w = None <-> c = None)
  /\ (forall t, c = Some t -> now <= t).

Lemma record_times now lo c d n err ts w :
  0 < now -> lo <= ts -> times_at now lo c w -> times_at now ts c (record_stats d n err ts w).
Proof.
  intros H0 Hts (H1 & H2 & H3 & H4 & H5 & H6 & H7 & H8). unfold span_ok in *.
  destruct d; unfold record_stats, Read_stats, Write_stats, times_at, span_ok;
    repeat (case_match; simpl); split_and!; try done; rewrite ?Z.eqb_eq, ?Z.eqb_neq in *; lia.
Qed.

(** One step of a run. *)
Lemma exec_times w0 now lo c i a s s' :
  0 < now -> Inv w0 s -> times_at now lo c (conn s) -> exec i a s = Some s' ->
  (forall t, act_time a = Some t -> lo <= t) ->
  times_at now (default lo (act_time a)) (match c with Some _ => c | None => close_time a end) (conn s').
Proof.
  intros H0 HI Ht E Ha. unfold exec in E. destruct (pcs s !! i) as [p|] eqn:Hi; [|done].
  destruct (thread_step i a p (conn s)) as [[[[w q] evs] b]|] eqn:Et; [|done].
  injection E as <-. simpl. pose proof Ht as (H1 & H2 & H3 & H4 & H5 & H6 & H7 & H8).
  destruct (close_time a) as [t|] eqn:Ec.
  - destruct a as [[| |t'| |]| | | | |]; try discriminate Ec. injection Ec as ->. simpl in *.
    destruct (close_call_times _ _ _ _ _ _ _ _ _ HI Hi Et) as [Hd [= E1 E2 E3 E4 E5]].
    specialize (Ha t eq_refl). unfold times_at. rewrite E1, E2, E3, E4, E5.
    split_and!; try lia; try done.
    + by destruct (closeDone (conn s)), c; simpl; try done; destruct H7 as [Hn Hn'];
        try discriminate (Hn eq_refl); discriminate (Hn' eq_refl).
    + by destruct c.
    + destruct c as [c|]; [by apply H8|]. intros ? [= <-]. lia.
  - destruct (thread_step_times _ _ _ _ _ _ _ _ _ HI Hi Ec Et) as [Hd [Hv|(d & n & err & ts & -> & ->)]].
    + assert (Hlo : lo <= default lo (act_time a)) by (destruct (act_time a); simpl; auto; lia).
      injection Hv as E1 E2 E3 E4 E5. unfold times_at. rewrite E1, E2, E3, E4, E5, <- Hd.
      destruct c; split_and!; try lia; done.
    + simpl. destruct c; apply (record_times _ lo); auto.
Qed.

(** All the steps: the first call of [Close] gives the time. *)
Lemma run_times w0 now lo c sched s s' :
  0 < now -> Inv w0 s -> times_at now lo c (conn s) -> run sched s = Some s' ->
  clock_ascends lo sched.*2 ->
  exists lo', times_at now lo' (match c with Some _ => c | None => head (omap close_time sched.*2) end) (conn s').
Proof.
  intros H0. revert lo c s. induction sched as [|[i a] sched IH]; intros lo c s HI Ht E Hs.
  { simpl in *. simplify_eq. exists lo. by destruct c. }
  simpl in E. destruct (exec i a s) as [s1|] eqn:E1; [|done]. simpl in E.
  unfold clock_ascends in Hs. csimpl in Hs.
  assert (Hs' : (forall t, act_time a = Some t -> lo <= t) /\ clock_ascends (default lo (act_time a)) sched.*2).
  { unfold clock_ascends. destruct (act_time a) as [t|]; simpl; [|done].
    apply Sorted_inv in Hs as [Hs Hh]. split; [|done]. intros ? [= <-]. by inversion Hh. }
  destruct Hs' as [Ha Hs'].
  pose proof (exec_times _ _ _ _ _ _ _ _ H0 HI Ht E1 Ha) as Ht1.
  assert (HI1 : Inv w0 s1) by (eapply inv_step; [done|by econstructor]).
  destruct (IH _ _ s1 HI1 Ht1 E Hs') as [lo' H]. exists lo'. csimpl. destruct c; [done|]. by destruct (close_time a).
Qed.

(** C12: In every run of goroutines on a connection wrapped at a positive time, with a
    clock that does not go back, the connection and every report have: OpenedAt the
    time of wrapping; ClosedAt the time of the first call of Close (0 without one,
    later calls do not move it), not before OpenedAt; in each direction no transfer, or
    a first and a last transfer with OpenedAt <= first <= last. *)
Theorem times_ordered (ctx : X) (c : C) (f : option F) opts now pr n sched s :
  0 < now -> clock_ascends now sched.*2 ->
  run sched (init (WrapConnWithContext ctx (Some c) f opts now pr).1 n) = Some s ->
  forall w, w = conn s \/ (exists r, r ∈ reports (trace s) /\ w = rp_conn r) ->
    OpenedAt w = now
    /\ ClosedAt w = default 0 (head (omap close_time sched.*2))
    /\ (ClosedAt w = 0 \/ now <= ClosedAt w)
    /\ span_ok now (FirstRxAt w) (LastRxAt w) /\ span_ok now (FirstTxAt w) (LastTxAt w).
Proof.
  intros H0 Hs E. pose proof (run_reachable _ _ _ _ E) as Hr.
  pose proof (WrapConn_fresh ctx c f opts now pr) as Hf.
  destruct (closes_reports _ _ (inv_reachable _ _ Hf Hr)) as (_ & _ & Hrep).
  assert (Hc : OpenedAt (conn s) = now
    /\ ClosedAt (conn s) = default 0 (head (omap close_time sched.*2))
    /\ (ClosedAt (conn s) = 0 \/ now <= ClosedAt (conn s))
    /\ span_ok now (FirstRxAt (conn s)) (LastRxAt (conn s))
    /\ span_ok now (FirstTxAt (conn s)) (LastTxAt (conn s))).
  { set (w0 := (WrapConnWithContext ctx (Some c) f opts now pr).1) in *.
    destruct (run_times w0 now now None sched (init w0 n) s H0 (inv_init _ _ Hf))
      as [lo (H1 & H2 & H3 & H4 & H5 & H6 & H7 & H8)]; [|done..|].
    - destruct Hf as (_ & _ & Hd & _ & _ & (E1 & E2 & _) & (E3 & E4 & _)).
      unfold times_at, span_ok. simpl. rewrite E1, E2, E3, E4, Hd.
      split_and!; try lia; try done; auto. apply WrapConn_times.
    - apply run_fixed in E. injection E as E _ _ _ _ _. simpl in E.
      split_and!; try done; [rewrite E; apply WrapConn_times|].
      rewrite H6. destruct (head _) as [t|]; simpl; [right; by apply H8|by left]. }
  intros w [->|(r & Hin & ->)]; [done|]. destruct (Hrep r Hin) as (_ & (_ & _ & ->) & _). exact Hc.
Qed.
End times.

Import Demo.

(** Goroutine 1 closes at 200 while a read of goroutine 0 is in flight; its 4 bytes
    arrive at 210. *)
Lemma times_ordered_witness :
  exists s, run schedule (init wrapped 2) = Some s
    /\ OpenedAt (conn s) = 100 /\ ClosedAt (conn s) = 200
    /\ span_ok 100 (FirstRxAt (conn s)) (LastRxAt (conn s)).
Proof.
  destruct (run schedule (init wrapped 2)) as [s|] eqn:E; [|vm_compute in E; discriminate E].
  exists s. split; [reflexivity|].
  destruct (times_ordered tt tt (Some tt) [] 100 no_probe 2 schedule s) with (w := conn s)
    as (H1 & H2 & _ & H3 & _); [lia| |exact E|by left|].
  { unfold clock_ascends. vm_compute. repeat first [apply Sorted_cons | apply Sorted_nil
      | apply HdRel_cons | apply HdRel_nil]; discriminate. }
  split_and!; [exact H1|exact H2|exact H3].
Defined.
