(* ===== verification/WrapInfo.v ===== *)
(** The informations a wrapped connection and its reports hold, in every interleaving: a
    property of the informations that a platform makes, kept by copies, holds of every
    report. *)

From stdpp Require Import base list strings gmap.
From Stdlib Require Import ZArith Lia.
From S2P Require Import Prelude GoFmt TcpInfo Wrap WrapConc WrapInv.

Local Open Scope Z_scope.

Section held.
Context {C S X F : Type} `{!NetConnOps C, !Platform S}.
(** Good informations and good values of the platform. *)
Context (iok : Info S -> Prop) (sok : S -> Prop).
Hypothesis iok_clone : forall i, iok i -> iok (Info_Clone i).
Hypothesis iok_ToInfo : forall s, sok s -> iok (sys_ToInfo s).

Definition conn_holds (w : Conn C S X F) : Prop :=
  (forall i, OpenedInfo w = Some i -> iok i) /\ (forall i, ClosedInfo w = Some i -> iok i).
Definition probe_holds (p : probe S) : Prop := forall s, sysInfo p = Some s -> sok s.

(** The answers of the world in a step. *)
Definition act_holds (a : act S) : Prop :=
  match a with AProbe p => probe_holds p | _ => True end.

(** The informations and reports held by a goroutine. *)
Definition pc_holds (p : pc C S X F) : Prop :=
  match p with
  | ClClose _ (Some i) _ | ClDetach (Some i) _ _ | ClAsleep (Some i) _ _ | ClAwake (Some i) _ _ => iok i
  | ClReport (Some r) _ => conn_holds (rp_conn r)
  | _ => True
  end.

Definition state_holds (s : state C S X F) : Prop :=
  conn_holds (conn s) /\ Forall pc_holds (pcs s) /\ forall r, r ∈ reports (trace s) -> conn_holds (rp_conn r).

Lemma snapshot_holds w : conn_holds w -> conn_holds (snapshotLocked w).
Proof.
  intros (Ho & Hc). split; simpl; intros i Hi;
    apply fmap_Some in Hi as (i' & Ei & ->); apply iok_clone; auto.
Qed.

Lemma collect_holds (w : Conn C S X F) p i e :
  probe_holds p -> collectTCPInfo w p = (Some i, e) -> iok i.
Proof.
  intros Hp. unfold collectTCPInfo. repeat case_match; intros [= <- _]; try done.
  by apply iok_ToInfo, Hp.
Qed.

Lemma apply_holds st i e (w : Conn C S X F) :
  (forall x, i = Some x -> iok x) -> conn_holds w -> conn_holds (applyTCPInfoLocked st i e w).
Proof.
  intros Hi (Ho & Hc). unfold applyTCPInfoLocked, conn_holds. repeat case_match; simpl; split;
    try done; intros x [= <-]; by apply Hi.
Qed.

Lemma WrapConn_holds ctx ncon f opts now p :
  probe_holds p -> conn_holds (WrapConnWithContext (C:=C) (X:=X) (F:=F) ctx ncon f opts now p).1.
Proof.
  intros Hp. unfold WrapConnWithContext. destruct (collectTCPInfo _ p) as [info infoErr] eqn:Ei.
  assert (Hi : forall x, info = Some x -> iok x) by (intros x ->; by eapply collect_holds).
  unfold reportState. repeat case_match; simpl; by apply apply_holds.
Qed.

Lemma drain_holds info e err (w : Conn C S X F) w' p :
  (forall i, info = Some i -> iok i) -> conn_holds w -> drain info e err w = (w', p) ->
  conn_holds w' /\ pc_holds p.
Proof.
  intros Hi Hw. unfold drain. destruct (Close_mustWait w).
  - intros [= <- <-]. split; [done|]. destruct info as [i|]; [by apply Hi|done].
  - unfold Close_finish. intros [= <- <-].
    assert (Ha : conn_holds (applyTCPInfoLocked Closed info e w)) by by apply apply_holds.
    split; [done|]. destruct (reportStats _); [|done]. simpl. by apply snapshot_holds.
Qed.

(** Reading and writing leave the informations as they are. *)
Lemma record_holds d n err ts (w : Conn C S X F) :
  conn_holds w -> conn_holds (record_stats d n err ts w).
Proof.
  intros (Ho & Hc). destruct d; unfold record_stats, Read_stats, Write_stats, conn_holds;
    by repeat case_match.
Qed.

(** Steps without a report. *)
Ltac no_report := split_and!; try done; try (intros ? Hr; by apply elem_of_nil in Hr).

Lemma call_holds i c (w : Conn C S X F) w' p' evs b :
  conn_holds w -> thread_step i (ACall c) Idle w = Some (w', p', evs, b) ->
  conn_holds w' /\ pc_holds p' /\ forall r, r ∈ reports evs -> conn_holds (rp_conn r).
Proof.
  intros Hw Hs. destruct c; cbn [thread_step] in Hs; unfold beginIO, Close_enter, withLiveConn in Hs;
    repeat case_match; simplify_eq; no_report.
Qed.

Lemma thread_step_holds i a p (w : Conn C S X F) w' p' evs b :
  act_holds a -> conn_holds w -> pc_holds p -> thread_step i a p w = Some (w', p', evs, b) ->
  conn_holds w' /\ pc_holds p' /\ forall r, r ∈ reports evs -> conn_holds (rp_conn r).
Proof.
  intros Ha Hw Hp Hs.
  destruct p, a; try discriminate Hs; try (by eapply call_holds); cbn [thread_step] in Hs;
    try (simplify_eq; by no_report).
  - simplify_eq. no_report. by apply record_holds.
  - destruct (finishIO w) as [w1 b1] eqn:Ef. simplify_eq. unfold finishIO in Ef. no_report.
    injection Ef as <- _. by case_match.
  - destruct (collectTCPInfo w p) as [[x|] e] eqn:Ec; simplify_eq; no_report. by eapply collect_holds.
  - assert (Hi : forall x, info = Some x -> iok x) by (intros x ->; exact Hp).
    destruct (drain _ _ _ _) as [w1 p1] eqn:Ed. simplify_eq.
    apply (drain_holds _ _ _ _ _ _ Hi) in Ed as []; [no_report|done].
  - assert (Hi : forall x, info = Some x -> iok x) by (intros x ->; exact Hp).
    destruct (drain _ _ _ _) as [w1 p1] eqn:Ed. simplify_eq.
    apply (drain_holds _ _ _ _ _ _ Hi Hw) in Ed as []. no_report.
  - simplify_eq. destruct rp as [rp|]; no_report. intros r Hr.
    apply list_elem_of_singleton in Hr as ->. exact Hp.
  - repeat case_match; simplify_eq. no_report.
Qed.

Lemma exec_holds i a s s' : act_holds a -> state_holds s -> exec i a s = Some s' -> state_holds s'.
Proof.
  intros Ha (Hc & Hps & Hr). unfold exec. destruct (pcs s !! i) as [p|] eqn:Ep; [|done].
  destruct (thread_step i a p (conn s)) as [[[[w p'] evs] b]|] eqn:Es; [|done]. intros [= <-].
  assert (Hp : pc_holds p) by by eapply Forall_lookup_1.
  destruct (thread_step_holds _ _ _ _ _ _ _ _ Ha Hc Hp Es) as (H1 & H2 & H3). split_and!; simpl.
  - done.
  - apply Forall_insert; [|done]. destruct b; [|done]. apply Forall_fmap.
    eapply Forall_impl; [exact Hps|]. intros q Hq. by destruct q.
  - intros r. unfold reports. rewrite omap_app, elem_of_app. intros [Hin|Hin]; auto.
Qed.

Lemma run_holds sched s s' :
  Forall act_holds sched.*2 -> state_holds s -> run sched s = Some s' -> state_holds s'.
Proof.
  revert s. induction sched as [|[i a] sched IH]; intros s Ha Hs; simpl; [by intros [= <-]|].
  apply Forall_cons in Ha as [Ha Hsched]. destruct (exec i a s) as [s1|] eqn:E; [|done].
  simpl. apply IH; [done|]. by eapply exec_holds.
Qed.

(** The runs of a connection that was just wrapped. *)
Lemma wrapped_run_holds ctx ncon f opts now p n sched s :
  probe_holds p -> Forall act_holds sched.*2 ->
  run sched (init (WrapConnWithContext (C:=C) (X:=X) (F:=F) ctx ncon f opts now p).1 n) = Some s ->
  state_holds s.
Proof.
  intros Hp Ha. apply run_holds; [done|].
  split_and!; simpl; [by apply WrapConn_holds|by apply Forall_replicate|intros r Hr; by apply elem_of_nil in Hr].
Qed.
End held.
