(* ===== verification/WrapPlatforms.v ===== *)
(** The wrapper on Linux: the parts of the platform meet the interface the
    wrapper's theorems are proved against, so that they hold of the wrapper as it
    is built there; and the path of the numbers from the kernel to the report. *)

From stdpp Require Import base list strings gmap.
From Stdlib Require Import ZArith Lia.
From S2P Require Import Prelude GoFmt Layout Kernel TcpInfo LinuxInit LinuxRaw Linux.
From S2P Require Import LinuxThms LinuxUnpack Wrap WrapConc WrapInv WrapThms.

Local Open Scope Z_scope.
Local Open Scope go_scope.

Section linux.
Context {C X F : Type} `{!NetConnOps C} (g : globals).

#[local] Instance linux_platform : Platform Linux.SysInfo := Linux_Platform g.
#[local] Instance linux_laws : PlatformLaws Linux.SysInfo := Linux_Laws g.

(** What [SyscallConn] and [Control] hand to [GetTCPInfo] when they succeed. *)
Definition probeOf (r : option Linux.SysInfo * option error) : probe Linux.SysInfo :=
  mkProbe None None r.1 r.2.

(** C20: Wrapping a TCP connection on Linux when the kernel's struct is fetched:
    OpenedInfo has the round-trip times and timeout of the struct in nanoseconds, its
    segment size and its retransmissions, and InfoErr is the error of the congestion
    control calls. *)
Theorem linux_opened_info {V B D : Type} `{!Linux.UnixCC V B D}
    raw alg (vegas : Z -> V + error) (bbr : Z -> B + error) (dctcp : Z -> D + error)
    (ctx : X) (c : C) (f : option F) opts now fd r :
  nc_isTCPConn c = true -> Linux.Supported g = true -> raw g fd = inl r -> Raw.in_range r ->
  let w := (WrapConnWithContext ctx (Some c) f opts now
              (probeOf (Linux.GetTCPInfo raw alg vegas bbr dctcp g fd))).1 in
  exists i, OpenedInfo w = Some i
    /\ RTT i = 1000 * Raw.rtt r /\ RTTVar i = 1000 * Raw.rttvar r /\ RTO i = 1000 * Raw.rto r
    /\ TxMSS i = Raw.snd_mss r /\ Retransmits i = Raw.total_retrans r
    /\ InfoErr w = (Linux.GetTCPInfo raw alg vegas bbr dctcp g fd).2.
Proof.
  intros Htcp Hsup Hraw Hr.
  destruct (GetTCPInfo_info raw alg vegas bbr dctcp g fd r Hsup Hraw) as (s & e & -> & Hs).
  unfold WrapConnWithContext, collectTCPInfo, probeOf. simpl. rewrite Hsup, Htcp. simpl.
  exists (Linux.ToInfo s).
  assert (Hi : RTT (Linux.ToInfo s) = 1000 * Raw.rtt r /\ RTTVar (Linux.ToInfo s) = 1000 * Raw.rttvar r
    /\ RTO (Linux.ToInfo s) = 1000 * Raw.rto r /\ TxMSS (Linux.ToInfo s) = Raw.snd_mss r
    /\ Retransmits (Linux.ToInfo s) = Raw.total_retrans r).
  { destruct (ToInfo_units (flags g) r Hr) as (H1 & H2 & H3 & _ & _ & _ & _ & _ & H4 & _ & _ & _ & _ & _ & H5 & _).
    rewrite <- Hs in *. done. }
  destruct (emitOpenCallback (applyOptions opts)), f, e; simpl; split_and!; by destruct_and?.
Qed.
End linux.

(** ** A connection on a concrete kernel *)

Import Demo_linux.

Module Demo_tcp.
#[export] Instance tcpConn : NetConnOps unit := {|
  nc_LocalAddr _ := Some "10.0.0.1:40000"%string;
  nc_RemoteAddr _ := Some "10.0.0.2:443"%string;
  nc_isTCPConn _ := true
|}.

Definition sockInfo : option Linux.SysInfo * option error :=
  Linux.GetTCPInfo (fun _ _ => inl ones) (fun _ => inl "cubic"%string)
    (fun _ => inl tt) (fun _ => inl tt) (fun _ => inl tt) (on 5 15 0) 3.

Definition conn : Conn unit Linux.SysInfo unit unit :=
  (WrapConn (Platform0 := Linux_Platform (on 5 15 0)) tt (Some tt) (Some tt) [] 100 (probeOf sockInfo)).1.
End Demo_tcp.

Lemma linux_opened_info_witness : exists i, OpenedInfo Demo_tcp.conn = Some i /\ RTT i = 1000.
Proof.
  destruct (linux_opened_info (NetConnOps0 := Demo_tcp.tcpConn) (on 5 15 0) (fun _ _ => inl ones)
    (fun _ => inl "cubic"%string) (fun _ => inl tt) (fun _ => inl tt) (fun _ => inl tt)
    tt tt (Some tt) [] 100 3 ones) as (i & H1 & H2 & _).
  - reflexivity.
  - vm_compute. reflexivity.
  - reflexivity.
  - apply ones_in_range.
  - exists i. split; [exact H1|exact H2].
Defined.

Lemma snapshot_faithful_witness :
  let P := Linux_Platform (on 5 15 0) in
  ~ OpenedInfo Demo_tcp.conn = None
  /\ warnings (Platform0 := P) (snapshotLocked (Platform0 := P) (NetConnOps0 := Demo_tcp.tcpConn) Demo_tcp.conn)
     = warnings (Platform0 := P) Demo_tcp.conn.
Proof.
  split; [vm_compute; congruence|].
  exact (proj1 (@snapshot_faithful unit Linux.SysInfo unit unit Demo_tcp.tcpConn
                  (Linux_Platform (on 5 15 0)) (Linux_Laws (on 5 15 0)) Demo_tcp.conn)).
Defined.
