(* ===== verification/Heap.v ===== *)
(** Memory: the pointers and slices that an [Info] holds, the copies made by its method
    [Clone] and by [SysInfo.Clone] (pkg/tcpinfo), and the snapshots of the wrapper built
    from them.  The other files take these objects as values; here they are cells of a
    store, so that sharing is visible: [ToInfo] gives the information and its SysInfo
    the same arrays, and a snapshot shares nothing with the connection it was taken
    from. *)

From stdpp Require Import base list strings gmap.
From Stdlib Require Import ZArith Lia.
From S2P Require Import Prelude GoFmt TcpInfo Other LinuxInit LinuxRaw Linux LinuxThms.
From S2P Require Import Darwin Windows Wrap.

Local Open Scope Z_scope.

(** ** The store *)

(** A slice of options: the array it points to and its length. *)
Definition hslice : Type := option (positive * nat).

(** The information with other options and another SysInfo. *)
Definition with_mem {S S'} (tx rx : slice Option) (sys : option S') (i : Info S) : Info S' :=
  mkInfo S' (State i) tx rx (TxMSS i) (RxMSS i) (RTT i) (RTTVar i) (RTO i) (ATO i)
    (TcpInfo.LastTxAt i) (TcpInfo.LastRxAt i) (LastTxAckAt i) (LastRxAckAt i) (RxWindow i)
    (TxSSThreshold i) (RxSSThreshold i) (TxWindowBytes i) (TxWindowSegs i) (Retransmits i) sys.

(** What the store needs of a platform's SysInfo: its slices of options are the only
    memory it refers to. [m_shares] and [m_keeps] tell whether [ToInfo] copies the
    slices and keeps a pointer to the SysInfo. *)
Class SysMemory (S : Type) `{!Platform S} := {
  m_with : slice Option -> slice Option -> S -> S;
  m_shares : bool;
  m_keeps : bool;
  m_Clone a b s : sys_Clone (m_with a b s) = m_with (cloneOptions a) (cloneOptions b) s;
  m_ToInfo a b s : sys_ToInfo (m_with a b s)
    = with_mem (if m_shares then a else None) (if m_shares then b else None)
        (if m_keeps then Some (m_with a b s) else None) (sys_ToInfo s)
}.

#[export] Instance Linux_Memory g : SysMemory Linux.SysInfo (Platform0 := Linux_Platform g).
Proof.
  apply (Build_SysMemory _ (Linux_Platform g)
    (fun a b s => (s <| Linux.TxOptions := a |> <| Linux.RxOptions := b |>)%go) true true); by intros a b [].
Defined.
#[export] Instance Darwin_Memory : SysMemory Darwin.SysInfo.
Proof.
  apply (Build_SysMemory _ _
    (fun a b s => (s <| Darwin.TxOptions := a |> <| Darwin.RxOptions := b |>)%go) true true); by intros a b [].
Defined.
#[export] Instance Windows_Memory : SysMemory Win.SysInfo.
Proof. by apply (Build_SysMemory _ _ (fun _ _ s => s) false true). Defined.
#[export] Instance Other_Memory : SysMemory Other.SysInfo.
Proof. by apply (Build_SysMemory _ _ (fun _ _ s => s) false false). Defined.

Section memory.
Context {S : Type} `{!Platform S, !SysMemory S}.

(** A SysInfo and an Info: their plain fields, slices and pointers. *)
Record sysobj := mkSysobj { so_val : S; so_tx : hslice; so_rx : hslice }.
Record infoobj := mkInfoobj { io_val : Info S; io_tx : hslice; io_rx : hslice; io_sys : option positive }.

Record heap := mkHeap {
  arrs : gmap positive (list Option); syss : gmap positive sysobj; infos : gmap positive infoobj
}.

Definition alloc_arr (l : list Option) (h : heap) : positive * heap :=
  let p := fresh (dom (arrs h)) in (p, mkHeap (<[p := l]> (arrs h)) (syss h) (infos h)).
Definition alloc_sys (s : sysobj) (h : heap) : positive * heap :=
  let p := fresh (dom (syss h)) in (p, mkHeap (arrs h) (<[p := s]> (syss h)) (infos h)).
Definition alloc_info (i : infoobj) (h : heap) : positive * heap :=
  let p := fresh (dom (infos h)) in (p, mkHeap (arrs h) (syss h) (<[p := i]> (infos h))).

(** ** Reading *)

Definition rd_slice (h : heap) (o : hslice) : slice Option :=
  match o with None => None | Some (p, n) => Some (take n (default [] (arrs h !! p))) end.
Definition rd_sys (h : heap) (p : positive) : option S :=
  (fun s => m_with (rd_slice h (so_tx s)) (rd_slice h (so_rx s)) (so_val s)) <$> syss h !! p.
Definition rd_info (h : heap) (o : option positive) : option (Info S) :=
  match o with
  | None => None
  | Some p => (fun i => with_mem (rd_slice h (io_tx i)) (rd_slice h (io_rx i)) (io_sys i ≫= rd_sys h) (io_val i))
                <$> infos h !! p
  end.

(** ** The methods *)

(** [cloneOptions]: appending to a nil slice makes a new array unless there is nothing
    to append. *)
Definition cloneOptions_h (o : hslice) (h : heap) : hslice * heap :=
  match rd_slice h o with
  | None | Some [] => (None, h)
  | Some l => let '(p, h) := alloc_arr l h in (Some (p, length l), h)
  end.

(** [SysInfo.Clone] *)
Definition Sys_Clone_h (o : option positive) (h : heap) : option positive * heap :=
  match o ≫= fun p => syss h !! p with
  | None => (None, h)
  | Some s =>
      let '(tx, h) := cloneOptions_h (so_tx s) h in
      let '(rx, h) := cloneOptions_h (so_rx s) h in
      let '(p, h) := alloc_sys (mkSysobj (so_val s) tx rx) h in
      (Some p, h)
  end.

(** [Info.Clone] *)
Definition Info_Clone_h (o : option positive) (h : heap) : option positive * heap :=
  match o ≫= fun p => infos h !! p with
  | None => (None, h)
  | Some i =>
      let '(tx, h) := cloneOptions_h (io_tx i) h in
      let '(rx, h) := cloneOptions_h (io_rx i) h in
      let '(sys, h) := Sys_Clone_h (io_sys i) h in
      let '(p, h) := alloc_info (mkInfoobj (io_val i) tx rx sys) h in
      (Some p, h)
  end.

(** [SysInfo.ToInfo] *)
Definition ToInfo_h (p : positive) (h : heap) : option positive * heap :=
  match syss h !! p with
  | None => (None, h)
  | Some s =>
      let '(q, h) := alloc_info (mkInfoobj (sys_ToInfo (so_val s))
        (if m_shares then so_tx s else None) (if m_shares then so_rx s else None)
        (if m_keeps then Some p else None)) h in
      (Some q, h)
  end.

(** [snapshotLocked] clones both informations of the connection. *)
Definition snapshot_h (openedInfo closedInfo : option positive) (h : heap)
    : (option positive * option positive) * heap :=
  let '(o, h) := Info_Clone_h openedInfo h in
  let '(c, h) := Info_Clone_h closedInfo h in
  ((o, c), h).
End memory.
Arguments sysobj : clear implicits.
Arguments infoobj : clear implicits.
Arguments heap : clear implicits.

(** ** Stores that agree *)

Section laws.
Context {S : Type} `{!Platform S, !SysMemory S}.
Implicit Types h : heap S.

(** Every object of the first store is in the second, unchanged. *)
Definition extends h h2 : Prop := arrs h ⊆ arrs h2 /\ syss h ⊆ syss h2 /\ infos h ⊆ infos h2.

(** The objects that the second store does not have. *)
Definition diff h' h : heap S := mkHeap (arrs h' ∖ arrs h) (syss h' ∖ syss h) (infos h' ∖ infos h).

#[export] Instance extends_preorder : PreOrder extends.
Proof. split; unfold extends; [done|]. intros h1 h2 h3 (?&?&?) (?&?&?). split_and!; by etrans. Qed.

Lemma map_difference_anti {A} (m m1 m2 : gmap positive A) : m1 ⊆ m2 -> m ∖ m2 ⊆ m ∖ m1.
Proof.
  intros Hs. apply map_subseteq_spec. intros k x [Hx Hn]%lookup_difference_Some.
  apply lookup_difference_Some. split; [done|]. by eapply lookup_weaken_None.
Qed.

Lemma map_difference_mono' {A} (m m1 m2 : gmap positive A) : m1 ⊆ m2 -> m1 ∖ m ⊆ m2 ∖ m.
Proof.
  intros Hs. apply map_subseteq_spec. intros k x [Hx Hn]%lookup_difference_Some.
  apply lookup_difference_Some. split; [|done]. by eapply lookup_weaken.
Qed.

Lemma diff_grow h h1 h2 : extends h1 h2 -> extends (diff h1 h) (diff h2 h).
Proof. intros (?&?&?). split_and!; by apply map_difference_mono'. Qed.

Lemma diff_later h h1 h2 : extends h h1 -> extends (diff h2 h1) (diff h2 h).
Proof. intros (?&?&?). split_and!; by apply map_difference_anti. Qed.

Lemma diff_extends h' h : extends (diff h' h) h'.
Proof. split_and!; apply map_subseteq_difference_l; done. Qed.

(** Pointers into a store. *)
Definition slice_in h (o : hslice) : Prop :=
  match o with None => True | Some (p, _) => is_Some (arrs h !! p) end.
Definition sys_in h (o : option positive) : Prop :=
  forall p, o = Some p -> exists s, syss h !! p = Some s /\ slice_in h (so_tx s) /\ slice_in h (so_rx s).
Definition info_in h (o : option positive) : Prop :=
  forall p, o = Some p -> exists i, infos h !! p = Some i
    /\ slice_in h (io_tx i) /\ slice_in h (io_rx i) /\ sys_in h (io_sys i).

Lemma slice_extends h h2 o :
  extends h h2 -> slice_in h o -> slice_in h2 o /\ rd_slice h2 o = rd_slice h o.
Proof.
  intros (Ha & _) Hi. destruct o as [[p n]|]; [|done]. destruct Hi as [l Hl]. simpl.
  pose proof (lookup_weaken _ _ _ _ Hl Ha) as Hl2. rewrite Hl, Hl2. by split.
Qed.

Lemma sys_extends h h2 o :
  extends h h2 -> sys_in h o -> sys_in h2 o /\ (o ≫= rd_sys h2) = (o ≫= rd_sys h).
Proof.
  intros He Hi. destruct o as [p|]; [|done]. destruct (Hi p eq_refl) as (s & Hs & Ht & Hr).
  destruct (slice_extends _ _ _ He Ht) as [Ht2 Et], (slice_extends _ _ _ He Hr) as [Hr2 Er].
  destruct He as (_ & Hss & _). pose proof (lookup_weaken _ _ _ _ Hs Hss) as Hs2. split.
  - intros p' [= <-]. eauto.
  - simpl. unfold rd_sys. rewrite Hs, Hs2. simpl. by rewrite Et, Er.
Qed.

Lemma info_extends h h2 o :
  extends h h2 -> info_in h o -> info_in h2 o /\ rd_info h2 o = rd_info h o.
Proof.
  intros He Hi. destruct o as [p|]; [|done]. destruct (Hi p eq_refl) as (i & Hs & Ht & Hr & Hsys).
  destruct (slice_extends _ _ _ He Ht) as [Ht2 Et], (slice_extends _ _ _ He Hr) as [Hr2 Er],
    (sys_extends _ _ _ He Hsys) as [Hsys2 Es].
  destruct He as (_ & _ & Hii). pose proof (lookup_weaken _ _ _ _ Hs Hii) as Hs2. split.
  - intros p' [= <-]. eauto.
  - simpl. rewrite Hs, Hs2. simpl. by rewrite Et, Er, Es.
Qed.

(** ** Allocation *)

Lemma fresh_insert {A} (m : gmap positive A) x :
  m ⊆ <[fresh (dom m) := x]> m /\ (<[fresh (dom m) := x]> m ∖ m) !! fresh (dom m) = Some x.
Proof.
  assert (Hn : m !! fresh (dom m) = None) by apply not_elem_of_dom, is_fresh. split.
  - by apply insert_subseteq.
  - apply lookup_difference_Some. by rewrite lookup_insert_eq.
Qed.

Lemma cloneOptions_h_spec o h o' h' :
  cloneOptions_h o h = (o', h') ->
  extends h h' /\ slice_in (diff h' h) o' /\ rd_slice (diff h' h) o' = cloneOptions (rd_slice h o).
Proof.
  unfold cloneOptions_h. destruct (rd_slice h o) as [[|x l]|]; [by intros [= <- <-]| |by intros [= <- <-]].
  intros [= <- <-]. destruct (fresh_insert (arrs h) (x :: l)) as [Hs Hl]. split_and!.
  - done.
  - simpl. by rewrite Hl.
  - simpl rd_slice. unfold diff. simpl. rewrite Hl. simpl. by rewrite take_ge.
Qed.

(** A pointer made in one step stays good while the store grows. *)
Lemma slice_made h h1 h2 o :
  extends h1 h2 -> slice_in (diff h1 h) o ->
  slice_in (diff h2 h) o /\ rd_slice (diff h2 h) o = rd_slice (diff h1 h) o.
Proof. intros He. apply slice_extends. by apply diff_grow. Qed.

Lemma sys_made h h1 h2 o :
  extends h1 h2 -> sys_in (diff h1 h) o ->
  sys_in (diff h2 h) o /\ (o ≫= rd_sys (diff h2 h)) = (o ≫= rd_sys (diff h1 h)).
Proof. intros He. apply sys_extends. by apply diff_grow. Qed.

Lemma clone_options_later h0 h o o' h' :
  extends h0 h -> slice_in h0 o -> cloneOptions_h o h = (o', h') ->
  extends h h' /\ slice_in (diff h' h0) o' /\ rd_slice (diff h' h0) o' = cloneOptions (rd_slice h0 o).
Proof.
  intros He Ho Hc. destruct (cloneOptions_h_spec _ _ _ _ Hc) as (H1 & H2 & H3).
  destruct (slice_extends _ _ _ (diff_later h0 h h' He) H2) as [H4 H5].
  destruct (slice_extends _ _ _ He Ho) as [_ H6]. split_and!; [done|done|]. by rewrite H5, H3, H6.
Qed.

Lemma Sys_Clone_h_spec h0 h o o' h' :
  extends h0 h -> sys_in h0 o -> Sys_Clone_h o h = (o', h') ->
  extends h h' /\ sys_in (diff h' h0) o'
  /\ (o' ≫= rd_sys (diff h' h0)) = sys_Clone <$> (o ≫= rd_sys h0).
Proof.
  intros He Ho. unfold Sys_Clone_h. destruct o as [p|]; simpl; [|by intros [= <- <-]].
  destruct (Ho p eq_refl) as (s & Hs & Ht & Hr).
  rewrite (lookup_weaken _ _ _ _ Hs (proj1 (proj2 He))).
  destruct (cloneOptions_h (so_tx s) h) as [tx h1] eqn:E1.
  destruct (cloneOptions_h (so_rx s) h1) as [rx h2] eqn:E2. intros [= <- <-].
  destruct (clone_options_later h0 h _ _ _ He Ht E1) as (X1 & T1 & T2).
  assert (He1 : extends h0 h1) by by etrans.
  destruct (clone_options_later h0 h1 _ _ _ He1 Hr E2) as (X2 & R1 & R2).
  set (h3 := mkHeap _ _ _). destruct (fresh_insert (syss h2) (mkSysobj (so_val s) tx rx)) as [Hf _].
  assert (X3 : extends h2 h3) by done. assert (He3 : extends h0 h2) by by etrans.
  destruct (slice_made h0 h1 h3 tx) as [T3 T4]; [by etrans|done|].
  destruct (slice_made h0 h2 h3 rx) as [R3 R4]; [done|done|].
  assert (Hl : syss (diff h3 h0) !! fresh (dom (syss h2)) = Some (mkSysobj (so_val s) tx rx)).
  { simpl. apply lookup_difference_Some. rewrite lookup_insert_eq. split; [done|].
    eapply lookup_weaken_None; [apply not_elem_of_dom, is_fresh|apply He3]. }
  split_and!; [by etrans; [|etrans]| |].
  - intros q [= <-]. exists (mkSysobj (so_val s) tx rx). done.
  - simpl. unfold rd_sys. rewrite Hl, Hs. simpl. by rewrite T4, R4, T2, R2, m_Clone.
Qed.

Lemma Info_Clone_h_spec h0 h o o' h' :
  extends h0 h -> info_in h0 o -> Info_Clone_h o h = (o', h') ->
  extends h h' /\ info_in (diff h' h0) o' /\ rd_info (diff h' h0) o' = Info_Clone <$> rd_info h0 o.
Proof.
  intros He Ho. unfold Info_Clone_h. destruct o as [p|]; simpl; [|by intros [= <- <-]].
  destruct (Ho p eq_refl) as (i & Hi & Ht & Hr & Hs).
  rewrite (lookup_weaken _ _ _ _ Hi (proj2 (proj2 He))).
  destruct (cloneOptions_h (io_tx i) h) as [tx h1] eqn:E1.
  destruct (cloneOptions_h (io_rx i) h1) as [rx h2] eqn:E2.
  destruct (Sys_Clone_h (io_sys i) h2) as [sys h3] eqn:E3. intros [= <- <-].
  destruct (clone_options_later h0 h _ _ _ He Ht E1) as (X1 & T1 & T2).
  assert (He1 : extends h0 h1) by by etrans.
  destruct (clone_options_later h0 h1 _ _ _ He1 Hr E2) as (X2 & R1 & R2).
  assert (He2 : extends h0 h2) by by etrans.
  destruct (Sys_Clone_h_spec h0 h2 _ _ _ He2 Hs E3) as (X3 & S1 & S2).
  assert (He3 : extends h0 h3) by by etrans.
  set (h4 := mkHeap _ _ _). destruct (fresh_insert (infos h3) (mkInfoobj (io_val i) tx rx sys)) as [Hf _].
  assert (X4 : extends h3 h4) by done.
  destruct (slice_made h0 h1 h4 tx) as [T3 T4]; [by repeat (etrans; [done|])|done|].
  destruct (slice_made h0 h2 h4 rx) as [R3 R4]; [by etrans|done|].
  destruct (sys_made h0 h3 h4 sys) as [S3 S4]; [done|done|].
  assert (Hl : infos (diff h4 h0) !! fresh (dom (infos h3)) = Some (mkInfoobj (io_val i) tx rx sys)).
  { simpl. apply lookup_difference_Some. rewrite lookup_insert_eq. split; [done|].
    eapply lookup_weaken_None; [apply not_elem_of_dom, is_fresh|apply He3]. }
  split_and!; [by repeat (etrans; [done|])| |].
  - intros q [= <-]. exists (mkInfoobj (io_val i) tx rx sys). done.
  - unfold rd_info. rewrite Hl, Hi. simpl. by rewrite T4, R4, S4, T2, R2, S2.
Qed.

(** C8: A snapshot is detached: its informations read as the copies taken, whatever is
    later written to any object that existed before (arrays of options, SysInfo and
    Info structs), and they are made of new objects only, so that nothing written
    through the snapshot changes the connection; on a store where ToInfo makes an Info
    and its SysInfo share arrays. *)
Theorem snapshot_detached openedInfo closedInfo h o c h' :
  info_in h openedInfo -> info_in h closedInfo -> snapshot_h openedInfo closedInfo h = ((o, c), h') ->
  (forall h2, extends (diff h' h) h2 ->
     rd_info h2 o = Info_Clone <$> rd_info h openedInfo
     /\ rd_info h2 c = Info_Clone <$> rd_info h closedInfo)
  /\ extends h h'
  /\ (forall h2, extends h h2 ->
        rd_info h2 openedInfo = rd_info h openedInfo /\ rd_info h2 closedInfo = rd_info h closedInfo).
Proof.
  intros Ho Hc. unfold snapshot_h. destruct (Info_Clone_h openedInfo h) as [o1 h1] eqn:E1.
  destruct (Info_Clone_h closedInfo h1) as [c1 h2] eqn:E2. intros [= <- <- <-].
  destruct (Info_Clone_h_spec h h _ _ _ (reflexivity h) Ho E1) as (X1 & O1 & O2).
  destruct (Info_Clone_h_spec h h1 _ _ _ X1 Hc E2) as (X2 & C1 & C2).
  destruct (info_extends _ _ _ (diff_grow h h1 h2 X2) O1) as [O3 O4].
  split_and!.
  - intros h3 He. destruct (info_extends _ _ _ He O3) as [_ ->], (info_extends _ _ _ He C1) as [_ ->].
    by rewrite O4.
  - by etrans.
  - intros h3 He. by destruct (info_extends _ _ _ He Ho), (info_extends _ _ _ He Hc).
Qed.

(** [ToInfo] in memory gives the value that [ToInfo] computes, sharing the arrays. *)
Lemma ToInfo_h_spec p h o h' :
  sys_in h (Some p) -> ToInfo_h p h = (o, h') ->
  extends h h' /\ info_in h' o /\ rd_info h' o = sys_ToInfo <$> rd_sys h p.
Proof.
  intros Hp. unfold ToInfo_h. destruct (Hp p eq_refl) as (s & Hs & Ht & Hr). rewrite Hs. intros [= <- <-].
  set (i := mkInfoobj _ _ _ _). set (h1 := mkHeap _ _ _).
  destruct (fresh_insert (infos h) i) as [Hf _].
  assert (X : extends h h1) by done.
  destruct (slice_extends _ _ _ X Ht) as [Ht1 Et], (slice_extends _ _ _ X Hr) as [Hr1 Er],
    (sys_extends _ _ _ X Hp) as [Hp1 Es].
  split_and!; [done| |].
  - intros q [= <-]. exists i. split; [apply lookup_insert_eq|]. unfold i. simpl.
    destruct m_shares, m_keeps; split_and!; try done.
  - unfold rd_info. simpl infos. rewrite lookup_insert_eq. unfold rd_sys. rewrite Hs. simpl.
    rewrite m_ToInfo. unfold i. simpl. f_equal. destruct m_shares, m_keeps; simpl in *;
      rewrite ?Et, ?Er; try done;
      rewrite Hs; simpl; by rewrite Et, Er.
Qed.
End laws.

(** ** A snapshot and later writes *)

Import Demo_linux.

Module Demo_heap.
#[export] Instance demo_platform : Platform Linux.SysInfo := Linux_Platform (on 5 15 0).
#[export] Instance demo_memory : SysMemory Linux.SysInfo := Linux_Memory (on 5 15 0).
Definition options : list Option := [mkOption "SACK" 0; mkOption "WindowScale" 7]%string.
Definition sys0 : Linux.SysInfo := Linux.Unpack (flags (on 5 15 0)) ones.

(** A SysInfo with two slices of one array, and the Info that [ToInfo] makes of it. *)
Definition h0 : heap Linux.SysInfo :=
  mkHeap {[ 1%positive := options ]}
    {[ 1%positive := mkSysobj sys0 (Some (1%positive, 2%nat)) (Some (1%positive, 1%nat)) ]} ∅.
Definition info : option positive := (ToInfo_h 1 h0).1.
Definition h1 : heap Linux.SysInfo := (ToInfo_h 1 h0).2.
Definition snap : option positive := (snapshot_h info None h1).1.1.
Definition h2 : heap Linux.SysInfo := (snapshot_h info None h1).2.
(** The array of the connection is overwritten. *)
Definition h3 : heap Linux.SysInfo := mkHeap (<[1%positive := []]> (arrs h2)) (syss h2) (infos h2).
End Demo_heap.
Import Demo_heap.

Lemma snapshot_detached_witness :
  TxOptions <$> rd_info h3 info = Some (Some []) /\ TxOptions <$> rd_info h3 snap = Some (Some options).
Proof.
  split; [vm_compute; reflexivity|].
  assert (Hp : sys_in h0 (Some 1%positive)).
  { intros p [= <-]. eexists. split; [reflexivity|]. split; eexists; reflexivity. }
  destruct (ToInfo_h_spec 1 h0 info h1 Hp (surjective_pairing _)) as (_ & Hi & E).
  destruct (snapshot_detached info None h1 snap None h2) as (H & _).
  - exact Hi.
  - done.
  - unfold snap, h2. vm_compute. reflexivity.
  - destruct (H h3) as [-> _].
    + destruct (diff_extends h2 h1) as (D1 & D2 & D3). split_and!; [|exact D2|exact D3].
      apply insert_subseteq_r; [vm_compute; reflexivity|exact D1].
    + rewrite E. vm_compute. reflexivity.
Defined.
