(* ===== verification/JsonExport.v ===== *)
(** What the program exports as JSON: the [MarshalJSON] methods of each platform's
    [SysInfo], the map of a wrapped connection, and the structs [Info] and [Conn] encoded
    by their field tags. *)

From stdpp Require Import base list strings sets gmap sorting.
From Stdlib Require Import ZArith NArith Ascii Lia.
From S2P Require Import Prelude GoFmt Utf8 Json JsonRead TcpInfo JsonAny Other LinuxInit LinuxRaw.
From S2P Require Import Linux LinuxThms Darwin Windows Wrap WrapPlatforms.

Local Open Scope Z_scope.

(** ** SysInfo.MarshalJSON *)

Section sysinfo.
Context `{!Unicode}.
Definition Linux_MarshalJSON (s : Linux.SysInfo) : string + error := Marshal false (Linux.ToMap s).
Definition Darwin_MarshalJSON (s : Darwin.SysInfo) : string + error := Marshal false (Darwin.ToMap s).
Definition Windows_MarshalJSON (s : Win.SysInfo) : string + error := Marshal false (Win.ToMap s).
Definition Other_MarshalJSON (s : Other.SysInfo) : string + error := Marshal false (Other.ToMap s).
End sysinfo.

(** ** Structs *)

(** A field with the option [omitempty]: numbers that are 0, empty strings and slices,
    and nil pointers and interfaces are left out. *)
Definition omitInt (k : string) (z : Z) : list (string * json) := if z =? 0 then [] else [(k, JInt z)].
Definition omitString (k s : string) : list (string * json) :=
  if String.eqb s "" then [] else [(k, JString s)].
Definition omitOptions `{!Unicode} (k : string) (l : slice Option) : list (string * json) :=
  match elems l with [] => [] | l => [(k, JArr (map option_json l))] end.
Definition omitNil {A} (k : string) (f : A -> json) (x : option A) : list (string * json) :=
  match x with None => [] | Some x => [(k, f x)] end.

Section struct.
Context {C S X F : Type} `{!NetConnOps C, !Platform S, !Unicode}.

(** The struct [Info]; [*SysInfo] has a [MarshalJSON]. *)
Definition Info_json (i : Info S) : json := JObj (
  omitString "state" (State i)
  ++ omitOptions "txOptions" (TxOptions i)
  ++ omitOptions "rxOptions" (RxOptions i)
  ++ omitInt "txMSS" (TxMSS i)
  ++ omitInt "rxMSS" (RxMSS i)
  ++ omitInt "rtt" (RTT i)
  ++ omitInt "rttVar" (RTTVar i)
  ++ omitInt "rto" (RTO i)
  ++ omitInt "ato" (ATO i)
  ++ omitInt "lastTxAt" (TcpInfo.LastTxAt i)
  ++ omitInt "lastRxAt" (TcpInfo.LastRxAt i)
  ++ omitInt "lastTxAckAt" (LastTxAckAt i)
  ++ omitInt "lastRxAckAt" (LastRxAckAt i)
  ++ omitInt "rxWindow" (RxWindow i)
  ++ omitInt "txSSThreshold" (TxSSThreshold i)
  ++ omitInt "rxSSThreshold" (RxSSThreshold i)
  ++ omitInt "txCWindowBytes" (TxWindowBytes i)
  ++ omitInt "txCWindowSegs" (TxWindowSegs i)
  ++ omitInt "retransmits" (Retransmits i)
  ++ omitNil "sysInfo" (fun s => JWrap "*tcpinfo.SysInfo" (any_json (AMap (sys_ToMap s)))) (Sys i))%list.

(** The struct [Conn]; [error_json] is the encoding of the dynamic type of an error,
    fields that are not exported or have the tag [-] are left out. *)
Context (error_json : error -> json).
Definition Conn_json (w : Conn C S X F) : json := JObj (
  omitInt "openedAt" (OpenedAt w)
  ++ omitInt "closedAt" (ClosedAt w)
  ++ omitInt "firstRxAt" (FirstRxAt w)
  ++ omitInt "firstTxAt" (FirstTxAt w)
  ++ omitInt "lastRxAt" (LastRxAt w)
  ++ omitInt "lastTxAt" (LastTxAt w)
  ++ [("txBytes", JInt (TxBytes w)); ("rxBytes", JInt (RxBytes w))]
  ++ omitNil "rxErr" error_json (RxErr w)
  ++ omitNil "txErr" error_json (TxErr w)
  ++ omitNil "infoErr" error_json (InfoErr w)
  ++ omitInt "reconnects" (Reconnects w)
  ++ omitNil "openedInfo" Info_json (OpenedInfo w)
  ++ omitNil "closedInfo" Info_json (ClosedInfo w))%list.
End struct.

(** ** Structs and maps agree *)

(** The values that [omitempty] leaves out. *)
Definition is_zero (a : any) : bool :=
  match a with
  | AInt z | AInt64 z | AUint8 z | AUint16 z | AUint32 z | AUint64 z | ADuration z => z =? 0
  | AString s => String.eqb s ""
  | AOptions l => match elems l with [] => true | _ => false end
  | _ => false
  end.
Definition omit `{!Unicode} (kv : string * any) : list (string * json) :=
  if is_zero kv.2 then [] else [(kv.1, any_json kv.2)].

Lemma omitOptions_eq {Uni : Unicode} k l : omitOptions k l = omit (k, AOptions l).
Proof. unfold omitOptions, omit. by destruct l as [[|o l]|]. Qed.

Lemma omit_lookup_ne {Uni : Unicode} (l : list (string * any)) k :
  k ∉ l.*1 -> (list_to_map (concat (map omit l)) : gmap string json) !! k = None.
Proof.
  induction l as [|[k' a] l IH]; [done|]. rewrite fmap_cons, not_elem_of_cons. intros [Hne Hk].
  simpl. unfold omit at 1. destruct (is_zero _); simpl; [by apply IH|].
  rewrite lookup_insert_ne by done. by apply IH.
Qed.

(** The entries of a literal with different keys, and those of the struct. *)
Lemma omit_lookup {Uni : Unicode} (l : list (string * any)) k :
  NoDup l.*1 ->
  (list_to_map (concat (map omit l)) : gmap string json) !! k
  = match (list_to_map l : gmap string any) !! k with
    | Some a => if is_zero a then None else Some (any_json a)
    | None => None
    end.
Proof.
  induction l as [|[k' a] l IH]; [done|]. rewrite fmap_cons, NoDup_cons. intros [Hk Hd]. simpl.
  destruct (decide (k' = k)) as [->|Hne].
  - rewrite lookup_insert_eq. unfold omit. simpl. destruct (is_zero a); simpl.
    + by apply omit_lookup_ne.
    + by rewrite lookup_insert_eq.
  - rewrite lookup_insert_ne by done. rewrite <- IH by done. unfold omit at 1.
    destruct (is_zero _); simpl; [done|]. by rewrite lookup_insert_ne.
Qed.

Definition object (j : json) : gmap string json :=
  match j with JObj l => list_to_map l | _ => ∅ end.

(** The entries of [Info.ToMap] other than sysInfo. *)
Definition Info_entries {S} (i : Info S) : list (string * any) := [
  ("state", AString (State i)); ("txOptions", AOptions (TxOptions i)); ("rxOptions", AOptions (RxOptions i));
  ("txMSS", AUint64 (TxMSS i)); ("rxMSS", AUint64 (RxMSS i)); ("rtt", ADuration (RTT i));
  ("rttVar", ADuration (RTTVar i)); ("rto", ADuration (RTO i)); ("ato", ADuration (ATO i));
  ("lastTxAt", ADuration (TcpInfo.LastTxAt i)); ("lastRxAt", ADuration (TcpInfo.LastRxAt i));
  ("lastTxAckAt", ADuration (LastTxAckAt i)); ("lastRxAckAt", ADuration (LastRxAckAt i));
  ("rxWindow", AUint64 (RxWindow i)); ("txSSThreshold", AUint64 (TxSSThreshold i));
  ("rxSSThreshold", AUint64 (RxSSThreshold i)); ("txCWindowBytes", AUint64 (TxWindowBytes i));
  ("txCWindowSegs", AUint64 (TxWindowSegs i)); ("retransmits", AUint64 (Retransmits i)) ]%string.

Lemma app_step {A} (a a' b b' c : list A) : a = a' -> b = b' ++ c -> a ++ b = (a' ++ b') ++ c.
Proof. intros -> ->. by rewrite app_assoc. Qed.

Lemma Info_json_entries {Uni : Unicode} {S} `{!Platform S} (i : Info S) :
  Info_json i = JObj (concat (map omit (Info_entries i))
    ++ omitNil "sysInfo" (fun s => JWrap "*tcpinfo.SysInfo" (any_json (AMap (sys_ToMap s)))) (Sys i)).
Proof.
  unfold Info_json, Info_entries. apply (f_equal JObj). cbn [map concat].
  repeat (apply app_step; [apply omitOptions_eq || reflexivity|]). reflexivity.
Qed.

Lemma Info_entries_keys {S} (i : Info S) : NoDup (Info_entries i).*1 /\ "sysInfo"%string ∉ (Info_entries i).*1.
Proof. split; apply (bool_decide_unpack _); vm_compute; exact I. Qed.

(** C25: The two JSON forms of Info agree: the struct with its tags has a member iff
    Info.ToMap has the key and its value is not empty, and then the same value; the
    SysInfo member included. *)
Theorem Info_struct_map {Uni : Unicode} {S} `{!Platform S} (i : Info S) k :
  norm <$> object (Info_json i) !! k
  = match Info_ToMap i !! k with
    | Some a => if is_zero a then None else Some (norm (any_json a))
    | None => None
    end.
Proof.
  rewrite Info_json_entries. unfold object. rewrite list_to_map_app.
  destruct (Info_entries_keys i) as [Hd Hs].
  change (Info_ToMap i) with (match Sys i with
    | Some s => <["sysInfo"%string := AMap (sys_ToMap s)]> (list_to_map (Info_entries i))
    | None => list_to_map (Info_entries i) end : gmap string any).
  generalize dependent (Info_entries i). intros l Hd Hs.
  destruct (decide (k = "sysInfo"%string)) as [->|Hk].
  - rewrite lookup_union_r by by apply omit_lookup_ne. destruct (Sys i) as [s|]; cbn [omitNil list_to_map foldr].
    + by rewrite !lookup_insert_eq.
    + by rewrite not_elem_of_list_to_map_1.
  - rewrite lookup_union_l by (destruct (Sys i); cbn [omitNil list_to_map foldr]; by rewrite ?lookup_insert_ne).
    rewrite omit_lookup by done.
    destruct (Sys i); rewrite ?lookup_insert_ne by done;
      (destruct (_ !! k) as [a|]; [by destruct (is_zero a)|done]).
Qed.

(** ** The texts of options *)

Lemma quotable_app s t : quotable (s +:+ t) = quotable s && quotable t.
Proof. induction s as [|c s IH]; [done|]. rewrite string_app_cons. simpl. by rewrite IH, andb_assoc. Qed.

Lemma quotable_digit d : (d < 16)%N -> quotableChar (digit_char d) = true.
Proof.
  intros Hd. assert (Hb : forallb (fun n => quotableChar (digit_char (N.of_nat n))) (seq 0 16) = true)
    by reflexivity.
  rewrite forallb_forall in Hb. rewrite <- (N2Nat.id d). apply Hb. apply in_seq. lia.
Qed.

Lemma quotable_fmt b fuel n s :
  (2 <= b <= 16)%N -> quotable s = true -> quotable (fmt_digits b fuel n s) = true.
Proof.
  intros Hb. revert n s. induction fuel as [|fuel IH]; intros n s Hs; [done|]. simpl.
  assert (Hq : quotable (String (digit_char (n mod b)) s) = true).
  { simpl. rewrite quotable_digit, Hs; [done|]. pose proof (N.mod_lt n b). lia. }
  destruct (n <? b)%N; [done|by apply IH].
Qed.

Lemma quotable_hex z : quotable (FormatHex2 z) = true.
Proof.
  unfold FormatHex2. destruct (_ <? 2)%nat; rewrite ?quotable_app; unfold fmt_N; rewrite quotable_fmt by done; done.
Qed.

Lemma quotable_Option_eq o : quotable (Option_String o) = quotable (Kind o).
Proof.
  unfold Option_String. destruct (Value o =? 0); [done|].
  rewrite !quotable_app, quotable_hex. simpl. by rewrite andb_true_r.
Qed.

Lemma quotable_Option o : quotable (Kind o) = true -> quotable (Option_String o) = true.
Proof. by rewrite quotable_Option_eq. Qed.

Lemma ascii_Option o : ascii_only (Kind o) = true -> ascii_only (Option_String o) = true.
Proof.
  intros Hk. unfold Option_String. destruct (Value o =? 0); [done|].
  rewrite !ascii_only_app, Hk, (quotable_ascii_only (FormatHex2 _)) by apply quotable_hex. done.
Qed.

(** C26: For an option whose kind is ASCII, the text that Option.MarshalJSON returns is
    valid JSON iff the kind has no character that Go quotes with an escape unknown to
    JSON: then encoding succeeds and the text reads back as the option's string,
    otherwise encoding the option fails. *)
Theorem Option_MarshalJSON_valid `{!Unicode} ind o :
  ascii_only (Kind o) = true ->
  (badEscape (Option_MarshalJSON o) = None <-> quotable (Kind o) = true)
  /\ (quotable (Kind o) = true ->
        exists t, encode ind (option_json o) = inl t /\ parse t = Some (JString (Option_String o)))
  /\ (quotable (Kind o) = false -> exists e, encode ind (option_json o) = inr e).
Proof.
  intros Ha. assert (Hb : badEscape (Option_MarshalJSON o) = None <-> quotable (Kind o) = true).
  { unfold Option_MarshalJSON. rewrite badEscape_Quote by by apply ascii_Option. by rewrite quotable_Option_eq. }
  split_and!; [done| |].
  - intros Hq. assert (Hok : json_ok (option_json o) = true) by by apply option_json_ok, quotable_Option.
    exists (text ind 0 (option_json o)). unfold encode. rewrite check_ok by done. split; [done|].
    by apply (parse_text ind (option_json o)).
  - intros Hq. unfold encode, option_json. cbn [check].
    destruct (badEscape (Option_MarshalJSON o)); [eauto|]. by rewrite (proj1 Hb eq_refl) in Hq.
Qed.

Lemma Option_MarshalJSON_valid_witness :
  (exists t, encode true (option_json (mkOption "SACK" 7)) = inl t
     /\ parse t = Some (JString (Option_String (mkOption "SACK" 7))))
  /\ (exists e, encode true (option_json (mkOption (String "007" "") 0)) = inr e).
Proof.
  split.
  - apply (Option_MarshalJSON_valid true (mkOption "SACK" 7)); reflexivity.
  - apply (Option_MarshalJSON_valid true (mkOption (String "007" "") 0)); reflexivity.
Defined.

Lemma options_ok_append l o :
  options_ok l -> quotable (Kind o) = true -> options_ok (append l [o]).
Proof.
  unfold options_ok. intros Hl Ho. rewrite elems_append, Forall_app, Forall_singleton.
  split; [done|by apply quotable_Option].
Qed.

Lemma options_ok_clone l : options_ok l -> options_ok (cloneOptions l).
Proof. unfold options_ok. by rewrite elems_cloneOptions. Qed.

(** A loop that only appends options of the table. *)
Lemma options_ok_loop {A} (f : slice Option * slice Option -> A -> slice Option * slice Option) l acc :
  (forall x acc, options_ok acc.1 /\ options_ok acc.2 -> options_ok (f acc x).1 /\ options_ok (f acc x).2) ->
  options_ok acc.1 /\ options_ok acc.2 ->
  options_ok (fold_left f l acc).1 /\ options_ok (fold_left f l acc).2.
Proof. intros Hf. revert acc. induction l as [|x l IH]; intros acc Ha; [done|]. apply IH. by apply Hf. Qed.

Lemma table_quotable (m : gmap Z string) k :
  map_Forall (fun _ s => quotable s = true) m -> quotable (default "" (m !! k)) = true.
Proof. intros Hm. destruct (m !! k) as [s|] eqn:E; [by apply (Hm k)|done]. Qed.

Ltac solve_table := apply table_quotable; apply (bool_decide_unpack _); vm_compute; exact I.

Lemma Linux_options r :
  options_ok (Linux.unpackOptions r).1 /\ options_ok (Linux.unpackOptions r).2.
Proof.
  apply options_ok_loop; [|split; constructor]. intros x [l1 l2] [H1 H2]. unfold Linux.unpackOption.
  assert (Hk : quotable (Linux.optionName x) = true) by solve_table.
  repeat case_match; split; try done; by apply options_ok_append.
Qed.

Lemma Darwin_options_ok r :
  options_ok (Darwin.unpackOptions r).1 /\ options_ok (Darwin.unpackOptions r).2.
Proof.
  apply options_ok_loop; [|split; constructor]. intros x [l1 l2] [H1 H2]. unfold Darwin.unpackOption.
  assert (Hk : quotable (Darwin.optionName x) = true) by solve_table.
  repeat case_match; split; try done; by apply options_ok_append.
Qed.

(** ** What a platform's information promises to the encoder *)

(** [sys_ok] holds of the informations the package makes: their options have the names
    of its tables. *)
Class JsonLaws (S : Type) `{!Platform S} := {
  sys_ok : S -> Prop;
  sys_ok_map {Uni : Unicode} s : sys_ok s -> any_ok (AMap (sys_ToMap s));
  sys_ok_keys s : keys_ok (sys_ToMap s);
  sys_ok_clone s : sys_ok s -> sys_ok (sys_Clone s);
  sys_ok_info s : sys_ok s ->
    options_ok (TxOptions (sys_ToInfo s)) /\ options_ok (RxOptions (sys_ToInfo s))
    /\ (forall s', Sys (sys_ToInfo s) = Some s' -> sys_ok s')
}.

Lemma keys_ok_insert k a m : ascii_only k = true -> keys_ok m -> keys_ok (<[k:=a]> m).
Proof. intros Hk Hm. by apply (map_Forall_insert_2 (fun k _ => ascii_only k = true)). Qed.

Lemma keys_ok_literal (l : list (string * any)) :
  forallb ascii_only l.*1 = true -> keys_ok (list_to_map l).
Proof.
  induction l as [|[k a] l IH]; [intros; apply map_Forall_empty|]. simpl.
  intros [Hk Hl]%andb_true_iff. apply keys_ok_insert; auto.
Qed.

Lemma keys_ok_put_all l m : forallb ascii_only l.*1 = true -> keys_ok m -> keys_ok (put_all l m).
Proof.
  revert m. induction l as [|[k v] l IH]; intros m Hl Hm; [done|]. simpl in Hl.
  apply andb_true_iff in Hl as [Hk Hl]. unfold put_all. simpl. apply IH; [done|].
  destruct v; [by apply keys_ok_insert|done].
Qed.

Lemma any_ok_put_all {Uni : Unicode} l m :
  Forall (fun kv => forall a, kv.2 = Some a -> any_ok a) l ->
  map_Forall (fun _ => any_ok) m -> map_Forall (fun _ => any_ok) (put_all l m).
Proof.
  intros Hl. revert m. induction Hl as [|[k v] l Hv _ IH]; intros m Hm; [done|].
  unfold put_all. simpl. apply IH. destruct v as [a|]; [|done]. apply any_ok_insert; [by apply Hv|done].
Qed.

(** Map literals whose values are plain except for options. *)
Ltac solve_any_ok := repeat constructor; simpl; (by apply any_ok_plain) || (by apply any_ok_options).

#[export] Instance Other_Json : JsonLaws Other.SysInfo.
Proof.
  apply (Build_JsonLaws _ _ (fun _ => True)); try done; intros; repeat split; try constructor; done.
Defined.

#[export] Instance Windows_Json : JsonLaws Win.SysInfo.
Proof.
  apply (Build_JsonLaws _ _ (fun _ => True)).
  - intros Uni s _. apply any_ok_map. apply any_ok_literal. solve_any_ok.
  - intros s. by apply keys_ok_literal.
  - done.
  - intros s _. repeat split; try constructor.
Defined.

#[export] Instance Darwin_Json : JsonLaws Darwin.SysInfo.
Proof.
  apply (Build_JsonLaws _ _ (fun s => options_ok (Darwin.TxOptions s) /\ options_ok (Darwin.RxOptions s))).
  - intros Uni s [H1 H2]. apply any_ok_map. apply any_ok_literal. solve_any_ok.
  - intros s. by apply keys_ok_literal.
  - intros s [H1 H2]. split; by apply options_ok_clone.
  - intros s [H1 H2]. split_and!; [done..|]. by intros s' [= <-].
Defined.

Lemma Linux_optional_ok {Uni : Unicode} s : Forall (fun kv => forall a, kv.2 = Some a -> any_ok a) (Linux.optional s).
Proof.
  assert (H : forall {A} (f : A -> any) (n : Nullable A) a,
    (forall x, plain_any (f x) = true) -> f <$> valid n = Some a -> any_ok a).
  { intros A f n a Hf Ha. apply fmap_Some in Ha as (x & _ & ->). by apply any_ok_plain. }
  unfold Linux.optional. repeat (apply Forall_cons; split; [intros a; by apply H|]). by apply Forall_nil.
Qed.

#[export] Instance Linux_Json g : JsonLaws Linux.SysInfo (Platform0 := Linux_Platform g).
Proof.
  apply (Build_JsonLaws _ (Linux_Platform g)
    (fun s => options_ok (Linux.TxOptions s) /\ options_ok (Linux.RxOptions s))).
  - intros Uni s [H1 H2]. apply any_ok_map. apply any_ok_put_all; [apply Linux_optional_ok|].
    apply any_ok_literal. unfold Linux.required. solve_any_ok.
  - intros s. apply keys_ok_put_all; [done|]. by apply keys_ok_literal.
  - intros s [H1 H2]. split; by apply options_ok_clone.
  - intros s [H1 H2]. split_and!; [done..|]. by intros s' [= <-].
Defined.

(** The informations of the packages are encodable. *)
Lemma Linux_GetTCPInfo_ok {V B D} `{!Linux.UnixCC V B D} raw gs gv gb gd g fd s e :
  Linux.GetTCPInfo (V:=V) (B:=B) (D:=D) raw gs gv gb gd g fd = (Some s, e) ->
  sys_ok (JsonLaws := Linux_Json g) s.
Proof.
  assert (Hu : forall t, sys_ok (JsonLaws := Linux_Json g) (Linux.PlusCC_Unpack (V:=V) (B:=B) (D:=D) (flags g) t)).
  { intros t. unfold Linux.PlusCC_Unpack. repeat case_match; apply Linux_options. }
  unfold Linux.GetTCPInfo. repeat case_match; intros [= <- _]; apply Hu.
Qed.

(** ** Connections *)
