(* ===== verification/JsonReport.v ===== *)
(** The JSON of the reports of the wrapper: whatever the goroutines that use a wrapped
    connection do, the map of a report and the structs [Info] and [Conn] are encoded
    without error, and the text of the map reads back as a table of members. *)

From stdpp Require Import base list strings sets gmap sorting.
From Stdlib Require Import ZArith NArith Ascii Lia.
From S2P Require Import Prelude GoFmt Utf8 Json JsonRead TcpInfo JsonAny LinuxInit LinuxRaw.
From S2P Require Import Linux LinuxThms Wrap WrapConc WrapInv WrapThms WrapTimes WrapInfo WrapPlatforms JsonExport.

Local Open Scope Z_scope.

Section conn.
Context {Uni : Unicode} {C S X F : Type} `{!NetConnOps C, !Platform S, !JsonLaws S}.

Definition info_ok (i : Info S) : Prop :=
  options_ok (TxOptions i) /\ options_ok (RxOptions i) /\ (forall s, Sys i = Some s -> sys_ok s).

(** The informations of a connection were made by the package. *)
Definition conn_ok (w : Conn C S X F) : Prop :=
  (forall i, OpenedInfo w = Some i -> info_ok i) /\ (forall i, ClosedInfo w = Some i -> info_ok i).
Definition probe_ok (p : probe S) : Prop := forall s, sysInfo p = Some s -> sys_ok s.

Lemma info_ok_map i : info_ok i -> any_ok (AMap (Info_ToMap i)) /\ keys_ok (Info_ToMap i).
Proof.
  intros (H1 & H2 & H3). rewrite any_ok_map. unfold Info_ToMap.
  destruct (Sys i) as [s|]; (split; [|]).
  - apply any_ok_insert; [by apply sys_ok_map, H3|]. apply any_ok_literal. solve_any_ok.
  - apply keys_ok_insert; [done|]. by apply keys_ok_literal.
  - apply any_ok_literal. solve_any_ok.
  - by apply keys_ok_literal.
Qed.

Lemma put_err_ok k e m :
  ascii_only k = true -> map_Forall (fun _ => any_ok) m /\ keys_ok m ->
  map_Forall (fun _ => any_ok) (put_err k e m) /\ keys_ok (put_err k e m).
Proof.
  intros Hk [H1 H2]. destruct e; [|done]. split; [|by apply keys_ok_insert].
  apply any_ok_insert; [by apply any_ok_plain|done].
Qed.

Lemma put_info_ok k i m :
  ascii_only k = true -> (forall x, i = Some x -> info_ok x) -> map_Forall (fun _ => any_ok) m /\ keys_ok m ->
  map_Forall (fun _ => any_ok) (put_info k i m) /\ keys_ok (put_info k i m).
Proof.
  intros Hk Hi [H1 H2]. destruct i as [i|]; [|done]. split; [|by apply keys_ok_insert].
  apply any_ok_insert; [by apply info_ok_map, Hi|done].
Qed.

Lemma conn_ok_map w : conn_ok w -> any_ok (AMap (Conn_ToMap w)) /\ keys_ok (Conn_ToMap w).
Proof.
  intros [Ho Hc]. rewrite any_ok_map. unfold Conn_ToMap.
  repeat (apply put_info_ok; [done|done|]). repeat (apply put_err_ok; [done|]). split.
  - apply any_ok_literal. solve_any_ok.
  - by apply keys_ok_literal.
Qed.

(** The structs can be encoded, given that the errors can. *)
Lemma Info_json_ok i : info_ok i -> json_ok (Info_json i) = true.
Proof.
  intros (H1 & H2 & H3). unfold Info_json. cbn [json_ok]. rewrite !forallb_app.
  assert (Hs : forall k s, forallb (fun kv => json_ok kv.2) (omitString k s) = true)
    by by intros k s; unfold omitString; destruct (String.eqb s "").
  assert (Hi : forall k z, forallb (fun kv => json_ok kv.2) (omitInt k z) = true)
    by by intros k z; unfold omitInt; destruct (z =? 0).
  assert (Ho : forall k l, options_ok l -> forallb (fun kv => json_ok kv.2) (omitOptions k l) = true).
  { intros k l Hl. rewrite omitOptions_eq. unfold omit. destruct (is_zero _); [done|]. simpl.
    apply any_ok_options in Hl. unfold any_ok in Hl. simpl in Hl. by rewrite Hl. }
  rewrite Hs, !Hi, !Ho by done. simpl. destruct (Sys i) as [s|] eqn:Es; [|done]. simpl.
  pose proof (sys_ok_map s (H3 s eq_refl)) as Hm. unfold any_ok in Hm. simpl in Hm. by rewrite Hm.
Qed.

Lemma Conn_json_ok (error_json : error -> json) w :
  (forall e, json_ok (error_json e) = true) -> conn_ok w -> json_ok (Conn_json error_json w) = true.
Proof.
  intros He [Ho Hc]. unfold Conn_json. cbn [json_ok]. rewrite !forallb_app.
  assert (Hi : forall k z, forallb (fun kv => json_ok kv.2) (omitInt k z) = true)
    by by intros k z; unfold omitInt; destruct (z =? 0).
  assert (Hn : forall {A} k (f : A -> json) x, (forall y, x = Some y -> json_ok (f y) = true) ->
    forallb (fun kv => json_ok kv.2) (omitNil k f x) = true).
  { intros A k f [y|] Hf; [|done]. simpl. by rewrite Hf. }
  rewrite !Hi, !Hn by (intros; auto using Info_json_ok). done.
Qed.

Lemma info_ok_clone i : info_ok i -> info_ok (Info_Clone i).
Proof.
  intros (H1 & H2 & H3). split_and!; [by apply options_ok_clone..|].
  simpl. intros s Hs. apply fmap_Some in Hs as (s' & Es & ->). by apply sys_ok_clone, H3.
Qed.

(** ** Every interleaving *)

(** The informations that the system calls return in a run. *)
Definition act_ok (a : act S) : Prop := match a with AProbe p => probe_ok p | _ => True end.

(** The reports of a run: the wrapped connection, any number of goroutines and any
    schedule. *)
Lemma run_reports_ok ctx ncon f opts now p n sched s r :
  probe_ok p -> Forall act_ok sched.*2 ->
  run sched (init (WrapConnWithContext (C:=C) (X:=X) (F:=F) ctx ncon f opts now p).1 n) = Some s ->
  r ∈ reports (trace s) -> conn_ok (rp_conn r).
Proof.
  intros Hp Ha Hr Hin.
  destruct (wrapped_run_holds info_ok sys_ok info_ok_clone sys_ok_info ctx ncon f opts now p n sched s Hp Ha Hr)
    as (_ & _ & Hs). exact (Hs r Hin).
Qed.

(** ** The members of a report *)

(** A member that is written only when there is a value. *)
Definition member {A} (k : string) (f : A -> json) (x : option A) : list (string * json) :=
  match x with Some x => [(k, f x)] | None => [] end.
Definition err_text (e : error) : json := JString (ToValidUTF8 (err_msg e)).
Definition info_object (i : Info S) : json := norm (any_json (AMap (Info_ToMap i))).

(** The JSON object of a report on [w]: the reports of a connection to [c] that was
    wrapped at [now], in a run that received [rx] and sent [tx] bytes. *)
Definition report_members (c : C) (now rx tx : Z) (w : Conn C S X F) : list (string * json) :=
  member "closedInfo" info_object (ClosedInfo w)
  ++ member "openedInfo" info_object (OpenedInfo w)
  ++ member "infoErr" err_text (InfoErr w)
  ++ member "txErr" err_text (TxErr w)
  ++ member "rxErr" err_text (RxErr w)
  ++ [ ("openedAt", JInt now);
       ("closedAt", JInt (ClosedAt w));
       ("firstRxAt", JInt (FirstRxAt w));
       ("firstTxAt", JInt (FirstTxAt w));
       ("lastRxAt", JInt (LastRxAt w));
       ("lastTxAt", JInt (LastTxAt w));
       ("txBytes", JInt (wrapS 64 tx));
       ("rxBytes", JInt (wrapS 64 rx));
       ("reconnects", JInt (Reconnects w));
       ("localAddr", JString (ToValidUTF8 (default "" (nc_LocalAddr c))));
       ("remoteAddr", JString (ToValidUTF8 (default "" (nc_RemoteAddr c))));
       ("warnings", match warnings w with
                    | [] => JNull
                    | l => JArr (map (fun x => JString (ToValidUTF8 x)) l)
                    end) ]%string.

Lemma Conn_members c now rx tx w :
  OpenedAt w = now -> localAddrLocked w = nc_LocalAddr c -> remoteAddrLocked w = nc_RemoteAddr c ->
  RxBytes w = wrapS 64 rx -> TxBytes w = wrapS 64 tx ->
  norm ∘ any_json <$> Conn_ToMap w
  = (list_to_map (report_members c now rx tx w) : gmap string json).
Proof.
  intros H1 H2 H3 H4 H5. unfold Conn_ToMap, report_members. rewrite H1, H2, H3, H4, H5.
  assert (Hw : norm (any_json (AStrings (append None (warnings w))))
    = match warnings w with [] => JNull | l => JArr (map (fun x => JString (ToValidUTF8 x)) l) end).
  { destruct (warnings w) as [|x l]; [done|]. simpl. by rewrite map_map. }
  rewrite <- Hw. unfold put_info, put_err, member.
  destruct (ClosedInfo w), (OpenedInfo w), (InfoErr w), (TxErr w), (RxErr w);
    cbn [list_to_map foldr app]; by rewrite !fmap_insert, fmap_empty.
Qed.

(** What the run fixes in a report. *)
Lemma report_fields (ctx : X) (c : C) (f : option F) opts now p n sched s r :
  run sched (init (WrapConnWithContext ctx (Some c) f opts now p).1 n) = Some s ->
  r ∈ reports (trace s) ->
  OpenedAt (rp_conn r) = now
  /\ localAddrLocked (rp_conn r) = nc_LocalAddr c /\ remoteAddrLocked (rp_conn r) = nc_RemoteAddr c
  /\ RxBytes (rp_conn r) = wrapS 64 (bytes_moved Rx (trace s))
  /\ TxBytes (rp_conn r) = wrapS 64 (bytes_moved Tx (trace s)).
Proof.
  intros E Hin. pose proof (run_reachable _ _ _ _ E) as Hr.
  pose proof (WrapConn_fresh ctx c f opts now p) as Hf.
  destruct (report_complete _ _ _ Hf Hr Hin) as (H1 & H2 & _).
  destruct (closes_reports _ _ (inv_reachable _ _ Hf Hr)) as (_ & _ & Hrep).
  destruct (Hrep r Hin) as (_ & (_ & _ & Ha) & _).
  destruct (run_addrs _ _ _ _ _ _ _ _ _ E) as (H3 & H4 & H5).
  split_and!; try done; rewrite Ha; [done|..].
  - rewrite <- H4. apply (localAddr_snapshot (conn s)).
  - rewrite <- H5. apply (remoteAddr_snapshot (conn s)).
Qed.

(** C13: In every run of goroutines on a wrapped connection the map of each report is
    encoded as JSON without error, indented or not, given that the information of the
    platform has options that JSON can quote (proved for what GetTCPInfo returns on
    Linux); the text reads back as an object with sorted keys whose members are written
    out: the time of wrapping, the times of the report, the bytes moved over the run as
    64-bit sums, reconnects, the addresses of the connection, the warnings or null, the
    messages of the errors and the objects of the informations that are there, and
    nothing else. *)
Theorem report_json ind (ctx : X) (c : C) (f : option F) opts now p n sched s r :
  probe_ok p -> Forall act_ok sched.*2 ->
  run sched (init (WrapConnWithContext ctx (Some c) f opts now p).1 n) = Some s ->
  r ∈ reports (trace s) ->
  exists t l, Marshal ind (Conn_ToMap (rp_conn r)) = inl t /\ parse t = Some (JObj l)
    /\ StronglySorted key_lt l
    /\ (list_to_map l : gmap string json)
       = list_to_map (report_members c now (bytes_moved Rx (trace s)) (bytes_moved Tx (trace s))
                        (rp_conn r)).
Proof.
  intros Hp Ha Hr Hin. pose proof (run_reports_ok _ _ _ _ _ _ _ _ _ _ Hp Ha Hr Hin) as Hc.
  destruct (conn_ok_map _ Hc) as [Hok Hk].
  destruct (Marshal_reads ind _ Hok Hk) as (t & l & H1 & H2 & H3 & H4).
  exists t, l. split_and!; [done..|]. rewrite H4.
  destruct (report_fields _ _ _ _ _ _ _ _ _ _ Hr Hin) as (? & ? & ? & ? & ?). by apply Conn_members.
Qed.
End conn.

(** ** A report on a concrete kernel *)

Import Demo_linux Demo_tcp.

#[local] Instance demo_platform : Platform Linux.SysInfo := Linux_Platform (on 5 15 0).
#[local] Instance demo_json : JsonLaws Linux.SysInfo := Linux_Json (on 5 15 0).

Definition closing : list (nat * act Linux.SysInfo) :=
  [(0%nat, ACall (CClose 200)); (0%nat, AProbe (probeOf sockInfo)); (0%nat, AErr None);
   (0%nat, AStep); (0%nat, AStep)].

Lemma sockInfo_ok : probe_ok (probeOf sockInfo).
Proof.
  intros s Hs. eapply (Linux_GetTCPInfo_ok (fun _ _ => inl ones) (fun _ => inl "cubic"%string)
    (fun _ => inl tt) (fun _ => inl tt) (fun _ => inl tt) (on 5 15 0) 3 s sockInfo.2).
  change sockInfo with (sockInfo.1, sockInfo.2) at 1. exact (f_equal (fun x => (x, sockInfo.2)) Hs).
Qed.

Lemma report_json_witness :
  exists s r t l, run closing (init Demo_tcp.conn 1) = Some s /\ r ∈ reports (trace s)
    /\ Marshal true (Conn_ToMap (rp_conn r)) = inl t /\ parse t = Some (JObj l)
    /\ (list_to_map l : gmap string json) !! "closedAt"%string = Some (JInt 200).
Proof.
  destruct (run closing (init Demo_tcp.conn 1)) as [s|] eqn:E; [|vm_compute in E; discriminate E].
  assert (Er : from_option (fun s => map (fun r => ClosedAt (rp_conn r)) (reports (trace s))) []
                 (run closing (init Demo_tcp.conn 1)) = [200]) by (vm_compute; reflexivity).
  rewrite E in Er. simpl in Er.
  destruct (reports (trace s)) as [|r [|]] eqn:Es; try discriminate Er. injection Er as Er.
  assert (Hin : r ∈ reports (trace s)) by (rewrite Es; left).
  destruct (report_json true tt tt (Some tt) [] 100 (probeOf sockInfo) 1 closing s r)
    as (t & l & H1 & H2 & _ & H3); [apply sockInfo_ok| |exact E|exact Hin|].
  { repeat (apply Forall_cons; split; [first [exact I|apply sockInfo_ok]|]). apply Forall_nil_2. }
  exists s, r, t, l. split_and!; [done|exact Hin|exact H1|exact H2|].
  rewrite H3. unfold report_members, member. rewrite Er.
  repeat case_match; cbn [list_to_map foldr app]; rewrite ?lookup_insert_ne by done; reflexivity.
Defined.
