(* ===== verification/HttpReport.v ===== *)
(** cmd/httpstat/main.go, the report: the times taken by the httptrace callbacks of
    [visit], the table of durations, the order and the lines of the response's
    headers, and the lines on the connection.

    The functions of the color package are the class [Colors]. *)

From stdpp Require Import base list strings sorting gmap.
From Stdlib Require Import ZArith Ascii Lia.
From S2P Require Import Prelude GoFmt Json TcpInfo JsonAny Wrap.

Local Open Scope string_scope.
Local Open Scope Z_scope.
Local Open Scope go_scope.

(** ** Text *)

(** The widths of [%7d] and [%-9s], on ASCII text. *)
Definition padLeft (w : nat) (s : string) : string := spaces (w - String.length s) ++ s.
Definition padRight (w : nat) (s : string) : string := s ++ spaces (w - String.length s).

(** [fmt.Sprintf] for a format whose only verb is [%s], with as many arguments. *)
Fixpoint Sprintf (format : string) (args : list string) : string :=
  match format with
  | String "%" (String "s" rest) =>
      match args with
      | a :: args => a ++ Sprintf rest args
      | [] => "%!s(MISSING)" ++ Sprintf rest []
      end
  | String c rest => String c (Sprintf rest args)
  | EmptyString => ""
  end.

(** What the command uses of the color package: [color.New(attr).SprintfFunc()] on a
    format without arguments, and coloring of formatted text. *)
Class Colors := {
  SprintfFunc : Z -> string -> string;
  GreenString : string -> string;
  CyanString : string -> string;
  RedString : string -> string;
  WhiteString : string -> string
}.

Definition grayscale `{!Colors} (code : Z) : string -> string := SprintfFunc (code + 232).

(** ** Exits *)

(** The process ends: the exit status and what is printed at the end
    ([log.Fatal] adds the time and a newline). *)
Record exit := mkExit { code : Z; message : string }.

(** [log.Fatal] *)
Definition fatal {A} (msg : string) : A + exit := inr (mkExit 1 msg).

Definition bindE {A B} (x : A + exit) (f : A -> B + exit) : B + exit :=
  match x with inl a => f a | inr e => inr e end.
Notation "'let!' x ':=' e 'in' k" := (bindE e (fun x => k))
  (at level 10, x pattern, e at level 100, k at level 200).

(** ** time.Duration *)

Definition Microsecond : Z := 1000.
Definition Millisecond : Z := 1000000.
Definition Second : Z := 1000000000.

(** [fmtFrac]: the fraction [v / 10^prec] without trailing zeros, put before [acc],
    and the integer part. *)
Fixpoint fmtFrac (prec : nat) (v : Z) (print : bool) (acc : string) : string * Z :=
  match prec with
  | O => (if print then String "." acc else acc, v)
  | S prec =>
      let digit := v mod 10 in
      let print := print || negb (digit =? 0) in
      fmtFrac prec (v / 10) print
        (if print then String (digit_char (Z.to_N digit)) acc else acc)
  end.

(** [Duration.String] *)
Definition Duration_String (d : Z) : string :=
  let u := Z.abs d in
  let sub (prec : nat) (unit_ : string) :=
    let '(s, v) := fmtFrac prec u false unit_ in FormatUint v ++ s in
  let text :=
    if u =? 0 then "0s"
    else if u <? Microsecond then sub 0%nat "ns"
    else if u <? Millisecond then sub 3%nat (String "194" (String "181" "s"))
    else if u <? Second then sub 6%nat "ms"
    else
      let '(s, v) := fmtFrac 9 u false "s" in
      let s := FormatUint (v mod 60) ++ s in
      let v := v / 60 in
      if v >? 0 then
        let s := FormatUint (v mod 60) ++ "m" ++ s in
        let v := v / 60 in
        if v >? 0 then FormatUint v ++ "h" ++ s else s
      else s in
  if d <? 0 then "-" ++ text else text.

Example duration_ex1 : Duration_String 1500000 = "1.5ms".
Proof. reflexivity. Qed.
Example duration_ex2 : Duration_String 3723004000000 = "1h2m3.004s".
Proof. reflexivity. Qed.
Example duration_ex3 : Duration_String (-20) = "-20ns".
Proof. reflexivity. Qed.

(** ** The times of a request *)

(** A [time.Time] as nanoseconds since the zero time (the year 1), whose value is 0;
    it is not a 64-bit number, only differences are. *)
Definition IsZero (t : Z) : bool := t =? 0.

(** [Time.Sub], which saturates. *)
Definition Sub (t u : Z) : Z := Z.max (- 2 ^ 63) (Z.min (2 ^ 63 - 1) (t - u)).

(** The variables [t0] to [t6] of [visit]. *)
Record times := mkTimes { t0 : Z; t1 : Z; t2 : Z; t3 : Z; t4 : Z; t5 : Z; t6 : Z }.
Definition times0 : times := mkTimes 0 0 0 0 0 0 0.

Definition times_eta (t : times) : times := mkTimes (t0 t) (t1 t) (t2 t) (t3 t) (t4 t) (t5 t) (t6 t).
#[global] Instance set_t0 : Setter t0 := ltac:(setter times_eta t0).
#[global] Instance set_t1 : Setter t1 := ltac:(setter times_eta t1).
#[global] Instance set_t2 : Setter t2 := ltac:(setter times_eta t2).
#[global] Instance set_t3 : Setter t3 := ltac:(setter times_eta t3).
#[global] Instance set_t4 : Setter t4 := ltac:(setter times_eta t4).
#[global] Instance set_t5 : Setter t5 := ltac:(setter times_eta t5).
#[global] Instance set_t6 : Setter t6 := ltac:(setter times_eta t6).

(** The calls of the callbacks of [httptrace.ClientTrace]. *)
Inductive trace_event :=
| DNSStart | DNSDone | ConnectStart | ConnectDone (addr : string) (err : option error)
| GotConn | GotFirstResponseByte | TLSHandshakeStart | TLSHandshakeDone.

(** One callback, called at the time [now]: the times and what is printed. *)
Definition on_event `{!Colors} (now : Z) (ev : trace_event) (t : times) : (times * string) + exit :=
  match ev with
  | DNSStart => inl (t <| t0 := now |>, "")
  | DNSDone => inl (t <| t1 := now |>, "")
  | ConnectStart => inl (if IsZero (t1 t) then t <| t1 := now |> else t, "")
  | ConnectDone addr (Some err) =>
      fatal ("unable to connect to host " ++ addr ++ ": " ++ err_msg err)
  | ConnectDone addr None =>
      inl (t <| t2 := now |>,
           newline ++ GreenString "Connected to " ++ CyanString addr ++ newline)
  | GotConn => inl (t <| t3 := now |>, "")
  | GotFirstResponseByte => inl (t <| t4 := now |>, "")
  | TLSHandshakeStart => inl (t <| t5 := now |>, "")
  | TLSHandshakeDone => inl (t <| t6 := now |>, "")
  end.

(** The callbacks of a request, in the order of their calls: what is printed, and
    the times or the end of the process. *)
Fixpoint run_trace `{!Colors} (evs : list (Z * trace_event)) (t : times) : string * (times + exit) :=
  match evs with
  | [] => ("", inl t)
  | (now, ev) :: evs =>
      match on_event now ev t with
      | inr e => ("", inr e)
      | inl (t, out) => let '(rest, r) := run_trace evs t in (out ++ rest, r)
      end
  end.

(** [if t0.IsZero()] after the body was read: DNS was skipped. *)
Definition skipDNS (t : times) : times := if IsZero (t0 t) then t <| t0 := t1 t |> else t.

(** ** The table of durations *)

(** The durations of a table: those of [fmta], then those of [fmtb]. *)
Definition durations (scheme : string) (t : times) (t7 : Z) : list Z * list Z :=
  if String.eqb scheme "https" then
    ([Sub (t1 t) (t0 t); Sub (t2 t) (t1 t); Sub (t6 t) (t5 t); Sub (t4 t) (t3 t); Sub t7 (t4 t)],
     [Sub (t1 t) (t0 t); Sub (t2 t) (t0 t); Sub (t3 t) (t0 t); Sub (t4 t) (t0 t); Sub t7 (t0 t)])
  else if String.eqb scheme "http" then
    ([Sub (t1 t) (t0 t); Sub (t3 t) (t1 t); Sub (t4 t) (t3 t); Sub t7 (t4 t)],
     [Sub (t1 t) (t0 t); Sub (t3 t) (t0 t); Sub (t4 t) (t0 t); Sub t7 (t0 t)])
  else ([], []).

Definition httpsTemplate : list string := [
  "  DNS Lookup   TCP Connection   TLS Handshake   Server Processing   Content Transfer";
  "[%s  |     %s  |    %s  |        %s  |       %s  ]";
  "            |                |               |                   |                  |";
  "   namelookup:%s      |               |                   |                  |";
  "                       connect:%s     |                   |                  |";
  "                                   pretransfer:%s         |                  |";
  "                                                     starttransfer:%s        |";
  "                                                                                total:%s";
  "" ].

Definition httpTemplate : list string := [
  "   DNS Lookup   TCP Connection   Server Processing   Content Transfer";
  "[ %s  |     %s  |        %s  |       %s  ]";
  "             |                |                   |                  |";
  "    namelookup:%s      |                   |                  |";
  "                        connect:%s         |                  |";
  "                                      starttransfer:%s        |";
  "                                                                 total:%s";
  "" ].

Section print.
Context `{!Colors}.

Definition fmta (d : Z) : string := CyanString (padLeft 7 (FormatInt (Z.quot d Millisecond)) ++ "ms").
Definition fmtb (d : Z) : string := CyanString (padRight 9 (FormatInt (Z.quot d Millisecond) ++ "ms")).

(** [colorize] on a template given by its lines. *)
Definition colorize (v : list string) : string :=
  match v with
  | [] => ""
  | v0 :: v => strings_Join (grayscale 16 v0 :: v) newline
  end.

(** The table printed for the scheme of the URL. *)
Definition table (scheme : string) (t : times) (t7 : Z) : string :=
  let '(a, b) := durations scheme t t7 in
  let args := (map fmta a ++ map fmtb b)%list in
  if String.eqb scheme "https" then Sprintf (colorize httpsTemplate) args
  else if String.eqb scheme "http" then Sprintf (colorize httpTemplate) args
  else "".

(** The line on the version of TLS; [TLS] is [resp.TLS.Version], if any. *)
Definition connectedVia (TLS : option Z) : string :=
  match TLS with
  | Some v => if v =? 0x0303 then "TLSv1.2" else if v =? 0x0304 then "TLSv1.3" else "plaintext"
  | None => "plaintext"
  end.
End print.

(** ** Headers *)

Definition headers : Type := list string.

Definition headers_String (h : headers) : string :=
  strings_Join (map (fun v => "-H " ++ v) h) " ".
Definition headers_Set (h : headers) (v : string) : headers := (h ++ [v])%list.
Definition headers_Len (h : headers) : Z := Z.of_nat (length h).


(** [headers.Swap]; [None] is the panic of an index out of range. *)
Definition headers_Swap (h : headers) (i j : nat) : option headers :=
  match h !! i, h !! j with
  | Some a, Some b => Some (<[j := a]> (<[i := b]> h))
  | _, _ => None
  end.

(** The function [endtoend] of [Less]. *)
Definition endtoend (n : string) : bool :=
  negb (existsb (String.eqb n)
    ["Connection"; "Keep-Alive"; "Proxy-Authenticate"; "Proxy-Authorization"; "TE"; "Trailers";
     "Transfer-Encoding"; "Upgrade"]).

(** [headers.Less] on the two names. *)
Definition Less (a b : string) : bool :=
  if String.eqb a "Server" then true
  else if String.eqb b "Server" then false
  else
    let x := endtoend a in
    let y := endtoend b in
    if Bool.eqb x y then String.ltb a b else x.

(** [sort.Sort(headers(names))] for the names of a map, which are different: whatever
    calls of [Swap] the sort makes, this is its result, see [header_order]. *)
Fixpoint insert_header (n : string) (l : headers) : headers :=
  match l with
  | [] => [n]
  | m :: l => if Less n m then n :: m :: l else m :: insert_header n l
  end.
Definition sort_headers (names : headers) : headers := foldr insert_header [] names.

(** ** The response and the connection *)

Section lines.
Context {C S X F : Type} `{!NetConnOps C, !Platform S, !Colors} {Uni : Unicode}.

(** [json.MarshalIndent] with an indentation of two spaces and its error ignored: the
    text is then empty. *)
Definition MarshalIndent (m : gmap string any) : string :=
  match Marshal true m with inl jb => jb | inr _ => "" end.

(** The status line and the header lines; [hdr] is [resp.Header]. *)
Definition statusLine (ProtoMajor ProtoMinor : Z) (Status : string) : string :=
  newline ++ GreenString "HTTP" ++ grayscale 14 "/"
  ++ CyanString (FormatInt ProtoMajor ++ "." ++ FormatInt ProtoMinor ++ " " ++ Status) ++ newline.

Definition headerLine (hdr : gmap string (list string)) (k : string) : string :=
  grayscale 14 (k ++ ":") ++ " " ++ CyanString (strings_Join (default [] (hdr !! k)) ",") ++ newline.

Definition headerLines (hdr : gmap string (list string)) : list string :=
  map (headerLine hdr) (sort_headers (map_to_list hdr).*1).

(** The lines on the connection kept by [dialContext], if it has information taken on
    closing. *)
Definition connLines (c : option (Conn C S X F)) : string :=
  match c with
  | None => ""
  | Some c =>
      match ClosedInfo c with
      | None => ""
      | Some info =>
          grayscale 14 "Remote" ++ ":" ++ tab ++ CyanString (RemoteAddrString c) ++ newline
          ++ grayscale 14 "RTT" ++ ":" ++ tab ++ tab ++ CyanString (Duration_String (RTT info)) ++ newline
          ++ grayscale 14 "Sent" ++ ":" ++ tab ++ tab
          ++ CyanString (FormatInt (TxBytes c) ++ " bytes") ++ newline
          ++ grayscale 14 "Received" ++ ":" ++ tab
          ++ CyanString (FormatInt (RxBytes c) ++ " bytes") ++ newline
          ++ match Warnings c with
             | [] => ""
             | warns => grayscale 14 "Warnings" ++ ":" ++ tab ++ RedString (strings_Join warns ", ") ++ newline
             end
          ++ grayscale 14 ("Diagnostics:" ++ newline ++ "============" ++ newline) ++ newline
          ++ WhiteString (MarshalIndent (Conn_ToMap c) ++ newline)
      end
  end.
End lines.

(** ** The order of headers *)

Lemma Less_total a b : a <> b -> Less a b = negb (Less b a).
Proof.
  intros Hne. unfold Less.
  destruct (String.eqb_spec a "Server") as [->|], (String.eqb_spec b "Server") as [->|]; try done.
  destruct (endtoend a), (endtoend b); simpl; try done; by apply ltb_total.
Qed.

Lemma Less_trans a b c : Less a b = true -> Less b c = true -> Less a c = true.
Proof.
  unfold Less.
  destruct (String.eqb_spec a "Server") as [->|], (String.eqb_spec b "Server") as [->|],
    (String.eqb_spec c "Server") as [->|]; try done.
  destruct (endtoend a), (endtoend b), (endtoend c); simpl; try done; apply ltb_trans.
Qed.

(** What [sort.Sort] establishes: no element is less than an earlier one. *)
Definition sorted_headers (out : headers) : Prop :=
  StronglySorted (fun a b => Less b a = false) out.

#[export] Instance Less_antisymm : AntiSymm (=) (fun a b => Less b a = false).
Proof.
  intros a b H1 H2. destruct (decide (a = b)) as [|Hne]; [done|].
  pose proof (Less_total a b Hne) as H. by rewrite H1, H2 in H.
Qed.

(** The slices that calls of [Swap] lead to. *)
Inductive swaps : headers -> headers -> Prop :=
| swaps_done h : swaps h h
| swaps_step h i j h1 h2 : headers_Swap h i j = Some h1 -> swaps h1 h2 -> swaps h h2.

Lemma swaps_trans h1 h2 h3 : swaps h1 h2 -> swaps h2 h3 -> swaps h1 h3.
Proof. induction 1; [done|]. intros H3. econstructor; eauto. Qed.

Lemma swaps_cons a h h' : swaps h h' -> swaps (a :: h) (a :: h').
Proof.
  induction 1 as [|h i j h1 h2 Hs _ IH]; [constructor|].
  apply (swaps_step _ (S i) (S j) (a :: h1)); [|done]. unfold headers_Swap, headers in *.
  rewrite !lookup_cons. destruct (h !! i), (h !! j); by simplify_eq.
Qed.

Lemma headers_Swap_perm h i j h' : headers_Swap h i j = Some h' -> h ≡ₚ h'.
Proof.
  unfold headers_Swap, headers in *. intros Hs. symmetry.
  destruct (h !! i) as [a|] eqn:Ei, (h !! j) as [b|] eqn:Ej; simplify_eq. by apply Permutation_insert_swap.
Qed.

(** [Swap] reaches the permutations, and nothing else. *)
Lemma swaps_perm h h' : swaps h h' <-> h ≡ₚ h'.
Proof.
  split.
  - induction 1 as [|h i j h1 h2 Hs _ IH]; [done|]. by rewrite (headers_Swap_perm _ _ _ _ Hs).
  - induction 1 as [|a h h' _ IH|a b h|h1 h2 h3 _ IH1 _ IH2].
    + constructor.
    + by apply swaps_cons.
    + apply (swaps_step _ 0 1 (a :: b :: h)); [done|constructor].
    + by eapply swaps_trans.
Qed.

(** Inserting a new name keeps the list sorted. *)
Lemma insert_header_perm n l : insert_header n l ≡ₚ n :: l.
Proof.
  induction l as [|m l IH]; [done|]. simpl. destruct (Less n m); [done|].
  rewrite IH. constructor.
Qed.

Lemma sort_headers_perm l : sort_headers l ≡ₚ l.
Proof. induction l as [|n l IH]; [done|]. simpl. by rewrite insert_header_perm, IH. Qed.

Lemma insert_header_sorted n l : n ∉ l -> sorted_headers l -> sorted_headers (insert_header n l).
Proof.
  unfold sorted_headers. induction l as [|m l IH]; intros Hn Hs; [repeat constructor|].
  apply not_elem_of_cons in Hn as [Hne Hn]. simpl. inversion_clear Hs as [|? ? Hs' Hm].
  destruct (Less n m) eqn:E.
  - constructor; [by constructor|]. constructor; [by rewrite Less_total, E|].
    rewrite Forall_forall in Hm |- *. intros z Hz. specialize (Hm z Hz).
    destruct (decide (z = m)) as [->|Hzm]; [by rewrite Less_total, E|].
    assert (Hmz : Less m z = true) by (rewrite Less_total by done; by rewrite Hm).
    rewrite Less_total by (intros ->; done). by rewrite (Less_trans _ _ _ E Hmz).
  - constructor; [by apply IH|]. rewrite insert_header_perm. by constructor.
Qed.

Lemma sort_headers_sorted l : NoDup l -> sorted_headers (sort_headers l).
Proof.
  induction 1 as [|n l Hn Hd IH]; [constructor|]. simpl. apply insert_header_sorted; [|done].
  by rewrite sort_headers_perm.
Qed.

(** Earlier names of a sorted list are not greater. *)
Lemma sorted_headers_lookup out i j a b :
  sorted_headers out -> (i < j)%nat -> out !! i = Some a -> out !! j = Some b -> Less b a = false.
Proof.
  intros Hs Hij Hi Hj. unfold sorted_headers in Hs. rewrite <- (take_drop j out) in Hs.
  apply (StronglySorted_app_1_elem_of _ _ _ a b Hs).
  - apply list_elem_of_lookup. exists i. by rewrite lookup_take_lt.
  - apply list_elem_of_lookup. exists 0%nat. by rewrite lookup_drop, Nat.add_0_r.
Qed.

(** C32: The header lines of the report come in the order that any sort by Len, Less
    and Swap leads to when it ends sorted: the only one that is sorted by Less, with
    Server first, then the end-to-end headers, then the hop-by-hop ones, each group in
    byte order. *)
Theorem header_order names :
  NoDup names ->
  let out := sort_headers names in
  swaps names out /\ sorted_headers out
  /\ (forall out', swaps names out' -> sorted_headers out' -> out' = out)
  /\ ("Server" ∈ names -> head out = Some "Server")
  /\ (forall i j a b, (i < j)%nat -> out !! i = Some a -> out !! j = Some b -> a <> "Server" ->
        (endtoend b = true -> endtoend a = true)
        /\ (endtoend a = endtoend b -> String.ltb b a = false)).
Proof.
  intros Hd out. pose proof (sort_headers_perm names) as Hp. fold out in Hp.
  pose proof (sort_headers_sorted names Hd) as Hs. fold out in Hs. split_and!; try done.
  - by apply swaps_perm.
  - intros out' Hp' Hs'. apply swaps_perm in Hp'. eapply StronglySorted_unique; [apply _|done|done|]. by rewrite <- Hp', Hp.
  - intros Hin. rewrite <- Hp in Hin.
    apply list_elem_of_lookup in Hin as [[|j] Hj]; [by destruct out; simplify_eq/=|].
    destruct out as [|a out']; [done|].
    pose proof (sorted_headers_lookup _ 0 (S j) a "Server" Hs ltac:(lia) eq_refl Hj) as H. done.
  - intros i j a b Hij Hi Hj Ha. pose proof (sorted_headers_lookup _ i j a b Hs Hij Hi Hj) as H.
    unfold Less in H. rewrite (proj2 (String.eqb_neq a "Server")) in H by done.
    destruct (String.eqb b "Server"); [done|]. split; intros He; rewrite He in H.
    + by destruct (endtoend a).
    + rewrite Bool.eqb_reflx in H. done.
Qed.

Lemma header_order_witness :
  sort_headers ["Date"; "Connection"; "Server"; "Age"] = ["Server"; "Age"; "Date"; "Connection"]
  /\ forall out', swaps ["Date"; "Connection"; "Server"; "Age"] out' -> sorted_headers out' ->
       out' = sort_headers ["Date"; "Connection"; "Server"; "Age"].
Proof.
  destruct (header_order ["Date"; "Connection"; "Server"; "Age"]) as (_ & _ & H & _).
  - apply (bool_decide_unpack _). vm_compute. exact I.
  - split; [vm_compute; reflexivity|exact H].
Defined.

(** ** The table adds up *)

(** The callbacks of a request on a new connection: the name is looked up when the
    host is not an address, and TLS is negotiated for https. *)
Definition request_events (dns : option (Z * Z)) (addr : string) (c d : Z) (tls : option (Z * Z))
    (g h : Z) : list (Z * trace_event) :=
  (match dns with Some (a, b) => [(a, DNSStart); (b, DNSDone)] | None => [] end
   ++ [(c, ConnectStart); (d, ConnectDone addr None)]
   ++ match tls with Some (e, f) => [(e, TLSHandshakeStart); (f, TLSHandshakeDone)] | None => [] end
   ++ [(g, GotConn); (h, GotFirstResponseByte)])%list.

(** Each number is at most the next. *)
Fixpoint ascending (x : Z) (l : list Z) : Prop :=
  match l with [] => True | y :: l => x <= y /\ ascending y l end.

Lemma Sub_exact t u : u <= t -> t - u < 2 ^ 63 -> Sub t u = t - u.
Proof. unfold Sub. lia. Qed.

Lemma IsZero_pos t : 1 <= t -> IsZero t = false.
Proof. unfold IsZero. lia. Qed.

(** The times after the callbacks, the name lookup skipped or not. *)
Lemma request_times `{!Colors} dns addr c d tls g h :
  1 <= c -> (forall a b, dns = Some (a, b) -> 1 <= a /\ 1 <= b) ->
  exists t out, run_trace (request_events dns addr c d tls g h) times0 = (out, inl t)
    /\ skipDNS t = mkTimes (default c (fst <$> dns)) (default c (snd <$> dns)) d g h
                     (default 0 (fst <$> tls)) (default 0 (snd <$> tls)).
Proof.
  intros Hc Hd.
  destruct dns as [[a b]|]; [destruct (Hd a b eq_refl) as [Ha Hb]|];
    (destruct tls as [[e f]|]; do 2 eexists; (split; [reflexivity|]); unfold skipDNS; simpl;
     rewrite ?(IsZero_pos b) by done; simpl; rewrite ?(IsZero_pos a) by done; reflexivity).
Qed.

(** The first attempt to connect that fails ends the process, whatever attempts with
    other addresses of the host would follow. *)
Lemma failed_attempt_exits `{!Colors} evs t t' now addr err rest :
  (run_trace evs t).2 = inl t' ->
  (run_trace (evs ++ (now, ConnectDone addr (Some err)) :: rest) t).2
  = fatal ("unable to connect to host " ++ addr ++ ": " ++ err_msg err).
Proof.
  revert t. induction evs as [|[ts ev] evs IH]; intros t Ht; [done|]. cbn [app run_trace] in *.
  destruct (on_event ts ev t) as [[t1 out]|e]; [|done].
  specialize (IH t1). destruct (run_trace evs t1) as [o1 r1].
  destruct (run_trace (evs ++ _) t1) as [o2 r2]. by apply IH.
Qed.

(** C33: For the callbacks of a request on a new connection at ascending times within
    the range of a Duration (292 years), by name or by address, with or without TLS: no
    duration of the table is negative, the phases add up to the total (for https to at
    most the total, the rest being gaps between phases), the lookup takes no time when
    it was skipped, and the cumulative times ascend to the total. *)
Theorem timing_table `{!Colors} dns addr c d tls g h t7 :
  let evs := request_events dns addr c d tls g h in
  ascending 1 (evs.*1 ++ [t7])%list ->
  t7 - match dns with Some (a, _) => a | None => c end < 2 ^ 63 ->
  exists t out, run_trace evs times0 = (out, inl t)
    /\ let '(phases, marks) := durations (if tls is Some _ then "https" else "http") (skipDNS t) t7 in
       let total := t7 - match dns with Some (a, _) => a | None => c end in
       Forall (fun x => 0 <= x) phases
       /\ (if tls is Some _ then sumZ id phases <= total else sumZ id phases = total)
       /\ (dns = None -> head phases = Some 0)
       /\ ascending 0 marks /\ last marks = Some total.
Proof.
  intros evs Ha Ht. destruct (request_times dns addr c d tls g h) as (t & out & E & Et).
  { destruct dns as [[a b]|], tls as [[e f]|]; simpl in Ha; lia. }
  { intros a b ->. destruct tls as [[e f]|]; simpl in Ha; lia. }
  exists t, out. split; [exact E|]. rewrite Et. clear E Et t out.
  destruct dns as [[a b]|], tls as [[e f]|]; simpl in Ha; unfold durations; simpl;
    rewrite !Sub_exact by lia; split_and!; try done; try lia; try (f_equal; lia);
    try (intros _; f_equal; lia); rewrite ?Forall_cons, ?Forall_nil; lia.
Qed.

(** A request of the year 2024 by name over TLS: 20 ms of name lookup, 30 ms to
    connect; the times are nanoseconds since the year 1. *)
Module Demo_report.
#[export] Instance plainText : Colors := {|
  SprintfFunc := fun _ s => s; GreenString := fun s => s; CyanString := fun s => s;
  RedString := fun s => s; WhiteString := fun s => s |}.
Definition ms (n : Z) : Z := n * Millisecond.
Definition at_ms (n : Z) : Z := 63861000000 * Second + ms n.
Definition evs : list (Z * trace_event) :=
  request_events (Some (at_ms 100, at_ms 120)) "10.0.0.1:443" (at_ms 120) (at_ms 150)
    (Some (at_ms 150, at_ms 190)) (at_ms 190) (at_ms 240).
End Demo_report.
Import Demo_report.

Lemma timing_table_witness :
  exists t out, run_trace evs times0 = (out, inl t) /\ 2 ^ 63 < t0 t
    /\ sumZ id (durations "https" (skipDNS t) (at_ms 250)).1 <= ms 150.
Proof.
  destruct (timing_table (Some (at_ms 100, at_ms 120)) "10.0.0.1:443" (at_ms 120) (at_ms 150)
    (Some (at_ms 150, at_ms 190)) (at_ms 190) (at_ms 240) (at_ms 250)) as (t & out & E & H).
  - vm_compute. repeat split; congruence.
  - vm_compute. reflexivity.
  - exists t, out. split_and!; [exact E| |].
    + injection E as _ <-. vm_compute. reflexivity.
    + destruct (durations _ _ _) as [phases marks] eqn:Ed. destruct H as (_ & H & _). exact H.
Defined.

Example table_ex :
  table "http" (mkTimes (ms 100) (ms 120) (ms 150) (ms 150) (ms 200) 0 0) (ms 210)
  = strings_Join [
    "   DNS Lookup   TCP Connection   Server Processing   Content Transfer";
    "[      20ms  |          30ms  |             50ms  |            10ms  ]";
    "             |                |                   |                  |";
    "    namelookup:20ms           |                   |                  |";
    "                        connect:50ms              |                  |";
    "                                      starttransfer:100ms            |";
    "                                                                 total:110ms    "; ""] newline.
Proof. vm_compute. reflexivity. Qed.
