(* ===== verification/Flags.v ===== *)
(** The command line of cmd/httpstat: the flags of main.go (the variables, [init] and
    [usage], lines 51 to 101) and the functions of package flag it uses: registering,
    [flag.Parse] with the error handling [ExitOnError], and [flag.PrintDefaults]. *)

From stdpp Require Import base list strings.
From Stdlib Require Import ZArith Ascii Lia.
From S2P Require Import Prelude GoFmt Json HttpReport.

Local Open Scope string_scope.
Local Open Scope Z_scope.
Local Open Scope go_scope.

(** ** The variables of the flags *)

Record flags := mkFlags {
  httpMethod : string; postBody : string; followRedirects : bool; onlyHeader : bool;
  insecure : bool; httpHeaders : headers; saveOutput : bool; outputFile : string;
  showVersion : bool; clientCertFile : string; fourOnly : bool; sixOnly : bool
}.

Definition flags_eta (f : flags) : flags :=
  mkFlags (httpMethod f) (postBody f) (followRedirects f) (onlyHeader f) (insecure f) (httpHeaders f)
    (saveOutput f) (outputFile f) (showVersion f) (clientCertFile f) (fourOnly f) (sixOnly f).
#[global] Instance set_httpMethod : Setter httpMethod := ltac:(setter flags_eta httpMethod).
#[global] Instance set_postBody : Setter postBody := ltac:(setter flags_eta postBody).
#[global] Instance set_followRedirects : Setter followRedirects := ltac:(setter flags_eta followRedirects).
#[global] Instance set_onlyHeader : Setter onlyHeader := ltac:(setter flags_eta onlyHeader).
#[global] Instance set_insecure : Setter insecure := ltac:(setter flags_eta insecure).
#[global] Instance set_httpHeaders : Setter httpHeaders := ltac:(setter flags_eta httpHeaders).
#[global] Instance set_saveOutput : Setter saveOutput := ltac:(setter flags_eta saveOutput).
#[global] Instance set_outputFile : Setter outputFile := ltac:(setter flags_eta outputFile).
#[global] Instance set_showVersion : Setter showVersion := ltac:(setter flags_eta showVersion).
#[global] Instance set_clientCertFile : Setter clientCertFile := ltac:(setter flags_eta clientCertFile).
#[global] Instance set_fourOnly : Setter fourOnly := ltac:(setter flags_eta fourOnly).
#[global] Instance set_sixOnly : Setter sixOnly := ltac:(setter flags_eta sixOnly).

(** The variables before [init]. *)
Definition zero_flags : flags := mkFlags "" "" false false false [] false "" false "" false false.

(** ** Package flag *)

(** The dynamic type of a [flag.Value], with the assignment of its [Set] to the variable
    it points to: [*stringValue], [*boolValue] and a type of the program. *)
Inductive Value :=
| stringValue (set : string -> flags -> flags)
| boolValue (set : bool -> flags -> flags)
| otherValue (Set_ : string -> flags -> flags).

Record Flag := mkFlag { Name : string; value_ : Value; DefValue : string; Usage : string }.

(** The flags registered so far, oldest first, and the variables. *)
Record FlagSet := mkFlagSet { formal : list Flag; vars : flags }.

Definition StringVar (set : string -> flags -> flags) (name value usage : string) (fs : FlagSet) : FlagSet :=
  mkFlagSet (formal fs ++ [mkFlag name (stringValue set) value usage]) (set value (vars fs)).
Definition BoolVar (set : bool -> flags -> flags) (name : string) (value : bool) (usage : string)
    (fs : FlagSet) : FlagSet :=
  mkFlagSet (formal fs ++ [mkFlag name (boolValue set) (if value then "true" else "false") usage])
    (set value (vars fs)).
(** [flag.Var]; [text] is the method [String] of the value. *)
Definition Var (Set_ : string -> flags -> flags) (text : flags -> string) (name usage : string)
    (fs : FlagSet) : FlagSet :=
  mkFlagSet (formal fs ++ [mkFlag name (otherValue Set_) (text (vars fs)) usage]) (vars fs).

(** [init] of main.go *)
Definition init (fs : FlagSet) : FlagSet :=
  let fs := StringVar (fun v f => f <| httpMethod := v |>) "X" "GET" "HTTP method to use" fs in
  let fs := StringVar (fun v f => f <| postBody := v |>) "d" ""
              "the body of a POST or PUT request; from file use @filename" fs in
  let fs := BoolVar (fun v f => f <| followRedirects := v |>) "L" false "follow 30x redirects" fs in
  let fs := BoolVar (fun v f => f <| onlyHeader := v |>) "I" false "don't read body of request" fs in
  let fs := BoolVar (fun v f => f <| insecure := v |>) "k" false "allow insecure SSL connections" fs in
  let fs := Var (fun v f => f <| httpHeaders := headers_Set (httpHeaders f) v |>)
              (fun f => headers_String (httpHeaders f)) "H"
              "set HTTP header; repeatable: -H 'Accept: ...' -H 'Range: ...'" fs in
  let fs := BoolVar (fun v f => f <| saveOutput := v |>) "O" false "save body as remote filename" fs in
  let fs := StringVar (fun v f => f <| outputFile := v |>) "o" "" "output file for body" fs in
  let fs := BoolVar (fun v f => f <| showVersion := v |>) "v" false "print version number" fs in
  let fs := StringVar (fun v f => f <| clientCertFile := v |>) "E" "" "client cert file for tls config" fs in
  let fs := BoolVar (fun v f => f <| fourOnly := v |>) "4" false "resolve IPv4 addresses only" fs in
  let fs := BoolVar (fun v f => f <| sixOnly := v |>) "6" false "resolve IPv6 addresses only" fs in
  fs.

Definition CommandLine : FlagSet := init (mkFlagSet [] zero_flags).

(** [f.formal[name]] *)
Definition lookup_flag (fs : FlagSet) (name : string) : option Flag :=
  List.find (fun fl => String.eqb (Name fl) name) (formal fs).

(** [strconv.ParseBool], whose error [boolValue.Set] replaces by [errParse]. *)
Definition ParseBool (s : string) : option bool :=
  if existsb (String.eqb s) ["1"; "t"; "T"; "true"; "TRUE"; "True"] then Some true
  else if existsb (String.eqb s) ["0"; "f"; "F"; "false"; "FALSE"; "False"] then Some false
  else None.
Definition errParse : error := errors_New "parse error".

Definition IsBoolFlag (v : Value) : bool := match v with boolValue _ => true | _ => false end.
Definition Value_Set (v : Value) (s : string) (f : flags) : flags + error :=
  match v with
  | stringValue set => inl (set s f)
  | boolValue set => match ParseBool s with Some b => inl (set b f) | None => inr errParse end
  | otherValue set => inl (set s f)
  end.

(** The text before and after the first [c]. *)
Fixpoint Cut (c : ascii) (s : string) : option (string * string) :=
  match s with
  | "" => None
  | String d s =>
      if Ascii.eqb d c then Some ("", s)
      else match Cut c s with Some (a, b) => Some (String d a, b) | None => None end
  end.

(** ** PrintDefaults *)

(** [flag.UnquoteUsage]: the name of the argument is between back quotes in the usage,
    or given by the type. *)
Definition UnquoteUsage (fl : Flag) : string * string :=
  let byType := match value_ fl with
                | boolValue _ => "" | stringValue _ => "string" | otherValue _ => "value" end in
  match Cut "`" (Usage fl) with
  | Some (before, rest) =>
      match Cut "`" rest with
      | Some (name, after) => (name, before ++ name ++ after)
      | None => (byType, Usage fl)
      end
  | None => (byType, Usage fl)
  end.

(** [isZeroValue]: the default is that of the zero value of the type; that of [headers]
    is the text of an empty slice. *)
Definition isZeroValue (fl : Flag) : bool :=
  String.eqb (DefValue fl)
    match value_ fl with
    | stringValue _ => "" | boolValue _ => "false" | otherValue _ => headers_String []
    end.

Fixpoint indentLines (s : string) : string :=
  match s with
  | "" => ""
  | String c s => (if Ascii.eqb c "010" then newline ++ "    " ++ tab else String c "") ++ indentLines s
  end.

Section defaults.
Context {Uni : Unicode}.

Definition printDefault (fl : Flag) : string :=
  let '(name, usage) := UnquoteUsage fl in
  let b := "  -" ++ Name fl ++ (if String.eqb name "" then "" else " " ++ name) in
  let b := b ++ (if (String.length b <=? 4)%nat then tab else newline ++ "    " ++ tab) in
  let b := b ++ indentLines usage in
  b ++ (if isZeroValue fl then ""
        else " (default "
             ++ match value_ fl with stringValue _ => Quote (DefValue fl) | _ => DefValue fl end ++ ")")
  ++ newline.

(** The flags in the order of their names. *)
Fixpoint insert_flag (fl : Flag) (l : list Flag) : list Flag :=
  match l with
  | [] => [fl]
  | g :: l' => if String.ltb (Name fl) (Name g) then fl :: l else g :: insert_flag fl l'
  end.
Definition sortFlags (fs : FlagSet) : list Flag := foldr insert_flag [] (formal fs).

Definition PrintDefaults (fs : FlagSet) : string := strings_Join (map printDefault (sortFlags fs)) "".

(** [usage] of main.go; [name] is [os.Args[0]]. *)
Definition usage (name : string) : string :=
  "Usage: " ++ name ++ " [OPTIONS] URL" ++ newline ++ newline
  ++ "OPTIONS:" ++ newline ++ PrintDefaults CommandLine ++ newline
  ++ "ENVIRONMENT:" ++ newline
  ++ "  HTTP_PROXY    proxy for HTTP requests; complete URL or HOST[:PORT]" ++ newline
  ++ "                used for HTTPS requests if HTTPS_PROXY undefined" ++ newline
  ++ "  HTTPS_PROXY   proxy for HTTPS requests; complete URL or HOST[:PORT]" ++ newline
  ++ "  NO_PROXY      comma-separated list of hosts to exclude from proxy" ++ newline.

(** ** Parse *)

(** The results of [parseOne]: a flag was set, no flag is left, or the process ends. *)
Inductive parsed := Seen (f : flags) (args : list string) | NoFlag (f : flags) (args : list string)
  | Failed (e : exit).

(** [failf] and the exit status of [ExitOnError]. *)
Definition failf (prog msg : string) : parsed := Failed (mkExit 2 (msg ++ newline ++ usage prog)).

(** [parseOne] from the name on, dashes removed: [s] is the whole argument, [args] those
    after it. *)
Definition parseNamed (prog s name : string) (args : list string) (f : flags) : parsed :=
  match name with
  | "" => failf prog ("bad flag syntax: " ++ s)
  | String c rest =>
      if Ascii.eqb c "-" || Ascii.eqb c "=" then failf prog ("bad flag syntax: " ++ s)
      else
        let '(name, value) := match Cut "=" rest with
                              | Some (n, v) => (String c n, Some v)
                              | None => (name, None)
                              end in
        match lookup_flag CommandLine name with
        | None =>
            if String.eqb name "help" || String.eqb name "h" then Failed (mkExit 0 (usage prog))
            else failf prog ("flag provided but not defined: -" ++ name)
        | Some fl =>
            if IsBoolFlag (value_ fl) then
              match value with
              | Some v =>
                  match Value_Set (value_ fl) v f with
                  | inl f => Seen f args
                  | inr err => failf prog ("invalid boolean value " ++ Quote v ++ " for -" ++ name ++ ": "
                                           ++ err_msg err)
                  end
              | None =>
                  match Value_Set (value_ fl) "true" f with
                  | inl f => Seen f args
                  | inr err => failf prog ("invalid boolean flag " ++ name ++ ": " ++ err_msg err)
                  end
              end
            else
              let '(value, args) := match value, args with
                                    | None, v :: args => (Some v, args)
                                    | _, _ => (value, args)
                                    end in
              match value with
              | None => failf prog ("flag needs an argument: -" ++ name)
              | Some v =>
                  match Value_Set (value_ fl) v f with
                  | inl f => Seen f args
                  | inr err => failf prog ("invalid value " ++ Quote v ++ " for flag -" ++ name ++ ": "
                                           ++ err_msg err)
                  end
              end
        end
  end.

Definition parseOne (prog : string) (args : list string) (f : flags) : parsed :=
  match args with
  | [] => NoFlag f args
  | s :: rest =>
      match s with
      | String "-" (String c name) =>
          if Ascii.eqb c "-" then
            if String.eqb name "" then NoFlag f rest else parseNamed prog s name rest f
          else parseNamed prog s (String c name) rest f
      | _ => NoFlag f args
      end
  end.

(** The loop of [Parse]: each unit of [fuel] is one call of [parseOne]; [None] is a loop
    cut off. *)
Fixpoint parse_loop (fuel : nat) (prog : string) (args : list string) (f : flags)
    : option ((flags * list string) + exit) :=
  match fuel with
  | O => None
  | S fuel =>
      match parseOne prog args f with
      | Seen f args => parse_loop fuel prog args f
      | NoFlag f args => Some (inl (f, args))
      | Failed e => Some (inr e)
      end
  end.

(** [flag.Parse] from the arguments after the program's name: the variables and
    [flag.Args]. *)
Definition Parse (prog : string) (args : list string) (f : flags)
    : option ((flags * list string) + exit) :=
  parse_loop (S (length args)) prog args f.
End defaults.

Example defaults_ex :
  PrintDefaults (Uni := {| IsPrintHigh _ := true |}) CommandLine
  = strings_Join [
      "  -4" ++ tab ++ "resolve IPv4 addresses only";
      "  -6" ++ tab ++ "resolve IPv6 addresses only";
      "  -E string"; "    " ++ tab ++ "client cert file for tls config";
      "  -H value"; "    " ++ tab ++ "set HTTP header; repeatable: -H 'Accept: ...' -H 'Range: ...'";
      "  -I" ++ tab ++ "don't read body of request";
      "  -L" ++ tab ++ "follow 30x redirects";
      "  -O" ++ tab ++ "save body as remote filename";
      "  -X string"; "    " ++ tab ++ "HTTP method to use (default " ++ String dq ("GET" ++ String dq ")");
      "  -d string"; "    " ++ tab ++ "the body of a POST or PUT request; from file use @filename";
      "  -k" ++ tab ++ "allow insecure SSL connections";
      "  -o string"; "    " ++ tab ++ "output file for body";
      "  -v" ++ tab ++ "print version number"; ""] newline.
Proof. vm_compute. reflexivity. Qed.

(** ** What command lines mean *)

(** The ways to write that the flag [n] has the value [v]: one or two dashes, the value
    after an equals sign or, unless the flag is boolean, in the next argument; a boolean
    flag alone is true. *)
Definition is_bool (n : string) : option bool :=
  match n with
  | "L" | "I" | "k" | "O" | "v" | "4" | "6" => Some true
  | "X" | "d" | "H" | "o" | "E" => Some false
  | _ => None
  end.
Inductive dashes : string -> Prop := one_dash : dashes "-" | two_dashes : dashes "--".
Inductive written : string * string -> list string -> Prop :=
| written_equals d n v : dashes d -> written (n, v) [d ++ n ++ "=" ++ v]
| written_next d n v : dashes d -> is_bool n = Some false -> written (n, v) [d ++ n; v]
| written_alone d n : dashes d -> is_bool n = Some true -> written (n, "true") [d ++ n].

(** The flags when nothing is set. *)
Definition default_flags : flags := {|
  httpMethod := "GET"; postBody := ""; followRedirects := false; onlyHeader := false;
  insecure := false; httpHeaders := []; saveOutput := false; outputFile := "";
  showVersion := false; clientCertFile := ""; fourOnly := false; sixOnly := false
|}.

(** What each letter sets; a boolean flag with another value than those of
    [strconv.ParseBool] means nothing. *)
Definition meaning (n v : string) (f : flags) : option flags :=
  let switch (set : bool -> flags) := set <$> ParseBool v in
  match n with
  | "X" => Some (f <| httpMethod := v |>)
  | "d" => Some (f <| postBody := v |>)
  | "L" => switch (fun b => f <| followRedirects := b |>)
  | "I" => switch (fun b => f <| onlyHeader := b |>)
  | "k" => switch (fun b => f <| insecure := b |>)
  | "H" => Some (f <| httpHeaders := (httpHeaders f ++ [v])%list |>)
  | "O" => switch (fun b => f <| saveOutput := b |>)
  | "o" => Some (f <| outputFile := v |>)
  | "v" => switch (fun b => f <| showVersion := b |>)
  | "E" => Some (f <| clientCertFile := v |>)
  | "4" => switch (fun b => f <| fourOnly := b |>)
  | "6" => switch (fun b => f <| sixOnly := b |>)
  | _ => None
  end.

(** The flags after settings in the order of the command line: a later one overrides an
    earlier one, headers add up. *)
Fixpoint settings (l : list (string * string)) (f : flags) : option flags :=
  match l with
  | [] => Some f
  | (n, v) :: l => meaning n v f ≫= settings l
  end.

(** Arguments that end the flags, and the arguments that are left. *)
Definition positional (tail : list string) : option (list string) :=
  match tail with
  | "--" :: rest => Some rest
  | String "-" (String _ _) :: _ => None
  | _ => Some tail
  end.

(** The names of the flags have one character, which is neither a dash nor an equals
    sign. *)
Lemma flag_name n fl :
  lookup_flag CommandLine n = Some fl ->
  exists c, n = String c "" /\ Ascii.eqb c "-" = false /\ Ascii.eqb c "=" = false.
Proof.
  unfold lookup_flag. intros [Hin Hn]%List.find_some. apply String.eqb_eq in Hn. subst n.
  simpl in Hin. repeat destruct Hin as [<-|Hin]; try (eexists; split_and!; reflexivity). done.
Qed.

(** The registered flags are these, with these types and variables. *)
Lemma lookup_flag_meaning n :
  is_bool n = (fun fl => IsBoolFlag (value_ fl)) <$> lookup_flag CommandLine n
  /\ forall v f, meaning n v f = lookup_flag CommandLine n
       ≫= (fun fl => match Value_Set (value_ fl) v f with inl f => Some f | inr _ => None end).
Proof.
  destruct n as [|c [|c' n]].
  - split; reflexivity.
  - destruct c as [[] [] [] [] [] [] [] []]; (split; [reflexivity|intros v f]);
      try reflexivity; cbn -[ParseBool]; by destruct (ParseBool v).
  - assert (Hl : lookup_flag CommandLine (String c (String c' n)) = None).
    { destruct (lookup_flag _ _) as [fl|] eqn:Hl; [|done]. by apply flag_name in Hl as (? & ? & _). }
    rewrite Hl. split; [unfold is_bool|intros v f; unfold meaning]; by repeat case_match.
Qed.

Lemma meaning_Set n v f f' :
  meaning n v f = Some f' <->
  exists fl, lookup_flag CommandLine n = Some fl /\ Value_Set (value_ fl) v f = inl f'.
Proof.
  rewrite (proj2 (lookup_flag_meaning n)). destruct (lookup_flag CommandLine n) as [fl|]; simpl.
  - destruct (Value_Set _ _ _) eqn:E; split; [intros [= ->]; eauto| |done|]; intros (? & [= <-] & ?); congruence.
  - split; [done|by intros (? & ? & _)].
Qed.

Lemma is_bool_flag n fl :
  lookup_flag CommandLine n = Some fl -> is_bool n = Some (IsBoolFlag (value_ fl)).
Proof. intros Hl. by rewrite (proj1 (lookup_flag_meaning n)), Hl. Qed.

Lemma parseOne_dashes {Uni : Unicode} prog d c name rest f :
  dashes d -> Ascii.eqb c "-" = false ->
  parseOne prog ((d ++ String c name) :: rest) f
  = parseNamed prog (d ++ String c name) (String c name) rest f.
Proof. intros [|] Hc; simpl; [by rewrite Hc|done]. Qed.

(** One setting, however it is written, is one step of the loop. *)
Lemma parseOne_written {Uni : Unicode} prog n v args tail fl f f' :
  written (n, v) args -> lookup_flag CommandLine n = Some fl -> Value_Set (value_ fl) v f = inl f' ->
  parseOne prog (args ++ tail)%list f = Seen f' tail.
Proof.
  intros Hw Hl Hs. destruct (flag_name _ _ Hl) as (c & En & Hd & He).
  inversion Hw as [d n' v' Hda|d n' v' Hda Hb|d n' Hda Hb]; subst n' args; try subst v'; subst n;
    try rewrite (is_bool_flag _ _ Hl) in Hb; cbn [app];
    rewrite ?string_app_cons, ?string_app_nil_l, parseOne_dashes by done;
    unfold parseNamed; rewrite Hd, He; cbn [orb Cut]; rewrite ?Ascii.eqb_refl, Hl; simpl in *; simplify_eq.
  - rewrite Hs. by destruct (IsBoolFlag _).
  - by rewrite Hb, Hs.
  - by rewrite Hb, Hs.
Qed.

Lemma written_nonempty s args : written s args -> (1 <= length args)%nat.
Proof. inversion 1; simpl; lia. Qed.

Lemma parse_loop_written {Uni : Unicode} prog l argss tail fuel f f' :
  Forall2 written l argss -> settings l f = Some f' ->
  parse_loop (length l + fuel) prog (concat argss ++ tail)%list f = parse_loop fuel prog tail f'.
Proof.
  intros Hw. revert f. induction Hw as [|[n v] args l argss Hw _ IH]; intros f Hs; simpl in *.
  - by simplify_eq.
  - destruct (meaning n v f) as [f1|] eqn:Em; [|done]. apply meaning_Set in Em as (fl & Hl & Ev).
    rewrite <- app_assoc. erewrite parseOne_written by done. by apply IH.
Qed.

Lemma settings_length l argss : Forall2 written l argss -> (length l <= length (concat argss))%nat.
Proof.
  induction 1 as [|s args l argss Hw _ IH]; [done|].
  apply written_nonempty in Hw. simpl. rewrite length_app. lia.
Qed.

Lemma parseOne_positional {Uni : Unicode} prog tail rest f :
  positional tail = Some rest <-> parseOne prog tail f = NoFlag f rest.
Proof.
  assert (Hn : forall s name f g l, parseNamed prog s name l f <> NoFlag g rest).
  { intros s name g h l. unfold parseNamed, failf. repeat case_match; congruence. }
  destruct tail as [|s tail]; simpl; [split; congruence|].
  destruct s as [|c [|c' s]]; simpl; repeat (case_match; simplify_eq/=); split; intros; simplify_eq; try done;
    exfalso; by eapply Hn.
Qed.

(** The arguments are flags that lead from [f] to [f'], then the arguments [rest]. *)
Definition accepts (args : list string) (f f' : flags) (rest : list string) : Prop :=
  exists l argss tail, args = (concat argss ++ tail)%list /\ Forall2 written l argss
    /\ settings l f = Some f' /\ positional tail = Some rest.

Lemma Parse_accepts {Uni : Unicode} prog args f f' rest :
  accepts args f f' rest -> Parse prog args f = Some (inl (f', rest)).
Proof.
  intros (l & argss & tail & -> & Hw & Hs & Ht). unfold Parse. rewrite length_app.
  pose proof (settings_length _ _ Hw) as Hlen.
  replace (S (length (concat argss) + length tail))%nat
    with (length l + S (length (concat argss) - length l + length tail))%nat by lia.
  erewrite parse_loop_written by done. cbn [parse_loop].
  by rewrite (proj1 (parseOne_positional prog tail rest f') Ht).
Qed.

(** ** What flag.Parse accepts *)

Lemma Cut_app c s a b : Cut c s = Some (a, b) -> s = a ++ String c b.
Proof.
  revert a. induction s as [|d s IH]; intros a; simpl; [done|].
  destruct (Ascii.eqb_spec d c) as [->|]; [by intros [= <- <-]|].
  destruct (Cut c s) as [[x y]|]; [|done]. intros [= <- <-]. by rewrite (IH x).
Qed.

(** An argument that was consumed is a setting. *)
Lemma parseNamed_seen {Uni : Unicode} prog d name args f f' args' :
  dashes d -> parseNamed prog (d ++ name) name args f = Seen f' args' ->
  exists n v one fl, written (n, v) one /\ ((d ++ name)%string :: args) = (one ++ args')%list
    /\ lookup_flag CommandLine n = Some fl /\ Value_Set (value_ fl) v f = inl f'.
Proof.
  intros Hd. unfold parseNamed, failf. destruct name as [|c name]; [done|].
  destruct (_ || _); [done|].
  destruct (Cut "=" name) as [[n v]|] eqn:Ec.
  - apply Cut_app in Ec as ->.
    destruct (lookup_flag CommandLine (String c n)) as [fl|] eqn:Hl; [|by case_match].
    assert (Hw : written (String c n, v) [d ++ String c (n ++ String "=" v)]) by by constructor.
    destruct (IsBoolFlag _); destruct (Value_Set _ v f) as [g|] eqn:Es; intros [= <- <-];
      exists (String c n), v, [d ++ String c (n ++ String "=" v)], fl; done.
  - destruct (lookup_flag CommandLine (String c name)) as [fl|] eqn:Hl; [|by case_match].
    destruct (IsBoolFlag (value_ fl)) eqn:Eb.
    + destruct (Value_Set _ _ f) as [g|] eqn:Es; intros [= <- <-].
      exists (String c name), "true", [d ++ String c name], fl. split_and!; try done.
      constructor; [done|]. by rewrite (is_bool_flag _ _ Hl), Eb.
    + destruct args as [|v args]; [done|]. destruct (Value_Set _ v f) as [g|] eqn:Es; intros [= <- <-].
      exists (String c name), v, [d ++ String c name; v], fl. split_and!; try done.
      constructor; [done|]. by rewrite (is_bool_flag _ _ Hl), Eb.
Qed.

Lemma parseOne_seen {Uni : Unicode} prog args f f' args' :
  parseOne prog args f = Seen f' args' ->
  exists n v one fl, written (n, v) one /\ args = (one ++ args')%list
    /\ lookup_flag CommandLine n = Some fl /\ Value_Set (value_ fl) v f = inl f'.
Proof.
  destruct args as [|s args]; cbn [parseOne]; [done|]. destruct s as [|c [|c' s]]; [done|by repeat case_match|].
  destruct (decide (c = "-"%char)) as [->|Hc]; [|by repeat case_match].
  destruct (Ascii.eqb_spec c' "-") as [->|_].
  - destruct (String.eqb s ""); [done|]. apply (parseNamed_seen _ "--"). constructor.
  - apply (parseNamed_seen _ "-" (String c' s)). constructor.
Qed.

(** An argument that asks for help, with or without a value. *)
Inductive help_arg : string -> Prop :=
| help_alone d n : dashes d -> n = "h" \/ n = "help" -> help_arg (d ++ n)
| help_value d n v : dashes d -> n = "h" \/ n = "help" -> help_arg (d ++ n ++ "=" ++ v).

(** Flags, then such an argument. *)
Definition asks_help (args : list string) (f : flags) : Prop :=
  exists l argss arg tail, args = (concat argss ++ arg :: tail)%list /\ Forall2 written l argss
    /\ is_Some (settings l f) /\ help_arg arg.

(** The end of the process: the usage alone, or a line and the usage. *)
Definition help_exit {Uni : Unicode} (prog : string) (e : exit) : Prop := e = mkExit 0 (usage prog).
Definition error_exit {Uni : Unicode} (prog : string) (e : exit) : Prop :=
  exists msg, e = mkExit 2 (msg ++ newline ++ usage prog).

Lemma parseNamed_failed {Uni : Unicode} prog d name args f e :
  dashes d -> parseNamed prog (d ++ name) name args f = Failed e ->
  error_exit prog e \/ (help_exit prog e /\ help_arg (d ++ name)).
Proof.
  intros Hd. unfold parseNamed, failf. destruct name as [|c name]; [intros [= <-]; left; by eexists|].
  destruct (_ || _); [intros [= <-]; left; by eexists|].
  destruct (Cut "=" name) as [[n v]|] eqn:Ec.
  - apply Cut_app in Ec as ->. destruct (lookup_flag CommandLine (String c n)) as [fl|].
    { repeat case_match; intros [= <-]; left; by eexists. }
    case_match eqn:Eh; intros [= <-]; [right|left; by eexists]. split; [done|].
    apply orb_true_iff in Eh. rewrite !String.eqb_eq in Eh. apply (help_value d (String c n)); tauto.
  - destruct (lookup_flag CommandLine (String c name)) as [fl|].
    { repeat case_match; intros [= <-]; left; by eexists. }
    case_match eqn:Eh; intros [= <-]; [right|left; by eexists]. split; [done|].
    apply orb_true_iff in Eh. rewrite !String.eqb_eq in Eh. apply help_alone; tauto.
Qed.

Lemma parseOne_failed {Uni : Unicode} prog args f e :
  parseOne prog args f = Failed e ->
  error_exit prog e \/ (help_exit prog e /\ exists arg tail, args = arg :: tail /\ help_arg arg).
Proof.
  destruct args as [|s args]; cbn [parseOne]; [done|]. destruct s as [|c [|c' s]]; [done|by repeat case_match|].
  destruct (decide (c = "-"%char)) as [->|Hc]; [|by repeat case_match].
  destruct (Ascii.eqb_spec c' "-") as [->|_].
  - destruct (String.eqb s ""); [done|]. intros Hf.
    destruct (parseNamed_failed prog "--" s args f e two_dashes Hf) as [|[Hx Hh]]; [by left|right].
    split; [done|]. by exists ("--" ++ s), args.
  - intros Hf.
    destruct (parseNamed_failed prog "-" (String c' s) args f e one_dash Hf) as [|[Hx Hh]]; [by left|right].
    split; [done|]. by exists ("-" ++ String c' s), args.
Qed.

Lemma Parse_result {Uni : Unicode} prog args f :
  exists r, Parse prog args f = Some r
    /\ (forall f' rest, r = inl (f', rest) -> accepts args f f' rest)
    /\ (forall e, r = inr e -> error_exit prog e \/ (help_exit prog e /\ asks_help args f)).
Proof.
  unfold Parse. generalize (Nat.lt_succ_diag_r (length args)). generalize (S (length args)) as fuel.
  intros fuel. revert args f. induction fuel as [|fuel IH]; intros args f Hf; [lia|]. cbn [parse_loop].
  destruct (parseOne prog args f) as [g args'|g args'|e] eqn:E.
  - destruct (parseOne_seen _ _ _ _ _ E) as (n & v & one & fl & Hw & -> & Hl & Hs).
    pose proof (written_nonempty _ _ Hw). rewrite length_app in Hf.
    destruct (IH args' g) as (r & Hr & Ha & He); [lia|]. exists r.
    assert (Hm : meaning n v f = Some g) by (apply meaning_Set; eauto). split_and!; try done.
    + intros f' rest Hr'. destruct (Ha f' rest Hr') as (l & argss & tail & -> & Hws & Hss & Ht).
      exists ((n, v) :: l), (one :: argss), tail. simpl. rewrite Hm, <- app_assoc.
      split_and!; try done. by constructor.
    + intros e Hr'. destruct (He e Hr') as [|[? (l & argss & arg & tail & -> & Hws & Hss & Ht)]]; [by left|right].
      split; [done|]. exists ((n, v) :: l), (one :: argss), arg, tail. simpl. rewrite Hm, <- app_assoc.
      split_and!; try done. by constructor.
  - assert (g = f) as ->.
    { revert E. unfold parseOne, parseNamed, failf. repeat case_match; congruence. }
    eexists. split_and!; [done| |done]. intros f' rest [= <- <-]. exists [], [], args.
    split_and!; try done. by apply (parseOne_positional prog args args' f).
  - eexists. split_and!; [done|done|]. intros e' [= <-].
    destruct (parseOne_failed _ _ _ _ E) as [|[? (arg & tail & -> & Hh)]]; [by left|right].
    split; [done|]. exists [], [], arg, tail. split_and!; [done|done|by eexists|done].
Qed.

Lemma Parse_total {Uni : Unicode} prog args f : Parse prog args f <> None.
Proof. destruct (Parse_result prog args f) as (r & -> & _). done. Qed.

Lemma parseOne_help {Uni : Unicode} prog arg tail f :
  help_arg arg -> parseOne prog (arg :: tail) f = Failed (mkExit 0 (usage prog)).
Proof. intros [d n [|] [-> | ->]|d n v [|] [-> | ->]]; reflexivity. Qed.

Lemma Parse_help {Uni : Unicode} prog args f :
  asks_help args f -> Parse prog args f = Some (inr (mkExit 0 (usage prog))).
Proof.
  intros (l & argss & arg & tail & -> & Hw & [f' Hs] & Ha). unfold Parse. rewrite length_app.
  pose proof (settings_length _ _ Hw) as Hlen.
  replace (S (length (concat argss) + length (arg :: tail)))%nat
    with (length l + S (length (concat argss) - length l + length (arg :: tail)))%nat by lia.
  erewrite parse_loop_written by done. cbn [parse_loop]. by rewrite parseOne_help.
Qed.

(** C28: flag.Parse with the flags of httpstat always ends, and accepts exactly the
    command lines made of settings written with one or two dashes, the value after an
    equals sign or (unless boolean) in the next argument, followed by -- or by the
    first argument that is no flag; what each of the twelve letters sets, which are
    boolean and the defaults are written out, later settings override earlier ones and
    headers add up. Every other command line ends the process with status 2 after a
    message and the usage, or with 0 after the usage, the latter exactly when -h or
    -help follows settings that are accepted. *)
Theorem Parse_spec {Uni : Unicode} prog args :
  exists r, Parse prog args (vars CommandLine) = Some r
    /\ (forall f' rest, r = inl (f', rest) <-> accepts args default_flags f' rest)
    /\ (r = inr (mkExit 0 (usage prog)) <-> asks_help args default_flags)
    /\ (forall e, r = inr e -> error_exit prog e \/ help_exit prog e).
Proof.
  change (vars CommandLine) with default_flags.
  destruct (Parse_result prog args default_flags) as (r & Hr & Ha & He). exists r. split_and!; [done|..].
  - intros f' rest. split; [apply Ha|]. intros Hacc.
    rewrite (Parse_accepts prog _ _ _ _ Hacc) in Hr. congruence.
  - split.
    + intros Hh. by destruct (He _ Hh) as [[msg [=]]|[_ ?]].
    + intros Hh. rewrite (Parse_help prog _ _ Hh) in Hr. congruence.
  - intros e Hh. destruct (He e Hh) as [|[? _]]; auto.
Qed.

(** ** Writing a command line *)

Definition FormatBool (b : bool) : string := if b then "true" else "false".
Definition command (f : flags) : list (string * string) :=
  ([("X", httpMethod f); ("d", postBody f); ("L", FormatBool (followRedirects f));
    ("I", FormatBool (onlyHeader f)); ("k", FormatBool (insecure f)); ("O", FormatBool (saveOutput f));
    ("o", outputFile f); ("v", FormatBool (showVersion f)); ("E", clientCertFile f);
    ("4", FormatBool (fourOnly f)); ("6", FormatBool (sixOnly f))]
   ++ map (pair "H") (httpHeaders f))%list.
Definition flag_arg (kv : string * string) : string := "-" ++ kv.1 ++ "=" ++ kv.2.

Lemma settings_headers l f :
  settings (map (pair "H") l) f = Some (f <| httpHeaders := (httpHeaders f ++ l)%list |>).
Proof.
  revert f. induction l as [|h l IH]; intros f; simpl.
  - rewrite app_nil_r. by destruct f.
  - rewrite IH. simpl. unfold headers_Set. by rewrite <- app_assoc.
Qed.

Lemma ParseBool_FormatBool b : ParseBool (FormatBool b) = Some b.
Proof. by destruct b. Qed.

Lemma concat_singletons {A} (l : list A) : concat (map (fun x => [x]) l) = l.
Proof. induction l as [|x l IH]; [done|]. simpl. by rewrite IH. Qed.

(** Every value of the flags can be written on a command line: parsing it gives the flags
    and the arguments back. *)
Theorem flags_roundtrip {Uni : Unicode} prog f args :
  Parse prog (map flag_arg (command f) ++ "--" :: args)%list (vars CommandLine) = Some (inl (f, args)).
Proof.
  apply Parse_accepts. exists (command f), (map (fun x => [x]) (map flag_arg (command f))), ("--" :: args).
  rewrite concat_singletons. split_and!; [done| | |done].
  - induction (command f) as [|[n v] l IH]; simpl; constructor; [|done]. apply written_equals. constructor.
  - unfold command. cbn [app settings mbind option_bind meaning].
    rewrite !ParseBool_FormatBool. cbn [fmap option_fmap option_map mbind option_bind].
    rewrite settings_headers. by destruct f.
Qed.

Example parse_ex :
  Parse (Uni := {| IsPrintHigh _ := true |}) "httpstat"
    ["--X"; "POST"; "-d=a=b"; "-L"; "-H"; "A: b"; "--L=F"; "-H=C: d"; "example.org"; "-k"] (vars CommandLine)
  = Some (inl (mkFlags "POST" "a=b" false false false ["A: b"; "C: d"] false "" false "" false false,
               ["example.org"; "-k"])).
Proof. vm_compute. reflexivity. Qed.

Example parse_help_ex :
  Parse (Uni := {| IsPrintHigh _ := true |}) "httpstat" ["-L"; "--help"] (vars CommandLine)
  = Some (inr (mkExit 0 (usage (Uni := {| IsPrintHigh _ := true |}) "httpstat"))).
Proof. vm_compute. reflexivity. Qed.
