(* ===== verification/HttpStat.v ===== *)
(** cmd/httpstat/main.go: the command that visits a URL and reports the
    connection: arguments, requests, the settings of the transport that depend on
    the flags, redirects, the file it writes, client certificates, and the report
    (whose parts are in HttpReport).

    The functions of packages that talk to the world or parse its formats (net/http,
    net/url, mime, os, encoding/pem, crypto/tls) are the class [World], those of the
    color package the class [Colors]. *)

From stdpp Require Import base list strings gmap.
From Stdlib Require Import ZArith Ascii Lia.
From S2P Require Import Prelude GoFmt Json JsonRead TcpInfo Other OsInfo Wrap.
From S2P Require Import HttpReport Flags.

Local Open Scope Z_scope.
Local Open Scope string_scope.
Local Open Scope go_scope.

(** ** Strings *)

(** [strings.HasPrefix] *)
Definition HasPrefix (s prefix : string) : bool :=
  match CutPrefix s prefix with Some _ => true | None => false end.

(** [strings.Contains] *)
Fixpoint Contains (s sub : string) : bool :=
  HasPrefix s sub || match s with String _ s => Contains s sub | EmptyString => false end.

(** [strings.Index(s, ":")] used to split at the colon: what precedes it, and
    the rest with the colon. *)
Fixpoint splitColon (s : string) : option (string * string) :=
  match s with
  | EmptyString => None
  | String c s' =>
      if Ascii.eqb c ":" then Some (EmptyString, s)
      else match splitColon s' with
           | Some (k, v) => Some (String c k, v)
           | None => None
           end
  end.

(** [strings.EqualFold(k, "host")]; the letter s also folds with U+017F. *)
Definition foldsTo (c : ascii) (lower upper : ascii) : bool := Ascii.eqb c lower || Ascii.eqb c upper.
Definition EqualFold_host (k : string) : bool :=
  match k with
  | String h (String o (String s (String t ""))) =>
      foldsTo h "h" "H" && foldsTo o "o" "O" && foldsTo s "s" "S" && foldsTo t "t" "T"
  | String h (String o (String s1 (String s2 (String t "")))) =>
      foldsTo h "h" "H" && foldsTo o "o" "O"
      && Ascii.eqb s1 "197" && Ascii.eqb s2 "191" && foldsTo t "t" "T"
  | _ => false
  end.

(** [path.Base]: trailing slashes are dropped, then everything up to the last
    slash. *)
Fixpoint afterLastSlash (s : string) : string :=
  match s with
  | EmptyString => EmptyString
  | String c s' => if has_char "/" s' then afterLastSlash s'
                   else if Ascii.eqb c "/" then s' else s
  end.
Definition Base (path : string) : string :=
  if String.eqb path "" then "."
  else
    let path := TrimRight path (fun c => Ascii.eqb c "/") in
    let path := afterLastSlash path in
    if String.eqb path "" then "/" else path.

Definition headerKeyValue (h : string) : string * string + exit :=
  match splitColon h with
  | None => fatal ("Header '" ++ h ++ "' has invalid format, missing ':'")
  | Some (k, v) =>
      inl (TrimRight k (fun c => Ascii.eqb c " "),
           TrimLeft v (fun c => Ascii.eqb c " " || Ascii.eqb c ":"))
  end.

Definition isRedirect (StatusCode : Z) : bool := (StatusCode >? 299)%Z && (StatusCode <? 400)%Z.

Definition maxRedirects : Z := 10.

(** ** Reading a client certificate *)

Section cert.
(** [pem.Decode], with the type of the block it found and the block encoded
    again, and [tls.X509KeyPair] on the certificate and the key. *)
Context {Cert : Type}.
Context (Decode : string -> option (string * string * string)).
Context (X509KeyPair : string -> string -> Cert + error).

(** The loop over the blocks; each unit of [fuel] is one call of [pem.Decode].
    [None] is a loop cut off. *)
Fixpoint readBlocks (fuel : nat) (certFileBytes pkeyPem certPem : string) : option (string * string) :=
  match fuel with
  | O => None
  | S fuel =>
      match Decode certFileBytes with
      | None => Some (certPem, pkeyPem)
      | Some (ty, enc, rest) =>
          let pkeyPem := if OsLinux.HasSuffix ty "PRIVATE KEY" then enc else pkeyPem in
          let certPem := if OsLinux.HasSuffix ty "CERTIFICATE" then enc else certPem in
          readBlocks fuel rest pkeyPem certPem
      end
  end.

(** [readClientCert]; [file] is what reading the file returns. *)
Definition readClientCert (filename : string) (file : string + error) : option (list Cert + exit) :=
  if String.eqb filename "" then Some (inl [])
  else match file with
  | inr err => Some (fatal ("failed to read client certificate file: " ++ err_msg err))
  | inl content =>
      match readBlocks (S (String.length content)) content "" "" with
      | None => None
      | Some (certPem, pkeyPem) =>
          match X509KeyPair certPem pkeyPem with
          | inr err => Some (fatal ("unable to load client cert and key pair: " ++ err_msg err))
          | inl cert => Some (inl [cert])
          end
      end
  end.
End cert.

(** ** Requests and responses *)

(** What the command uses of a [*url.URL]. *)
Class UrlOps (U : Type) := {
  Scheme : U -> string;
  set_Scheme : string -> U -> U;
  Host : U -> string;
  URL_String : U -> string;
  RequestURI : U -> string
}.

(** What the command uses of a request: [Header] holds the arguments of the
    calls to [Header.Add]. *)
Record Request {U : Type} := mkRequest {
  Method : string;
  URL : U;
  req_Host : string;
  Header : list (string * string);
  Body : string
}.
Arguments Request : clear implicits.

(** The result of [resp.Location]. *)
Inductive location {U : Type} := Loc (u : U) | NoLocation | LocErr (err : error).
Arguments location : clear implicits.

(** What the command uses of a response; [TLS] is the version of [resp.TLS]. *)
Record Response {U : Type} := mkResponse {
  StatusCode : Z;
  Status : string;
  ProtoMajor : Z;
  ProtoMinor : Z;
  resp_Header : gmap string (list string);
  TLS : option Z;
  Location : location U
}.
Arguments Response : clear implicits.

(** [Header.Get] for a name in canonical form. *)
Definition Header_Get (h : gmap string (list string)) (key : string) : string :=
  default "" (head (default [] (h !! key))).

(** What [visit] sets of a [tls.Config]; [VersionTLS12] is the constant of crypto/tls. *)
Record tlsConfig {Cert : Type} := mkTLS {
  ServerName : string; InsecureSkipVerify : bool; Certificates : list Cert; MinVersion : Z
}.
Definition VersionTLS12 : Z := 0x0303.
Arguments tlsConfig : clear implicits.

(** What [visit] sets of a [http.Transport]: the network given to [dialContext], the TLS
    settings, and the settings that do not depend on flags or URL (the proxy is always
    that of the environment). *)
Record transport {Cert : Type} := mkTransport {
  network : string; TLSClientConfig : option (tlsConfig Cert);
  MaxIdleConns : Z; IdleConnTimeout : Z; TLSHandshakeTimeout : Z; ExpectContinueTimeout : Z;
  ForceAttemptHTTP2 : bool; DisableKeepAlives : bool
}.
Arguments transport : clear implicits.

(** What a run of the command leaves: the requests made, oldest first, the files
    created, the counter [redirectsFollowed], and the text printed. *)
Record log {U : Type} := mkLog {
  requests : list (Request U); files : list string; redirectsFollowed : Z; output : string
}.
Arguments log : clear implicits.

Definition put {U} (text : string) (l : log U) : log U :=
  mkLog U (requests l) (files l) (redirectsFollowed l) (output l ++ text).

(** How a run ends; [Blocked] is a run in a call that does not return, [Running] a run
    cut off by the bound on its steps. *)
Inductive outcome {U : Type} :=
| Done (l : log U) | Exited (l : log U) (e : exit) | Blocked (l : log U) | Running (l : log U).
Arguments outcome : clear implicits.

(** What the command needs of the world; [Do], [Now] and [ConnConn] may depend on the
    requests made before. *)
Class World (U Cert C S X F : Type) := {
  (** [url.Parse] and [http.NewRequest] on the method and the text of the URL *)
  url_Parse : string -> U + error;
  NewRequest : string -> string -> U + error;
  (** [net.SplitHostPort] and [mime.ParseMediaType] *)
  SplitHostPort : string -> (string * string) + error;
  ParseMediaType : string -> (string * list (string * string)) + error;
  (** [client.Do] with the callbacks it makes, [None] when it does not return (the client
      has no timeout), the time after the body was read, and the connection returned by
      [getConniver] then *)
  Do : list (Request U) -> transport Cert -> Request U
       -> list (Z * trace_event) * option (Response U + error);
  Now : list (Request U) -> Z;
  ConnConn : list (Request U) -> option (Conn C S X F);
  (** [os.Open] with the contents of the file, [os.Create], [os.ReadFile], and the error
      of copying the body, [None] when the body does not end *)
  Open : string -> string + error;
  Create : string -> option error;
  ReadFile : string -> string + error;
  Copy : Request U -> option (option error);
  (** [pem.Decode] and [tls.X509KeyPair] *)
  Decode : string -> option (string * string * string);
  X509KeyPair : string -> string -> Cert + error
}.

Section httpstat.
Context {U Cert C S X F : Type} `{!UrlOps U, !NetConnOps C, !Platform S, !Colors}.
Context {W : World U Cert C S X F} {Uni : Unicode}.

Definition parseURL (uri : string) : U + exit :=
  let uri := if negb (Contains uri "://") && negb (HasPrefix uri "//")
             then "//" ++ uri else uri in
  match url_Parse uri with
  | inr err => fatal ("could not parse url " ++ Quote uri ++ ": " ++ err_msg err)
  | inl url =>
      if String.eqb (Scheme url) "" then
        let url := set_Scheme "http" url in
        inl (if negb (OsLinux.HasSuffix (Host url) ":80")
             then set_Scheme (Scheme url ++ "s") url else url)
      else inl url
  end.

Definition createBody (body : string) : string + exit :=
  match CutPrefix body "@" with
  | Some filename =>
      match Open filename with
      | inr err => fatal ("failed to open data file " ++ filename ++ ": " ++ err_msg err)
      | inl f => inl f
      end
  | None => inl body
  end.

(** One iteration of the loop over [httpHeaders]. *)
Definition addHeader (req : Request U) (h : string) : Request U + exit :=
  let! (k, v) := headerKeyValue h in
  if EqualFold_host k
  then inl (mkRequest U (Method req) (URL req) v (Header req) (Body req))
  else inl (mkRequest U (Method req) (URL req) (req_Host req) (Header req ++ [(k, v)])%list (Body req)).

(** [http.NewRequest] takes the empty method for GET. *)
Definition newRequest (f : flags) (method : string) (url : U) (body : string) : Request U + exit :=
  let! b := createBody body in
  match NewRequest method (URL_String url) with
  | inr err => fatal ("unable to create request: " ++ err_msg err)
  | inl u =>
      fold_left (fun r h => let! req := r in addHeader req h) (httpHeaders f)
        (inl (mkRequest U (if String.eqb method "" then "GET" else method) u (Host u) [] b))
  end.

(** [params["filename"]] *)
Definition param (k : string) (l : list (string * string)) : string :=
  match List.find (fun kv => String.eqb kv.1 k) l with Some kv => kv.2 | None => "" end.

Definition getFilenameFromHeaders (h : gmap string (list string)) : string :=
  let hdr := Header_Get h "Content-Disposition" in
  if negb (String.eqb hdr "") then
    match ParseMediaType hdr with
    | inl (mt, params) =>
        if String.eqb mt "attachment" && negb (String.eqb (param "filename" params) "")
        then param "filename" params else ""
    | inr _ => ""
    end
  else "".

(** The name of the file to create, if any. *)
Definition outputName (f : flags) (req : Request U) (resp : Response U) : option string + exit :=
  if saveOutput f || negb (String.eqb (outputFile f) "") then
    if saveOutput f then
      let filename := Base (getFilenameFromHeaders (resp_Header resp)) in
      let filename := if String.eqb filename "." then Base (RequestURI (URL req)) else filename in
      if String.eqb filename "/" || String.eqb filename "." || String.eqb filename ".."
      then fatal "No remote filename; specify output filename with -o to save response body"
      else inl (Some filename)
    else inl (Some (outputFile f))
  else inl None.

(** [readResponseBody]: the file created, and the message, [None] when it does not
    return. *)
Definition readResponseBody (f : flags) (req : Request U) (resp : Response U)
    : option string * option (string + exit) :=
  if isRedirect (StatusCode resp) || String.eqb (Method req) "HEAD" then (None, Some (inl ""))
  else match outputName f req resp with
  | inr e => (None, Some (inr e))
  | inl None =>
      (None, match Copy req with
             | None => None
             | Some _ => Some (inl (CyanString "Body discarded"))
             end)
  | inl (Some filename) =>
      match Create filename with
      | Some err => (None, Some (fatal ("unable to create file " ++ filename ++ ": " ++ err_msg err)))
      | None =>
          (Some filename,
           match Copy req with
           | None => None
           | Some (Some err) => Some (fatal ("failed to read response body: " ++ err_msg err))
           | Some None => Some (inl (CyanString "Body read"))
           end)
      end
  end.

(** The transport of [visit]: the network of [dialContext], and for https the
    TLS settings with the client certificate. [None] is a certificate read cut
    off. *)
Definition newTransport (f : flags) (url : U) (req : Request U) : option (transport Cert + exit) :=
  let network := if fourOnly f then "tcp4" else if sixOnly f then "tcp6" else "tcp" in
  let tr tls := mkTransport Cert network tls 100 (90 * Second) (10 * Second) (1 * Second) true true in
  if String.eqb (Scheme url) "https" then
    let host := match SplitHostPort (req_Host req) with
                | inl (host, _) => host
                | inr _ => req_Host req
                end in
    match readClientCert Decode X509KeyPair (clientCertFile f) (ReadFile (clientCertFile f)) with
    | None => None
    | Some (inr e) => Some (inr e)
    | Some (inl certs) =>
        Some (inl (tr (Some (mkTLS Cert host (insecure f) certs VersionTLS12))))
    end
  else Some (inl (tr None)).

(** What [visit] prints after the body was read. *)
Definition report_text (scheme : string) (resp : Response U) (bodyMsg : string) (t : times) (t7 : Z)
    (c : option (Conn C S X F)) : string :=
  statusLine (ProtoMajor resp) (ProtoMinor resp) (Status resp)
  ++ strings_Join (headerLines (resp_Header resp)) ""
  ++ (if String.eqb bodyMsg "" then "" else newline ++ bodyMsg ++ newline)
  ++ newline ++ table scheme (skipDNS t) t7 ++ connLines c.

(** The end of [visit]; [visit] is the recursive call. *)
Definition followRedirect (visit : U -> log U -> outcome U) (f : flags) (resp : Response U) (l : log U)
    : outcome U :=
  if followRedirects f && isRedirect (StatusCode resp) then
    match Location resp with
    | NoLocation => Done l
    | LocErr err => Exited l (mkExit 1 ("unable to follow redirect: " ++ err_msg err))
    | Loc loc =>
        let n := (redirectsFollowed l + 1)%Z in
        let l := mkLog U (requests l) (files l) n (output l) in
        if (n >? maxRedirects)%Z
        then Exited l (mkExit 1 ("maximum number of redirects (" ++ FormatInt maxRedirects ++ ") followed"))
        else visit loc l
    end
  else Done l.

(** [visit]; each unit of [fuel] is one call. *)
Fixpoint visit (fuel : nat) (f : flags) (url : U) (l : log U) : outcome U :=
  match fuel with
  | O => Running l
  | Datatypes.S fuel =>
      match newRequest f (httpMethod f) url (postBody f) with
      | inr e => Exited l e
      | inl req =>
      match newTransport f url req with
      | None => Running l
      | Some (inr e) => Exited l e
      | Some (inl tr) =>
      let '(evs, res) := Do (requests l) tr req in
      let '(text, t) := run_trace evs times0 in
      let l := mkLog U (requests l ++ [req])%list (files l) (redirectsFollowed l) (output l ++ text) in
      match t with
      | inr e => Exited l e
      | inl t =>
      match res with
      | None => Blocked l
      | Some (inr err) => Exited l (mkExit 1 ("failed to read response: " ++ err_msg err))
      | Some (inl resp) =>
          let l := put (newline ++ GreenString "Connected via" ++ " "
                        ++ CyanString (connectedVia (TLS resp)) ++ newline) l in
          let (w, msg) := readResponseBody f req resp in
          let l := mkLog U (requests l)
                     (match w with Some n => files l ++ [n] | None => files l end)%list
                     (redirectsFollowed l) (output l) in
          match msg with
          | None => Blocked l
          | Some (inr e) => Exited l e
          | Some (inl bodyMsg) =>
              let l := put (report_text (Scheme url) resp bodyMsg t (Now (requests l))
                              (ConnConn (requests l))) l in
              followRedirect (visit fuel f) f resp l
          end
      end
      end
      end
      end
  end.

(** [main] after [flag.Parse]; [args] are the arguments that are not flags. *)
Definition run (fuel : nat) (name version runtimeVersion : string) (f : flags) (args : list string)
    : outcome U :=
  let l := mkLog U [] [] 0 "" in
  if showVersion f
  then Exited l (mkExit 0 (name ++ " " ++ version ++ " (runtime: " ++ runtimeVersion ++ ")" ++ newline))
  else if fourOnly f && sixOnly f
  then Exited l (mkExit (-1) (name ++ ": Only one of -4 and -6 may be specified" ++ newline))
  else match args with
  | [arg] =>
      if (String.eqb (httpMethod f) "POST" || String.eqb (httpMethod f) "PUT")
         && String.eqb (postBody f) ""
      then Exited l (mkExit 1 "must supply post body using -d when POST or PUT is used")
      else
        let f := if onlyHeader f then f <| httpMethod := "HEAD" |> else f in
        match parseURL arg with
        | inr e => Exited l e
        | inl url => visit fuel f url l
        end
  | _ => Exited l (mkExit 2 (usage name))
  end.

(** [main]; [os.Args] is the name of the program and its arguments. *)
Definition main (fuel : nat) (version runtimeVersion name : string) (args : list string) : outcome U :=
  match Parse name args (vars CommandLine) with
  | None => Running (mkLog U [] [] 0 "")
  | Some (inr e) => Exited (mkLog U [] [] 0 "") e
  | Some (inl (f, args)) => run fuel name version runtimeVersion f args
  end.
End httpstat.

(** ** The output file *)

Lemma TrimRight_slash s : has_char "/" (afterLastSlash s) = false.
Proof.
  induction s as [|c s IH]; [done|]. simpl. destruct (has_char "/" s) eqn:E; [done|].
  destruct (Ascii.eqb c "/") eqn:Ec; simpl; by rewrite ?Ec.
Qed.

(** [path.Base] returns one path element: ["/"], or a name without slash. *)
Lemma Base_element s : Base s <> "" /\ (Base s = "/" \/ has_char "/" (Base s) = false).
Proof.
  unfold Base. destruct (String.eqb s ""); [by split; [|right]|].
  set (x := afterLastSlash _). assert (H : has_char "/" x = false) by apply TrimRight_slash.
  destruct (String.eqb_spec x ""); [by split; [|left]|]. by split; [|right].
Qed.

Section output.
Context {U Cert C S X F : Type} `{!UrlOps U} {W : World U Cert C S X F}.

(** C31: With -O the file that httpstat creates is named by one path element chosen
    from the response or the URL: never empty, '.', '..' or with a slash, whatever the
    server sends. *)
Theorem outputName_safe f req resp name :
  saveOutput f = true ->
  outputName f req resp = inl (Some name) ->
  has_char "/" name = false /\ name <> "" /\ name <> "." /\ name <> "..".
Proof.
  intros Hs. unfold outputName. rewrite Hs. simpl.
  set (n0 := Base (getFilenameFromHeaders _)).
  set (n := if String.eqb n0 "." then Base (RequestURI (URL req)) else n0).
  assert (Hn : n <> "" /\ (n = "/" \/ has_char "/" n = false)).
  { unfold n. destruct (String.eqb n0 "."); apply Base_element. }
  destruct (String.eqb_spec n "/") as [|N1]; [done|].
  destruct (String.eqb_spec n ".") as [|N2]; [done|].
  destruct (String.eqb_spec n "..") as [|N3]; [done|]. simpl. intros [= <-].
  destruct Hn as [Hne [|Hc]]; done.
Qed.
End output.

(** ** Client certificates *)

Section cert_laws.
Context (Decode : string -> option (string * string * string)).

(** The blocks of a file, in order. *)
Inductive blocks : string -> list (string * string) -> Prop :=
| blocks_nil s : Decode s = None -> blocks s []
| blocks_cons s ty enc rest l :
    Decode s = Some (ty, enc, rest) -> blocks rest l -> blocks s ((ty, enc) :: l).

(** The last block whose type ends in [suffix]. *)
Definition last_block (suffix : string) (l : list (string * string)) (d : string) : string :=
  fold_left (fun acc b => if OsLinux.HasSuffix b.1 suffix then b.2 else acc) l d.

(** [pem.Decode] returns a rest that is shorter than what it was given. *)
Hypothesis Decode_shrinks : forall s ty enc rest,
  Decode s = Some (ty, enc, rest) -> (String.length rest < String.length s)%nat.

Lemma readBlocks_spec fuel s pk ct :
  (String.length s < fuel)%nat ->
  exists l, blocks s l
    /\ readBlocks Decode fuel s pk ct = Some (last_block "CERTIFICATE" l ct, last_block "PRIVATE KEY" l pk).
Proof.
  revert s pk ct. induction fuel as [|fuel IH]; intros s pk ct Hf; [lia|]. cbn [readBlocks].
  destruct (Decode s) as [[[ty enc] rest]|] eqn:E; [|exists []; by split; [constructor|]].
  pose proof (Decode_shrinks _ _ _ _ E) as Hl.
  destruct (IH rest (if OsLinux.HasSuffix ty "PRIVATE KEY" then enc else pk)
              (if OsLinux.HasSuffix ty "CERTIFICATE" then enc else ct)) as (l & Hb & Er); [lia|].
  exists ((ty, enc) :: l). split; [by econstructor|exact Er].
Qed.

(** Given that [pem.Decode] returns a shorter rest, reading a client certificate
    file ends, and uses the last certificate block and the last private key block of
    the file. *)
Theorem readClientCert_blocks {Cert} (X509KeyPair : string -> string -> Cert + error) filename content :
  filename <> "" ->
  exists l, blocks content l
    /\ readClientCert Decode X509KeyPair filename (inl content)
       = Some match X509KeyPair (last_block "CERTIFICATE" l "") (last_block "PRIVATE KEY" l "") with
              | inl cert => inl [cert]
              | inr err => fatal ("unable to load client cert and key pair: " ++ err_msg err)
              end.
Proof.
  intros Hne. destruct (readBlocks_spec (S (String.length content)) content "" "") as (l & Hb & E); [lia|].
  exists l. split; [done|]. unfold readClientCert. rewrite (proj2 (String.eqb_neq _ _)) by done.
  rewrite E. by destruct (X509KeyPair _ _).
Qed.
End cert_laws.

(** ** Redirects *)

Definition outcome_log {U} (o : outcome U) : log U :=
  match o with Done l | Exited l _ | Blocked l | Running l => l end.



Section redirects.
Context {U Cert C S X F : Type} `{!UrlOps U, !NetConnOps C, !Platform S, !Colors}.
Context {W : World U Cert C S X F} {Uni : Unicode}.
Hypothesis Decode_shrinks : forall s ty enc rest,
  Decode s = Some (ty, enc, rest) -> (String.length rest < String.length s)%nat.









End redirects.

(** ** The requests *)

(** The headers given with -H, less those named host, and the values of the latter. *)
Definition header_fields (l : headers) : list (string * string) :=
  concat (map (fun h => match headerKeyValue h with
                        | inl (k, v) => if EqualFold_host k then [] else [(k, v)]
                        | inr _ => []
                        end) l).
Definition host_fields (l : headers) : list string :=
  concat (map (fun h => match headerKeyValue h with
                        | inl (k, v) => if EqualFold_host k then [v] else []
                        | inr _ => []
                        end) l).

Section requests.
Context {U Cert C S X F : Type} `{!UrlOps U, !NetConnOps C, !Platform S, !Colors}.
Context {W : World U Cert C S X F} {Uni : Unicode}.

(** The request is the one that the flags ask for; the URL differs when redirects are
    followed. *)
Definition asked (f : flags) (req : Request U) : Prop :=
  Method req = (if String.eqb (httpMethod f) "" then "GET" else httpMethod f)
  /\ createBody (postBody f) = inl (Body req)
  /\ Header req = header_fields (httpHeaders f)
  /\ req_Host req = default (Host (URL req)) (last (host_fields (httpHeaders f))).

Lemma fold_exit (l : headers) (e : exit) :
  fold_left (fun r h => let! req := r in addHeader (U:=U) req h) l (inr e) = inr e.
Proof. induction l as [|h l IH]; [done|]. exact IH. Qed.

Lemma addHeaders_spec (l : headers) (req0 req : Request U) :
  fold_left (fun r h => let! req := r in addHeader req h) l (inl req0) = inl req ->
  Method req = Method req0 /\ URL req = URL req0 /\ Body req = Body req0
  /\ Header req = (Header req0 ++ header_fields l)%list
  /\ req_Host req = default (req_Host req0) (last (host_fields l)).
Proof.
  revert req0. induction l as [|h l IH]; intros req0; cbn [fold_left].
  { intros [= <-]. split_and!; try done. by rewrite app_nil_r. }
  unfold header_fields, host_fields in *. cbn [bindE]. unfold addHeader at 2. cbn [map concat].
  destruct (headerKeyValue h) as [[k v]|e]; cbn [bindE]; [|by rewrite fold_exit].
  destruct (EqualFold_host k); intros Hf; destruct (IH _ Hf) as (-> & -> & -> & -> & ->);
    cbn [Method URL Body Header req_Host app]; split_and!; try done.
  - rewrite last_cons. by destruct (last _).
  - by rewrite <- app_assoc.
Qed.

Lemma newRequest_asked f url req :
  newRequest f (httpMethod f) url (postBody f) = inl req -> asked f req.
Proof.
  unfold newRequest. destruct (createBody (postBody f)) as [b|] eqn:Eb; [|done]. cbn [bindE].
  destruct (NewRequest _ _) as [u|]; [|done]. intros (Hm & Hu & Hb & Hh & Hho)%addHeaders_spec.
  unfold asked. rewrite Hm, Hu, Hb, Hh, Hho, Eb. done.
Qed.

(** Every visit sends what the flags ask for. *)
Lemma visit_asked n f u l :
  Forall (asked f) (requests l) -> Forall (asked f) (requests (outcome_log (visit n f u l))).
Proof.
  revert u l. induction n as [|n IH]; intros u l Hl; [done|]. cbn [visit].
  destruct (newRequest _ _ _ _) as [req|e] eqn:Er; [|done].
  apply newRequest_asked in Er.
  assert (Hl' : Forall (asked f) (requests l ++ [req])).
  { apply Forall_app. split; [done|]. by constructor. }
  unfold followRedirect. repeat (case_match; try exact Hl'; try exact Hl). all: by apply IH.
Qed.

(** C29: httpstat sends requests only for a command line with one URL, without -v, not
    with both -4 and -6, and with a body for POST and PUT; every request it sends,
    after any number of redirects, has the method of -X (HEAD with -I, GET for an empty
    one), the body of -d, the headers of -H in order without those named host, and the
    Host of the last of these. *)
Theorem main_requests fuel version runtime name args req :
  req ∈ requests (outcome_log (main fuel version runtime name args)) ->
  exists f arg, Parse name args (vars CommandLine) = Some (inl (f, [arg]))
    /\ showVersion f = false /\ fourOnly f && sixOnly f = false
    /\ (httpMethod f = "POST" \/ httpMethod f = "PUT" -> postBody f <> "")
    /\ asked (if onlyHeader f then f <| httpMethod := "HEAD" |> else f) req.
Proof.
  unfold main. destruct (Parse name args (vars CommandLine)) as [[[f rest]|e]|];
    [|intros Hin; by apply elem_of_nil in Hin..].
  unfold run. destruct (showVersion f) eqn:Ev; [intros Hin; by apply elem_of_nil in Hin|].
  destruct (fourOnly f && sixOnly f) eqn:E46; [intros Hin; by apply elem_of_nil in Hin|].
  destruct rest as [|arg [|? ?]]; [intros Hin; by apply elem_of_nil in Hin| |intros Hin; by apply elem_of_nil in Hin].
  destruct (_ && String.eqb (postBody f) "") eqn:Eb; [intros Hin; by apply elem_of_nil in Hin|].
  destruct (parseURL arg) as [u|e]; [|intros Hin; by apply elem_of_nil in Hin].
  intros Hin. exists f, arg. split_and!; try done.
  - intros Hm Hp. rewrite Hp in Eb. by destruct Hm as [Hm|Hm]; rewrite Hm in Eb.
  - eapply Forall_forall; [|exact Hin]. by apply visit_asked.
Qed.
End requests.

(** ** Headers of the command line *)

Lemma splitColon_app k v :
  has_char ":" k = false -> splitColon (k ++ String ":" v) = Some (k, String ":" v).
Proof.
  induction k as [|c k IH]; intros H; [done|]. rewrite string_app_cons. cbn [has_char] in H.
  apply orb_false_iff in H as [Hc H]. cbn [splitColon]. by rewrite Hc, IH.
Qed.

Lemma TrimLeft_stop s cut c s' : s = String c s' -> cut c = false -> TrimLeft s cut = s.
Proof. intros -> H. simpl. by rewrite H. Qed.

(** A header [k: v] of the command line is split into its key and value. *)
Theorem headerKeyValue_roundtrip k v n :
  has_char ":" k = false -> TrimRight k (fun c => Ascii.eqb c " ") = k ->
  TrimLeft v (fun c => Ascii.eqb c " " || Ascii.eqb c ":") = v ->
  headerKeyValue (k ++ String ":" (String.concat "" (repeat " " n) ++ v)) = inl (k, v).
Proof.
  intros Hk Hr Hl. unfold headerKeyValue. rewrite splitColon_app, Hr by done. do 2 f_equal.
  cbn [TrimLeft Ascii.eqb Bool.eqb orb].
  assert (H : forall n, TrimLeft (String.concat "" (repeat " " n) ++ v)
             (fun c => Ascii.eqb c " " || Ascii.eqb c ":") = v).
  { clear n. induction n as [|n IH]; [done|].
    assert (E : String.concat "" (repeat " " (S n)) = String " " (String.concat "" (repeat " " n)))
      by by destruct n.
    rewrite E, string_app_cons. exact IH. }
  apply H.
Qed.

Lemma headerKeyValue_roundtrip_witness :
  headerKeyValue "Accept: text/html:q=1" = inl ("Accept", "text/html:q=1").
Proof. apply (headerKeyValue_roundtrip "Accept" "text/html:q=1" 1); vm_compute; reflexivity. Defined.

(** A decoder of one-letter blocks: the letter says which type follows. *)
Definition toyDecode (s : string) : option (string * string * string) :=
  match s with
  | String "k" (String c rest) => Some ("RSA PRIVATE KEY", String c "", rest)
  | String "c" (String c rest) => Some ("CERTIFICATE", String c "", rest)
  | _ => None
  end.

Lemma toyDecode_shrinks s ty enc rest :
  toyDecode s = Some (ty, enc, rest) -> (String.length rest < String.length s)%nat.
Proof.
  unfold toyDecode. intros H. repeat case_match; simplify_eq/=; lia.
Qed.

Lemma readClientCert_blocks_witness :
  exists l, blocks toyDecode "k1c2k3" l
    /\ readClientCert toyDecode (fun c k => inl (c, k)) "client.pem" (inl "k1c2k3")
       = Some (inl [(last_block "CERTIFICATE" l "", last_block "PRIVATE KEY" l "")]).
Proof.
  apply (readClientCert_blocks toyDecode toyDecode_shrinks (fun c k => inl (c, k)) "client.pem" "k1c2k3").
  congruence.
Defined.

(** ** A concrete URL *)

Module Demo_http.
(** URLs as a scheme, a host and a request URI. *)
Definition demoURL : Type := string * string * string.
#[export] Instance demoOps : UrlOps demoURL := {|
  Scheme u := u.1.1; set_Scheme s u := (s, u.1.2, u.2); Host u := u.1.2;
  URL_String u := u.1.1 ++ "://" ++ u.1.2 ++ u.2; RequestURI u := u.2 |}.

#[export] Instance demoConn : NetConnOps unit := 
  {| nc_LocalAddr _ := None; nc_RemoteAddr _ := None; nc_isTCPConn _ := false |}.

Definition get : Request demoURL := mkRequest demoURL "GET" ("https", "h", "/a/..") "h" [] "".
Definition attach : Response demoURL := mkResponse demoURL 200 "200 OK" 1 1 {[ "Content-Disposition" := ["attachment"] ]} None NoLocation.
Definition save : flags :=
  mkFlags "GET" "" false false false [] true "" false "" false false.
Definition follow : flags :=
  mkFlags "GET" "" true false false [] false "" false "" false false.
End Demo_http.
Import Demo_http Demo_report.

(** A server that answers every request with a redirect to the same page. *)
Definition redirect (u : demoURL) : Response demoURL :=
  mkResponse demoURL 302 "302 Found" 1 1 {[ "Date" := ["now"] ]} (Some 0x0304) (Loc u).

(** A world whose server answers with [answer] and offers a file to save. *)
Definition worldOf (answer : Request demoURL -> option (Response demoURL + error))
    : World demoURL (string * string) unit Other.SysInfo unit unit := {|
  url_Parse s := inl ("https", s, "/");
  NewRequest _ s := inl ("https", s, "/");
  SplitHostPort h := inl (h, "443");
  ParseMediaType _ := inl ("attachment", [("filename", "../../etc/passwd")]);
  Do _ _ r := (Demo_report.evs, answer r);
  Now _ := Demo_report.at_ms 250;
  ConnConn _ := None;
  Open _ := inl "";
  Create _ := None;
  ReadFile _ := inl "";
  Copy _ := Some None;
  Decode := toyDecode;
  X509KeyPair c k := inl (c, k) |}.
#[local] Instance loopWorld : World demoURL (string * string) unit Other.SysInfo unit unit :=
  worldOf (fun r => Some (inl (redirect (URL r)))).

Lemma outputName_safe_witness :
  outputName save get attach = inl (Some "passwd") /\ has_char "/" "passwd" = false.
Proof.
  assert (H : outputName save get attach = inl (Some "passwd")) by (vm_compute; reflexivity).
  split; [exact H|]. exact (proj1 (outputName_safe save get attach "passwd" eq_refl H)).
Defined.



(** Against a server that never answers the command blocks in its first request. *)
Example blocked_ex :
  match main (W:=worldOf (fun _ => None)) 11 "devel" "go1.25" "httpstat" ["-L"; "h"] with
  | Blocked l => length (requests l)
  | _ => 0%nat
  end = 1%nat.
Proof. vm_compute. reflexivity. Qed.

(** A request with a body and headers. *)
Definition putArgs : list string := ["-X"; "PUT"; "-d=x=1"; "-H"; "Host: a"; "-H=Accept: b"; "h"].
Definition putFlags : flags :=
  mkFlags "PUT" "x=1" false false false ["Host: a"; "Accept: b"] false "" false "" false false.

Definition putRequest : Request demoURL :=
  mkRequest demoURL "PUT" ("https", "https:////h/", "/") "a" [("Accept", "b")] "x=1".

Lemma main_requests_witness :
  requests (outcome_log (main (W:=loopWorld) 11 "devel" "go1.25" "httpstat" putArgs)) = [putRequest]
  /\ asked (W:=loopWorld) putFlags putRequest.
Proof.
  assert (E : requests (outcome_log (main (W:=loopWorld) 11 "devel" "go1.25" "httpstat" putArgs)) = [putRequest])
    by (vm_compute; reflexivity).
  split; [exact E|].
  destruct (main_requests (W:=loopWorld) 11 "devel" "go1.25" "httpstat" putArgs putRequest)
    as (f & arg & Hp & _ & _ & _ & Ha).
  { rewrite E. left. }
  assert (Ep : Parse "httpstat" putArgs (vars CommandLine) = Some (inl (putFlags, ["h"])))
    by (vm_compute; reflexivity).
  rewrite Ep in Hp. injection Hp as <- <-. exact Ha.
Defined.
