(* ===== verification/HttpDial.v ===== *)
(** cmd/httpstat/main.go, lines 209 to 246: the connections the command dials are
    wrapped with a callback that keeps the closed connection for the report
    printed at the end.  The variable it is kept in, composed with the
    concurrent wrapper. *)

From stdpp Require Import base list strings gmap.
From Stdlib Require Import ZArith Lia.
From S2P Require Import Prelude GoFmt Json JsonRead TcpInfo JsonAny LinuxInit Linux LinuxThms.
From S2P Require Import Wrap WrapConc WrapInv WrapThms WrapPlatforms JsonExport JsonReport HttpReport.

Local Open Scope Z_scope.
Local Open Scope go_scope.

Section dial.
Context {Uni : Unicode} {C S X : Type} `{!NetConnOps C, !Platform S, !JsonLaws S, !Colors}.

(** The variable [connConn]; the lock makes each access one step. *)
Definition getConniver (connConn : option (Conn C S X unit)) : option (Conn C S X unit) := connConn.
Definition setConniver (c : Conn C S X unit) (connConn : option (Conn C S X unit))
    : option (Conn C S X unit) := Some c.

(** The callback given to [conniver.WrapConn]. *)
Definition onState (conn : Conn C S X unit) (st : Z) (connConn : option (Conn C S X unit))
    : option (Conn C S X unit) :=
  if st =? Closed then setConniver conn connConn else connConn.

(** What is set of the [net.Dialer]; [DialContext] is its method on a network and an
    address. *)
Record Dialer := mkDialer { Timeout : Z; KeepAlive : Z; DualStack : bool }.
Context (DialContext : Dialer -> string -> string -> C + error).

(** [dialContext]: the function it returns uses [network] and not the network it is
    given. The callback has type [unit], [onState] is what it does. *)
Definition dialContext (network : string) (bg : X) (_network addr : string) (now : Z) (p : probe S)
    : (Conn C S X unit * option (report C S X unit)) + error :=
  match DialContext (mkDialer (30 * Second) (30 * Second) false) network addr with
  | inr err => inr err
  | inl conn => inl (WrapConn bg (Some conn) (Some tt) [] now p)
  end.

(** The variable after the reports of a trace, whose last report comes first. *)
Definition connConnAfter (tr : list (event C S X unit)) (connConn : option (Conn C S X unit))
    : option (Conn C S X unit) :=
  foldr (fun r acc => onState (rp_conn r) (rp_state r) acc) connConn (reports tr).

(** C27: In httpstat, in every run of goroutines on a connection that dialContext
    dialed (timeout and keep-alive of 30 s) and whose probed informations have options
    that JSON can quote, once a Close has returned: getConniver returns the reported
    connection with the error returned; when it has no information taken on closing
    nothing is printed about it, otherwise the printed text is written out: remote
    address, round-trip time, bytes sent and received over the run, warnings, and
    diagnostics whose JSON reads back as the members of the report. *)
Theorem dial_reports_closed network bg network' addr now p w0 rp n sched s i e old :
  dialContext network bg network' addr now p = inl (w0, rp) -> probe_ok p -> Forall act_ok sched.*2 ->
  run sched (init w0 n) = Some s -> EvRet i (RClose e) ∈ trace s ->
  exists conn c, DialContext (mkDialer 30000000000 30000000000 false) network addr = inl conn
    /\ getConniver (connConnAfter (trace s) old) = Some c /\ closeErr c = e
    /\ match ClosedInfo c with
       | None => connLines (Some c) = ""%string
       | Some info => exists jb l,
           connLines (Some c)
           = grayscale 14 "Remote" +:+ ":" +:+ tab
             +:+ CyanString (default "unknown" (nc_RemoteAddr conn)) +:+ newline
             +:+ grayscale 14 "RTT" +:+ ":" +:+ tab +:+ tab
             +:+ CyanString (Duration_String (RTT info)) +:+ newline
             +:+ grayscale 14 "Sent" +:+ ":" +:+ tab +:+ tab
             +:+ CyanString (FormatInt (wrapS 64 (bytes_moved Tx (trace s))) +:+ " bytes") +:+ newline
             +:+ grayscale 14 "Received" +:+ ":" +:+ tab
             +:+ CyanString (FormatInt (wrapS 64 (bytes_moved Rx (trace s))) +:+ " bytes") +:+ newline
             +:+ (if warnings c is [] then ""
                  else grayscale 14 "Warnings" +:+ ":" +:+ tab
                       +:+ RedString (strings_Join (warnings c) ", ") +:+ newline)
             +:+ grayscale 14 ("Diagnostics:" +:+ newline +:+ "============" +:+ newline) +:+ newline
             +:+ WhiteString (jb +:+ newline)
           /\ parse jb = Some (JObj l)
           /\ (list_to_map l : gmap string json)
              = list_to_map (report_members conn now (bytes_moved Rx (trace s))
                               (bytes_moved Tx (trace s)) c)
       end%string.
Proof.
  unfold dialContext. intros Hd Hp Ha Hrun Hin.
  change (30 * Second) with 30000000000 in Hd.
  destruct (DialContext _ _ _) as [conn|] eqn:Ed; [|done].
  injection Hd as Hd. apply (f_equal fst) in Hd. cbn [fst] in Hd. subst w0.
  set (w0 := (WrapConn bg (Some conn) (Some tt) [] now p).1) in *.
  assert (Hf : fresh w0) by apply WrapConn_fresh.
  assert (Hrs : reportStats w0 = Some tt) by apply WrapConn_reportStats.
  pose proof (run_reachable _ _ _ _ Hrun) as Hr.
  destruct (closed_once w0 s Hf Hr) as (_ & _ & Hret). destruct (Hret i e Hin) as [Hc Hl].
  rewrite Hrs in Hl. destruct (reports (trace s)) as [|r [|]] eqn:Er; [done| |done].
  assert (Hr0 : r ∈ reports (trace s)) by (rewrite Er; left).
  destruct (report_complete w0 s r Hf Hr Hr0) as (_ & _ & _ & H3 & _ & H4 & _).
  destruct (report_fields _ _ _ _ _ _ _ _ _ _ Hrun Hr0) as (F1 & F2 & F3 & F4 & F5).
  destruct (conn_ok_map _ (run_reports_ok _ _ _ _ _ _ _ _ _ _ Hp Ha Hrun Hr0)) as [Hm1 Hm2].
  destruct (Marshal_reads true _ Hm1 Hm2) as (t & l & Em & Ep & _ & El).
  exists conn, (rp_conn r). unfold connConnAfter. rewrite Er. cbn [foldr]. unfold onState. rewrite H4.
  split_and!; try done; [rewrite Hc in H3; by injection H3|].
  destruct (ClosedInfo (rp_conn r)) as [info|] eqn:Ei; cbn [connLines]; rewrite Ei; [|done].
  exists t, l. split_and!; [|done|by rewrite El; apply Conn_members].
  unfold MarshalIndent. rewrite Em. unfold RemoteAddrString, addrString. rewrite F3, F4, F5.
  unfold Warnings. destruct (nc_RemoteAddr conn), (warnings (rp_conn r)); reflexivity.
Qed.
End dial.

(** ** A connection closed on a concrete kernel *)

Import Demo_linux Demo_tcp Demo_report.

#[local] Instance dial_platform : Platform Linux.SysInfo := Linux_Platform (on 5 15 0).
#[local] Instance dial_json : JsonLaws Linux.SysInfo := Linux_Json (on 5 15 0).

(** The client writes 5 bytes, then closes. *)
Definition writing : list (nat * act Linux.SysInfo) :=
  ([(0, ACall CWrite); (0, AIO 5 None); (0, ATick 150); (0, AStep)]
   ++ closing ++ [(0, AStep); (0, AStep)])%nat%list.

Lemma dial_reports_closed_witness :
  exists s c rest, run writing (init Demo_tcp.conn 1) = Some s
    /\ getConniver (connConnAfter (trace s) None) = Some c
    /\ connLines (Some c)
       = ("Remote:" +:+ tab +:+ "10.0.0.2:443" +:+ newline +:+ "RTT:" +:+ tab +:+ tab +:+ rest)%string.
Proof.
  destruct (run writing (init Demo_tcp.conn 1)) as [s|] eqn:E; [|vm_compute in E; discriminate E].
  assert (Hin : EvRet 0 (RClose None) ∈ trace s).
  { assert (H : from_option (fun s => head (trace s)) None (run writing (init Demo_tcp.conn 1))
                = Some (EvRet 0 (RClose None))) by (vm_compute; reflexivity).
    rewrite E in H. simpl in H. destruct (trace s); [discriminate H|]. injection H as ->. left. }
  assert (Hi : from_option (fun s => match connConnAfter (trace s) None with
      | Some c => bool_decide (ClosedInfo c = None) | None => true end) true
      (run writing (init Demo_tcp.conn 1)) = false) by (vm_compute; reflexivity).
  destruct (dial_reports_closed (fun _ _ _ => inl tt) "tcp" tt "tcp" "h:443" 100 (probeOf sockInfo)
    Demo_tcp.conn (WrapConn tt (Some tt) (Some tt) [] 100 (probeOf sockInfo)).2 1 writing s 0 None None)
    as (conn & c & _ & H1 & _ & H2).
  - reflexivity.
  - apply sockInfo_ok.
  - repeat (apply Forall_cons; split; [first [exact I|apply sockInfo_ok]|]). apply Forall_nil_2.
  - exact E.
  - exact Hin.
  - rewrite E in Hi. simpl in Hi. unfold getConniver in H1. rewrite H1 in Hi.
    destruct (ClosedInfo c) as [info|] eqn:Ei; [|rewrite bool_decide_eq_true_2 in Hi by reflexivity; discriminate Hi].
    destruct H2 as (jb & l & H2 & _). exists s, c. eexists. split_and!; [reflexivity|exact H1|].
    rewrite H2. destruct conn. reflexivity.
Defined.
