(* ===== verification/Commands.v ===== *)
(** The two small programs: cmd/get/main.go, which prints a line for each connection
    that is closed, and pkg/tcpinfo/examples/tcpdial/main.go, which prints the
    information of one connection. *)

From stdpp Require Import base list strings gmap sorting.
From Stdlib Require Import ZArith Ascii Lia.
From S2P Require Import Prelude GoFmt Json JsonRead TcpInfo JsonAny LinuxInit LinuxRaw Linux.
From S2P Require Import LinuxThms LinuxUnpack Wrap WrapConc WrapInv WrapThms WrapPlatforms.
From S2P Require Import JsonExport JsonReport HttpReport HttpDial.

Local Open Scope Z_scope.
Local Open Scope string_scope.
Local Open Scope go_scope.

(** ** cmd/get *)

Module Get.
Section get.
Context {C S X : Type} `{!NetConnOps C, !Platform S} {Uni : Unicode}.
(** The encoding of an error by its dynamic type. *)
Context (error_json : error -> json).

(** [raw, _ := json.Marshal(c)] *)
Definition raw (c : Conn C S X unit) : string :=
  match encode false (Conn_json error_json c) with inl t => t | inr _ => "" end.

(** The round-trip time and its variance, or n/a. *)
Definition rtts (i : option (Info S)) : string * string :=
  match i with
  | None => ("n/a", "n/a")
  | Some i => (Duration_String (RTT i), Duration_String (RTTVar i))
  end.

(** What the callback given to [conniver.WrapConn] prints. *)
Definition onState (c : Conn C S X unit) (st : Z) : string :=
  if negb (st =? Closed)%Z then ""
  else
    let '(oRTT, oRTTVar) := rtts (OpenedInfo c) in
    let '(cRTT, cRTTVar) := rtts (ClosedInfo c) in
    "Connection " ++ LocalAddrString c ++ " -> " ++ RemoteAddrString c
    ++ " took " ++ Duration_String (wrapS 64 (ClosedAt c - OpenedAt c))
    ++ ", sent:" ++ FormatInt (TxBytes c) ++ "/recv:" ++ FormatInt (RxBytes c)
    ++ " bytes, starting RTT " ++ oRTT ++ "(" ++ oRTTVar
    ++ ") and ending RTT " ++ cRTT ++ "(" ++ cRTTVar ++ ")" ++ newline
    ++ "Warnings:" ++ strings_Join (Warnings c) ", " ++ newline
    ++ raw c ++ newline ++ newline.

(** The function [DialContext] of the transport; [dial] is the method of a [net.Dialer]
    with the timeout it is given. *)
Definition timeout : Z := 15 * Second.
Definition DialContext (dial : Z -> string -> string -> C + error) (bg : X) (network addr : string) (now : Z)
    (p : probe S) : (Conn C S X unit * option (report C S X unit)) + error :=
  match dial timeout network addr with
  | inr err => inr err
  | inl conn => inl (WrapConn bg (Some conn) (Some tt) [] now p)
  end.

(** What the reports of a trace print, whose last report comes first. *)
Definition printed (tr : list (event C S X unit)) : string :=
  foldr (fun r acc => acc ++ onState (rp_conn r) (rp_state r)) "" (reports tr).

(** [main]: [tr1] is the trace of the connections when [cl.Get] returns, [tr2] when
    [cl.CloseIdleConnections] has. *)
Definition main (Get : option error) (tr1 tr2 : list (event C S X unit)) : string * option exit :=
  match Get with
  | Some err => (printed tr1, Some (mkExit 1 ("get: " ++ err_msg err)))
  | None => (printed tr2, None)
  end.
End get.
End Get.

(** ** The example tcpdial *)

Module TcpDial.
(** How the program ends. *)
Inductive ending := Printed (text : string) | Panic (msg : string) | Return.

Section tcpdial.
Context {C S : Type} `{!NetConnOps C, !Platform S} {Uni : Unicode}.

(** [json.MarshalIndent] of the information, its error ignored, which has a
    [MarshalJSON]. *)
Definition jb (s : S) : string :=
  match encode true (JWrap "*tcpinfo.SysInfo" (any_json (AMap (sys_ToMap s)))) with
  | inl t => t | inr _ => ""
  end.

(** [main] on the result of [net.Dial]; [SyscallConn] returns an error or none,
    [Control] the descriptor that it calls its argument with or an error, and
    [GetTCPInfo] is the platform's. The callback assigns to the outer [err]. *)
Definition main (Dial : C + error) (SyscallConn : C -> option error) (Control : C -> Z + error)
    (GetTCPInfo : Z -> option S * option error) : ending :=
  match Dial with
  | inr err => Panic (err_msg err)
  | inl conn =>
      if negb (nc_isTCPConn conn) then Panic "not a TCP connection"
      else match SyscallConn conn with
      | Some _ => Return
      | None =>
          match Control conn with
          | inr err => Panic (err_msg err)
          | inl fd =>
              let '(sysInfo, err) := GetTCPInfo fd in
              match err with
              | Some err => Panic (err_msg err)
              | None =>
                  match sysInfo with
                  | None => Panic "tcpinfo unavailable for live TCP connection"
                  | Some s => Printed (jb s ++ newline)
                  end
              end
          end
      end
  end.
End tcpdial.
End TcpDial.

(** ** What get prints *)

Import Get.

Section get_laws.
Context {C S X : Type} `{!NetConnOps C, !Platform S, !JsonLaws S} {Uni : Unicode}.
Context (error_json : error -> json).
Hypothesis errors_encode : forall e, json_ok (error_json e) = true.

Lemma raw_reads (c : Conn C S X unit) :
  conn_ok c -> parse (raw error_json c) = Some (norm (Conn_json error_json c)).
Proof.
  intros Hc. pose proof (Conn_json_ok error_json c errors_encode Hc) as Hok.
  unfold raw, encode. rewrite check_ok by done. by apply parse_text.
Qed.

(** The byte counts in the JSON of the struct. *)
Lemma Conn_json_bytes (c : Conn C S X unit) :
  object (norm (Conn_json error_json c)) !! "txBytes" = Some (JInt (TxBytes c))
  /\ object (norm (Conn_json error_json c)) !! "rxBytes" = Some (JInt (RxBytes c)).
Proof.
  unfold Conn_json, omitInt. cbn [norm object].
  destruct (OpenedAt c =? 0)%Z, (ClosedAt c =? 0)%Z, (FirstRxAt c =? 0)%Z, (FirstTxAt c =? 0)%Z,
    (LastRxAt c =? 0)%Z, (LastTxAt c =? 0)%Z; split;
    cbn [app map list_to_map foldr fst snd]; rewrite ?lookup_insert_ne by done; apply lookup_insert_eq.
Qed.

(** C34: The command get, on a connection dialed with a timeout of 15 s, prints nothing
    while no Close has returned or one report, and exactly one report once a Close has:
    its text is written out, with the addresses of the connection, the time between
    wrapping and closing, the bytes sent and received over the run as 64-bit sums, the
    round-trip times taken on opening and closing or n/a, the warnings, and JSON that
    reads back as the encoded struct Conn with those byte counts; given that errors and
    the options of the probed informations can be encoded. *)
Theorem get_prints_once dial (bg : X) network addr now p w0 rp n sched s :
  DialContext dial bg network addr now p = inl (w0, rp) -> probe_ok p -> Forall act_ok sched.*2 ->
  run sched (init w0 n) = Some s ->
  let tx := wrapS 64 (bytes_moved Tx (trace s)) in
  let rx := wrapS 64 (bytes_moved Rx (trace s)) in
  let time f (i : option (Info S)) := if i is Some i then Duration_String (f i) else "n/a" in
  (printed error_json (trace s) = "" /\ forall i e, EvRet i (RClose e) ∉ trace s)
  \/ exists conn r c jb, dial 15000000000 network addr = inl conn
       /\ reports (trace s) = [r] /\ c = rp_conn r
       /\ printed error_json (trace s)
          = "Connection " ++ default "unknown" (nc_LocalAddr conn)
            ++ " -> " ++ default "unknown" (nc_RemoteAddr conn)
            ++ " took " ++ Duration_String (wrapS 64 (ClosedAt c - now))
            ++ ", sent:" ++ FormatInt tx ++ "/recv:" ++ FormatInt rx
            ++ " bytes, starting RTT " ++ time RTT (OpenedInfo c) ++ "(" ++ time RTTVar (OpenedInfo c)
            ++ ") and ending RTT " ++ time RTT (ClosedInfo c) ++ "(" ++ time RTTVar (ClosedInfo c)
            ++ ")" ++ newline
            ++ "Warnings:" ++ strings_Join (warnings c) ", " ++ newline
            ++ jb ++ newline ++ newline
       /\ parse jb = Some (norm (Conn_json error_json c))
       /\ object (norm (Conn_json error_json c)) !! "txBytes" = Some (JInt tx)
       /\ object (norm (Conn_json error_json c)) !! "rxBytes" = Some (JInt rx).
Proof.
  intros Hd Hp Ha Hr tx rx time. unfold DialContext in Hd. change timeout with 15000000000%Z in Hd.
  destruct (dial _ _ _) as [conn|] eqn:Ed; [|done].
  injection Hd as Hd. apply (f_equal fst) in Hd. cbn [fst] in Hd. subst w0.
  set (w0 := (WrapConn bg (Some conn) (Some tt) [] now p).1) in *.
  assert (Hf : fresh w0) by apply WrapConn_fresh.
  assert (Hrs : reportStats w0 = Some tt) by apply WrapConn_reportStats.
  pose proof (run_reachable _ _ _ _ Hr) as Hre.
  destruct (closed_once w0 s Hf Hre) as (_ & Hle & Hret). rewrite Hrs in Hret.
  destruct (reports (trace s)) as [|r [|]] eqn:Er; [left|right|simpl in Hle; lia].
  - unfold printed. rewrite Er. split; [done|]. intros i e Hin. by destruct (Hret i e Hin).
  - assert (Hin : r ∈ reports (trace s)) by (rewrite Er; left).
    destruct (report_complete w0 s r Hf Hre Hin) as (_ & _ & _ & _ & _ & H3 & _).
    destruct (report_fields _ _ _ _ _ _ _ _ _ _ Hr Hin) as (F1 & F2 & F3 & F4 & F5).
    destruct (Conn_json_bytes (rp_conn r)) as [B1 B2]. rewrite F5 in B1. rewrite F4 in B2.
    exists conn, r, (rp_conn r), (raw error_json (rp_conn r)). split_and!; try done.
    + unfold printed. rewrite Er. cbn [foldr]. rewrite H3. unfold onState. cbn [negb Z.eqb Closed].
      unfold LocalAddrString, RemoteAddrString, addrString, Warnings, rtts, time.
      rewrite F1, F2, F3, F4, F5.
      destruct (nc_LocalAddr conn), (nc_RemoteAddr conn), (OpenedInfo (rp_conn r)), (ClosedInfo (rp_conn r));
        reflexivity.
    + apply raw_reads. by eapply run_reports_ok.
Qed.
End get_laws.

(** Errors made by [errors.New] have no exported fields: their messages are not in the
    JSON that get prints. *)
Lemma get_omits_messages {C S X : Type} `{!NetConnOps C, !Platform S} (c : Conn C S X unit) e1 e2 :
  Conn_json (fun _ => JObj []) (c <| RxErr := Some e1 |>) = Conn_json (fun _ => JObj []) (c <| RxErr := Some e2 |>).
Proof. reflexivity. Qed.

(** ** What tcpdial prints *)

Section tcpdial_json.
Context {Uni : Unicode} {S : Type} `{!Platform S, !JsonLaws S}.

Lemma jb_reads (s : S) :
  sys_ok s -> exists l, parse (TcpDial.jb s) = Some (JObj l)
    /\ (list_to_map l : gmap string json) = norm ∘ any_json <$> sys_ToMap s.
Proof.
  intros Hs. pose proof (sys_ok_map s Hs) as Hok.
  destruct (Marshal_reads true _ Hok (sys_ok_keys s)) as (u & l & Hm & Hr & _ & Hl).
  exists l. split; [|done]. rewrite <- Hr. f_equal.
  unfold Marshal in Hm. unfold TcpDial.jb. unfold encode in *. rewrite check_ok in Hm by done.
  rewrite check_ok by exact Hok. by injection Hm.
Qed.
End tcpdial_json.

Section tcpdial_laws.
Context {Uni : Unicode} {C V B D : Type} `{!NetConnOps C, !Linux.UnixCC V B D} (g : globals).
Context (raw : globals -> Z -> Raw.RawTCPInfo + error).
Context (alg : Z -> string + error) (vegas : Z -> V + error) (bbr : Z -> B + error)
        (dctcp : Z -> D + error).
#[local] Instance tcpdial_platform : Platform Linux.SysInfo := Linux_Platform g.
#[local] Instance tcpdial_json : JsonLaws Linux.SysInfo := Linux_Json g.

Lemma Linux_sys_ToMap s : sys_ToMap s = Linux.ToMap s.
Proof. reflexivity. Qed.

(** C35: The example tcpdial on Linux, on every path: it panics with the error of Dial,
    of Control or of GetTCPInfo (kernel too old, getsockopt, the algorithm's name or
    the data of vegas, bbr and dctcp) or when the connection is not TCP, returns
    silently when SyscallConn fails, and otherwise prints JSON that reads back as the
    map of the SysInfo unpacked from the kernel's struct, with the algorithm read. *)
Theorem tcpdial_prints (Dial : C + error) SyscallConn Control :
  let main := TcpDial.main Dial SyscallConn Control (Linux.GetTCPInfo raw alg vegas bbr dctcp g) in
  match Dial with
  | inr err => main = TcpDial.Panic (err_msg err)
  | inl conn =>
      if nc_isTCPConn conn then
        match SyscallConn conn, Control conn with
        | Some _, _ => main = TcpDial.Return
        | None, inr err => main = TcpDial.Panic (err_msg err)
        | None, inl fd =>
            match Linux.Supported g, raw g fd, cc_error alg vegas bbr dctcp fd with
            | false, _, _ =>
                main = TcpDial.Panic "tcp_info is not available on Linux prior to kernel 2.6.2"
            | true, inr err, _ | true, inl _, Some err => main = TcpDial.Panic (err_msg err)
            | true, inl r, None => exists s u l,
                main = TcpDial.Printed (u ++ newline) /\ parse u = Some (JObj l)
                /\ (list_to_map l : gmap string json) = norm ∘ any_json <$> Linux.ToMap s
                /\ clear_cc s = Linux.Unpack (flags g) r
                /\ alg fd = inl (Linux.CCAlgorithm s)
            end
        end
      else main = TcpDial.Panic "not a TCP connection"
  end.
Proof.
  intros main. unfold main, TcpDial.main. destruct Dial as [conn|err]; [|done].
  destruct (nc_isTCPConn conn); [cbn [negb]|done].
  destruct (SyscallConn conn); [done|]. destruct (Control conn) as [fd|err]; [|done].
  pose proof (GetTCPInfo_cases raw alg vegas bbr dctcp g fd) as Hc.
  destruct (Linux.Supported g); [|by rewrite Hc].
  destruct (raw g fd) as [r|err]; [|by rewrite Hc].
  destruct Hc as (s & Hg & Hs & Ha & _). pose proof (Linux_GetTCPInfo_ok _ _ _ _ _ _ _ _ _ Hg) as Hok.
  rewrite Hg. destruct (cc_error alg vegas bbr dctcp fd) eqn:Ee; [done|].
  destruct (jb_reads s Hok) as (l & Hl1 & Hl2). exists s, (TcpDial.jb s), l.
  rewrite Linux_sys_ToMap in Hl2. split; [reflexivity|]. split; [exact Hl1|]. split; [exact Hl2|].
  split; [exact Hs|]. unfold cc_error in Ee. destruct (alg fd); [by rewrite Ha|done].
Qed.
End tcpdial_laws.

(** ** On a concrete kernel *)

Import Demo_linux Demo_tcp.

#[local] Instance commands_platform : Platform Linux.SysInfo := Linux_Platform (on 5 15 0).
#[local] Instance commands_json : JsonLaws Linux.SysInfo := Linux_Json (on 5 15 0).

(** A connection that sent 5 bytes. *)
Lemma get_prints_once_witness :
  exists s (c : Conn unit Linux.SysInfo unit unit) jb, run writing (init Demo_tcp.conn 1) = Some s
    /\ printed (fun _ => JObj []) (trace s)
       = "Connection 10.0.0.1:40000 -> 10.0.0.2:443 took 100ns, sent:5/recv:0 bytes, starting RTT 1"
         ++ String "194"%char (String "181"%char "s(1") ++ String "194"%char (String "181"%char "s) and ending RTT 1")
         ++ String "194"%char (String "181"%char "s(1") ++ String "194"%char (String "181"%char "s)") ++ newline
         ++ "Warnings:" ++ strings_Join (warnings c) ", " ++ newline ++ jb ++ newline ++ newline
    /\ parse jb = Some (norm (Conn_json (fun _ => JObj []) c)).
Proof.
  destruct (run writing (init Demo_tcp.conn 1)) as [s|] eqn:E; [|vm_compute in E; discriminate E].
  assert (Eb : from_option (fun s => (bytes_moved Tx (trace s), bytes_moved Rx (trace s),
      map (fun r => (ClosedAt (rp_conn r), RTT <$> OpenedInfo (rp_conn r), RTTVar <$> OpenedInfo (rp_conn r),
        RTT <$> ClosedInfo (rp_conn r), RTTVar <$> ClosedInfo (rp_conn r))) (reports (trace s))))
      (0, 0, []) (run writing (init Demo_tcp.conn 1))
    = (5, 0, [(200, Some 1000, Some 1000, Some 1000, Some 1000)])%Z) by (vm_compute; reflexivity).
  rewrite E in Eb. simpl in Eb. injection Eb as Et Ex El.
  destruct (get_prints_once (fun _ => JObj []) (fun _ => eq_refl) (fun _ _ _ => inl tt) tt "tcp" "h:443" 100
    (probeOf sockInfo)
    Demo_tcp.conn (WrapConn tt (Some tt) (Some tt) [] 100 (probeOf sockInfo)).2 1 writing s)
    as [[_ Hn]|(conn & r & c & jb & _ & Hr & -> & Hp & Hj & _)].
  - reflexivity.
  - apply sockInfo_ok.
  - repeat (apply Forall_cons; split; [first [exact I|apply sockInfo_ok]|]). apply Forall_nil_2.
  - exact E.
  - exfalso. apply (Hn 0%nat None).
    assert (H : from_option (fun s => head (trace s)) None (run writing (init Demo_tcp.conn 1))
                = Some (EvRet 0 (RClose None))) by (vm_compute; reflexivity).
    rewrite E in H. simpl in H. destruct (trace s); [discriminate H|]. injection H as ->. left.
  - exists s, (rp_conn r), jb. split_and!; [reflexivity| |exact Hj].
    rewrite Hp, Et, Ex. rewrite Hr in El. cbn [map] in El. clear -El. destruct conn.
    generalize (strings_Join (warnings (rp_conn r)) ", "). intros warns.
    injection El as E1 E2 E3 E4 E5. rewrite E1.
    destruct (OpenedInfo (rp_conn r)) as [oi|]; [|discriminate E2].
    destruct (ClosedInfo (rp_conn r)) as [ci|]; [|discriminate E4].
    injection E2 as E2. injection E3 as E3. injection E4 as E4. injection E5 as E5.
    rewrite E2, E3, E4, E5. reflexivity.
Defined.

Lemma tcpdial_prints_witness :
  exists u, TcpDial.main (Platform0 := Linux_Platform (on 5 15 0)) (inl tt) (fun _ => None) (fun _ => inl 3%Z)
      (Linux.GetTCPInfo (fun _ _ => inl ones) (fun _ => inl "cubic")
        (fun _ => inl tt) (fun _ => inl tt) (fun _ => inl tt) (on 5 15 0))
    = TcpDial.Printed (u ++ newline).
Proof.
  destruct (tcpdial_prints (on 5 15 0) (fun _ _ => inl ones) (fun _ => inl "cubic") (fun _ => inl tt)
    (fun _ => inl tt) (fun _ => inl tt) (inl tt) (fun _ => None) (fun _ => inl 3%Z)) as (s & u & l & H & _).
  exists u. exact H.
Defined.
